(** * The content-filter data path of bsd/net/content_filter.c

    A shallow embedding of the queueing and verdict engine of the socket
    content filter: the byte-range queues ([cfil_queue]), the per-filter
    entry buffers ([cfe_buf]), the per-flow buffers ([cfi_buf]), queue
    servicing across the chain of attached filters, verdict application,
    the drop action, the datagram tail drop and the flow-control lift.

    Conventions.  A [uint64_t] is a [Z] reduced with [u64] after every
    arithmetic step, a [uint32_t]/[unsigned int] with [u32].  Flag words are
    [Z] with [Z.land], [Z.lor] and [Z.lnot].  A pointer that may be NULL is
    an [option].  The kernel control transport, the mbuf allocator and the
    socket layer are outside content_filter.c: each call into them consumes
    one return code of the script [w_ext], and what the engine hands to them
    is appended to the trace [w_log].  Locking, logging and statistics
    counters are not represented.

    Assertions.  The assertions on the pending cursors and the pending
    amounts of a direction are represented: [cfil_info_buf_verify] in
    [cfil_data_common] and [VERIFY (pending < INT32_MAX)] in
    [cfil_sock_data_pending] and [cfil_sock_data_space]; these calls, and
    the sequences of calls built on them, give a [result].  The checks
    that [cfil_debug] turns on ([CFIL_QUEUE_VERIFY], [CFIL_INFO_VERIFY])
    are modelled on their own, as the predicates [cfil_queue_verify] and
    [cfil_info_verify], and are left out of the operations, as are the
    assertions inside the servicing loops: what is stated about those
    operations is stated about calls that return. *)

From Stdlib Require Import ZArith Lia List Bool Sorted.
From stdpp Require Import base tactics option list.

Local Open Scope Z_scope.

(** ** Machine integers and flag words *)

Definition u64 (z : Z) : Z := z mod 2 ^ 64.
Definition u32 (z : Z) : Z := z mod 2 ^ 32.

(** A value stored in an [int] or cast to [int32_t]. *)
Definition s32 (z : Z) : Z := (z + 2 ^ 31) mod 2 ^ 32 - 2 ^ 31.

Definition INT32_MAX : Z := 2 ^ 31 - 1.

(** ** Assertions *)

(** [VERIFY (e)] panics when [e] is false.  A function with a [VERIFY] on
    its way either returns or panics. *)
Inductive result (A : Type) : Type :=
  | Ret (a : A)
  | Panic.

Arguments Ret {A} a.
Arguments Panic {A}.

Definition VERIFY {A : Type} (e : bool) (k : result A) : result A :=
  if e then k else Panic.

Definition has_flag (flags mask : Z) : bool := negb (Z.land flags mask =? 0).
Definition set_flag (flags mask : Z) : Z := Z.lor flags mask.
Definition clear_flag (flags mask : Z) : Z := Z.land flags (Z.lnot mask).

(** Error numbers of sys/errno.h. *)
Definition ENOMEM : Z := 12.
Definition EBUSY : Z := 16.
Definition EINVAL : Z := 22.
Definition EPIPE : Z := 32.
Definition ENOBUFS : Z := 55.
Definition EJUSTRETURN : Z := -2.

Definition MAX_CONTENT_FILTER : nat := 8.

(** Modelled from the spec: the sentinel pass-all offset [CFM_MAX_OFFSET]
    of net/content_filter.h, the largest [uint64_t]. *)
Definition CFM_MAX_OFFSET : Z := 2 ^ 64 - 1.

Definition CFF_ACTIVE : Z := 0x01.
Definition CFF_DETACHING : Z := 0x02.
Definition CFF_FLOW_CONTROLLED : Z := 0x04.
Definition CFF_PRESERVE_CONNECTIONS : Z := 0x08.

Definition CFEF_CFIL_ATTACHED : Z := 0x0001.
Definition CFEF_SENT_SOCK_ATTACHED : Z := 0x0002.
Definition CFEF_DATA_START : Z := 0x0004.
Definition CFEF_FLOW_CONTROLLED : Z := 0x0008.
Definition CFEF_SENT_DISCONNECT_IN : Z := 0x0010.
Definition CFEF_SENT_DISCONNECT_OUT : Z := 0x0020.
Definition CFEF_SENT_SOCK_CLOSED : Z := 0x0040.
Definition CFEF_CFIL_DETACHED : Z := 0x0080.

Definition CFIF_DROP : Z := 0x0001.
Definition CFIF_CLOSE_WAIT : Z := 0x0002.
Definition CFIF_RETRY_INJECT_IN : Z := 0x0010.
Definition CFIF_RETRY_INJECT_OUT : Z := 0x0020.
Definition CFIF_SHUT_WR : Z := 0x0040.
Definition CFIF_SHUT_RD : Z := 0x0080.
Definition CFIF_SOCKET_CONNECTED : Z := 0x0100.
Definition CFIF_INITIAL_VERDICT : Z := 0x0200.
Definition CFIF_NO_CLOSE_WAIT : Z := 0x0400.

(** ** Mbuf chains *)

(** One mbuf of a chain linked by [m_next]: its [m_len], whether [m_flags]
    has [M_PKTHDR] and [M_EXT], and [m_ext.ext_size]. *)
Record mbuf_seg : Type := MbufSeg {
  m_len : Z;
  m_pkthdr : bool;
  m_ext : bool;
  ext_size : Z
}.

(** A packet as the queues hold it: [m_id] stands for the address of the
    first mbuf, [m_chain] is the chain it heads. *)
Record mbuf : Type := Mbuf {
  m_id : nat;
  m_chain : list mbuf_seg
}.

Global Instance mbuf_seg_eq_dec : EqDecision mbuf_seg.
Proof. solve_decision. Defined.

Global Instance mbuf_eq_dec : EqDecision mbuf.
Proof. solve_decision. Defined.

(** [cfil_data_start]: the first mbuf with [M_PKTHDR], else the chain
    itself. *)
Fixpoint pkthdr_suffix (c : list mbuf_seg) : option (list mbuf_seg) :=
  match c with
  | [] => None
  | s :: c' => if m_pkthdr s then Some c else pkthdr_suffix c'
  end.

Definition cfil_data_start (c : list mbuf_seg) : list mbuf_seg :=
  match pkthdr_suffix c with
  | Some c' => c'
  | None => c
  end.

(** The three accumulators of the counting loop of [cfil_data_length]:
    [pktlen] is an [unsigned int], [mbcnt] and [mbnum] are [int]s, and
    each [+=] and [++] stores the sum back into its type.  [msize] is the
    constant [_MSIZE] of sys/mbuf.h. *)
Fixpoint data_length_loop (msize : Z) (c : list mbuf_seg) (pktlen mbcnt mbnum : Z)
  : Z * Z * Z :=
  match c with
  | [] => (pktlen, mbcnt, mbnum)
  | s :: c' =>
      let pktlen := u32 (pktlen + m_len s) in
      let mbnum := s32 (mbnum + 1) in
      let mbcnt := s32 (mbcnt + msize) in
      let mbcnt := if m_ext s then s32 (mbcnt + ext_size s) else mbcnt in
      data_length_loop msize c' pktlen mbcnt mbnum
  end.

(** [cfil_data_length (m, &mbcnt, &mbnum)]. *)
Definition cfil_data_length_cnt (msize : Z) (m : mbuf) : Z * Z * Z :=
  data_length_loop msize (cfil_data_start (m_chain m)) 0 0 0.

(** [cfil_data_length (m, NULL, NULL)], which returns [m_length (m)] from
    the packet start; [m_length] of the mbuf layer adds the [m_len] of the
    chain into an [unsigned int]. *)
Definition cfil_data_length (m : mbuf) : Z :=
  fold_left (fun pktlen s => u32 (pktlen + m_len s)) (cfil_data_start (m_chain m)) 0.

(** ** Byte-range queues *)

Record cfil_queue : Type := CfilQueue {
  q_start : Z;
  q_end : Z;
  q_mq : list mbuf
}.

Definition cfil_queue_init : cfil_queue :=
  {| q_start := 0; q_end := 0; q_mq := [] |}.

(** [cfil_queue_drain] returns [drained] and leaves the queue reset. *)
Definition cfil_queue_drain (cfq : cfil_queue) : Z * cfil_queue :=
  let drained := u64 (q_start cfq - q_end cfq) in
  (drained, {| q_start := 0; q_end := 0; q_mq := [] |}).

Definition cfil_queue_empty (cfq : cfil_queue) : bool :=
  match q_mq cfq with [] => true | _ => false end.

Definition cfil_queue_offset_first (cfq : cfil_queue) : Z := q_start cfq.
Definition cfil_queue_offset_last (cfq : cfil_queue) : Z := q_end cfq.
Definition cfil_queue_len (cfq : cfil_queue) : Z := u64 (q_end cfq - q_start cfq).

Definition cfil_queue_enqueue (cfq : cfil_queue) (m : mbuf) (len : Z) : cfil_queue :=
  {| q_start := q_start cfq; q_end := u64 (q_end cfq + len); q_mq := q_mq cfq ++ [m] |}.

(** [MBUFQ_REMOVE]: unlink the packet [m] from the queue. *)
Fixpoint mbufq_remove (m : mbuf) (l : list mbuf) : list mbuf :=
  match l with
  | [] => []
  | x :: l' => if decide (x = m) then l' else x :: mbufq_remove m l'
  end.

Definition cfil_queue_remove (cfq : cfil_queue) (m : mbuf) (len : Z) : cfil_queue :=
  {| q_start := u64 (q_start cfq + len); q_end := q_end cfq; q_mq := mbufq_remove m (q_mq cfq) |}.

Definition cfil_queue_first (cfq : cfil_queue) : option mbuf := head (q_mq cfq).

(** The bytes a queue really holds, read off its packets as
    [cfil_queue_verify] does. *)
Definition queue_bytes (cfq : cfil_queue) : Z :=
  fold_right (fun m acc => cfil_data_length m + acc) 0 (q_mq cfq).

(** ** Filter entries, flow state, and the surrounding kernel state *)

(** [struct cfe_buf]: one direction of one filter entry. *)
Record cfe_buf : Type := CfeBuf {
  cfe_pending_q : cfil_queue;
  cfe_ctl_q : cfil_queue;
  cfe_pass_offset : Z;
  cfe_peek_offset : Z;
  cfe_peeked : Z
}.

(** [struct cfil_entry].  [cfe_filter] is the unit of the content filter
    the entry points to, [None] for NULL. *)
Record cfil_entry : Type := CfilEntry {
  cfe_filter : option nat;
  cfe_flags : Z;
  cfe_necp_control_unit : Z;
  cfe_snd : cfe_buf;
  cfe_rcv : cfe_buf
}.

(** [struct cfi_buf]: one direction of a flow. *)
Record cfi_buf : Type := CfiBuf {
  cfi_pending_first : Z;
  cfi_pending_last : Z;
  cfi_pending_mbcnt : Z;
  cfi_pending_mbnum : Z;
  cfi_tail_drop_cnt : Z;
  cfi_pass_offset : Z;
  cfi_inject_q : cfil_queue
}.

(** [struct cfil_info].  [cfi_entries] is the array indexed by unit minus
    one; [cfi_ordered_entries] is the list threaded through
    [cfe_order_link], as the units of its entries in list order. *)
Record cfil_info : Type := CfilInfo {
  cfi_flags : Z;
  cfi_byte_inbound_count : Z;
  cfi_byte_outbound_count : Z;
  cfi_snd : cfi_buf;
  cfi_rcv : cfi_buf;
  cfi_entries : list cfil_entry;
  cfi_ordered_entries : list nat
}.

(** [struct content_filter], the part the data path reads and writes. *)
Record content_filter : Type := ContentFilter {
  cf_flags : Z;
  cf_sock_entries : list nat
    (* the flows whose entry for this unit is linked on the list *)
}.

(** What the data path reads of [struct socket]:
    [so_content_filter] is [so_flags & SOF_CONTENT_FILTER],
    [so_dgram] is [NEED_DGRAM_FLOW_TRACKING (so)],
    [so_flow_db] is [so->so_flow_db != NULL],
    [so_defunct] is [so_state & SS_DEFUNCT],
    [so_proto_ok] is [so_proto != NULL && so_proto->pr_domain != NULL],
    [so_loopback_faddr] is [IS_LOOPBACK_FADDR (sotoinpcb (so))],
    [so_other_flows_attached] says whether another flow of the socket's
    flow database still has an attached filter. *)
Record socket : Type := Socket {
  so_content_filter : bool;
  so_dgram : bool;
  so_flow_db : bool;
  so_defunct : bool;
  so_proto_ok : bool;
  so_loopback_faddr : bool;
  so_other_flows_attached : bool
}.

(** What the engine hands to its collaborators, newest first. *)
Inductive event : Type :=
  | EvAttach (kcunit : nat)
      (* CFM_OP_SOCKET_ATTACHED enqueued on the control socket *)
  | EvData (kcunit : nat) (outgoing : bool) (start_offset end_offset : Z)
      (* CFM_OP_DATA_OUT / CFM_OP_DATA_IN *)
  | EvDisconnect (kcunit : nat) (outgoing : bool)
      (* CFM_OP_DISCONNECT_OUT / CFM_OP_DISCONNECT_IN *)
  | EvInjectQ (outgoing : bool) (span_end : Z) (pass_offsets : list Z)
      (* a packet was appended to cfi_inject_q; span_end is the offset the
         releasing entry's pending queue reached, pass_offsets the pass
         offsets of the attached entries at that moment *)
  | EvReinject (outgoing : bool) (m : mbuf)
      (* sosend_reinject / sbappendstream / sbappendchain *)
  | EvDefunct
      (* sosetdefunct + sodefunct *)
  | EvWakeup
      (* wakeup ((caddr_t) cfil_info) *)
  | EvSubmit (outgoing : bool) (len : Z) (error : Z).
      (* cfil_data_common returned error for a packet of len bytes *)

(** One flow together with what its data path touches: the socket, the
    registry [content_filters] (slot i holds unit i + 1), the two global
    datagram thresholds, the trace and the script of return codes. *)
Record world : Type := World {
  w_so : socket;
  w_info : cfil_info;
  w_filters : list content_filter;
  cfil_udp_gc_mbuf_num_max : Z;
  cfil_udp_gc_mbuf_cnt_max : Z;
  w_log : list event;
  w_ext : list Z
}.

Definition empty_buf : cfe_buf :=
  {| cfe_pending_q := cfil_queue_init; cfe_ctl_q := cfil_queue_init;
     cfe_pass_offset := 0; cfe_peek_offset := 0; cfe_peeked := 0 |}.

Definition empty_entry : cfil_entry :=
  {| cfe_filter := None; cfe_flags := 0; cfe_necp_control_unit := 0;
     cfe_snd := empty_buf; cfe_rcv := empty_buf |}.

(** *** Field updates *)

Definition with_pending_q (q : cfil_queue) (b : cfe_buf) : cfe_buf :=
  {| cfe_pending_q := q; cfe_ctl_q := cfe_ctl_q b;
     cfe_pass_offset := cfe_pass_offset b; cfe_peek_offset := cfe_peek_offset b;
     cfe_peeked := cfe_peeked b |}.

Definition with_ctl_q (q : cfil_queue) (b : cfe_buf) : cfe_buf :=
  {| cfe_pending_q := cfe_pending_q b; cfe_ctl_q := q;
     cfe_pass_offset := cfe_pass_offset b; cfe_peek_offset := cfe_peek_offset b;
     cfe_peeked := cfe_peeked b |}.

Definition with_pass_offset (v : Z) (b : cfe_buf) : cfe_buf :=
  {| cfe_pending_q := cfe_pending_q b; cfe_ctl_q := cfe_ctl_q b;
     cfe_pass_offset := v; cfe_peek_offset := cfe_peek_offset b;
     cfe_peeked := cfe_peeked b |}.

Definition with_peek_offset (v : Z) (b : cfe_buf) : cfe_buf :=
  {| cfe_pending_q := cfe_pending_q b; cfe_ctl_q := cfe_ctl_q b;
     cfe_pass_offset := cfe_pass_offset b; cfe_peek_offset := v;
     cfe_peeked := cfe_peeked b |}.

Definition with_peeked (v : Z) (b : cfe_buf) : cfe_buf :=
  {| cfe_pending_q := cfe_pending_q b; cfe_ctl_q := cfe_ctl_q b;
     cfe_pass_offset := cfe_pass_offset b; cfe_peek_offset := cfe_peek_offset b;
     cfe_peeked := v |}.

(** [outgoing ? &entry->cfe_snd : &entry->cfe_rcv] *)
Definition entrybuf (outgoing : bool) (e : cfil_entry) : cfe_buf :=
  if outgoing then cfe_snd e else cfe_rcv e.

Definition with_entrybuf (outgoing : bool) (b : cfe_buf) (e : cfil_entry) : cfil_entry :=
  if outgoing
  then {| cfe_filter := cfe_filter e; cfe_flags := cfe_flags e;
          cfe_necp_control_unit := cfe_necp_control_unit e;
          cfe_snd := b; cfe_rcv := cfe_rcv e |}
  else {| cfe_filter := cfe_filter e; cfe_flags := cfe_flags e;
          cfe_necp_control_unit := cfe_necp_control_unit e;
          cfe_snd := cfe_snd e; cfe_rcv := b |}.

Definition with_cfe_flags (f : Z) (e : cfil_entry) : cfil_entry :=
  {| cfe_filter := cfe_filter e; cfe_flags := f;
     cfe_necp_control_unit := cfe_necp_control_unit e;
     cfe_snd := cfe_snd e; cfe_rcv := cfe_rcv e |}.

(** [outgoing ? &cfil_info->cfi_snd : &cfil_info->cfi_rcv] *)
Definition infobuf (outgoing : bool) (i : cfil_info) : cfi_buf :=
  if outgoing then cfi_snd i else cfi_rcv i.

Definition with_infobuf (outgoing : bool) (b : cfi_buf) (i : cfil_info) : cfil_info :=
  if outgoing
  then {| cfi_flags := cfi_flags i;
          cfi_byte_inbound_count := cfi_byte_inbound_count i;
          cfi_byte_outbound_count := cfi_byte_outbound_count i;
          cfi_snd := b; cfi_rcv := cfi_rcv i;
          cfi_entries := cfi_entries i;
          cfi_ordered_entries := cfi_ordered_entries i |}
  else {| cfi_flags := cfi_flags i;
          cfi_byte_inbound_count := cfi_byte_inbound_count i;
          cfi_byte_outbound_count := cfi_byte_outbound_count i;
          cfi_snd := cfi_snd i; cfi_rcv := b;
          cfi_entries := cfi_entries i;
          cfi_ordered_entries := cfi_ordered_entries i |}.

Definition with_cfi_flags (f : Z) (i : cfil_info) : cfil_info :=
  {| cfi_flags := f;
     cfi_byte_inbound_count := cfi_byte_inbound_count i;
     cfi_byte_outbound_count := cfi_byte_outbound_count i;
     cfi_snd := cfi_snd i; cfi_rcv := cfi_rcv i;
     cfi_entries := cfi_entries i;
     cfi_ordered_entries := cfi_ordered_entries i |}.

Definition with_cfi_entries (es : list cfil_entry) (i : cfil_info) : cfil_info :=
  {| cfi_flags := cfi_flags i;
     cfi_byte_inbound_count := cfi_byte_inbound_count i;
     cfi_byte_outbound_count := cfi_byte_outbound_count i;
     cfi_snd := cfi_snd i; cfi_rcv := cfi_rcv i;
     cfi_entries := es;
     cfi_ordered_entries := cfi_ordered_entries i |}.

(** [cfi_byte_outbound_count += datalen] or the inbound one. *)
Definition add_byte_count (outgoing : bool) (datalen : Z) (i : cfil_info) : cfil_info :=
  {| cfi_flags := cfi_flags i;
     cfi_byte_inbound_count :=
       if outgoing then cfi_byte_inbound_count i else u64 (cfi_byte_inbound_count i + datalen);
     cfi_byte_outbound_count :=
       if outgoing then u64 (cfi_byte_outbound_count i + datalen) else cfi_byte_outbound_count i;
     cfi_snd := cfi_snd i; cfi_rcv := cfi_rcv i;
     cfi_entries := cfi_entries i;
     cfi_ordered_entries := cfi_ordered_entries i |}.

Definition with_info (i : cfil_info) (w : world) : world :=
  {| w_so := w_so w; w_info := i; w_filters := w_filters w;
     cfil_udp_gc_mbuf_num_max := cfil_udp_gc_mbuf_num_max w;
     cfil_udp_gc_mbuf_cnt_max := cfil_udp_gc_mbuf_cnt_max w;
     w_log := w_log w; w_ext := w_ext w |}.

Definition with_so (s : socket) (w : world) : world :=
  {| w_so := s; w_info := w_info w; w_filters := w_filters w;
     cfil_udp_gc_mbuf_num_max := cfil_udp_gc_mbuf_num_max w;
     cfil_udp_gc_mbuf_cnt_max := cfil_udp_gc_mbuf_cnt_max w;
     w_log := w_log w; w_ext := w_ext w |}.

Definition with_filters (fs : list content_filter) (w : world) : world :=
  {| w_so := w_so w; w_info := w_info w; w_filters := fs;
     cfil_udp_gc_mbuf_num_max := cfil_udp_gc_mbuf_num_max w;
     cfil_udp_gc_mbuf_cnt_max := cfil_udp_gc_mbuf_cnt_max w;
     w_log := w_log w; w_ext := w_ext w |}.

Definition log_event (ev : event) (w : world) : world :=
  {| w_so := w_so w; w_info := w_info w; w_filters := w_filters w;
     cfil_udp_gc_mbuf_num_max := cfil_udp_gc_mbuf_num_max w;
     cfil_udp_gc_mbuf_cnt_max := cfil_udp_gc_mbuf_cnt_max w;
     w_log := ev :: w_log w; w_ext := w_ext w |}.

(** A call into a collaborator: its return code is the next one of the
    script, 0 once the script is used up. *)
Definition ext_call (w : world) : Z * world :=
  match w_ext w with
  | [] => (0, w)
  | r :: rest =>
      (r, {| w_so := w_so w; w_info := w_info w; w_filters := w_filters w;
             cfil_udp_gc_mbuf_num_max := cfil_udp_gc_mbuf_num_max w;
             cfil_udp_gc_mbuf_cnt_max := cfil_udp_gc_mbuf_cnt_max w;
             w_log := w_log w; w_ext := rest |})
  end.

(** [&cfil_info->cfi_entries[kcunit - 1]].  Units start at 1; outside the
    array the C code has no defined behaviour, the model reads a blank
    entry and writes nothing. *)
Definition entry_at (w : world) (kcunit : nat) : cfil_entry :=
  match kcunit with
  | O => empty_entry
  | S i => default empty_entry (cfi_entries (w_info w) !! i)
  end.

Definition upd_entry (kcunit : nat) (f : cfil_entry -> cfil_entry) (w : world) : world :=
  match kcunit with
  | O => w
  | S i =>
      match cfi_entries (w_info w) !! i with
      | Some e => with_info (with_cfi_entries (<[i := f e]> (cfi_entries (w_info w))) (w_info w)) w
      | None => w
      end
  end.

Definition ebuf (w : world) (kcunit : nat) (outgoing : bool) : cfe_buf :=
  entrybuf outgoing (entry_at w kcunit).

Definition upd_ebuf (kcunit : nat) (outgoing : bool) (f : cfe_buf -> cfe_buf) (w : world) : world :=
  upd_entry kcunit (fun e => with_entrybuf outgoing (f (entrybuf outgoing e)) e) w.

Definition ibuf (w : world) (outgoing : bool) : cfi_buf := infobuf outgoing (w_info w).

Definition upd_ibuf (outgoing : bool) (f : cfi_buf -> cfi_buf) (w : world) : world :=
  with_info (with_infobuf outgoing (f (infobuf outgoing (w_info w))) (w_info w)) w.

Definition upd_cfi_flags (f : Z -> Z) (w : world) : world :=
  with_info (with_cfi_flags (f (cfi_flags (w_info w))) (w_info w)) w.

(** [content_filters[unit - 1]] *)
Definition no_filter : content_filter := {| cf_flags := 0; cf_sock_entries := [] |}.

Definition with_cf_flags (f : Z) (c : content_filter) : content_filter :=
  {| cf_flags := f; cf_sock_entries := cf_sock_entries c |}.

Definition filter_at (w : world) (u : nat) : content_filter :=
  match u with
  | O => no_filter
  | S i => default no_filter (w_filters w !! i)
  end.

Definition upd_filter_flags (u : nat) (f : Z -> Z) (w : world) : world :=
  match u with
  | O => w
  | S i =>
      match w_filters w !! i with
      | Some c => with_filters (<[i := with_cf_flags (f (cf_flags c)) c]> (w_filters w)) w
      | None => w
      end
  end.

(** [SLIST_NEXT (entry, cfe_order_link)] and onwards: the units linked
    after [kcunit] in [cfi_ordered_entries]; nothing for an entry that is
    not linked. *)
Fixpoint slist_after (kcunit : nat) (l : list nat) : list nat :=
  match l with
  | [] => []
  | k :: l' => if decide (k = kcunit) then l' else slist_after kcunit l'
  end.

(** [IS_ENTRY_ATTACHED (cfil_info, kcunit)] *)
Definition IS_ENTRY_ATTACHED (w : world) (kcunit : nat) : bool :=
  (kcunit <=? MAX_CONTENT_FILTER)%nat &&
  match cfe_filter (entry_at w kcunit) with Some _ => true | None => false end.

(** ** Events to the filter agents *)

(** The common tail of the three dispatch functions: on [ENOBUFS] the
    entry and its filter are marked flow controlled. *)
Definition dispatch_done (w : world) (kcunit cfc : nat) (error : Z) : Z * world :=
  if error =? ENOBUFS then
    let w1 := upd_entry kcunit (fun e => with_cfe_flags (set_flag (cfe_flags e) CFEF_FLOW_CONTROLLED) e) w in
    (error, upd_filter_flags cfc (fun f => set_flag f CFF_FLOW_CONTROLLED) w1)
  else (error, w).

(** [cfil_dispatch_attach_event].  With [kcunit = 0] the entry is the
    first of the ordered list. *)
Definition cfil_dispatch_attach_event (w : world) (kcunit : nat) : Z * world :=
  if negb (so_proto_ok (w_so w)) then (EINVAL, w)
  else
    match (match kcunit with
           | O => head (cfi_ordered_entries (w_info w))
           | S _ => Some kcunit
           end) with
    | None => (0, w)
    | Some kcunit =>
        let entry := entry_at w kcunit in
        match cfe_filter entry with
        | None => (0, w)
        | Some cfc =>
            if has_flag (cfe_flags entry) CFEF_SENT_SOCK_ATTACHED then (0, w)
            else if has_flag (cf_flags (filter_at w cfc)) CFF_FLOW_CONTROLLED
            then dispatch_done w kcunit cfc ENOBUFS
            else
              let (msg, w1) := ext_call w in              (* kalloc_data *)
              if negb (msg =? 0) then dispatch_done w1 kcunit cfc ENOMEM
              else
                let (error, w2) := ext_call w1 in         (* ctl_enqueuedata *)
                if negb (error =? 0) then dispatch_done w2 kcunit cfc error
                else
                  let w3 := upd_entry kcunit
                              (fun e => with_cfe_flags (set_flag (cfe_flags e) CFEF_SENT_SOCK_ATTACHED) e) w2 in
                  dispatch_done (log_event (EvAttach kcunit) w3) kcunit cfc 0
        end
    end.

(** [cfil_dispatch_disconnect_event] *)
Definition cfil_dispatch_disconnect_event (w : world) (kcunit : nat) (outgoing : bool)
  : Z * world :=
  let entry := entry_at w kcunit in
  match cfe_filter entry with
  | None => (0, w)
  | Some cfc =>
      (* SET_NO_CLOSE_WAIT *)
      let w0 :=
        if negb (has_flag (cfi_flags (w_info w)) CFIF_INITIAL_VERDICT) && so_loopback_faddr (w_so w)
        then upd_cfi_flags (fun f => set_flag f CFIF_NO_CLOSE_WAIT) w
        else w in
      if (outgoing && has_flag (cfe_flags entry) CFEF_SENT_DISCONNECT_OUT)
         || (negb outgoing && has_flag (cfe_flags entry) CFEF_SENT_DISCONNECT_IN)
      then (0, w0)
      else if outgoing && negb (cfil_queue_empty (cfe_ctl_q (entrybuf outgoing entry)))
      then dispatch_done w0 kcunit cfc EBUSY
      else if has_flag (cf_flags (filter_at w0 cfc)) CFF_FLOW_CONTROLLED
      then dispatch_done w0 kcunit cfc ENOBUFS
      else
        let (error, w1) := ext_call w0 in                 (* ctl_enqueuedata *)
        if negb (error =? 0) then dispatch_done w1 kcunit cfc error
        else
          let sent := if outgoing then CFEF_SENT_DISCONNECT_OUT else CFEF_SENT_DISCONNECT_IN in
          let w2 := upd_entry kcunit (fun e => with_cfe_flags (set_flag (cfe_flags e) sent) e) w1 in
          dispatch_done (log_event (EvDisconnect kcunit outgoing) w2) kcunit cfc 0
  end.

(** [cfil_dispatch_data_event]: the event carries
    [cfd_start_offset = cfe_peeked] and [cfd_end_offset = cfe_peeked + copylen]. *)
Definition cfil_dispatch_data_event (w : world) (kcunit : nat) (outgoing : bool)
    (data : mbuf) (copyoffset copylen : Z) : Z * world :=
  let entry := entry_at w kcunit in
  let entrybuf := entrybuf outgoing entry in
  match cfe_filter entry with
  | None => (0, w)
  | Some cfc =>
      if has_flag (cf_flags (filter_at w cfc)) CFF_FLOW_CONTROLLED
      then dispatch_done w kcunit cfc ENOBUFS
      else
        let (copy, w1) := ext_call w in                   (* m_copym_mode *)
        if negb (copy =? 0) then dispatch_done w1 kcunit cfc ENOMEM
        else
          let (alloc, w2) := ext_call w1 in               (* mbuf_allocpacket *)
          if negb (alloc =? 0) then dispatch_done w2 kcunit cfc ENOMEM
          else
            let (error, w3) := ext_call w2 in             (* ctl_enqueuembuf *)
            if negb (error =? 0) then dispatch_done w3 kcunit cfc error
            else
              let w4 := upd_entry kcunit
                          (fun e => with_cfe_flags (clear_flag (cfe_flags e) CFEF_FLOW_CONTROLLED) e) w3 in
              dispatch_done
                (log_event (EvData kcunit outgoing (cfe_peeked entrybuf)
                                   (u64 (cfe_peeked entrybuf + copylen))) w4)
                kcunit cfc 0
  end.

(** ** Servicing the control queue *)

(** "Move all data that can pass": the first loop of
    [cfil_data_service_ctl_q], on the entry buffer it works on.  Every
    round that does not leave the loop unlinks the first packet, so the
    number of packets bounds the rounds. *)
Fixpoint ctl_q_pass_loop (rounds : nat) (b : cfe_buf) : cfe_buf :=
  match rounds with
  | O => b
  | S rounds' =>
      match cfil_queue_first (cfe_ctl_q b) with
      | None => b
      | Some data =>
          if q_start (cfe_ctl_q b) <? cfe_pass_offset b then
            let datalen := cfil_data_length data in
            let copylen :=
              if u64 (q_start (cfe_ctl_q b) + datalen) <=? cfe_pass_offset b
              then datalen                                  (* can fully pass *)
              else u32 (u64 (cfe_pass_offset b - q_start (cfe_ctl_q b))) in
            let b1 :=
              if u64 (q_start (cfe_ctl_q b) + copylen) >? cfe_peeked b
              then with_peeked (u64 (q_start (cfe_ctl_q b) + copylen)) b
              else b in
            if copylen <? datalen then b1                   (* stop on partial pass *)
            else
              let b2 := with_ctl_q (cfil_queue_remove (cfe_ctl_q b1) data datalen) b1 in
              let b3 := with_pending_q (cfil_queue_enqueue (cfe_pending_q b2) data datalen) b2 in
              ctl_q_pass_loop rounds' b3
          else b
      end
  end.

(** "Now deal with remaining data the filter wants to peek at": the second
    loop, which walks the packets of the control queue without unlinking
    any; [mq] is what is left of the walk. *)
Fixpoint ctl_q_peek_loop (kcunit : nat) (outgoing : bool) (mq : list mbuf)
    (currentoffset : Z) (w : world) : world :=
  match mq with
  | [] => w
  | data :: mq' =>
      let b := ebuf w kcunit outgoing in
      if currentoffset <? cfe_peek_offset b then
        let datalen := cfil_data_length data in
        if u64 (currentoffset + datalen) <=? cfe_peeked b then
          ctl_q_peek_loop kcunit outgoing mq' (u64 (currentoffset + datalen)) w
        else
          let copyoffset := u32 (u64 (cfe_peeked b - currentoffset)) in
          let copylen0 := u32 (datalen - copyoffset) in
          let copylen :=
            if u64 (u64 (currentoffset + copyoffset) + copylen0) >? cfe_peek_offset b
            then u32 (u64 (cfe_peek_offset b - u64 (currentoffset + copyoffset)))
            else copylen0 in
          if copylen =? 0 then w
          else
            let (error, w1) := cfil_dispatch_data_event w kcunit outgoing data copyoffset copylen in
            if negb (error =? 0) then w1                    (* leave data in ctl_q *)
            else
              let w2 := upd_ebuf kcunit outgoing
                          (fun b => with_peeked (u64 (cfe_peeked b + copylen)) b) w1 in
              if u32 (copylen + copyoffset) <? datalen then w2
              else ctl_q_peek_loop kcunit outgoing mq' (u64 (currentoffset + datalen)) w2
      else w
  end.

(** The head of [cfil_data_service_ctl_q]: [inl] is a [goto done] with the
    value returned, [inr] goes on to the queues. *)
Definition service_ctl_q_gate (w : world) (kcunit : nat) : (Z * world) + world :=
  let entry := entry_at w kcunit in
  if negb (has_flag (cfe_flags entry) CFEF_SENT_SOCK_ATTACHED) then
    let (error, w1) := cfil_dispatch_attach_event w kcunit in
    if negb (error =? 0) then
      inl (if (error =? ENOBUFS) || (error =? ENOMEM) then 0 else error, w1)
    else inr w1
  else if negb (has_flag (cfe_flags entry) CFEF_DATA_START) then inl (0, w)
  else inr w.

(** [cfil_data_service_ctl_q], with the call of
    [cfil_service_pending_queue] for this entry as [service_pending]. *)
Definition cfil_data_service_ctl_q_with (service_pending : world -> Z * world)
    (w : world) (kcunit : nat) (outgoing : bool) : Z * world :=
  match service_ctl_q_gate w kcunit with
  | inl done => done
  | inr w1 =>
      let w2 := upd_ebuf kcunit outgoing
                  (fun b => ctl_q_pass_loop (length (q_mq (cfe_ctl_q b))) b) w1 in
      let ctl_q := cfe_ctl_q (ebuf w2 kcunit outgoing) in
      let w3 := ctl_q_peek_loop kcunit outgoing (q_mq ctl_q) (q_start ctl_q) w2 in
      let (error, w4) := service_pending w3 in
      if negb (error =? 0) then (error, w4)
      else
        let entry := entry_at w4 kcunit in
        if outgoing then
          if has_flag (cfi_flags (w_info w4)) CFIF_SHUT_WR
             && negb (has_flag (cfe_flags entry) CFEF_SENT_DISCONNECT_OUT)
          then (error, snd (cfil_dispatch_disconnect_event w4 kcunit true))
          else (error, w4)
        else
          if has_flag (cfi_flags (w_info w4)) CFIF_SHUT_RD
             && negb (has_flag (cfe_flags entry) CFEF_SENT_DISCONNECT_IN)
          then (error, snd (cfil_dispatch_disconnect_event w4 kcunit false))
          else (error, w4)
  end.

(** ** Servicing the pending queue and chaining to the next filters *)

(** What [cfil_service_pending_queue] asks of the entries linked after its
    own: [cfil_data_filter] with a packet, or [cfil_data_service_ctl_q]. *)
Inductive chain_call : Type :=
  | CallFilter (data : mbuf) (datalen : Z)
  | CallService.

(** The pass offsets of the attached entries, for the trace. *)
Fixpoint attached_pass_offsets (outgoing : bool) (es : list cfil_entry) : list Z :=
  match es with
  | [] => []
  | e :: es' =>
      match cfe_filter e with
      | Some _ => cfe_pass_offset (entrybuf outgoing e) :: attached_pass_offsets outgoing es'
      | None => attached_pass_offsets outgoing es'
      end
  end.

(** [cfil_queue_enqueue (&cfil_info->cfi_snd.cfi_inject_q, data, datalen)]
    or the receive one, as [cfil_service_pending_queue] does it. *)
Definition inject_enqueue (kcunit : nat) (outgoing : bool) (data : mbuf) (datalen : Z)
    (w : world) : world :=
  let w1 := upd_ibuf outgoing
              (fun cb =>
                 {| cfi_pending_first := cfi_pending_first cb;
                    cfi_pending_last := cfi_pending_last cb;
                    cfi_pending_mbcnt := cfi_pending_mbcnt cb;
                    cfi_pending_mbnum := cfi_pending_mbnum cb;
                    cfi_tail_drop_cnt := cfi_tail_drop_cnt cb;
                    cfi_pass_offset := cfi_pass_offset cb;
                    cfi_inject_q := cfil_queue_enqueue (cfi_inject_q cb) data datalen |}) w in
  log_event (EvInjectQ outgoing (q_start (cfe_pending_q (ebuf w kcunit outgoing)))
               (attached_pass_offsets outgoing (cfi_entries (w_info w)))) w1.

(** "Locate the chunks of data that we can pass to the next filter": the
    loop of [cfil_service_pending_queue].  [next] is the walk over the
    entries linked after this one.  Every round that does not leave the
    loop unlinks the first packet of the pending queue. *)
Fixpoint pending_q_loop (next : chain_call -> Z -> world -> Z * world)
    (rounds : nat) (kcunit : nat) (outgoing : bool) (passlen curlen : Z)
    (error : Z) (w : world) : Z * world :=
  match rounds with
  | O => (error, w)
  | S rounds' =>
      match cfil_queue_first (cfe_pending_q (ebuf w kcunit outgoing)) with
      | None => (error, w)
      | Some data =>
          let datalen := cfil_data_length data in
          if u64 (curlen + datalen) >? passlen then (error, w)
          else
            let w1 := upd_ebuf kcunit outgoing
                        (fun b => with_pending_q (cfil_queue_remove (cfe_pending_q b) data datalen) b) w in
            let curlen' := u64 (curlen + datalen) in
            let (error', w2) := next (CallFilter data datalen) error w1 in
            (* When data has passed all filters, re-inject *)
            let w3 := if error' =? 0 then inject_enqueue kcunit outgoing data datalen w2 else w2 in
            pending_q_loop next rounds' kcunit outgoing passlen curlen' error' w3
      end
  end.

(** [cfil_service_pending_queue], with the walk over the following
    entries as [next]. *)
Definition cfil_service_pending_queue_with (next : chain_call -> Z -> world -> Z * world)
    (kcunit : nat) (outgoing : bool) (w : world) : Z * world :=
  let pending_q := cfe_pending_q (ebuf w kcunit outgoing) in
  let passlen := u64 (cfe_pass_offset (ebuf w kcunit outgoing) - q_start pending_q) in
  if cfil_queue_empty pending_q then next CallService 0 w
  else pending_q_loop next (length (q_mq pending_q)) kcunit outgoing passlen 0 0 w.

(** [cfil_data_filter] *)
Definition cfil_data_filter_with (next : chain_call -> Z -> world -> Z * world)
    (w : world) (kcunit : nat) (outgoing : bool) (data : mbuf) (datalen : Z) : Z * world :=
  match cfe_filter (entry_at w kcunit) with
  | None => (0, w)
  | Some _ =>
      let w1 := upd_ebuf kcunit outgoing
                  (fun b => with_ctl_q (cfil_queue_enqueue (cfe_ctl_q b) data datalen) b) w in
      let (_, w2) :=
        cfil_data_service_ctl_q_with (cfil_service_pending_queue_with next kcunit outgoing)
          w1 kcunit outgoing in
      (* We have to return EJUSTRETURN in all cases to avoid double free *)
      (EJUSTRETURN, w2)
  end.

(** The two [for (iter_entry = SLIST_NEXT (entry, cfe_order_link); ...)]
    loops of [cfil_service_pending_queue] over the entries [rest] linked
    after the current one; [error] is the value the variable holds when the
    loop is entered, each round overwrites it and a round that leaves it
    nonzero ends the loop.  The recursion of the C code, from an entry into
    the entries after it, is the recursion on [rest]. *)
Fixpoint chain_run (outgoing : bool) (rest : list nat) (c : chain_call) (error : Z)
    (w : world) {struct rest} : Z * world :=
  match rest with
  | [] => (error, w)
  | kcunit :: rest' =>
      let (error', w') :=
        match c with
        | CallFilter data datalen =>
            cfil_data_filter_with (chain_run outgoing rest') w kcunit outgoing data datalen
        | CallService =>
            cfil_data_service_ctl_q_with
              (cfil_service_pending_queue_with (chain_run outgoing rest') kcunit outgoing)
              w kcunit outgoing
        end in
      if error' =? 0 then chain_run outgoing rest' c error' w' else (error', w')
  end.

Definition cfil_service_pending_queue (w : world) (kcunit : nat) (outgoing : bool)
  : Z * world :=
  cfil_service_pending_queue_with
    (chain_run outgoing (slist_after kcunit (cfi_ordered_entries (w_info w))))
    kcunit outgoing w.

Definition cfil_data_service_ctl_q (w : world) (kcunit : nat) (outgoing : bool)
  : Z * world :=
  cfil_data_service_ctl_q_with
    (cfil_service_pending_queue_with
       (chain_run outgoing (slist_after kcunit (cfi_ordered_entries (w_info w))))
       kcunit outgoing)
    w kcunit outgoing.

Definition cfil_data_filter (w : world) (kcunit : nat) (outgoing : bool)
    (data : mbuf) (datalen : Z) : Z * world :=
  cfil_data_filter_with
    (chain_run outgoing (slist_after kcunit (cfi_ordered_entries (w_info w))))
    w kcunit outgoing data datalen.

(** ** Verdicts *)

(** One attached filter that has been told of the socket and has not
    detached: the test of the loop of [cfil_filters_attached]. *)
Definition entry_still_attached (e : cfil_entry) : bool :=
  match cfe_filter e with
  | None => false
  | Some _ =>
      has_flag (cfe_flags e) CFEF_SENT_SOCK_ATTACHED
      && negb (has_flag (cfe_flags e) CFEF_CFIL_DETACHED)
  end.

(** The units 1 .. MAX_CONTENT_FILTER, as the [for (kcunit = 1; ...)] loops
    visit them. *)
Definition kcunits : list nat := seq 1 MAX_CONTENT_FILTER.

(** [cfil_filters_attached]; for a datagram socket it is
    [cfil_filters_udp_attached (so, FALSE)], which looks at every flow of
    the socket's flow database. *)
Definition cfil_filters_attached (w : world) : bool :=
  let here := existsb (fun kcunit => entry_still_attached (entry_at w kcunit)) kcunits in
  if so_dgram (w_so w) then
    if so_content_filter (w_so w) && so_flow_db (w_so w)
    then here || so_other_flows_attached (w_so w)
    else false
  else
    if negb (so_content_filter (w_so w)) then false else here.

(** The block after [done:] in [cfil_update_data_offsets]: "the filter is
    effectively detached when pass all from both sides or when the socket
    is closed and no more data is waiting to be delivered". *)
Definition update_data_offsets_done (w : world) (kcunit : nat) : world :=
  let entry := entry_at w kcunit in
  if ((cfe_pass_offset (cfe_snd entry) =? CFM_MAX_OFFSET)
      && (cfe_pass_offset (cfe_rcv entry) =? CFM_MAX_OFFSET))
     || (has_flag (cfi_flags (w_info w)) CFIF_CLOSE_WAIT
         && cfil_queue_empty (cfe_ctl_q (cfe_snd entry))
         && cfil_queue_empty (cfe_ctl_q (cfe_rcv entry)))
  then
    let w1 := upd_entry kcunit
                (fun e => with_cfe_flags (set_flag (cfe_flags e) CFEF_CFIL_DETACHED) e) w in
    if has_flag (cfi_flags (w_info w1)) CFIF_CLOSE_WAIT && negb (cfil_filters_attached w1)
    then log_event EvWakeup w1
    else w1
  else w.

(** [cfil_update_data_offsets] *)
Definition cfil_update_data_offsets (w : world) (kcunit : nat) (outgoing : bool)
    (pass_offset peek_offset : Z) : Z * world :=
  if has_flag (cfi_flags (w_info w)) CFIF_DROP then (EPIPE, w)
  else
    (* Record updated offsets for this content filter *)
    let raise_pass := pass_offset >? cfe_pass_offset (ebuf w kcunit outgoing) in
    let w1 :=
      if raise_pass then
        upd_ebuf kcunit outgoing
          (fun b =>
             let b1 := with_pass_offset pass_offset b in
             if cfe_peek_offset b1 <? cfe_pass_offset b1
             then with_peek_offset (cfe_pass_offset b1) b1
             else b1) w
      else w in
    (* Filter does not want or need to see data that's allowed to pass *)
    let raise_peek :=
      (peek_offset >? cfe_pass_offset (ebuf w1 kcunit outgoing))
      && (peek_offset >? cfe_peek_offset (ebuf w1 kcunit outgoing)) in
    let w2 :=
      if raise_peek then upd_ebuf kcunit outgoing (with_peek_offset peek_offset) w1 else w1 in
    if negb (raise_pass || raise_peek) then
      (0, update_data_offsets_done w2 kcunit)               (* Nothing to do *)
    else
      (* Move data held in control queue to pending queue if needed *)
      let (error, w3) := cfil_data_service_ctl_q w2 kcunit outgoing in
      if negb (error =? 0) then (error, update_data_offsets_done w3 kcunit)
      else (EJUSTRETURN, update_data_offsets_done w3 kcunit).

(** [cfil_set_socket_pass_offset]: "keep track of the smallest pass_offset
    among filters", recomputed only when no data is pending. *)
Definition cfil_set_socket_pass_offset (w : world) (outgoing : bool) : world :=
  let cb := ibuf w outgoing in
  if u64 (cfi_pending_last cb - cfi_pending_first cb) =? 0 then
    let '(pass_offset, _) :=
      fold_left
        (fun '(pass_offset, first) kcunit =>
           let entry := entry_at w kcunit in
           match cfe_filter entry with
           | None => (pass_offset, first)
           | Some _ =>
               if (first : bool) || (cfe_pass_offset (entrybuf outgoing entry) <? pass_offset)
               then (cfe_pass_offset (entrybuf outgoing entry), false)
               else (pass_offset, first)
           end)
        kcunits (0, true) in
    upd_ibuf outgoing
      (fun cb =>
         {| cfi_pending_first := cfi_pending_first cb;
            cfi_pending_last := cfi_pending_last cb;
            cfi_pending_mbcnt := cfi_pending_mbcnt cb;
            cfi_pending_mbnum := cfi_pending_mbnum cb;
            cfi_tail_drop_cnt := cfi_tail_drop_cnt cb;
            cfi_pass_offset := pass_offset;
            cfi_inject_q := cfi_inject_q cb |}) w
  else w.

(** ** Re-injection *)

(** [cfil_sock_notify_shutdown (so, SHUT_WR)], for the flow at hand: a
    disconnect event for the outgoing side to every unit. *)
Definition cfil_sock_notify_shutdown_wr (w : world) : world :=
  if so_content_filter (w_so w) && (negb (so_dgram (w_so w)) || so_flow_db (w_so w)) then
    fold_left (fun w kcunit => snd (cfil_dispatch_disconnect_event w kcunit true)) kcunits w
  else w.

(** One round of the loop of [cfil_service_inject_queue] on the flow
    buffer: unlink the packet and move the pending cursor. *)
Definition inject_dequeue (data : mbuf) (datalen mbcnt mbnum : Z) (cb : cfi_buf) : cfi_buf :=
  {| cfi_pending_first := u64 (cfi_pending_first cb + datalen);
     cfi_pending_last := cfi_pending_last cb;
     cfi_pending_mbcnt := u32 (cfi_pending_mbcnt cb - mbcnt);
     cfi_pending_mbnum := u32 (cfi_pending_mbnum cb - mbnum);
     cfi_tail_drop_cnt := cfi_tail_drop_cnt cb;
     cfi_pass_offset := cfi_pass_offset cb;
     cfi_inject_q := cfil_queue_remove (cfi_inject_q cb) data datalen |}.

Fixpoint inject_q_loop (msize : Z) (rounds : nat) (outgoing : bool) (w : world)
  : Z * world :=
  match rounds with
  | O => (0, w)
  | S rounds' =>
      match cfil_queue_first (cfi_inject_q (ibuf w outgoing)) with
      | None => (0, w)
      | Some data =>
          let '(datalen, mbcnt, mbnum) := cfil_data_length_cnt msize data in
          let w1 := upd_ibuf outgoing (inject_dequeue data datalen mbcnt mbnum) w in
          (* sosend_reinject, or sbappendchain / sbappendstream *)
          let (error, w2) := ext_call (log_event (EvReinject outgoing data) w1) in
          if outgoing && negb (error =? 0) then (error, w2)
          else inject_q_loop msize rounds' outgoing w2
      end
  end.

(** [cfil_service_inject_queue].  After the loop the socket layer is told
    of a pending shutdown and close-wait sleepers are woken;
    [soshutdownlock_final] and the delayed dead / time-wait marking belong
    to the socket layer and leave the flow as it is.  This is the call
    when it returns: [cfil_info_buf_verify] after each packet is unlinked
    and the assertion of [cfil_sock_data_pending] in the test before
    [soshutdownlock_final] are not represented. *)
Definition cfil_service_inject_queue (msize : Z) (w : world) (outgoing : bool) : Z * world :=
  if so_defunct (w_so w) then (0, w)
  else
    let retry := if outgoing then CFIF_RETRY_INJECT_OUT else CFIF_RETRY_INJECT_IN in
    let w1 := upd_cfi_flags (fun f => clear_flag f retry) w in
    if cfil_queue_empty (cfi_inject_q (ibuf w1 outgoing)) then (0, w1)
    else
      let (error, w2) :=
        inject_q_loop msize (length (q_mq (cfi_inject_q (ibuf w1 outgoing)))) outgoing w1 in
      let w3 := if negb (error =? 0) then upd_cfi_flags (fun f => set_flag f retry) w2 else w2 in
      let w4 := if has_flag (cfi_flags (w_info w3)) CFIF_SHUT_WR
                then cfil_sock_notify_shutdown_wr w3 else w3 in
      let w5 := if has_flag (cfi_flags (w_info w4)) CFIF_CLOSE_WAIT
                   && negb (cfil_filters_attached w4)
                then log_event EvWakeup w4 else w4 in
      (error, w5).

(** [cfil_acquire_sockbuf]: the wait for the socket buffer is not
    represented, the value returned is. *)
Definition cfil_acquire_sockbuf (w : world) : Z :=
  if has_flag (cfi_flags (w_info w)) CFIF_DROP then EPIPE else 0.

(** [cfil_action_data_pass] *)
Definition cfil_action_data_pass (msize : Z) (w : world) (kcunit : nat) (outgoing : bool)
    (pass_offset peek_offset : Z) : Z * world :=
  if negb (cfil_acquire_sockbuf w =? 0) then (cfil_acquire_sockbuf w, w)
  else
    let (error, w1) := cfil_update_data_offsets w kcunit outgoing pass_offset peek_offset in
    let w2 := snd (cfil_service_inject_queue msize w1 outgoing) in
    (error, cfil_set_socket_pass_offset w2 outgoing).

(** ** Drop *)

Definition drain_entry_buf (b : cfe_buf) : cfe_buf :=
  let b1 := with_ctl_q (snd (cfil_queue_drain (cfe_ctl_q b))) b in
  with_pending_q (snd (cfil_queue_drain (cfe_pending_q b1))) b1.

Definition drain_inject_q (cb : cfi_buf) : cfi_buf :=
  {| cfi_pending_first := cfi_pending_first cb;
     cfi_pending_last := cfi_pending_last cb;
     cfi_pending_mbcnt := cfi_pending_mbcnt cb;
     cfi_pending_mbnum := cfi_pending_mbnum cb;
     cfi_tail_drop_cnt := cfi_tail_drop_cnt cb;
     cfi_pass_offset := cfi_pass_offset cb;
     cfi_inject_q := snd (cfil_queue_drain (cfi_inject_q cb)) |}.

(** One half of [cfil_flush_queues]: the queues of one direction. *)
Definition flush_direction (outgoing : bool) (w : world) : world :=
  let w1 := fold_left (fun w kcunit => upd_ebuf kcunit outgoing drain_entry_buf w) kcunits w in
  upd_ibuf outgoing drain_inject_q w1.

(** [cfil_flush_queues]: output queues, then input queues. *)
Definition cfil_flush_queues (w : world) : world :=
  if negb (so_content_filter (w_so w)) then w
  else flush_direction false (flush_direction true w).

(** "Force the socket to be marked defunct": [sosetdefunct], then
    [sodefunct] to flush the socket buffer and disconnect, both calls into
    the socket layer; when both succeed the socket is defunct.  Sockets
    with a flow database are left alone. *)
Definition force_defunct (w : world) : Z * world :=
  if negb (so_flow_db (w_so w)) then
    let (e1, w1) := ext_call w in                     (* sosetdefunct *)
    if e1 =? 0 then
      let (e2, w2) := ext_call w1 in                  (* sodefunct *)
      if e2 =? 0 then
        (e2, log_event EvDefunct
               (with_so {| so_content_filter := so_content_filter (w_so w2);
                           so_dgram := so_dgram (w_so w2);
                           so_flow_db := so_flow_db (w_so w2);
                           so_defunct := true;
                           so_proto_ok := so_proto_ok (w_so w2);
                           so_loopback_faddr := so_loopback_faddr (w_so w2);
                           so_other_flows_attached := so_other_flows_attached (w_so w2) |}
                        w2))
      else (e2, w2)
    else (e1, w1)
  else (0, w).

(** [cfil_action_drop] *)
Definition cfil_action_drop (w : world) (kcunit : nat) : Z * world :=
  if negb (so_content_filter (w_so w)) then (0, w)
  else
    match cfe_filter (entry_at w kcunit) with
    | None => (0, w)
    | Some _ =>
        let w1 := upd_cfi_flags (fun f => set_flag f CFIF_DROP) w in
        let (error, w2) := force_defunct w1 in
        (* The filter is done, mark as detached *)
        let w3 := upd_entry kcunit
                    (fun e => with_cfe_flags (set_flag (cfe_flags e) CFEF_CFIL_DETACHED) e) w2 in
        (* Pending data needs to go *)
        let w4 := cfil_flush_queues w3 in
        let w5 := if has_flag (cfi_flags (w_info w4)) CFIF_CLOSE_WAIT
                     && negb (cfil_filters_attached w4)
                  then log_event EvWakeup w4 else w4 in
        (error, w5)
    end.

(** ** Submitting data *)

(** The body of the loop of [cfil_update_entry_offsets] for an attached
    entry. *)
Definition update_entry_offsets_buf (datalen : Z) (b : cfe_buf) : cfe_buf :=
  let ctl_start := u64 (q_start (cfe_ctl_q b) + datalen) in
  let pass := if cfe_pass_offset b <? ctl_start then ctl_start else cfe_pass_offset b in
  let peek := if cfe_peek_offset b <? pass then pass else cfe_peek_offset b in
  {| cfe_pending_q :=
       {| q_start := u64 (q_start (cfe_pending_q b) + datalen);
          q_end := u64 (q_end (cfe_pending_q b) + datalen);
          q_mq := q_mq (cfe_pending_q b) |};
     cfe_ctl_q :=
       {| q_start := ctl_start;
          q_end := u64 (q_end (cfe_ctl_q b) + datalen);
          q_mq := q_mq (cfe_ctl_q b) |};
     cfe_pass_offset := pass;
     cfe_peek_offset := peek;
     cfe_peeked := ctl_start |}.

(** [cfil_update_entry_offsets] *)
Definition cfil_update_entry_offsets (w : world) (outgoing : bool) (datalen : Z) : world :=
  fold_left
    (fun w kcunit =>
       match cfe_filter (entry_at w kcunit) with
       | None => w
       | Some _ => upd_ebuf kcunit outgoing (update_entry_offsets_buf datalen) w
       end)
    kcunits w.

(** The counters of [struct cfi_buf] as [cfil_data_common] moves them. *)
Definition pending_extend (datalen mbcnt mbnum : Z) (cb : cfi_buf) : cfi_buf :=
  {| cfi_pending_first := cfi_pending_first cb;
     cfi_pending_last := u64 (cfi_pending_last cb + datalen);
     cfi_pending_mbcnt := u32 (cfi_pending_mbcnt cb + mbcnt);
     cfi_pending_mbnum := u32 (cfi_pending_mbnum cb + mbnum);
     cfi_tail_drop_cnt := cfi_tail_drop_cnt cb;
     cfi_pass_offset := cfi_pass_offset cb;
     cfi_inject_q := cfi_inject_q cb |}.

Definition pending_tail_drop (mbcnt mbnum : Z) (cb : cfi_buf) : cfi_buf :=
  {| cfi_pending_first := cfi_pending_first cb;
     cfi_pending_last := cfi_pending_last cb;
     cfi_pending_mbcnt := u32 (cfi_pending_mbcnt cb - mbcnt);
     cfi_pending_mbnum := u32 (cfi_pending_mbnum cb - mbnum);
     cfi_tail_drop_cnt := u32 (cfi_tail_drop_cnt cb + 1);
     cfi_pass_offset := cfi_pass_offset cb;
     cfi_inject_q := cfi_inject_q cb |}.

Definition pending_move_cursor (datalen mbcnt mbnum : Z) (cb : cfi_buf) : cfi_buf :=
  {| cfi_pending_first := u64 (cfi_pending_first cb + datalen);
     cfi_pending_last := cfi_pending_last cb;
     cfi_pending_mbcnt := u32 (cfi_pending_mbcnt cb - mbcnt);
     cfi_pending_mbnum := u32 (cfi_pending_mbnum cb - mbnum);
     cfi_tail_drop_cnt := cfi_tail_drop_cnt cb;
     cfi_pass_offset := cfi_pass_offset cb;
     cfi_inject_q := cfi_inject_q cb |}.

(** The [SLIST_FOREACH] of [cfil_data_common] over the ordered entries
    [rest] still to visit.  [inl] is the [return ENOBUFS] out of the
    function, [inr] the end of the loop.  For a datagram socket the packet
    is first chained with its address and control mbufs by
    [sbconcat_mbufs], which may fail; the chained packet counts the same
    bytes from its packet header on, and stands for itself here. *)
Fixpoint data_common_loop (outgoing : bool) (rest : list nat) (chained : bool)
    (data : mbuf) (datalen : Z) (error : Z) (w : world) {struct rest}
  : (Z * world) + (Z * world) :=
  match rest with
  | [] => inr (error, w)
  | kcunit :: rest' =>
      if IS_ENTRY_ATTACHED w kcunit then
        let '(chain, w1) :=
          if so_dgram (w_so w) && negb chained then ext_call w else (0, w) in
        if negb (chain =? 0) then inl (ENOBUFS, w1)
        else
          let (error', w2) :=
            cfil_data_filter_with (chain_run outgoing rest') w1 kcunit outgoing data datalen in
          (* 0 means passed so continue with next filter *)
          if negb (error' =? 0) then inr (error', w2)
          else data_common_loop outgoing rest' true data datalen error' w2
      else
        if negb (error =? 0) then inr (error, w)
        else data_common_loop outgoing rest' chained data datalen error w
  end.

(** [cfil_info_buf_verify (cfi_buf)] as the operations run it: of its two
    checks, [CFIL_QUEUE_VERIFY] of the inject queue is under [cfil_debug];
    the other is [VERIFY (cfi_pending_first <= cfi_pending_last)]. *)
Definition pending_cursors_verify (cb : cfi_buf) : bool :=
  cfi_pending_first cb <=? cfi_pending_last cb.

(** [cfil_data_common]: the value returned and the flow left, or a panic
    when one of its two calls of [cfil_info_buf_verify] fails.  The tail
    drop and the [return ENOBUFS] of the loop leave the function before
    the assertion that would come next. *)
Definition cfil_data_common (msize : Z) (w : world) (outgoing : bool) (data : mbuf)
  : result (Z * world) :=
  if has_flag (cfi_flags (w_info w)) CFIF_DROP then Ret (EPIPE, w)
  else
    let '(datalen, mbcnt, mbnum) := cfil_data_length_cnt msize data in
    if datalen =? 0 then Ret (0, w)
    else
      let w1 := with_info (add_byte_count outgoing datalen (w_info w)) w in
      let w2 := upd_ibuf outgoing (pending_extend datalen mbcnt mbnum) w1 in
      if so_dgram (w_so w2)
         && ((cfi_pending_mbnum (ibuf w2 outgoing) >? cfil_udp_gc_mbuf_num_max w2)
             || (cfi_pending_mbcnt (ibuf w2 outgoing) >? cfil_udp_gc_mbuf_cnt_max w2))
      then Ret (EPIPE, upd_ibuf outgoing (pending_tail_drop mbcnt mbnum) w2)
      else
        VERIFY (pending_cursors_verify (ibuf w2 outgoing))
          (let slow :=
             (* Fast path when below pass offset *)
             if cfi_pending_last (ibuf w2 outgoing) <=? cfi_pass_offset (ibuf w2 outgoing)
             then inr (0, cfil_update_entry_offsets w2 outgoing datalen)
             else data_common_loop outgoing (cfi_ordered_entries (w_info w2)) false
                    data datalen 0 w2 in
           match slow with
           | inl ret => Ret ret
           | inr (error, w3) =>
               (* Move cursor if no filter claimed the data *)
               if error =? 0
               then
                 let w4 := upd_ibuf outgoing (pending_move_cursor datalen mbcnt mbnum) w3 in
                 VERIFY (pending_cursors_verify (ibuf w4 outgoing)) (Ret (error, w4))
               else Ret (error, w3)
           end).

(** What a call of [cfil_data_common] that returns has returned and left:
    the function with its two assertions taken as passed
    ([cfil_data_common_returns] below).  The lemmas about a submit that
    returns are proved on it. *)
Definition data_common_effect (msize : Z) (w : world) (outgoing : bool) (data : mbuf)
  : Z * world :=
  if has_flag (cfi_flags (w_info w)) CFIF_DROP then (EPIPE, w)
  else
    let '(datalen, mbcnt, mbnum) := cfil_data_length_cnt msize data in
    if datalen =? 0 then (0, w)
    else
      let w1 := with_info (add_byte_count outgoing datalen (w_info w)) w in
      let w2 := upd_ibuf outgoing (pending_extend datalen mbcnt mbnum) w1 in
      if so_dgram (w_so w2)
         && ((cfi_pending_mbnum (ibuf w2 outgoing) >? cfil_udp_gc_mbuf_num_max w2)
             || (cfi_pending_mbcnt (ibuf w2 outgoing) >? cfil_udp_gc_mbuf_cnt_max w2))
      then (EPIPE, upd_ibuf outgoing (pending_tail_drop mbcnt mbnum) w2)
      else
        let slow :=
          (* Fast path when below pass offset *)
          if cfi_pending_last (ibuf w2 outgoing) <=? cfi_pass_offset (ibuf w2 outgoing)
          then inr (0, cfil_update_entry_offsets w2 outgoing datalen)
          else data_common_loop outgoing (cfi_ordered_entries (w_info w2)) false
                 data datalen 0 w2 in
        match slow with
        | inl ret => ret
        | inr (error, w3) =>
            (* Move cursor if no filter claimed the data *)
            if error =? 0
            then (error, upd_ibuf outgoing (pending_move_cursor datalen mbcnt mbnum) w3)
            else (error, w3)
        end.

(** ** The datagram reaper's tests *)

(** [cfil_info_buffer_threshold_exceeded] *)
Definition cfil_info_buffer_threshold_exceeded (i : cfil_info) : bool :=
  negb (cfi_tail_drop_cnt (cfi_snd i) =? 0) || negb (cfi_tail_drop_cnt (cfi_rcv i) =? 0).

(** [cfil_dgram_gc_needed], with the answer of
    [cfil_info_action_timed_out] (which reads the clock) as [timed_out],
    and [feat_ctxt] the flow state in the hash entry, if any. *)
Definition cfil_dgram_gc_needed (feat_ctxt : option cfil_info) (timed_out : bool) : bool :=
  match feat_ctxt with
  | None => false
  | Some cfil_info => timed_out || cfil_info_buffer_threshold_exceeded cfil_info
  end.

(** ** The flow-control lift *)

(** A flow as the registry sees it: [f_so] is [cfil_info->cfi_so],
    [f_ref_count] is [cfi_ref_count]. *)
Record flow : Type := Flow {
  f_so : option socket;
  f_info : cfil_info;
  f_ref_count : nat
}.

(** The registry [content_filters] with the flows its entries belong to.
    An entry of [cf_sock_entries] is named by the index of its flow in
    [k_flows]; an index outside stands for an entry whose [cfe_cfil_info]
    is NULL. *)
Record kernel : Type := Kernel {
  k_flows : list flow;
  k_filters : list content_filter;
  k_gc_mbuf_num_max : Z;
  k_gc_mbuf_cnt_max : Z;
  k_log : list event;
  k_ext : list Z
}.

Definition with_k_filters (fs : list content_filter) (k : kernel) : kernel :=
  {| k_flows := k_flows k; k_filters := fs;
     k_gc_mbuf_num_max := k_gc_mbuf_num_max k; k_gc_mbuf_cnt_max := k_gc_mbuf_cnt_max k;
     k_log := k_log k; k_ext := k_ext k |}.

(** The flow [i] of the kernel with socket [so], seen by the data path. *)
Definition flow_world (k : kernel) (so : socket) (f : flow) : world :=
  {| w_so := so; w_info := f_info f; w_filters := k_filters k;
     cfil_udp_gc_mbuf_num_max := k_gc_mbuf_num_max k;
     cfil_udp_gc_mbuf_cnt_max := k_gc_mbuf_cnt_max k;
     w_log := k_log k; w_ext := k_ext k |}.

Definition world_back (k : kernel) (i : nat) (f : flow) (w : world) : kernel :=
  {| k_flows := <[i := {| f_so := Some (w_so w); f_info := w_info w;
                          f_ref_count := f_ref_count f |}]> (k_flows k);
     k_filters := w_filters w;
     k_gc_mbuf_num_max := k_gc_mbuf_num_max k; k_gc_mbuf_cnt_max := k_gc_mbuf_cnt_max k;
     k_log := w_log w; k_ext := w_ext w |}.

(** "Find an entry that is flow controlled": the [TAILQ_FOREACH] of
    [cfil_ctl_rcvd] over [cf_sock_entries], and the value its loop variable
    [entry] holds when the loop is left.  Both tests of the body
    [continue]; past them the body ends, and the next round starts. *)
Fixpoint ctl_rcvd_find_entry (k : kernel) (kcunit : nat) (entries : list nat) : option nat :=
  match entries with
  | [] => None                                              (* entry == NULL *)
  | i :: entries' =>
      match k_flows k !! i with
      | None => ctl_rcvd_find_entry k kcunit entries'       (* cfe_cfil_info == NULL: continue *)
      | Some f =>
          match f_so f with
          | None => ctl_rcvd_find_entry k kcunit entries'   (* cfi_so == NULL: continue *)
          | Some _ =>
              let entry :=
                match kcunit with
                | O => empty_entry
                | S j => default empty_entry (cfi_entries (f_info f) !! j)
                end in
              if negb (has_flag (cfe_flags entry) CFEF_FLOW_CONTROLLED)
              then ctl_rcvd_find_entry k kcunit entries'    (* continue *)
              else ctl_rcvd_find_entry k kcunit entries'    (* end of the body *)
          end
      end
  end.

(** The [do { ... } while (0)] of [cfil_ctl_rcvd]: service the outgoing
    control queue, then the incoming one. *)
Definition ctl_rcvd_service (w : world) (kcunit : nat) : world :=
  let '(error, w1) :=
    if cfil_acquire_sockbuf w =? 0 then cfil_data_service_ctl_q w kcunit true
    else (cfil_acquire_sockbuf w, w) in
  if negb (error =? 0) then w1
  else
    if cfil_acquire_sockbuf w1 =? 0 then snd (cfil_data_service_ctl_q w1 kcunit false)
    else w1.

(** The [while ((cfc->cf_flags & CFF_FLOW_CONTROLLED) == 0)] loop.  It has
    no bound of its own in the C code; [rounds] bounds it here and [None]
    says the bound was reached. *)
Fixpoint ctl_rcvd_loop (rounds : nat) (kcunit : nat) (k : kernel) : option kernel :=
  match rounds with
  | O => None
  | S rounds' =>
      let cfc := match kcunit with
                 | O => no_filter
                 | S j => default no_filter (k_filters k !! j)
                 end in
      if has_flag (cf_flags cfc) CFF_FLOW_CONTROLLED then Some k
      else
        match ctl_rcvd_find_entry k kcunit (cf_sock_entries cfc) with
        | None => Some k                                     (* entry == NULL: break *)
        | Some i =>
            match k_flows k !! i with
            | None => Some k
            | Some f =>
                match f_so f, f_ref_count f with
                | Some so, S _ =>
                    let w := ctl_rcvd_service (flow_world k so f) kcunit in
                    ctl_rcvd_loop rounds' kcunit (world_back k i f w)
                | _, _ => Some k                             (* retain failed: break *)
                end
            end
        end
  end.

(** [cfil_ctl_rcvd]; [unitinfo] is the unit of the filter the control
    socket belongs to, [None] for NULL. *)
Definition cfil_ctl_rcvd (rounds : nat) (k : kernel) (kcunit : nat) (unitinfo : option nat)
  : option kernel :=
  match unitinfo with
  | None => Some k
  | Some cfc =>
      if (MAX_CONTENT_FILTER <? kcunit)%nat then Some k
      else if negb (Nat.eqb cfc kcunit) then Some k           (* unitinfo does not match *)
      else
        match kcunit with
        | O => Some k
        | S j =>
            match k_filters k !! j with
            | None => Some k
            | Some c =>
                (* Let's assume the flow control is lifted *)
                let k1 :=
                  if has_flag (cf_flags c) CFF_FLOW_CONTROLLED
                  then with_k_filters
                         (<[j := with_cf_flags (clear_flag (cf_flags c) CFF_FLOW_CONTROLLED) c]>
                            (k_filters k)) k
                  else k in
                ctl_rcvd_loop rounds kcunit k1
            end
        end
  end.

(** ** Sequences of calls *)

Inductive op : Type :=
  | OpSubmit (outgoing : bool) (data : mbuf)
  | OpVerdict (kcunit : nat) (outgoing : bool) (pass_offset peek_offset : Z)
  | OpServiceCtl (kcunit : nat) (outgoing : bool)
  | OpServicePending (kcunit : nat) (outgoing : bool)
  | OpServiceInject (outgoing : bool)
  | OpDrop (kcunit : nat).

(** One call; a submit leaves in the trace what the socket layer was
    told, and panics when [cfil_data_common] does. *)
Definition step (msize : Z) (w : world) (o : op) : result world :=
  match o with
  | OpSubmit outgoing data =>
      match cfil_data_common msize w outgoing data with
      | Ret (error, w') =>
          Ret (log_event (EvSubmit outgoing (fst (fst (cfil_data_length_cnt msize data))) error)
                 w')
      | Panic => Panic
      end
  | OpVerdict kcunit outgoing pass_offset peek_offset =>
      Ret (snd (cfil_action_data_pass msize w kcunit outgoing pass_offset peek_offset))
  | OpServiceCtl kcunit outgoing => Ret (snd (cfil_data_service_ctl_q w kcunit outgoing))
  | OpServicePending kcunit outgoing => Ret (snd (cfil_service_pending_queue w kcunit outgoing))
  | OpServiceInject outgoing => Ret (snd (cfil_service_inject_queue msize w outgoing))
  | OpDrop kcunit => Ret (snd (cfil_action_drop w kcunit))
  end.

(** A sequence of calls: the flow it leaves, or a panic on the way. *)
Fixpoint run (msize : Z) (w : world) (ops : list op) : result world :=
  match ops with
  | [] => Ret w
  | op :: ops' =>
      match step msize w op with
      | Ret w' => run msize w' ops'
      | Panic => Panic
      end
  end.

(** The flow a call leaves when it returns ([step_returns] below), and the
    flow a sequence of calls leaves when each of them returns
    ([run_returns]). *)
Definition step_effect (msize : Z) (w : world) (o : op) : world :=
  match o with
  | OpSubmit outgoing data =>
      let (error, w') := data_common_effect msize w outgoing data in
      log_event (EvSubmit outgoing (fst (fst (cfil_data_length_cnt msize data))) error) w'
  | OpVerdict kcunit outgoing pass_offset peek_offset =>
      snd (cfil_action_data_pass msize w kcunit outgoing pass_offset peek_offset)
  | OpServiceCtl kcunit outgoing => snd (cfil_data_service_ctl_q w kcunit outgoing)
  | OpServicePending kcunit outgoing => snd (cfil_service_pending_queue w kcunit outgoing)
  | OpServiceInject outgoing => snd (cfil_service_inject_queue msize w outgoing)
  | OpDrop kcunit => snd (cfil_action_drop w kcunit)
  end.

Definition run_effect (msize : Z) (w : world) (ops : list op) : world :=
  fold_left (step_effect msize) ops w.

(** ** Accounting *)

(** Bytes of one direction held by the queues of all entries and by the
    inject queue, by content and by cursors. *)
Definition entries_bytes (outgoing : bool) (es : list cfil_entry) : Z :=
  fold_right
    (fun e acc =>
       queue_bytes (cfe_ctl_q (entrybuf outgoing e))
       + queue_bytes (cfe_pending_q (entrybuf outgoing e)) + acc) 0 es.

Definition queued_bytes (outgoing : bool) (w : world) : Z :=
  entries_bytes outgoing (cfi_entries (w_info w))
  + queue_bytes (cfi_inject_q (ibuf w outgoing)).

Definition entries_len (outgoing : bool) (es : list cfil_entry) : Z :=
  fold_right
    (fun e acc =>
       cfil_queue_len (cfe_ctl_q (entrybuf outgoing e))
       + cfil_queue_len (cfe_pending_q (entrybuf outgoing e)) + acc) 0 es.

Definition queued_len (outgoing : bool) (w : world) : Z :=
  entries_len outgoing (cfi_entries (w_info w))
  + cfil_queue_len (cfi_inject_q (ibuf w outgoing)).

(** Bytes the engine took from the socket layer: submits it passed
    (returned 0) or kept (returned EJUSTRETURN). *)
Fixpoint bytes_submitted (outgoing : bool) (log : list event) : Z :=
  match log with
  | [] => 0
  | EvSubmit o len error :: log' =>
      (if Bool.eqb o outgoing && ((error =? 0) || (error =? EJUSTRETURN)) then len else 0)
      + bytes_submitted outgoing log'
  | _ :: log' => bytes_submitted outgoing log'
  end.

(** Bytes that left the engine: submits it passed untouched, and packets
    it handed to the socket layer for re-injection, whatever the socket
    layer answered. *)
Fixpoint bytes_released (outgoing : bool) (log : list event) : Z :=
  match log with
  | [] => 0
  | EvSubmit o len error :: log' =>
      (if Bool.eqb o outgoing && (error =? 0) then len else 0)
      + bytes_released outgoing log'
  | EvReinject o m :: log' =>
      (if Bool.eqb o outgoing then cfil_data_length m else 0)
      + bytes_released outgoing log'
  | _ :: log' => bytes_released outgoing log'
  end.

(** [cfil_update_data_offsets] for a sequence of verdicts, each for a
    unit and a direction. *)
Definition apply_verdicts (w : world) (vs : list (nat * bool * Z * Z)) : world :=
  fold_left
    (fun w '(kcunit, outgoing, pass_offset, peek_offset) =>
       snd (cfil_update_data_offsets w kcunit outgoing pass_offset peek_offset))
    vs w.

(** ** Vocabulary of the proofs *)

(** A unit is in range when it indexes the entry array. *)
Definition unit_in_range (w : world) (kcunit : nat) : Prop :=
  (1 <= kcunit <= length (cfi_entries (w_info w)))%nat.

(** An event that is neither a submit nor a re-injection. *)
Definition quiet_event (ev : event) : Prop :=
  match ev with
  | EvSubmit _ _ _ | EvReinject _ _ => False
  | _ => True
  end.

(** ** Concrete states used below *)

(** A packet of one mbuf with a packet header. *)
Definition packet (id : nat) (len : Z) : mbuf :=
  {| m_id := id;
     m_chain := [ {| m_len := len; m_pkthdr := true; m_ext := false; ext_size := 0 |} ] |}.

Definition fresh_infobuf : cfi_buf :=
  {| cfi_pending_first := 0; cfi_pending_last := 0;
     cfi_pending_mbcnt := 0; cfi_pending_mbnum := 0;
     cfi_tail_drop_cnt := 0; cfi_pass_offset := 0;
     cfi_inject_q := cfil_queue_init |}.

(** An entry attached to unit [u], told of the socket and started. *)
Definition attached_entry (u : nat) : cfil_entry :=
  {| cfe_filter := Some u;
     cfe_flags := Z.lor CFEF_CFIL_ATTACHED (Z.lor CFEF_SENT_SOCK_ATTACHED CFEF_DATA_START);
     cfe_necp_control_unit := Z.of_nat u;
     cfe_snd := empty_buf; cfe_rcv := empty_buf |}.

Definition tcp_socket : socket :=
  {| so_content_filter := true; so_dgram := false; so_flow_db := false;
     so_defunct := false; so_proto_ok := true; so_loopback_faddr := false;
     so_other_flows_attached := false |}.

Definition udp_socket : socket :=
  {| so_content_filter := true; so_dgram := true; so_flow_db := true;
     so_defunct := false; so_proto_ok := true; so_loopback_faddr := false;
     so_other_flows_attached := false |}.

(** The flow state [cfil_info_alloc] and [cfil_info_attach_unit] leave for
    a flow with the units [units] attached, in that order. *)
Definition fresh_info (units : list nat) : cfil_info :=
  {| cfi_flags := 0; cfi_byte_inbound_count := 0; cfi_byte_outbound_count := 0;
     cfi_snd := fresh_infobuf; cfi_rcv := fresh_infobuf;
     cfi_entries :=
       map (fun k => if bool_decide (k ∈ units) then attached_entry k else empty_entry) kcunits;
     cfi_ordered_entries := units |}.

Definition fresh_world (so : socket) (units : list nat) : world :=
  {| w_so := so; w_info := fresh_info units;
     w_filters := replicate MAX_CONTENT_FILTER {| cf_flags := CFF_ACTIVE; cf_sock_entries := [] |};
     cfil_udp_gc_mbuf_num_max := 1024; cfil_udp_gc_mbuf_cnt_max := 2097152;
     w_log := []; w_ext := [] |}.

(** A queue holding one packet of 50 bytes at offsets 0 .. 50. *)
Definition queue_of_50 : cfil_queue :=
  {| q_start := 0; q_end := 50; q_mq := [packet 1 50] |}.

(** A flow whose entry for unit 1 holds 100 bytes the agent asked to see
    (peek offset 100) but was never shown (peeked 0), because the agent's
    control socket was full: entry and filter are marked flow controlled. *)
Definition stalled_buf : cfe_buf :=
  {| cfe_pending_q := cfil_queue_init;
     cfe_ctl_q := {| q_start := 0; q_end := 100; q_mq := [packet 1 100] |};
     cfe_pass_offset := 0; cfe_peek_offset := 100; cfe_peeked := 0 |}.

Definition stalled_entry : cfil_entry :=
  {| cfe_filter := Some 1%nat;
     cfe_flags := Z.lor (cfe_flags (attached_entry 1)) CFEF_FLOW_CONTROLLED;
     cfe_necp_control_unit := 1;
     cfe_snd := stalled_buf; cfe_rcv := empty_buf |}.

Definition stalled_info : cfil_info :=
  {| cfi_flags := 0; cfi_byte_inbound_count := 0; cfi_byte_outbound_count := 100;
     cfi_snd :=
       {| cfi_pending_first := 0; cfi_pending_last := 100;
          cfi_pending_mbcnt := 256; cfi_pending_mbnum := 1;
          cfi_tail_drop_cnt := 0; cfi_pass_offset := 0;
          cfi_inject_q := cfil_queue_init |};
     cfi_rcv := fresh_infobuf;
     cfi_entries := stalled_entry :: replicate 7 empty_entry;
     cfi_ordered_entries := [1%nat] |}.

Definition stalled_filters (flags : Z) : list content_filter :=
  {| cf_flags := flags; cf_sock_entries := [0%nat] |}
  :: replicate 7 {| cf_flags := 0; cf_sock_entries := [] |}.

Definition stalled_kernel : kernel :=
  {| k_flows := [ {| f_so := Some tcp_socket; f_info := stalled_info; f_ref_count := 1 |} ];
     k_filters := stalled_filters (Z.lor CFF_ACTIVE CFF_FLOW_CONTROLLED);
     k_gc_mbuf_num_max := 1024; k_gc_mbuf_cnt_max := 2097152;
     k_log := []; k_ext := [] |}.

(** The same flow as the data path sees it once the filter's flag is
    cleared. *)
Definition stalled_world : world :=
  {| w_so := tcp_socket; w_info := stalled_info;
     w_filters := stalled_filters CFF_ACTIVE;
     cfil_udp_gc_mbuf_num_max := 1024; cfil_udp_gc_mbuf_cnt_max := 2097152;
     w_log := []; w_ext := [] |}.

(** *** The elementary moves of queue servicing

    Everything [cfil_data_service_ctl_q], [cfil_service_pending_queue] and
    [cfil_data_filter] do to the state, for the direction [o] and the
    entries [units] they may visit: events to the agents, the pass loop,
    a peeked mark, unlinking from a pending queue, appending to a control
    queue or to the inject queue. *)
Inductive chain_steps (o : bool) (units : list nat) : world -> world -> Prop :=
  | cs_refl w : chain_steps o units w w
  | cs_trans w1 w2 w3 :
      chain_steps o units w1 w2 -> chain_steps o units w2 w3 -> chain_steps o units w1 w3
  | cs_attach k w :
      In k units -> chain_steps o units w (snd (cfil_dispatch_attach_event w k))
  | cs_disconnect k w :
      In k units -> chain_steps o units w (snd (cfil_dispatch_disconnect_event w k o))
  | cs_data k data copyoffset copylen w :
      In k units ->
      chain_steps o units w (snd (cfil_dispatch_data_event w k o data copyoffset copylen))
  | cs_peeked k copylen w :
      In k units ->
      chain_steps o units w
        (upd_ebuf k o (fun b => with_peeked (u64 (cfe_peeked b + copylen)) b) w)
  | cs_pass k w :
      In k units ->
      chain_steps o units w
        (upd_ebuf k o (fun b => ctl_q_pass_loop (length (q_mq (cfe_ctl_q b))) b) w)
  | cs_remove k data w :
      In k units ->
      chain_steps o units w
        (upd_ebuf k o
           (fun b => with_pending_q
                       (cfil_queue_remove (cfe_pending_q b) data (cfil_data_length data)) b) w)
  | cs_enqueue k data w :
      In k units ->
      chain_steps o units w
        (upd_ebuf k o
           (fun b => with_ctl_q
                       (cfil_queue_enqueue (cfe_ctl_q b) data (cfil_data_length data)) b) w)
  | cs_inject k data w :
      In k units ->
      chain_steps o units w (inject_enqueue k o data (cfil_data_length data) w).

(** A call of the chain hands over a packet with its own length. *)
Definition call_ok (c : chain_call) : Prop :=
  match c with
  | CallFilter data datalen => datalen = cfil_data_length data
  | CallService => True
  end.

(** *** What queue servicing leaves alone

    [chain_frame o units w w']: between [w] and [w'] the socket, the
    ordered list, the attachments, every pass and peek offset, the flow
    flags other than [CFIF_NO_CLOSE_WAIT], the buffers of the other
    direction, the buffers of the entries outside [units], the pending
    counters of the flow and the accounting of the trace are the same. *)
Record chain_frame (o : bool) (units : list nat) (w w' : world) : Prop := ChainFrame {
  fr_so : w_so w' = w_so w;
  fr_ordered : cfi_ordered_entries (w_info w') = cfi_ordered_entries (w_info w);
  fr_length : length (cfi_entries (w_info w')) = length (cfi_entries (w_info w));
  fr_num_max : cfil_udp_gc_mbuf_num_max w' = cfil_udp_gc_mbuf_num_max w;
  fr_cnt_max : cfil_udp_gc_mbuf_cnt_max w' = cfil_udp_gc_mbuf_cnt_max w;
  fr_filter : forall k, cfe_filter (entry_at w' k) = cfe_filter (entry_at w k);
  fr_pass : forall k d, cfe_pass_offset (ebuf w' k d) = cfe_pass_offset (ebuf w k d);
  fr_peek : forall k d, cfe_peek_offset (ebuf w' k d) = cfe_peek_offset (ebuf w k d);
  fr_flags : Z.lor (cfi_flags (w_info w')) CFIF_NO_CLOSE_WAIT
             = Z.lor (cfi_flags (w_info w)) CFIF_NO_CLOSE_WAIT;
  fr_other_ebuf : forall k, ebuf w' k (negb o) = ebuf w k (negb o);
  fr_other_ibuf : ibuf w' (negb o) = ibuf w (negb o);
  fr_outside : forall k, ~ In k units -> ebuf w' k o = ebuf w k o;
  fr_first : cfi_pending_first (ibuf w' o) = cfi_pending_first (ibuf w o);
  fr_last : cfi_pending_last (ibuf w' o) = cfi_pending_last (ibuf w o);
  fr_mbcnt : cfi_pending_mbcnt (ibuf w' o) = cfi_pending_mbcnt (ibuf w o);
  fr_mbnum : cfi_pending_mbnum (ibuf w' o) = cfi_pending_mbnum (ibuf w o);
  fr_tail_drop : cfi_tail_drop_cnt (ibuf w' o) = cfi_tail_drop_cnt (ibuf w o);
  fr_pass_offset : cfi_pass_offset (ibuf w' o) = cfi_pass_offset (ibuf w o);
  fr_submitted : forall d, bytes_submitted d (w_log w') = bytes_submitted d (w_log w);
  fr_released : forall d, bytes_released d (w_log w') = bytes_released d (w_log w)
}.

(** A datagram flow whose outgoing direction already holds as many mbufs
    as [cfil_udp_gc_mbuf_num_max] allows. *)
Definition crowded_world : world :=
  upd_ibuf true
    (fun cb =>
       {| cfi_pending_first := 0; cfi_pending_last := 1024;
          cfi_pending_mbcnt := 262144; cfi_pending_mbnum := 1024;
          cfi_tail_drop_cnt := 0; cfi_pass_offset := 0;
          cfi_inject_q := cfi_inject_q cb |})
    (fresh_world udp_socket [1%nat]).

(** *** Loops over the units

    The [for (kcunit = 1; kcunit <= MAX_CONTENT_FILTER; kcunit++)] loops
    that rewrite one buffer of every entry chosen by [sel]. *)
Definition sweep (sel : cfil_entry -> bool) (o : bool) (g : cfe_buf -> cfe_buf)
    (units : list nat) (w : world) : world :=
  fold_left (fun w kcunit => if sel (entry_at w kcunit) then upd_ebuf kcunit o g w else w)
    units w.

Definition has_filter (e : cfil_entry) : bool :=
  match cfe_filter e with None => false | Some _ => true end.

(** The fast path of [cfil_data_common] as the specification words it: when the
    new end of the pending span is still at most the lowest pass offset
    among the attached agents, that is at most the pass offset of each of
    them, the submit returns 0, no control queue gets the data, no event
    is sent, and every attached entry has its queue cursors, its peeked
    mark and its pass and peek offsets advanced by the length of the
    span. *)
Definition fast_path_as_specified (msize : Z) (w : world) (o : bool) (data : mbuf) : Prop :=
  let datalen := fst (fst (cfil_data_length_cnt msize data)) in
  (forall k, In k kcunits -> cfe_filter (entry_at w k) <> None ->
     cfi_pending_last (ibuf w o) + datalen <= cfe_pass_offset (ebuf w k o)) ->
  exists w',
    cfil_data_common msize w o data = Ret (0, w')
    /\ w_log w' = w_log w
    /\ forall k, In k kcunits -> cfe_filter (entry_at w k) <> None ->
         q_mq (cfe_ctl_q (ebuf w' k o)) = q_mq (cfe_ctl_q (ebuf w k o))
         /\ q_start (cfe_ctl_q (ebuf w' k o)) = q_start (cfe_ctl_q (ebuf w k o)) + datalen
         /\ q_end (cfe_ctl_q (ebuf w' k o)) = q_end (cfe_ctl_q (ebuf w k o)) + datalen
         /\ q_start (cfe_pending_q (ebuf w' k o)) = q_start (cfe_pending_q (ebuf w k o)) + datalen
         /\ q_end (cfe_pending_q (ebuf w' k o)) = q_end (cfe_pending_q (ebuf w k o)) + datalen
         /\ cfe_peeked (ebuf w' k o) = cfe_peeked (ebuf w k o) + datalen
         /\ cfe_pass_offset (ebuf w' k o) = cfe_pass_offset (ebuf w k o) + datalen
         /\ cfe_peek_offset (ebuf w' k o) = cfe_peek_offset (ebuf w k o) + datalen.

(** A stream flow whose only agent, unit 1, has passed the first 1000
    outgoing bytes before any of them was submitted. *)
Definition passed_ahead_world : world :=
  run_effect 256 (fresh_world tcp_socket [1%nat]) [OpVerdict 1 true 1000 0].

(** A new stream flow with the agent 1 attached, on a socket that will
    refuse the first [refusals] packets re-injected into it with
    [ENOBUFS]. *)
Definition refusing_world (refusals : nat) : world :=
  let w := fresh_world tcp_socket [1%nat] in
  {| w_so := w_so w; w_info := w_info w; w_filters := w_filters w;
     cfil_udp_gc_mbuf_num_max := cfil_udp_gc_mbuf_num_max w;
     cfil_udp_gc_mbuf_cnt_max := cfil_udp_gc_mbuf_cnt_max w;
     w_log := []; w_ext := repeat ENOBUFS refusals |}.

(** Two packets of 100 and 60 bytes are submitted and held for the agent,
    which then passes the first 1000 bytes: both packets go to the inject
    queue and the first is handed to the socket, which refuses it. *)
Definition refused_ops : list op :=
  [ OpSubmit true (packet 1 100);
    OpSubmit true (packet 2 60);
    OpVerdict 1 true 1000 0 ].

(** The flow after that, once the socket has room again and the inject
    queue was serviced: nothing is pending, the agent's pass offset is
    1000, and the pass offset kept for the socket is still 0, because it
    was last looked at while the second packet was pending. *)
Definition stale_pass_world : world :=
  run_effect 256 (refusing_world 1) (refused_ops ++ [OpServiceInject true]).

(** *** Drop *)

Definition drop_latched (w : world) : Prop :=
  has_flag (cfi_flags (w_info w)) CFIF_DROP = true.

(** Sleepers on the flow were woken between [w] and [w']. *)
Definition woken (w w' : world) : Prop :=
  exists new, w_log w' = new ++ w_log w /\ In EvWakeup new.

(** Every queue of the flow is empty, with its cursors reset. *)
Definition all_queues_empty (w : world) : Prop :=
  (forall k d, In k kcunits ->
     cfe_ctl_q (ebuf w k d) = cfil_queue_init
     /\ cfe_pending_q (ebuf w k d) = cfil_queue_init)
  /\ (forall d, cfi_inject_q (ibuf w d) = cfil_queue_init).

(** The drop verdict as the specification words it: whenever a thread sleeps in
    close-wait ([CFIF_CLOSE_WAIT] is set) it is woken. *)
Definition drop_as_specified (w : world) (kcunit : nat) : Prop :=
  so_content_filter (w_so w) = true ->
  cfe_filter (entry_at w kcunit) <> None ->
  let w' := snd (cfil_action_drop w kcunit) in
  drop_latched w'
  /\ all_queues_empty w'
  /\ has_flag (cfe_flags (entry_at w' kcunit)) CFEF_CFIL_DETACHED = true
  /\ (has_flag (cfi_flags (w_info w)) CFIF_CLOSE_WAIT = true -> woken w w')
  /\ (forall msize ops o data,
        exists w'', run msize w' ops = Ret w''
                    /\ cfil_data_common msize w'' o data = Ret (EPIPE, w'')).

(** A stream flow with the agents 1 and 2 attached, on which a thread
    sleeps in [cfil_sock_close_wait]. *)
Definition closing_world : world :=
  upd_cfi_flags (fun f => set_flag f CFIF_CLOSE_WAIT) (fresh_world tcp_socket [1%nat; 2%nat]).

(** *** Spans *)

(** The bytes of a list of packets. *)
Definition packets_bytes (l : list mbuf) : Z :=
  fold_right (fun m acc => cfil_data_length m + acc) 0 l.

(** A queue whose cursors are offsets of the stream: they do not wrap. *)
Definition queue_ok (cfq : cfil_queue) : Prop :=
  0 <= q_start cfq /\ q_start cfq + packets_bytes (q_mq cfq) < 2 ^ 64.

(** The span [data] at offset [start] is wholly below [pass_offset]. *)
Definition span_covered (start : Z) (data : mbuf) (pass_offset : Z) : Prop :=
  start < pass_offset /\ start + cfil_data_length data <= pass_offset.

(** A stream flow with the agents 1 and 2: agent 1 holds two packets of
    100 and 60 outgoing bytes in its control queue and has passed the
    first 130 bytes. *)
Definition half_passed_buf : cfe_buf :=
  {| cfe_pending_q := cfil_queue_init;
     cfe_ctl_q := {| q_start := 0; q_end := 160; q_mq := [packet 1 100; packet 2 60] |};
     cfe_pass_offset := 130; cfe_peek_offset := 130; cfe_peeked := 0 |}.

Definition half_passed_world : world :=
  upd_ebuf 1 true (fun _ => half_passed_buf) (fresh_world tcp_socket [1%nat; 2%nat]).

(** *** The moves of queue servicing, with the path of each packet

    [quiet_steps w w']: between [w] and [w'] only flags, peeked marks, the
    script of the collaborators and the trace changed, and the trace grew
    by events that are neither submits, nor enqueues on an inject queue,
    nor re-injections. *)
Definition silent_event (ev : event) : Prop :=
  match ev with
  | EvSubmit _ _ _ | EvReinject _ _ | EvInjectQ _ _ _ => False
  | _ => True
  end.

Inductive quiet_steps : world -> world -> Prop :=
  | qs_refl w : quiet_steps w w
  | qs_trans w1 w2 w3 : quiet_steps w1 w2 -> quiet_steps w2 w3 -> quiet_steps w1 w3
  | qs_entry_flags k g w :
      quiet_steps w (upd_entry k (fun e => with_cfe_flags (g e) e) w)
  | qs_filter_flags u g w : quiet_steps w (upd_filter_flags u g w)
  | qs_cfi_flags g w : quiet_steps w (upd_cfi_flags g w)
  | qs_ext_call w : quiet_steps w (snd (ext_call w))
  | qs_event ev w : silent_event ev -> quiet_steps w (log_event ev w)
  | qs_peeked k o g w :
      quiet_steps w (upd_ebuf k o (fun b => with_peeked (g b) b) w).

(** A packet leaves the pending queue of [k] for the control queue of
    [k'], or for the inject queue. *)
Definition unlink_pending (k : nat) (o : bool) (data : mbuf) (w : world) : world :=
  upd_ebuf k o
    (fun b => with_pending_q (cfil_queue_remove (cfe_pending_q b) data (cfil_data_length data)) b)
    w.

Definition link_ctl (k : nat) (o : bool) (data : mbuf) (w : world) : world :=
  upd_ebuf k o
    (fun b => with_ctl_q (cfil_queue_enqueue (cfe_ctl_q b) data (cfil_data_length data)) b)
    w.

Definition hand_over (k k' : nat) (o : bool) (data : mbuf) (w : world) : world :=
  link_ctl k' o data (unlink_pending k o data w).

Definition release (k : nat) (o : bool) (data : mbuf) (w : world) : world :=
  inject_enqueue k o data (cfil_data_length data) (unlink_pending k o data w).

Definition unattached (w : world) (k : nat) : Prop := has_filter (entry_at w k) = false.

(** [moves o units w w']: [w'] comes from [w] by quiet steps, runs of the
    move loop on entries of [units], hand-overs of the first packet of a
    pending queue to the next entry of [units] that has a filter, and
    releases of the first packet of a pending queue to the inject queue
    when no entry after it in [units] has a filter. *)
Inductive moves (o : bool) (units : list nat) : world -> world -> Prop :=
  | mv_refl w : moves o units w w
  | mv_trans w1 w2 w3 : moves o units w1 w2 -> moves o units w2 w3 -> moves o units w1 w3
  | mv_quiet w w' : quiet_steps w w' -> moves o units w w'
  | mv_pass k w :
      In k units ->
      moves o units w
        (upd_ebuf k o (fun b => ctl_q_pass_loop (length (q_mq (cfe_ctl_q b))) b) w)
  | mv_hand l1 k skipped k' l2 data tl w :
      units = l1 ++ k :: skipped ++ k' :: l2 ->
      q_mq (cfe_pending_q (ebuf w k o)) = data :: tl ->
      Forall (unattached w) skipped ->
      has_filter (entry_at w k') = true ->
      moves o units w (hand_over k k' o data w)
  | mv_release l1 k post data tl w :
      units = l1 ++ k :: post ->
      q_mq (cfe_pending_q (ebuf w k o)) = data :: tl ->
      Forall (unattached w) post ->
      moves o units w (release k o data w).

(** What a walk over the entries [rest] with a packet comes to: either no
    entry has a filter, nothing changed and the value is 0, or the packet
    was put on the control queue of the first entry with a filter, which
    was then serviced, and the value is not 0. *)
Definition filter_outcome (o : bool) (rest : list nat) (data : mbuf) (w : world)
    (r : Z * world) : Prop :=
  (fst r = 0 /\ snd r = w /\ Forall (unattached w) rest)
  \/ (fst r <> 0
      /\ exists skipped k' l2,
           rest = skipped ++ k' :: l2
           /\ Forall (unattached w) skipped
           /\ has_filter (entry_at w k') = true
           /\ moves o (k' :: l2) (link_ctl k' o data w) (snd r)).

(** The walk [next] over the entries [rest], as the callers rely on it. *)
Definition next_ok (o : bool) (rest : list nat)
    (next : chain_call -> Z -> world -> Z * world) : Prop :=
  (forall error w, moves o rest w (snd (next CallService error w)))
  /\ (forall data error w,
        (rest = [] -> error = 0) ->
        filter_outcome o rest data w (next (CallFilter data (cfil_data_length data)) error w)).

(** The bytes of the two queues of an entry buffer. *)
Definition buf_bytes (b : cfe_buf) : Z :=
  queue_bytes (cfe_ctl_q b) + queue_bytes (cfe_pending_q b).

(** What the quiet steps leave alone. *)
Record same_queues (w w' : world) : Prop := SameQueues {
  sq_so : w_so w' = w_so w;
  sq_ordered : cfi_ordered_entries (w_info w') = cfi_ordered_entries (w_info w);
  sq_length : length (cfi_entries (w_info w')) = length (cfi_entries (w_info w));
  sq_filter : forall k, cfe_filter (entry_at w' k) = cfe_filter (entry_at w k);
  sq_ctl : forall k d, cfe_ctl_q (ebuf w' k d) = cfe_ctl_q (ebuf w k d);
  sq_pending : forall k d, cfe_pending_q (ebuf w' k d) = cfe_pending_q (ebuf w k d);
  sq_pass : forall k d, cfe_pass_offset (ebuf w' k d) = cfe_pass_offset (ebuf w k d);
  sq_peek : forall k d, cfe_peek_offset (ebuf w' k d) = cfe_peek_offset (ebuf w k d);
  sq_ibuf : forall d, ibuf w' d = ibuf w d;
  sq_log : exists new, w_log w' = new ++ w_log w /\ Forall silent_event new
}.

(** The books of one direction: bytes held, plus bytes given back, minus
    bytes taken. *)
Definition balance (d : bool) (w : world) : Z :=
  queued_bytes d w + bytes_released d (w_log w) - bytes_submitted d (w_log w).

(** Two packets are submitted; agent 1 passes the first, agent 2 passes
    it in turn and it is re-injected, while the second stays with agent
    1. *)
Definition relay_ops : list op :=
  [ OpSubmit true (packet 1 100);
    OpSubmit true (packet 2 60);
    OpVerdict 1 true 100 0;
    OpVerdict 2 true 100 0;
    OpServiceInject true ].

(** *** The chain of entries

    [buf_ok b]: the cursors of the two queues of an entry buffer are
    offsets of the stream that do not wrap, the pending queue ends at or
    before the start of the control queue, and everything on the pending
    queue is below the pass offset. *)
Definition buf_ok (b : cfe_buf) : Prop :=
  0 <= q_start (cfe_pending_q b)
  /\ q_start (cfe_pending_q b) + queue_bytes (cfe_pending_q b) = q_end (cfe_pending_q b)
  /\ q_end (cfe_pending_q b) <= q_start (cfe_ctl_q b)
  /\ q_start (cfe_ctl_q b) + queue_bytes (cfe_ctl_q b) = q_end (cfe_ctl_q b)
  /\ q_end (cfe_ctl_q b) < 2 ^ 64
  /\ q_end (cfe_pending_q b) <= cfe_pass_offset b.

(** An entry without a filter holds no packet. *)
Definition buf_idle (b : cfe_buf) : Prop :=
  q_mq (cfe_ctl_q b) = [] /\ q_mq (cfe_pending_q b) = [].

(** The bound the entries of [l] leave for the entry after them: the
    start of the pending queue of the last entry with a filter. *)
Fixpoint bound_after (o : bool) (bound : Z) (l : list nat) (w : world) : Z :=
  match l with
  | [] => bound
  | k :: l' =>
      bound_after o
        (if has_filter (entry_at w k) then q_start (cfe_pending_q (ebuf w k o)) else bound)
        l' w
  end.

(** Along the ordered entries, each entry with a filter has received no
    more than the entry with a filter before it has let go. *)
Fixpoint chain_ok (o : bool) (bound : Z) (l : list nat) (w : world) : Prop :=
  match l with
  | [] => True
  | k :: l' =>
      if has_filter (entry_at w k)
      then buf_ok (ebuf w k o)
           /\ q_end (cfe_ctl_q (ebuf w k o)) <= bound
           /\ chain_ok o (q_start (cfe_pending_q (ebuf w k o))) l' w
      else buf_idle (ebuf w k o) /\ chain_ok o bound l' w
  end.

Definition flow_ok (o : bool) (w : world) : Prop :=
  NoDup (cfi_ordered_entries (w_info w))
  /\ (forall k, has_filter (entry_at w k) = true -> In k (cfi_ordered_entries (w_info w)))
  /\ chain_ok o (2 ^ 64 - 1) (cfi_ordered_entries (w_info w)) w.

(** Every span put on the inject queue of direction [o] ended at or below
    the pass offset of every entry with a filter. *)
Definition injects_covered (o : bool) (log : list event) : Prop :=
  forall span_end pass_offsets,
    In (EvInjectQ o span_end pass_offsets) log -> Forall (Z.le span_end) pass_offsets.

(** The entry [k] looks the same in [w] and [w'] to the chain of
    direction [o], but for a pass offset that may have been raised. *)
Definition entry_same (o : bool) (w w' : world) (k : nat) : Prop :=
  has_filter (entry_at w' k) = has_filter (entry_at w k)
  /\ cfe_ctl_q (ebuf w' k o) = cfe_ctl_q (ebuf w k o)
  /\ cfe_pending_q (ebuf w' k o) = cfe_pending_q (ebuf w k o)
  /\ cfe_pass_offset (ebuf w k o) <= cfe_pass_offset (ebuf w' k o).

(** [flow_ok] for a flow whose ordered entries are [units]. *)
Definition chain_inv (o : bool) (units : list nat) (w : world) : Prop :=
  cfi_ordered_entries (w_info w) = units
  /\ NoDup units
  /\ (forall k, has_filter (entry_at w k) = true -> In k units)
  /\ chain_ok o (2 ^ 64 - 1) units w.

(** An event that is not an enqueue on the inject queue of direction
    [o]. *)
Definition not_inject (o : bool) (ev : event) : Prop :=
  match ev with EvInjectQ o' _ _ => o' <> o | _ => True end.

(** Between [w] and [w'] the chain of direction [o] was left as it is:
    the same ordered entries, the same filters and queues, pass offsets
    that can only have been raised, and nothing put on the inject queue
    of that direction. *)
Definition chain_kept (o : bool) (w w' : world) : Prop :=
  cfi_ordered_entries (w_info w') = cfi_ordered_entries (w_info w)
  /\ (forall j, entry_same o w w' j)
  /\ exists new, w_log w' = new ++ w_log w /\ Forall (not_inject o) new.

(** Between [w] and [w'] the chain of direction [o] stayed in order, and
    what was put on the inject queue was covered by every pass offset. *)
Definition chain_step (o : bool) (w w' : world) : Prop :=
  forall units,
    chain_inv o units w ->
    chain_inv o units w'
    /\ exists new, w_log w' = new ++ w_log w /\ injects_covered o new.

(** What the chain of direction [o] is followed through: any sequence of
    submits, verdicts, servicing calls and drops, in either direction.
    Asked of a call is only this: a submit in direction [o] must not take
    an offset of the stream past 2^64, a verdict or a servicing call in
    direction [o] names a unit that is linked in the ordered list, and at
    a submit in direction [o] and at a drop the units of the ordered list
    are units of the entry array. *)
Definition op_for (o : bool) (w : world) (op : op) : Prop :=
  match op with
  | OpSubmit o' data =>
      o' = o ->
      Forall (fun k => In k kcunits) (cfi_ordered_entries (w_info w))
      /\ Forall (fun k => q_end (cfe_ctl_q (ebuf w k o)) + cfil_data_length data < 2 ^ 64)
           (cfi_ordered_entries (w_info w))
  | OpVerdict k o' _ _ => o' = o -> In k (cfi_ordered_entries (w_info w))
  | OpServiceCtl k o' => o' = o -> In k (cfi_ordered_entries (w_info w))
  | OpServicePending k o' => o' = o -> In k (cfi_ordered_entries (w_info w))
  | OpServiceInject _ => True
  | OpDrop _ => Forall (fun k => In k kcunits) (cfi_ordered_entries (w_info w))
  end.

(** [op_for] at each call of a sequence, in the state the calls before it
    have left. *)
Fixpoint ops_for (msize : Z) (o : bool) (w : world) (ops : list op) : Prop :=
  match ops with
  | [] => True
  | op :: ops' =>
      op_for o w op
      /\ match step msize w op with
         | Ret w' => ops_for msize o w' ops'
         | Panic => True
         end
  end.

(** Traffic in both directions and a drop: a packet each way is submitted
    and held for agent 1; agent 1 and then agent 2 pass the outgoing one,
    which is re-injected; agent 1 passes the incoming one on to agent 2,
    which drops the flow; the submit after that is refused. *)
Definition crossing_ops : list op :=
  [ OpSubmit true (packet 1 100);
    OpSubmit false (packet 2 60);
    OpVerdict 1 true 100 0;
    OpVerdict 2 true 100 0;
    OpVerdict 1 false 60 0;
    OpServiceInject true;
    OpDrop 2;
    OpSubmit true (packet 3 50) ].

(* ===================================================================== *)
(** * The rest of the engine *)
(* ===================================================================== *)

(** ** The assertions of the queue code *)

(** The [chainsize] that [cfil_queue_verify] adds up for one packet: the
    [m_len] of the chain from the packet start on, in a [size_t]. *)
Definition chainsize (m : mbuf) : Z :=
  fold_left (fun acc s => u64 (acc + m_len s)) (cfil_data_start (m_chain m)) 0.

(** The [MBUFQ_FOREACH] of [cfil_queue_verify]: [None] when it panics,
    because the packet start is NULL or because [m_length] and
    [chainsize] differ, else the [queuesize] it reaches.  The panics on
    freed mbufs and on unsupported mbuf types read the free pattern and
    [m_type], which the packets here do not carry. *)
Fixpoint queue_verify_loop (l : list mbuf) (queuesize : Z) : option Z :=
  match l with
  | [] => Some queuesize
  | m :: l' =>
      match cfil_data_start (m_chain m) with
      | [] => None
      | _ :: _ =>
          if negb (cfil_data_length m =? chainsize m) then None
          else queue_verify_loop l' (u64 (queuesize + chainsize m))
      end
  end.

(** [cfil_queue_verify]: [true] when none of its assertions fails. *)
Definition cfil_queue_verify (cfq : cfil_queue) : bool :=
  (* Verify offset are ordered *)
  (q_start cfq <=? q_end cfq)
  (* When queue is empty, the offsets are equal otherwise the offsets
     are different *)
  && ((cfil_queue_empty cfq && (q_start cfq =? q_end cfq))
      || (negb (cfil_queue_empty cfq) && negb (q_start cfq =? q_end cfq)))
  && match queue_verify_loop (q_mq cfq) 0 with
     | None => false
     | Some queuesize => queuesize =? u64 (q_end cfq - q_start cfq)
     end.

(** [cfil_entry_buf_verify] *)
Definition cfil_entry_buf_verify (b : cfe_buf) : bool :=
  cfil_queue_verify (cfe_ctl_q b)
  && cfil_queue_verify (cfe_pending_q b)
  (* Verify the queues are ordered so that pending is before ctl *)
  && (q_start (cfe_ctl_q b) >=? q_end (cfe_pending_q b))
  (* The peek offset cannot be less than the pass offset *)
  && (cfe_peek_offset b >=? cfe_pass_offset b)
  (* Make sure we've updated the offset we peeked at *)
  && (q_start (cfe_ctl_q b) <=? cfe_peeked b).

(** [cfil_entry_verify] *)
Definition cfil_entry_verify (e : cfil_entry) : bool :=
  cfil_entry_buf_verify (cfe_snd e) && cfil_entry_buf_verify (cfe_rcv e).

(** [cfil_info_buf_verify], with [cfil_debug] on. *)
Definition cfil_info_buf_verify (cb : cfi_buf) : bool :=
  cfil_queue_verify (cfi_inject_q cb)
  && pending_cursors_verify cb.

(** [cfil_info_verify]; [None] is the NULL flow state. *)
Definition cfil_info_verify (cfil_info : option cfil_info) : bool :=
  match cfil_info with
  | None => true
  | Some i =>
      cfil_info_buf_verify (cfi_snd i)
      && cfil_info_buf_verify (cfi_rcv i)
      && forallb cfil_entry_verify (cfi_entries i)
  end.

(** *** Sequences of queue operations *)

Inductive queue_op : Type :=
  | QEnqueue (m : mbuf)      (* cfil_queue_enqueue (cfq, m, cfil_data_length (m)) *)
  | QRemove (m : mbuf)       (* cfil_queue_remove (cfq, m, cfil_data_length (m)) *)
  | QDrain.                  (* cfil_queue_drain (cfq) *)

Definition queue_step (cfq : cfil_queue) (op : queue_op) : cfil_queue :=
  match op with
  | QEnqueue m => cfil_queue_enqueue cfq m (cfil_data_length m)
  | QRemove m => cfil_queue_remove cfq m (cfil_data_length m)
  | QDrain => snd (cfil_queue_drain cfq)
  end.

(** The bytes of a chain of mbufs. *)
Definition chain_bytes (c : list mbuf_seg) : Z :=
  fold_right (fun s acc => m_len s + acc) 0 c.

(** A packet as the socket layer hands it over: no mbuf of negative
    length, at least one byte and fewer than 2^32 from the packet start
    on. *)
Definition packet_ok (m : mbuf) : Prop :=
  Forall (fun s => 0 <= m_len s) (cfil_data_start (m_chain m))
  /\ 0 < chain_bytes (cfil_data_start (m_chain m)) < 2 ^ 32.

(** The operations the engine performs on a queue: it enqueues packets
    that hold data, while the offsets of the stream stay below 2^64, and
    removes packets that are on the queue. *)
Definition queue_op_ok (cfq : cfil_queue) (op : queue_op) : Prop :=
  match op with
  | QEnqueue m => packet_ok m /\ q_end cfq + cfil_data_length m < 2 ^ 64
  | QRemove m => In m (q_mq cfq)
  | QDrain => True
  end.

Fixpoint queue_ops_ok (cfq : cfil_queue) (ops : list queue_op) : Prop :=
  match ops with
  | [] => True
  | op :: ops' => queue_op_ok cfq op /\ queue_ops_ok (queue_step cfq op) ops'
  end.

(** A queue whose cursors are the offsets of the packets it holds. *)
Definition queue_sound (cfq : cfil_queue) : Prop :=
  0 <= q_start cfq
  /\ q_end cfq < 2 ^ 64
  /\ Forall packet_ok (q_mq cfq)
  /\ q_start cfq + packets_bytes (q_mq cfq) = q_end cfq.

(** The extra bytes of the clusters of a chain, as the counting loop of
    [cfil_data_length] adds them. *)
Definition chain_ext_bytes (c : list mbuf_seg) : Z :=
  fold_right (fun s acc => (if m_ext s then ext_size s else 0) + acc) 0 c.

(** ** States for the socket pass offset and the inject queue *)

(** The loop of [cfil_set_socket_pass_offset] over the units [l], from
    the values [pass_offset] and [first] its two variables hold. *)
Definition smallest_pass_offset (w : world) (outgoing : bool) (l : list nat)
    (start : Z * bool) : Z * bool :=
  fold_left
    (fun '(pass_offset, first) kcunit =>
       let entry := entry_at w kcunit in
       match cfe_filter entry with
       | None => (pass_offset, first)
       | Some _ =>
           if (first : bool) || (cfe_pass_offset (entrybuf outgoing entry) <? pass_offset)
           then (cfe_pass_offset (entrybuf outgoing entry), false)
           else (pass_offset, first)
       end)
    l start.

(** A flow with the agents 1 and 2 that have passed 300 and 120 outgoing
    bytes. *)
Definition two_passes_world : world :=
  upd_ebuf 2 true (with_pass_offset 120)
    (upd_ebuf 1 true (with_pass_offset 300) (fresh_world tcp_socket [1%nat; 2%nat])).


(** ** The closed event *)

(** [cfil_dispatch_closed_event].  The message carries the byte counts
    and the operation log of the flow; that it was sent is recorded in
    [CFEF_SENT_SOCK_CLOSED].  The trace holds the events of the data path
    and is left as it is. *)
Definition cfil_dispatch_closed_event (w : world) (kcunit : nat) : Z * world :=
  let entry := entry_at w kcunit in
  match cfe_filter entry with
  | None => (0, w)
  | Some cfc =>
      (* Would be wasteful to try when flow controlled *)
      if has_flag (cf_flags (filter_at w cfc)) CFF_FLOW_CONTROLLED
      then dispatch_done w kcunit cfc ENOBUFS
      (* Send a single closed message per filter *)
      else if has_flag (cfe_flags entry) CFEF_SENT_SOCK_CLOSED then (0, w)
      else if negb (has_flag (cfe_flags entry) CFEF_SENT_SOCK_ATTACHED) then (0, w)
      else
        let (error, w1) := ext_call w in                  (* ctl_enqueuedata *)
        if negb (error =? 0) then dispatch_done w1 kcunit cfc error
        else
          let w2 := upd_entry kcunit
                      (fun e => with_cfe_flags (set_flag (cfe_flags e) CFEF_SENT_SOCK_CLOSED) e) w1 in
          dispatch_done w2 kcunit cfc 0
  end.

(** A flow attached to the agent 1, whose control socket is full. *)
Definition flow_controlled_world : world :=
  upd_filter_flags 1 (fun f => set_flag f CFF_FLOW_CONTROLLED) (fresh_world tcp_socket [1%nat]).

(** ** Callbacks of the socket layer *)

Definition ENOTCONN : Z := 57.

(** The values of [how] of sys/socket.h. *)
Definition SHUT_RD : Z := 0.
Definition SHUT_WR : Z := 1.
Definition SHUT_RDWR : Z := 2.

(** The loop of [cfil_sock_notify_shutdown] and of
    [cfil_sock_udp_notify_shutdown_per_flow] over the units. *)
Definition notify_shutdown_loop (how : Z) (w : world) : world :=
  fold_left
    (fun w kcunit =>
       (* Disconnect incoming side *)
       let w1 := if negb (how =? SHUT_WR)
                 then snd (cfil_dispatch_disconnect_event w kcunit false) else w in
       (* Disconnect outgoing side *)
       if negb (how =? SHUT_RD)
       then snd (cfil_dispatch_disconnect_event w1 kcunit true) else w1)
    kcunits w.

(** [cfil_sock_notify_shutdown].  For a datagram socket it is
    [cfil_sock_udp_notify_shutdown (so, how, 0, 0)], which runs the same
    loop on every flow of the socket; this is its effect on the flow at
    hand. *)
Definition cfil_sock_notify_shutdown (w : world) (how : Z) : world :=
  if so_dgram (w_so w) then
    if so_content_filter (w_so w) && so_flow_db (w_so w) then notify_shutdown_loop how w else w
  else if negb (so_content_filter (w_so w)) then w
  else notify_shutdown_loop how w.

(** The stream branch of [cfil_sock_data_pending]: the bytes between the
    pending cursors, limited by the mbuf bytes they use; the function
    asserts that they are fewer than [INT32_MAX] before it returns them as
    an [int32_t]. *)
Definition sock_data_pending (w : world) (outgoing : bool) : result Z :=
  let pending :=
    if so_content_filter (w_so w) then
      let cb := ibuf w outgoing in
      let pending := u64 (cfi_pending_last cb - cfi_pending_first cb) in
      if pending >? cfi_pending_mbcnt cb then cfi_pending_mbcnt cb else pending
    else 0 in
  VERIFY (pending <? INT32_MAX) (Ret (s32 pending)).

(** [cfil_sock_data_pending (sb)]; [outgoing] says that [sb] is the send
    buffer.  For a datagram socket the function is
    [cfil_sock_udp_data_pending], a sum over every flow of the socket's
    flow database, which a [world] does not hold: [None]. *)
Definition cfil_sock_data_pending (w : world) (outgoing : bool) : option (result Z) :=
  if so_dgram (w_so w) then None else Some (sock_data_pending w outgoing).

(** [cfil_sock_data_space (sb)]; [cfil_thread] says that the calling
    thread is the one in [so_snd.sb_cfil_thread].  The assertion is made
    only where the flow is looked at. *)
Definition cfil_sock_data_space (w : world) (outgoing : bool) (cfil_thread : bool)
  : option (result Z) :=
  if so_dgram (w_so w) then None
  else
    Some (if so_content_filter (w_so w) && negb cfil_thread then
            let cb := ibuf w outgoing in
            let pending := u64 (cfi_pending_last cb - cfi_pending_first cb) in
            let pending :=
              if cfi_pending_mbcnt cb >? pending then cfi_pending_mbcnt cb else pending in
            VERIFY (pending <? INT32_MAX) (Ret (s32 pending))
          else Ret (s32 0)).

(** [cfil_sock_shutdown (so, &how)] for a stream socket: the value
    returned, the value left in [how], and the flow; the call panics when
    the assertion of [cfil_sock_data_pending] fails.  [cantrcvmore] and
    [cantsendmore] are [SS_CANTRCVMORE] and [SS_CANTSENDMORE] of
    [so_state].  A datagram socket is handed to [cfil_sock_udp_shutdown],
    which walks the flow database: [None]. *)
Definition cfil_sock_shutdown (w : world) (how : Z) (cantrcvmore cantsendmore : bool)
  : option (result (Z * Z * world)) :=
  if so_dgram (w_so w) then None
  else if negb (so_content_filter (w_so w)) then Some (Ret (0, how, w))
  (* Check the state of the socket before the content filter *)
  else if negb (how =? SHUT_WR) && cantrcvmore then Some (Ret (ENOTCONN, how, w))
  else if negb (how =? SHUT_RD) && cantsendmore then Some (Ret (ENOTCONN, how, w))
  else if has_flag (cfi_flags (w_info w)) CFIF_DROP then Some (Ret (0, how, w))
  else
    (* shutdown read: SHUT_RD or SHUT_RDWR *)
    let rd :=
      if negb (how =? SHUT_WR) then
        if has_flag (cfi_flags (w_info w)) CFIF_SHUT_RD then inl ENOTCONN
        else inr (cfil_sock_notify_shutdown
                    (upd_cfi_flags (fun f => set_flag f CFIF_SHUT_RD) w) SHUT_RD)
      else inr w in
    match rd with
    | inl error => Some (Ret (error, how, w))
    | inr w1 =>
        (* shutdown write: SHUT_WR or SHUT_RDWR *)
        if negb (how =? SHUT_RD) then
          if has_flag (cfi_flags (w_info w1)) CFIF_SHUT_WR then Some (Ret (ENOTCONN, how, w1))
          else
            let w2 := cfil_sock_notify_shutdown
                        (upd_cfi_flags (fun f => set_flag f CFIF_SHUT_WR) w1) SHUT_WR in
            (* When outgoing data is pending, we delay the shutdown *)
            match sock_data_pending w2 true with
            | Panic => Some Panic
            | Ret pending =>
                if negb (pending =? 0) then
                  if how =? SHUT_WR then Some (Ret (EJUSTRETURN, how, w2))
                  else if how =? SHUT_RDWR then Some (Ret (0, SHUT_RD, w2))
                  else Some (Ret (0, how, w2))
                else Some (Ret (0, how, w2))
            end
        else Some (Ret (0, how, w1))
    end.



(** What [cfil_sock_buf_update] and [cfil_sock_udp_buf_update_per_flow]
    do to a flow, for the send buffer ([outgoing]) or the receive
    buffer. *)
Definition sock_buf_update_flow (msize : Z) (w : world) (outgoing : bool) : world :=
  let retry := if outgoing then CFIF_RETRY_INJECT_OUT else CFIF_RETRY_INJECT_IN in
  if negb (has_flag (cfi_flags (w_info w)) retry) then w
  else if cfil_acquire_sockbuf w =? 0
       then snd (cfil_service_inject_queue msize w outgoing) else w.

(** [cfil_sock_buf_update (sb)], with the global [cfil_sbtrim]; for a
    datagram socket, the effect of [cfil_sock_udp_buf_update] on the flow
    at hand. *)
Definition cfil_sock_buf_update (msize : Z) (cfil_sbtrim : bool) (w : world) (outgoing : bool)
  : world :=
  if so_dgram (w_so w) then
    if so_content_filter (w_so w) && so_flow_db (w_so w) then
      if negb cfil_sbtrim then w else sock_buf_update_flow msize w outgoing
    else w
  else if negb (so_content_filter (w_so w)) then w
  else if negb cfil_sbtrim then w
  else sock_buf_update_flow msize w outgoing.

(** [cfil_sock_received_verdict (so)], on [so->so_cfil] ([None] when the
    socket or its flow state is NULL): the flow state it leaves, and
    whether it called [soisconnected]. *)
Definition cfil_sock_received_verdict (so_cfil : option cfil_info) : option cfil_info * bool :=
  match so_cfil with
  | None => (None, false)
  | Some i =>
      let i1 := with_cfi_flags (set_flag (cfi_flags i) CFIF_INITIAL_VERDICT) i in
      (* If socket has already been connected, trigger soisconnected now. *)
      if has_flag (cfi_flags i1) CFIF_SOCKET_CONNECTED
      then (Some (with_cfi_flags (clear_flag (cfi_flags i1) CFIF_SOCKET_CONNECTED) i1), true)
      else (Some i1, false)
  end.

(** [cfil_sock_connected_pending_verdict (so)]: the value returned and the
    flow state. *)
Definition cfil_sock_connected_pending_verdict (so_cfil : option cfil_info)
  : bool * option cfil_info :=
  match so_cfil with
  | None => (false, None)
  | Some i =>
      if has_flag (cfi_flags i) CFIF_INITIAL_VERDICT then (false, Some i)
      else
        (* Remember that this protocol is already connected *)
        (true, Some (with_cfi_flags (set_flag (cfi_flags i) CFIF_SOCKET_CONNECTED) i))
  end.

(** A stream flow that has carried 2^64 - 64 outgoing bytes, all of them
    passed on: the next packet of more than 64 bytes wraps the pending
    cursor. *)
Definition wrapping_world : world :=
  upd_ibuf true
    (fun cb =>
       {| cfi_pending_first := 2 ^ 64 - 64; cfi_pending_last := 2 ^ 64 - 64;
          cfi_pending_mbcnt := 0; cfi_pending_mbnum := 0;
          cfi_tail_drop_cnt := 0; cfi_pass_offset := 2 ^ 64 - 1;
          cfi_inject_q := {| q_start := 2 ^ 64 - 64; q_end := 2 ^ 64 - 64; q_mq := [] |} |})
    (fresh_world tcp_socket [1%nat]).

(** A stream flow with 100 outgoing bytes held by agent 1. *)
Definition holding_world : world :=
  run_effect 256 (fresh_world tcp_socket [1%nat]) [OpSubmit true (packet 1 100)].

(** ** Flags of the flow along the operations *)

(** The flags of the flow are the same in [w] and [w'], but for
    [CFIF_NO_CLOSE_WAIT], which a disconnect event may set. *)
Definition same_flow_flags (w w' : world) : Prop :=
  Z.lor (cfi_flags (w_info w')) CFIF_NO_CLOSE_WAIT
  = Z.lor (cfi_flags (w_info w)) CFIF_NO_CLOSE_WAIT.

(** ** The registry of the filter agents and the flows attached to them *)

Module Ctl.

Definition EADDRINUSE : Z := 48.
Definition ENOPROTOOPT : Z := 42.

Definition CFIL_BEHAVIOR_FLAG_PRESERVE_CONNECTIONS : Z := 0x00000001.

(** [struct content_filter] as the callbacks of the kernel control socket
    and the attachment of a flow read and write it.  [cf_addr] stands for
    the address of the structure, which is what [unitinfo] holds;
    [cf_sock_entries] names an entry by its flow. *)
Record content_filter : Type := ContentFilter {
  cf_addr : nat;
  cf_kcunit : nat;
  cf_flags : Z;
  cf_necp_control_unit : Z;
  cf_sock_count : Z;
  cf_sock_entries : list nat
}.

(** The array [content_filters] (slot i holds unit i + 1, [None] for
    NULL), [cfil_active_count], [cfil_behavior_flags], the list
    [cfil_sock_head] of the flows and [cfil_sock_attached_count]. *)
Record registry : Type := Registry {
  content_filters : list (option content_filter);
  cfil_active_count : Z;
  cfil_behavior_flags : Z;
  cfil_sock_head : list nat;
  cfil_sock_attached_count : Z
}.

Definition with_content_filters (fs : list (option content_filter)) (r : registry) : registry :=
  {| content_filters := fs;
     cfil_active_count := cfil_active_count r;
     cfil_behavior_flags := cfil_behavior_flags r;
     cfil_sock_head := cfil_sock_head r;
     cfil_sock_attached_count := cfil_sock_attached_count r |}.

Definition with_active_count (n : Z) (r : registry) : registry :=
  {| content_filters := content_filters r;
     cfil_active_count := n;
     cfil_behavior_flags := cfil_behavior_flags r;
     cfil_sock_head := cfil_sock_head r;
     cfil_sock_attached_count := cfil_sock_attached_count r |}.

Definition with_behavior_flags (f : Z) (r : registry) : registry :=
  {| content_filters := content_filters r;
     cfil_active_count := cfil_active_count r;
     cfil_behavior_flags := f;
     cfil_sock_head := cfil_sock_head r;
     cfil_sock_attached_count := cfil_sock_attached_count r |}.

Definition with_sock_head (l : list nat) (n : Z) (r : registry) : registry :=
  {| content_filters := content_filters r;
     cfil_active_count := cfil_active_count r;
     cfil_behavior_flags := cfil_behavior_flags r;
     cfil_sock_head := l;
     cfil_sock_attached_count := n |}.

(** [content_filters[kcunit - 1]]; outside the array the model reads
    NULL. *)
Definition filter_slot (r : registry) (kcunit : nat) : option content_filter :=
  match kcunit with
  | O => None
  | S i => default None (content_filters r !! i)
  end.

Definition set_slot (kcunit : nat) (c : option content_filter) (r : registry) : registry :=
  match kcunit with
  | O => r
  | S i => with_content_filters (<[i := c]> (content_filters r)) r
  end.

(** [cfil_ctl_connect] for [sac->sc_unit], with the address [cfc] of the
    structure [zalloc] returned: the value returned, the registry, and
    what was stored in [*unitinfo], if anything.  The buffer for the
    periodic statistics and the callbacks of the flow tracker are not
    represented. *)
Definition cfil_ctl_connect (r : registry) (sc_unit : nat) (cfc : nat)
  : Z * registry * option nat :=
  if (sc_unit =? 0)%nat || (MAX_CONTENT_FILTER <? sc_unit)%nat then (EINVAL, r, None)
  else
    match filter_slot r sc_unit with
    | Some _ => (EADDRINUSE, r, None)
    | None =>
        (* kernel control socket kcunit numbers start at 1 *)
        let c := {| cf_addr := cfc; cf_kcunit := sc_unit; cf_flags := 0;
                    cf_necp_control_unit := 0; cf_sock_count := 0;
                    cf_sock_entries := [] |} in
        let r1 := set_slot sc_unit (Some c) r in
        (0, with_active_count (u32 (cfil_active_count r1 + 1)) r1, Some cfc)
    end.

(** The loop of [cfil_update_behavior_flags] over the slots [l], with the
    value [preserve_connections] holds. *)
Fixpoint preserve_connections_loop (l : list (option content_filter))
    (preserve_connections : bool) : bool :=
  match l with
  | [] => preserve_connections
  | None :: l' => preserve_connections_loop l' preserve_connections
  | Some cfc :: l' =>
      if has_flag (cf_flags cfc) CFF_PRESERVE_CONNECTIONS
      then preserve_connections_loop l' true
      else false                                            (* break *)
  end.

(** [cfil_update_behavior_flags] *)
Definition cfil_update_behavior_flags (r : registry) : registry :=
  with_behavior_flags
    (if preserve_connections_loop (content_filters r) false
     then set_flag (cfil_behavior_flags r) CFIL_BEHAVIOR_FLAG_PRESERVE_CONNECTIONS
     else clear_flag (cfil_behavior_flags r) CFIL_BEHAVIOR_FLAG_PRESERVE_CONNECTIONS)
    r.

(** The options of the control socket. *)
Inductive cfil_opt : Type :=
  | CFIL_OPT_NECP_CONTROL_UNIT
  | CFIL_OPT_GET_SOCKET_INFO
  | CFIL_OPT_PRESERVE_CONNECTIONS
  | CFIL_OPT_other.

(** The test [cfc != content_filters[kcunit - 1]] of the option
    callbacks, for a [unitinfo] that is not NULL: the filter when the two
    are the same. *)
Definition unitinfo_filter (r : registry) (kcunit : nat) (cfc : nat) : option content_filter :=
  match filter_slot r kcunit with
  | Some c => if Nat.eqb (cf_addr c) cfc then Some c else None
  | None => None
  end.

Definition with_cf_necp_control_unit (v : Z) (c : content_filter) : content_filter :=
  {| cf_addr := cf_addr c; cf_kcunit := cf_kcunit c; cf_flags := cf_flags c;
     cf_necp_control_unit := v;
     cf_sock_count := cf_sock_count c; cf_sock_entries := cf_sock_entries c |}.

Definition with_cf_flags (f : Z) (c : content_filter) : content_filter :=
  {| cf_addr := cf_addr c; cf_kcunit := cf_kcunit c; cf_flags := f;
     cf_necp_control_unit := cf_necp_control_unit c;
     cf_sock_count := cf_sock_count c; cf_sock_entries := cf_sock_entries c |}.

Definition with_cf_sock_entries (n : Z) (l : list nat) (c : content_filter) : content_filter :=
  {| cf_addr := cf_addr c; cf_kcunit := cf_kcunit c; cf_flags := cf_flags c;
     cf_necp_control_unit := cf_necp_control_unit c;
     cf_sock_count := n; cf_sock_entries := l |}.

(** [cfil_ctl_setopt]; [data] is the [uint32_t] that [data] points to,
    [len] its length. *)
Definition cfil_ctl_setopt (r : registry) (kcunit : nat) (unitinfo : option nat)
    (opt : cfil_opt) (data : Z) (len : Z) : Z * registry :=
  match unitinfo with
  | None => (EINVAL, r)
  | Some cfc =>
      if (MAX_CONTENT_FILTER <? kcunit)%nat then (EINVAL, r)
      else
        match unitinfo_filter r kcunit cfc with
        | None => (EINVAL, r)
        | Some c =>
            match opt with
            | CFIL_OPT_NECP_CONTROL_UNIT =>
                if len <? 4 then (EINVAL, r)
                else if negb (cf_necp_control_unit c =? 0) then (EINVAL, r)
                else (0, set_slot kcunit (Some (with_cf_necp_control_unit data c)) r)
            | CFIL_OPT_PRESERVE_CONNECTIONS =>
                if len <? 4 then (EINVAL, r)
                else
                  let flags :=
                    if negb (data =? 0)
                    then set_flag (cf_flags c) CFF_PRESERVE_CONNECTIONS
                    else clear_flag (cf_flags c) CFF_PRESERVE_CONNECTIONS in
                  (0, cfil_update_behavior_flags
                        (set_slot kcunit (Some (with_cf_flags flags c)) r))
            | _ => (ENOPROTOOPT, r)
            end
        end
  end.

(** [cfil_ctl_getopt]: the value returned and what is written to [*data],
    if anything; [has_data] says that [data] is not NULL, [len] is
    [*len].  The option [CFIL_OPT_GET_SOCKET_INFO] looks the socket up in
    the protocol control blocks and copies its addresses and process
    identifiers; it is not represented: [None]. *)
Definition cfil_ctl_getopt (r : registry) (kcunit : nat) (unitinfo : option nat)
    (opt : cfil_opt) (has_data : bool) (len : Z) : option (Z * option Z) :=
  match unitinfo with
  | None => Some (EINVAL, None)
  | Some cfc =>
      if (MAX_CONTENT_FILTER <? kcunit)%nat then Some (EINVAL, None)
      else
        match unitinfo_filter r kcunit cfc with
        | None => Some (EINVAL, None)
        | Some c =>
            match opt with
            | CFIL_OPT_NECP_CONTROL_UNIT =>
                if len <? 4 then Some (EINVAL, None)
                else Some (0, if has_data then Some (cf_necp_control_unit c) else None)
            | CFIL_OPT_PRESERVE_CONNECTIONS =>
                if len <? 4 then Some (EINVAL, None)
                else Some (0, if has_data
                              then Some (if has_flag (cf_flags c) CFF_PRESERVE_CONNECTIONS
                                         then 1 else 0)
                              else None)
            | CFIL_OPT_GET_SOCKET_INFO => None
            | CFIL_OPT_other => Some (ENOPROTOOPT, None)
            end
        end
  end.

(** [cfil_filter_present] *)
Definition cfil_filter_present (r : registry) : bool := cfil_active_count r >? 0.

(** A registry with no agent connected and no flow. *)
Definition empty_registry : registry :=
  {| content_filters := replicate MAX_CONTENT_FILTER None;
     cfil_active_count := 0; cfil_behavior_flags := 0;
     cfil_sock_head := []; cfil_sock_attached_count := 0 |}.

(** *** Allocating a flow, attaching it to the filters, freeing it *)

(** [&cfil_info->cfi_entries[kcunit - 1]] *)
Definition info_entry (i : cfil_info) (kcunit : nat) : cfil_entry :=
  match kcunit with
  | O => empty_entry
  | S n => default empty_entry (cfi_entries i !! n)
  end.

Definition set_info_entry (kcunit : nat) (e : cfil_entry) (i : cfil_info) : cfil_info :=
  match kcunit with
  | O => i
  | S n => with_cfi_entries (<[n := e]> (cfi_entries i)) i
  end.

Definition with_cfi_ordered_entries (l : list nat) (i : cfil_info) : cfil_info :=
  {| cfi_flags := cfi_flags i;
     cfi_byte_inbound_count := cfi_byte_inbound_count i;
     cfi_byte_outbound_count := cfi_byte_outbound_count i;
     cfi_snd := cfi_snd i; cfi_rcv := cfi_rcv i;
     cfi_entries := cfi_entries i;
     cfi_ordered_entries := l |}.

(** [cfi_sock_id] as [cfil_info_alloc] makes it from the 64-bit
    [so->so_gencnt] and the 32-bit flow hash: [inp->inp_flowhash] for a
    stream socket, [hash_entry->soflow_flowhash] for a datagram flow. *)
Definition cfi_sock_id (so_gencnt : Z) (inp_flowhash : Z) (hash_entry : option Z) : Z :=
  match hash_entry with
  | None => Z.lor (u64 (Z.shiftl so_gencnt 32)) inp_flowhash
  | Some soflow_flowhash => Z.lor (u64 (Z.shiftl so_gencnt 32)) (Z.land soflow_flowhash 0xffffffff)
  end.

(** [cfil_info_alloc] for the flow [flow]: the registry, the flow state
    and its [cfi_sock_id].  [inp_flowhash] is the value after
    [inp_calc_flowhash], when the code had to call it.  The time stamps,
    the reference count and the statistics are not represented. *)
Definition cfil_info_alloc (r : registry) (flow : nat)
    (so_gencnt inp_flowhash : Z) (hash_entry : option Z) : registry * cfil_info * Z :=
  (with_sock_head (cfil_sock_head r ++ [flow]) (u32 (cfil_sock_attached_count r + 1)) r,
   {| cfi_flags := 0; cfi_byte_inbound_count := 0; cfi_byte_outbound_count := 0;
      cfi_snd := fresh_infobuf; cfi_rcv := fresh_infobuf;
      cfi_entries := replicate MAX_CONTENT_FILTER empty_entry;
      cfi_ordered_entries := [] |},
   cfi_sock_id so_gencnt inp_flowhash hash_entry).

(** "Insert the entry into the list ordered by control unit": the walk
    over [cfi_ordered_entries] that stops at the first entry whose
    control unit is greater, and the insertion before it.
    [control_unit j] is [iter_entry->cfe_necp_control_unit]. *)
Fixpoint ordered_insert (control_unit : nat -> Z) (necp_control_unit : Z) (kcunit : nat)
    (l : list nat) : list nat :=
  match l with
  | [] => [kcunit]
  | iter_entry :: l' =>
      if necp_control_unit <? control_unit iter_entry
      then kcunit :: l                                      (* break *)
      else iter_entry :: ordered_insert control_unit necp_control_unit kcunit l'
  end.

(** One round of the loop of [cfil_info_attach_unit]. *)
Definition attach_unit_step (flow : nat) (filter_control_unit : Z)
    (st : Z * registry * cfil_info) (kcunit : nat) : Z * registry * cfil_info :=
  let '(attached, r, cfil_info) := st in
  match filter_slot r kcunit with
  | None => st                                              (* continue *)
  | Some cfc =>
      if Z.land (cf_necp_control_unit cfc) filter_control_unit =? 0 then st
      else
        let entry := info_entry cfil_info kcunit in
        let entry1 :=
          {| cfe_filter := Some kcunit; cfe_flags := cfe_flags entry;
             cfe_necp_control_unit := cf_necp_control_unit cfc;
             cfe_snd := cfe_snd entry; cfe_rcv := cfe_rcv entry |} in
        let cfc1 :=
          with_cf_sock_entries (u32 (cf_sock_count cfc + 1)) (cf_sock_entries cfc ++ [flow]) cfc in
        let info1 := set_info_entry kcunit entry1 cfil_info in
        let ordered :=
          ordered_insert (fun j => cfe_necp_control_unit (info_entry info1 j))
            (cfe_necp_control_unit entry1) kcunit (cfi_ordered_entries info1) in
        let entry2 := with_cfe_flags (set_flag (cfe_flags entry1) CFEF_CFIL_ATTACHED) entry1 in
        (1, set_slot kcunit (Some cfc1) r,
         set_info_entry kcunit entry2 (with_cfi_ordered_entries ordered info1))
  end.

(** [cfil_info_attach_unit] for the flow [flow]: the value returned, the
    registry and the flow state.  The assertions of
    [verify_content_filter] are not part of the result. *)
Definition cfil_info_attach_unit (r : registry) (flow : nat) (filter_control_unit : Z)
    (info : cfil_info) : Z * registry * cfil_info :=
  fold_left (attach_unit_step flow filter_control_unit) kcunits (0, r, info).

(** [TAILQ_REMOVE] of the element [x]. *)
Fixpoint tailq_remove (x : nat) (l : list nat) : list nat :=
  match l with
  | [] => []
  | y :: l' => if Nat.eqb y x then l' else y :: tailq_remove x l'
  end.

(** One round of the first loop of [cfil_info_free].  The code asserts
    that the entry points to the filter of its slot; where the slot is
    empty the model leaves the registry alone. *)
Definition free_unit_step (flow : nat) (st : registry * cfil_info) (kcunit : nat)
  : registry * cfil_info :=
  let '(r, cfil_info) := st in
  let entry := info_entry cfil_info kcunit in
  match cfe_filter entry with
  | None => st                     (* Don't be silly and try to detach twice *)
  | Some _ =>
      let entry1 :=
        {| cfe_filter := None; cfe_flags := cfe_flags entry;
           cfe_necp_control_unit := 0;
           cfe_snd := cfe_snd entry; cfe_rcv := cfe_rcv entry |} in
      let r1 :=
        match filter_slot r kcunit with
        | Some cfc =>
            set_slot kcunit
              (Some (with_cf_sock_entries (u32 (cf_sock_count cfc - 1))
                       (tailq_remove flow (cf_sock_entries cfc)) cfc)) r
        | None => r
        end in
      (r1, set_info_entry kcunit entry1 cfil_info)
  end.

Definition drain_entrybuf (b : cfe_buf) : cfe_buf :=
  with_ctl_q (snd (cfil_queue_drain (cfe_ctl_q b)))
    (with_pending_q (snd (cfil_queue_drain (cfe_pending_q b))) b).

(** One round of the second loop of [cfil_info_free]. *)
Definition drain_unit_step (info : cfil_info) (kcunit : nat) : cfil_info :=
  let entry := info_entry info kcunit in
  set_info_entry kcunit
    (with_entrybuf false (drain_entrybuf (cfe_rcv entry))
       (with_entrybuf true (drain_entrybuf (cfe_snd entry)) entry))
    info.

(** [cfil_info_free] of a flow that is not NULL: the registry, and the
    flow state at the moment it is handed to [zfree].  Its call of
    [cfil_info_stats_toggle] acts on the list of the flows with periodic
    statistics, which is kept apart (see [Stats]); the counters of
    [cfil_stats] are not represented. *)
Definition cfil_info_free (r : registry) (flow : nat) (info : cfil_info)
  : registry * cfil_info :=
  let '(r1, i1) := fold_left (free_unit_step flow) kcunits (r, info) in
  let r2 :=
    with_sock_head (tailq_remove flow (cfil_sock_head r1))
      (u32 (cfil_sock_attached_count r1 - 1)) r1 in
  let i2 :=
    with_infobuf false (drain_inject_q (cfi_rcv i1))
      (with_infobuf true (drain_inject_q (cfi_snd i1)) i1) in
  (r2, fold_left drain_unit_step kcunits i2).

(** The control unit of the filter of a slot, 0 for an empty slot, and
    whether [cfil_info_attach_unit] selects the slot for
    [filter_control_unit]. *)
Definition slot_control_unit (r : registry) (kcunit : nat) : Z :=
  match filter_slot r kcunit with
  | Some cfc => cf_necp_control_unit cfc
  | None => 0
  end.

Definition unit_selected (r : registry) (filter_control_unit : Z) (kcunit : nat) : bool :=
  match filter_slot r kcunit with
  | Some cfc => negb (Z.land (cf_necp_control_unit cfc) filter_control_unit =? 0)
  | None => false
  end.

(** The order of [cfi_ordered_entries]: by control unit, and by unit
    among the entries of one control unit. *)
Definition before (r : registry) (a b : nat) : Prop :=
  slot_control_unit r a < slot_control_unit r b
  \/ (slot_control_unit r a = slot_control_unit r b /\ (a < b)%nat).

End Ctl.

(** ** Finding a socket by its id *)

(** A protocol control block with what [cfil_socket_from_sock_id] reads
    of it and of its socket: [inp_dead] is
    [inp_state == INPCB_STATE_DEAD], [inp_socket] names the socket,
    [None] for NULL, [inp_so_cfil] is [so_cfil != NULL], [inp_so_flow_db]
    is [so_flow_db != NULL], and [inp_safe_lock] is what
    [cfil_socket_safe_lock] returns for it. *)
Record inpcb : Type := Inpcb {
  inp_dead : bool;
  inp_socket : option nat;
  inp_flowhash : Z;
  inp_so_gencnt : Z;
  inp_so_cfil : bool;
  inp_so_flow_db : bool;
  inp_safe_lock : bool
}.

(** The [LIST_FOREACH] over one list of control blocks: [None] when no
    block passes [test], else the socket of the first that does, if it
    could be locked. *)
Fixpoint pcb_lookup (test : inpcb -> bool) (l : list inpcb) : option (option nat) :=
  match l with
  | [] => None
  | inp :: l' =>
      if test inp
      then Some (if inp_safe_lock inp then inp_socket inp else None)   (* goto done *)
      else pcb_lookup test l'
  end.

Definition is_some {A : Type} (o : option A) : bool :=
  match o with Some _ => true | None => false end.

(** [cfil_socket_from_sock_id] over the lists of [tcbinfo], [udbinfo] and
    [ripcbinfo]. *)
Definition cfil_socket_from_sock_id (tcb udb ripcb : list inpcb)
    (cfil_sock_id : Z) (udp_only : bool) : option nat :=
  let gencnt := Z.shiftr cfil_sock_id 32 in
  let flowhash := u32 (Z.land cfil_sock_id 0x0ffffffff) in
  let tcp_test inp :=
    negb (inp_dead inp) && is_some (inp_socket inp)
    && (inp_flowhash inp =? flowhash)
    && (Z.land (inp_so_gencnt inp) 0x0ffffffff =? gencnt)
    && inp_so_cfil inp in
  let udp_test inp :=
    negb (inp_dead inp) && is_some (inp_socket inp)
    && inp_so_flow_db inp
    && (Z.land (inp_so_gencnt inp) 0x0ffffffff =? gencnt) in
  let find_udp :=
    match pcb_lookup udp_test udb with
    | Some so => so
    | None =>
        match pcb_lookup udp_test ripcb with
        | Some so => so
        | None => None
        end
    end in
  if udp_only then find_udp
  else
    match pcb_lookup tcp_test tcb with
    | Some so => so
    | None => find_udp
    end.

(** The entry [cfil_info_attach_unit] leaves for a selected unit, and
    the filter it leaves in the slot. *)
Definition entry_attached_to (r : Ctl.registry) (kcunit : nat) : cfil_entry :=
  {| cfe_filter := Some kcunit; cfe_flags := CFEF_CFIL_ATTACHED;
     cfe_necp_control_unit := Ctl.slot_control_unit r kcunit;
     cfe_snd := empty_buf; cfe_rcv := empty_buf |}.

Definition filter_with_flow (flow : nat) (c : Ctl.content_filter) : Ctl.content_filter :=
  Ctl.with_cf_sock_entries (u32 (Ctl.cf_sock_count c + 1)) (Ctl.cf_sock_entries c ++ [flow]) c.

(** What holds after the rounds for the units 1 .. n of the loop of
    [cfil_info_attach_unit], started on a blank flow. *)
Record attach_inv (r : Ctl.registry) (flow : nat) (fcu : Z) (n : nat)
    (st : Z * Ctl.registry * cfil_info) : Prop := AttachInv {
  ai_len_r : length (Ctl.content_filters (snd (fst st))) = MAX_CONTENT_FILTER;
  ai_slot : forall k,
      Ctl.filter_slot (snd (fst st)) k
      = if (k <=? n)%nat && Ctl.unit_selected r fcu k
        then option_map (filter_with_flow flow) (Ctl.filter_slot r k)
        else Ctl.filter_slot r k;
  ai_heads : Ctl.cfil_sock_head (snd (fst st)) = Ctl.cfil_sock_head r
             /\ Ctl.cfil_sock_attached_count (snd (fst st)) = Ctl.cfil_sock_attached_count r
             /\ Ctl.cfil_active_count (snd (fst st)) = Ctl.cfil_active_count r
             /\ Ctl.cfil_behavior_flags (snd (fst st)) = Ctl.cfil_behavior_flags r;
  ai_len_i : length (cfi_entries (snd st)) = MAX_CONTENT_FILTER;
  ai_entry : forall k,
      Ctl.info_entry (snd st) k
      = if (k <=? n)%nat && Ctl.unit_selected r fcu k
        then entry_attached_to r k else empty_entry;
  ai_sorted : StronglySorted (Ctl.before r) (cfi_ordered_entries (snd st));
  ai_in : forall k, In k (cfi_ordered_entries (snd st))
                    <-> ((k <= n)%nat /\ Ctl.unit_selected r fcu k = true);
  ai_attached : fst (fst st) = if existsb (Ctl.unit_selected r fcu) (seq 1 n) then 1 else 0;
  ai_bufs : cfi_snd (snd st) = fresh_infobuf /\ cfi_rcv (snd st) = fresh_infobuf
            /\ cfi_flags (snd st) = 0
}.
(** The entry [cfil_info_free] leaves where the flow was attached. *)
Definition entry_detached : cfil_entry :=
  {| cfe_filter := None; cfe_flags := CFEF_CFIL_ATTACHED;
     cfe_necp_control_unit := 0;
     cfe_snd := empty_buf; cfe_rcv := empty_buf |}.

(** What holds after the rounds for the units 1 .. n of the first loop
    of [cfil_info_free], on a flow just attached to the registry [r]
    with the result [r2]. *)
Record free_inv (r r2 : Ctl.registry) (fcu : Z) (n : nat)
    (st : Ctl.registry * cfil_info) : Prop := FreeInv {
  fi_len_r : length (Ctl.content_filters (fst st)) = MAX_CONTENT_FILTER;
  fi_slot : forall k,
      Ctl.filter_slot (fst st) k
      = if (k <=? n)%nat then Ctl.filter_slot r k else Ctl.filter_slot r2 k;
  fi_heads : Ctl.cfil_sock_head (fst st) = Ctl.cfil_sock_head r2
             /\ Ctl.cfil_sock_attached_count (fst st) = Ctl.cfil_sock_attached_count r2
             /\ Ctl.cfil_active_count (fst st) = Ctl.cfil_active_count r2
             /\ Ctl.cfil_behavior_flags (fst st) = Ctl.cfil_behavior_flags r2;
  fi_len_i : length (cfi_entries (snd st)) = MAX_CONTENT_FILTER;
  fi_entry : forall k,
      Ctl.info_entry (snd st) k
      = if Ctl.unit_selected r fcu k
        then (if (k <=? n)%nat then entry_detached else entry_attached_to r k)
        else empty_entry;
  fi_bufs : cfi_snd (snd st) = fresh_infobuf /\ cfi_rcv (snd st) = fresh_infobuf
}.

(** Three agents, on the units 1, 2 and 3, with the control units 4, 1
    and 2. *)
Definition three_agents : Ctl.registry :=
  let agent a u c :=
    Some {| Ctl.cf_addr := a; Ctl.cf_kcunit := u; Ctl.cf_flags := 0;
            Ctl.cf_necp_control_unit := c; Ctl.cf_sock_count := 0;
            Ctl.cf_sock_entries := [] |} in
  {| Ctl.content_filters :=
       [agent 71%nat 1%nat 4; agent 72%nat 2%nat 1; agent 73%nat 3%nat 2;
        None; None; None; None; None];
     Ctl.cfil_active_count := 3; Ctl.cfil_behavior_flags := 0;
     Ctl.cfil_sock_head := []; Ctl.cfil_sock_attached_count := 0 |}.

(** ** The flows that asked for periodic statistics *)

Module Stats.

Definition CFIL_STATS_REPORT_INTERVAL_MIN_MSEC : Z := 500.

(** What [cfil_info_stats_toggle] reads and writes:
    [stats_report_frequency] holds [cfe_stats_report_frequency] of the
    entries of every flow (by flow, then by unit minus one),
    [cfil_sock_head_stats] names the flows on the list,
    [stats_thread_wakeups] counts the calls of [thread_wakeup] on
    [cfil_sock_attached_stats_count]. *)
Record stats : Type := StatsState {
  stats_report_frequency : list (list Z);
  cfil_sock_head_stats : list nat;
  cfil_sock_attached_stats_count : Z;
  stats_thread_wakeups : nat
}.

(** [cfil_info->cfi_entries[kcunit - 1].cfe_stats_report_frequency] *)
Definition entry_frequency (s : stats) (flow kcunit : nat) : Z :=
  match kcunit with
  | O => 0
  | S j => default 0 (default [] (stats_report_frequency s !! flow) !! j)
  end.

Definition set_entry_frequency (flow kcunit : nat) (v : Z) (s : stats) : stats :=
  match kcunit with
  | O => s
  | S j =>
      {| stats_report_frequency :=
           <[flow := <[j := v]> (default [] (stats_report_frequency s !! flow))]>
             (stats_report_frequency s);
         cfil_sock_head_stats := cfil_sock_head_stats s;
         cfil_sock_attached_stats_count := cfil_sock_attached_stats_count s;
         stats_thread_wakeups := stats_thread_wakeups s |}
  end.

(** The [TAILQ_FOREACH] that looks for the flow on the list. *)
Definition on_stats_list (s : stats) (flow : nat) : bool :=
  existsb (Nat.eqb flow) (cfil_sock_head_stats s).

(** "No more filter asking for stats for this cfil_info, remove from
    list." *)
Definition stats_remove (s : stats) (flow : nat) : stats :=
  match cfil_sock_head_stats s with
  | [] => s                                                 (* TAILQ_EMPTY *)
  | _ :: _ =>
      if on_stats_list s flow
      then {| stats_report_frequency := stats_report_frequency s;
              cfil_sock_head_stats := Ctl.tailq_remove flow (cfil_sock_head_stats s);
              cfil_sock_attached_stats_count := u32 (cfil_sock_attached_stats_count s - 1);
              stats_thread_wakeups := stats_thread_wakeups s |}
      else s
  end.

(** [cfil_info_stats_toggle]; [cfil_info] names the flow, [entry] the
    unit of the entry, [None] for NULL.  The time stamp of the entry is
    not represented. *)
Definition cfil_info_stats_toggle (s : stats) (cfil_info : option nat) (entry : option nat)
    (report_frequency : Z) : stats :=
  match cfil_info with
  | None => s
  | Some flow =>
      if negb (report_frequency =? 0) then
        match entry with
        | None => s
        | Some kcunit =>
            (* Update stats reporting frequency. *)
            if negb (entry_frequency s flow kcunit =? report_frequency) then
              let s1 :=
                set_entry_frequency flow kcunit
                  (if report_frequency <? CFIL_STATS_REPORT_INTERVAL_MIN_MSEC
                   then CFIL_STATS_REPORT_INTERVAL_MIN_MSEC else report_frequency) s in
              (* Insert cfil_info into list only if it is not in yet. *)
              if on_stats_list s1 flow then s1
              else
                {| stats_report_frequency := stats_report_frequency s1;
                   cfil_sock_head_stats := cfil_sock_head_stats s1 ++ [flow];
                   cfil_sock_attached_stats_count := u32 (cfil_sock_attached_stats_count s1 + 1);
                   stats_thread_wakeups :=
                     (* Wake up stats thread if this is first flow added *)
                     if cfil_sock_attached_stats_count s1 =? 0
                     then S (stats_thread_wakeups s1) else stats_thread_wakeups s1 |}
            else s
        end
      else
        (* Turn off stats reporting for this filter. *)
        match entry with
        | Some kcunit =>
            (* Already off, no change. *)
            if entry_frequency s flow kcunit =? 0 then s
            else
              let s1 := set_entry_frequency flow kcunit 0 s in
              (* If cfil_info still has filter(s) asking for stats, no need to
                 remove from list. *)
              if existsb (fun k => entry_frequency s1 flow k >? 0) kcunits then s1
              else stats_remove s1 flow
        | None => stats_remove s flow
        end
  end.

(** A request of an agent: the flow, the unit of the agent, the
    frequency of its verdict. *)
Definition toggle (s : stats) (req : nat * nat * Z) : stats :=
  let '(flow, kcunit, report_frequency) := req in
  cfil_info_stats_toggle s (Some flow) (Some kcunit) report_frequency.

(** Whether an entry of the flow asks for statistics. *)
Definition wants_stats (s : stats) (flow : nat) : bool :=
  existsb (fun k => entry_frequency s flow k >? 0) kcunits.

(** The state the list of the flows with statistics is kept in: no flow
    is on the list twice, the count is the length of the list, a flow is
    on the list exactly when one of its entries asks for statistics, and
    a frequency that is set is not below the minimum. *)
Record stats_ok (s : stats) : Prop := StatsOk {
  ok_arrays : forall flow a, stats_report_frequency s !! flow = Some a ->
                             length a = MAX_CONTENT_FILTER;
  ok_nodup : NoDup (cfil_sock_head_stats s);
  ok_count : cfil_sock_attached_stats_count s
             = u32 (Z.of_nat (length (cfil_sock_head_stats s)));
  ok_listed : forall flow, In flow (cfil_sock_head_stats s) <-> wants_stats s flow = true;
  ok_min : forall flow k, entry_frequency s flow k = 0
                          \/ CFIL_STATS_REPORT_INTERVAL_MIN_MSEC <= entry_frequency s flow k
}.

Definition no_stats (flows : nat) : stats :=
  {| stats_report_frequency := replicate flows (replicate MAX_CONTENT_FILTER 0);
     cfil_sock_head_stats := []; cfil_sock_attached_stats_count := 0;
     stats_thread_wakeups := 0 |}.

End Stats.

(* ===================================================================== *)
(** * Properties *)
(* ===================================================================== *)

(** ** Arithmetic *)

Lemma u64_range z : 0 <= u64 z < 2 ^ 64.
Proof. unfold u64. apply Z.mod_pos_bound. lia. Qed.

Lemma u32_range z : 0 <= u32 z < 2 ^ 32.
Proof. unfold u32. apply Z.mod_pos_bound. lia. Qed.

Lemma u64_small z : 0 <= z < 2 ^ 64 -> u64 z = z.
Proof. intros. unfold u64. apply Z.mod_small. lia. Qed.

Lemma u32_small z : 0 <= z < 2 ^ 32 -> u32 z = z.
Proof. intros. unfold u32. apply Z.mod_small. lia. Qed.

Lemma u32_u64 z : u64 (u32 z) = u32 z.
Proof. apply u64_small. pose proof (u32_range z). lia. Qed.

Lemma cfil_data_length_range m : 0 <= cfil_data_length m < 2 ^ 32.
Proof.
  unfold cfil_data_length.
  generalize (cfil_data_start (m_chain m)). intros c.
  assert (H : forall a, 0 <= a < 2 ^ 32 ->
            0 <= fold_left (fun pktlen s => u32 (pktlen + m_len s)) c a < 2 ^ 32).
  { induction c as [|s c IH]; intros a Ha; simpl; [lia|].
    apply IH, u32_range. }
  apply H. lia.
Qed.

Lemma data_length_loop_fst msize c a b n :
  fst (fst (data_length_loop msize c a b n))
  = fold_left (fun pktlen s => u32 (pktlen + m_len s)) c a.
Proof.
  revert a b n. induction c as [|s c IH]; intros a b n; simpl; [reflexivity|].
  apply IH.
Qed.

Lemma cfil_data_length_cnt_fst msize m :
  fst (fst (cfil_data_length_cnt msize m)) = cfil_data_length m.
Proof. unfold cfil_data_length_cnt, cfil_data_length. apply data_length_loop_fst. Qed.

(** ** Flag words *)

Lemma has_flag_set_flag f m m' :
  has_flag (set_flag f m) m' = has_flag f m' || has_flag m m'.
Proof.
  unfold has_flag, set_flag. rewrite Z.land_lor_distr_l.
  destruct (Z.eqb_spec (Z.land f m') 0) as [E1|E1];
    destruct (Z.eqb_spec (Z.land m m') 0) as [E2|E2]; simpl;
    destruct (Z.eqb_spec (Z.lor (Z.land f m') (Z.land m m')) 0) as [E3|E3];
    try reflexivity; exfalso.
  - apply E3. rewrite E1, E2. reflexivity.
  - apply Z.lor_eq_0_iff in E3. tauto.
  - apply Z.lor_eq_0_iff in E3. tauto.
  - apply Z.lor_eq_0_iff in E3. tauto.
Qed.

Lemma has_flag_clear_flag f m m' :
  has_flag (clear_flag f m) m' = has_flag f (Z.land (Z.lnot m) m').
Proof. unfold has_flag, clear_flag. rewrite Z.land_assoc. reflexivity. Qed.

Lemma has_flag_set_same f m : m <> 0 -> has_flag (set_flag f m) m = true.
Proof.
  intros Hm. rewrite has_flag_set_flag.
  assert (has_flag m m = true) as ->; [|apply orb_true_r].
  unfold has_flag. rewrite Z.land_diag. destruct (Z.eqb_spec m 0); [contradiction|reflexivity].
Qed.

(** ** The byte-range queue ([cfil_queue_drain]) *)

Lemma cfil_queue_drain_resets (cfq : cfil_queue) :
  snd (cfil_queue_drain cfq) = cfil_queue_init.
Proof. reflexivity. Qed.

Lemma cfil_queue_drain_value (cfq : cfil_queue) :
  fst (cfil_queue_drain cfq) = u64 (q_start cfq - q_end cfq).
Proof. reflexivity. Qed.

(** C7.  [cfil_queue_drain] leaves the queue empty with both cursors at 0,
    but the value it returns is [q_start - q_end] reduced to 64 bits, not
    the bytes buffered: for a queue that holds 50 bytes at offsets 0 .. 50,
    for which [cfil_queue_len] is 50, it returns 2^64 - 50. *)
Theorem cfil_queue_drain_returns_negated_length :
  cfil_queue_len queue_of_50 = 50
  /\ queue_bytes queue_of_50 = 50
  /\ fst (cfil_queue_drain queue_of_50) = 2 ^ 64 - 50
  /\ fst (cfil_queue_drain queue_of_50) <> cfil_queue_len queue_of_50
  /\ snd (cfil_queue_drain queue_of_50) = cfil_queue_init.
Proof. repeat split; vm_compute; congruence. Qed.

(** ** The flow-control lift ([cfil_ctl_rcvd]) *)

(** The search loop never leaves with an entry: no round ends the loop, so
    its variable is NULL when the list is exhausted. *)
Lemma ctl_rcvd_find_entry_none k kcunit entries :
  ctl_rcvd_find_entry k kcunit entries = None.
Proof.
  induction entries as [|i entries IH]; simpl; [reflexivity|].
  destruct (k_flows k !! i) as [f|]; [|exact IH].
  destruct (f_so f); [|exact IH].
  destruct (negb _); exact IH.
Qed.

(** So one round of the outer loop is all there is, and it services
    nothing. *)
Lemma ctl_rcvd_loop_one_round rounds kcunit k :
  ctl_rcvd_loop (S rounds) kcunit k = Some k.
Proof.
  simpl. rewrite ctl_rcvd_find_entry_none.
  destruct (has_flag _ _); reflexivity.
Qed.

(** C6.  On a resume notification [cfil_ctl_rcvd] clears the filter's
    flow-controlled flag and then looks for a flow-controlled entry with a
    loop that cannot find one, so no queue is walked: for the stalled flow,
    whose entry is flow controlled and holds 100 bytes never shown to the
    agent, the flows and the trace are as before (no data event), although
    servicing that entry's control queue would now deliver the bytes. *)
Theorem cfil_ctl_rcvd_never_services :
  (forall rounds k kcunit unitinfo,
     exists k',
       cfil_ctl_rcvd (S rounds) k kcunit unitinfo = Some k'
       /\ k_flows k' = k_flows k /\ k_log k' = k_log k /\ k_ext k' = k_ext k)
  /\ (forall rounds,
        cfil_ctl_rcvd (S rounds) stalled_kernel 1 (Some 1%nat)
        = Some (with_k_filters (stalled_filters CFF_ACTIVE) stalled_kernel))
  /\ has_flag (cfe_flags stalled_entry) CFEF_FLOW_CONTROLLED = true
  /\ cfil_queue_len (cfe_ctl_q (cfe_snd stalled_entry)) = 100
  /\ cfe_peeked (cfe_snd stalled_entry) = 0
  /\ w_log (snd (cfil_data_service_ctl_q stalled_world 1 true)) = [EvData 1 true 0 100].
Proof.
  split; [|split; [|repeat split; vm_compute; reflexivity]].
  - intros rounds k kcunit unitinfo. unfold cfil_ctl_rcvd.
    destruct unitinfo as [cfc|]; [|eauto].
    destruct (MAX_CONTENT_FILTER <? kcunit)%nat; [eauto|].
    destruct (negb _); [eauto|].
    destruct kcunit as [|j]; [eauto|].
    destruct (k_filters k !! j) as [c|]; [|eauto].
    rewrite ctl_rcvd_loop_one_round.
    destruct (has_flag _ _); eauto.
  - intros rounds. unfold cfil_ctl_rcvd.
    change (MAX_CONTENT_FILTER <? 1)%nat with false. cbv iota.
    change (negb (1 =? 1)%nat) with false. cbv iota.
    change (k_filters stalled_kernel !! 0%nat)
      with (Some {| cf_flags := Z.lor CFF_ACTIVE CFF_FLOW_CONTROLLED; cf_sock_entries := [0%nat] |}).
    cbv iota beta.
    rewrite ctl_rcvd_loop_one_round. vm_compute. reflexivity.
Qed.

(** ** Reading the state after an update *)

Lemma entry_at_upd_entry_ne k k' f w :
  k <> k' -> entry_at (upd_entry k f w) k' = entry_at w k'.
Proof.
  intros Hne. destruct k as [|i]; [reflexivity|].
  destruct k' as [|j]; [reflexivity|]. unfold upd_entry, entry_at.
  destruct (cfi_entries (w_info w) !! i) as [e|] eqn:E; [|reflexivity]. simpl.
  rewrite list_lookup_insert_ne by congruence. reflexivity.
Qed.

Lemma entry_at_upd_entry_eq k f w :
  unit_in_range w k -> entry_at (upd_entry k f w) k = f (entry_at w k).
Proof.
  unfold unit_in_range. intros Hk. destruct k as [|i]; [lia|].
  unfold upd_entry, entry_at.
  destruct (cfi_entries (w_info w) !! i) as [e|] eqn:E.
  - simpl. rewrite list_lookup_insert_eq by (apply lookup_lt_Some in E; exact E). reflexivity.
  - apply lookup_ge_None in E. lia.
Qed.

Lemma upd_entry_out_of_range k f w :
  ~ unit_in_range w k -> upd_entry k f w = w.
Proof.
  unfold unit_in_range. intros Hk. destruct k as [|i]; [reflexivity|].
  unfold upd_entry. destruct (cfi_entries (w_info w) !! i) as [e|] eqn:E; [|reflexivity].
  apply lookup_lt_Some in E. lia.
Qed.

Lemma entry_at_out_of_range k w :
  ~ unit_in_range w k -> entry_at w k = empty_entry.
Proof.
  unfold unit_in_range. intros Hk. destruct k as [|i]; [reflexivity|].
  unfold entry_at. destruct (cfi_entries (w_info w) !! i) as [e|] eqn:E; [|reflexivity].
  apply lookup_lt_Some in E. lia.
Qed.

Lemma unit_in_range_dec w k : {unit_in_range w k} + {~ unit_in_range w k}.
Proof.
  unfold unit_in_range.
  destruct (le_dec 1 k); [|right; lia].
  destruct (le_dec k (length (cfi_entries (w_info w)))); [left|right]; lia.
Qed.

(** Whatever one entry's update leaves alone in that entry, it leaves
    alone in the array. *)
Lemma entry_at_upd_entry_proj {A} (pr : cfil_entry -> A) k k' f w :
  (forall e, pr (f e) = pr e) ->
  pr (entry_at (upd_entry k f w) k') = pr (entry_at w k').
Proof.
  intros Hf. destruct (decide (k = k')) as [->|Hne].
  - destruct (unit_in_range_dec w k') as [Hr|Hr].
    + rewrite entry_at_upd_entry_eq by exact Hr. apply Hf.
    + rewrite upd_entry_out_of_range by exact Hr. reflexivity.
  - rewrite entry_at_upd_entry_ne by exact Hne. reflexivity.
Qed.

Lemma upd_entry_length k f w :
  length (cfi_entries (w_info (upd_entry k f w))) = length (cfi_entries (w_info w)).
Proof.
  destruct k as [|i]; [reflexivity|]. unfold upd_entry.
  destruct (cfi_entries (w_info w) !! i); [|reflexivity]. simpl. apply length_insert.
Qed.

Lemma unit_in_range_upd_entry k f w k' :
  unit_in_range (upd_entry k f w) k' <-> unit_in_range w k'.
Proof. unfold unit_in_range. rewrite upd_entry_length. reflexivity. Qed.

(** What an entry update does not touch at all. *)
Lemma upd_entry_rest k f w :
  w_so (upd_entry k f w) = w_so w
  /\ w_filters (upd_entry k f w) = w_filters w
  /\ w_log (upd_entry k f w) = w_log w
  /\ w_ext (upd_entry k f w) = w_ext w
  /\ cfil_udp_gc_mbuf_num_max (upd_entry k f w) = cfil_udp_gc_mbuf_num_max w
  /\ cfil_udp_gc_mbuf_cnt_max (upd_entry k f w) = cfil_udp_gc_mbuf_cnt_max w
  /\ cfi_flags (w_info (upd_entry k f w)) = cfi_flags (w_info w)
  /\ cfi_snd (w_info (upd_entry k f w)) = cfi_snd (w_info w)
  /\ cfi_rcv (w_info (upd_entry k f w)) = cfi_rcv (w_info w)
  /\ cfi_ordered_entries (w_info (upd_entry k f w)) = cfi_ordered_entries (w_info w)
  /\ cfi_byte_inbound_count (w_info (upd_entry k f w)) = cfi_byte_inbound_count (w_info w)
  /\ cfi_byte_outbound_count (w_info (upd_entry k f w)) = cfi_byte_outbound_count (w_info w).
Proof.
  destruct k as [|i]; [repeat split|]. unfold upd_entry.
  destruct (cfi_entries (w_info w) !! i); repeat split.
Qed.

Lemma ibuf_upd_entry k f w d : ibuf (upd_entry k f w) d = ibuf w d.
Proof.
  unfold ibuf, infobuf. destruct (upd_entry_rest k f w) as (_&_&_&_&_&_&_&Hs&Hr&_).
  rewrite Hs, Hr. reflexivity.
Qed.

Lemma ebuf_upd_ebuf_eq k o g w :
  unit_in_range w k -> ebuf (upd_ebuf k o g w) k o = g (ebuf w k o).
Proof.
  intros Hk. unfold ebuf, upd_ebuf. rewrite entry_at_upd_entry_eq by exact Hk.
  destruct o; reflexivity.
Qed.

Lemma ebuf_upd_ebuf_ne k k' o o' g w :
  k <> k' -> ebuf (upd_ebuf k o g w) k' o' = ebuf w k' o'.
Proof.
  intros Hne. unfold ebuf, upd_ebuf. rewrite entry_at_upd_entry_ne by exact Hne. reflexivity.
Qed.

Lemma ebuf_upd_ebuf_other_dir k k' o g w :
  ebuf (upd_ebuf k o g w) k' (negb o) = ebuf w k' (negb o).
Proof.
  unfold ebuf, upd_ebuf.
  apply (entry_at_upd_entry_proj (entrybuf (negb o))). intros e. destruct o; reflexivity.
Qed.

(** An update of an entry buffer that keeps a field keeps it in the
    array. *)
Lemma ebuf_upd_ebuf_proj {A} (pr : cfe_buf -> A) k k' o o' g w :
  (forall b, pr (g b) = pr b) ->
  pr (ebuf (upd_ebuf k o g w) k' o') = pr (ebuf w k' o').
Proof.
  intros Hg. unfold ebuf, upd_ebuf.
  apply (entry_at_upd_entry_proj (fun e => pr (entrybuf o' e))).
  intros e. destruct o, o'; simpl; auto.
Qed.

Lemma cfe_filter_upd_ebuf k k' o g w :
  cfe_filter (entry_at (upd_ebuf k o g w) k') = cfe_filter (entry_at w k').
Proof.
  unfold upd_ebuf. apply (entry_at_upd_entry_proj cfe_filter). intros e. destruct o; reflexivity.
Qed.

Lemma cfe_flags_upd_ebuf k k' o g w :
  cfe_flags (entry_at (upd_ebuf k o g w) k') = cfe_flags (entry_at w k').
Proof.
  unfold upd_ebuf. apply (entry_at_upd_entry_proj cfe_flags). intros e. destruct o; reflexivity.
Qed.

Lemma ebuf_upd_entry_flags k k' g w o :
  ebuf (upd_entry k (fun e => with_cfe_flags (g e) e) w) k' o = ebuf w k' o.
Proof. unfold ebuf. apply (entry_at_upd_entry_proj (entrybuf o)). intros e. destruct o; reflexivity. Qed.

Lemma cfe_filter_upd_entry_flags k k' g w :
  cfe_filter (entry_at (upd_entry k (fun e => with_cfe_flags (g e) e) w) k')
  = cfe_filter (entry_at w k').
Proof. apply (entry_at_upd_entry_proj cfe_filter). reflexivity. Qed.

Lemma entry_at_upd_ibuf o g w k : entry_at (upd_ibuf o g w) k = entry_at w k.
Proof. destruct k, o; reflexivity. Qed.

Lemma ibuf_upd_ibuf_eq o g w : ibuf (upd_ibuf o g w) o = g (ibuf w o).
Proof. destruct o; reflexivity. Qed.

Lemma ibuf_upd_ibuf_other o g w : ibuf (upd_ibuf o g w) (negb o) = ibuf w (negb o).
Proof. destruct o; reflexivity. Qed.

Lemma entry_at_upd_cfi_flags g w k : entry_at (upd_cfi_flags g w) k = entry_at w k.
Proof. destruct k; reflexivity. Qed.

Lemma entry_at_upd_filter_flags u g w k : entry_at (upd_filter_flags u g w) k = entry_at w k.
Proof.
  destruct u as [|i]; [reflexivity|]. unfold upd_filter_flags.
  destruct (w_filters w !! i); destruct k; reflexivity.
Qed.

Lemma w_info_upd_filter_flags u g w : w_info (upd_filter_flags u g w) = w_info w.
Proof.
  destruct u as [|i]; [reflexivity|]. unfold upd_filter_flags.
  destruct (w_filters w !! i); reflexivity.
Qed.

Lemma upd_filter_flags_rest u g w :
  w_so (upd_filter_flags u g w) = w_so w
  /\ w_log (upd_filter_flags u g w) = w_log w
  /\ w_ext (upd_filter_flags u g w) = w_ext w
  /\ cfil_udp_gc_mbuf_num_max (upd_filter_flags u g w) = cfil_udp_gc_mbuf_num_max w
  /\ cfil_udp_gc_mbuf_cnt_max (upd_filter_flags u g w) = cfil_udp_gc_mbuf_cnt_max w.
Proof.
  destruct u as [|i]; [repeat split|]. unfold upd_filter_flags.
  destruct (w_filters w !! i); repeat split.
Qed.

Lemma ext_call_rest w :
  w_so (snd (ext_call w)) = w_so w
  /\ w_info (snd (ext_call w)) = w_info w
  /\ w_filters (snd (ext_call w)) = w_filters w
  /\ w_log (snd (ext_call w)) = w_log w
  /\ cfil_udp_gc_mbuf_num_max (snd (ext_call w)) = cfil_udp_gc_mbuf_num_max w
  /\ cfil_udp_gc_mbuf_cnt_max (snd (ext_call w)) = cfil_udp_gc_mbuf_cnt_max w.
Proof. unfold ext_call. destruct (w_ext w); repeat split. Qed.

Lemma entry_at_ext_call w k : entry_at (snd (ext_call w)) k = entry_at w k.
Proof. unfold ext_call. destruct (w_ext w); destruct k; reflexivity. Qed.

(** ** Queue servicing is made of elementary moves *)

Lemma chain_steps_mono o units units' w w' :
  (forall k, In k units -> In k units') ->
  chain_steps o units w w' -> chain_steps o units' w w'.
Proof.
  intros Hsub H. induction H.
  - apply cs_refl.
  - eapply cs_trans; eassumption.
  - apply cs_attach; auto.
  - apply cs_disconnect; auto.
  - apply cs_data; auto.
  - apply cs_peeked; auto.
  - apply cs_pass; auto.
  - apply cs_remove; auto.
  - apply cs_enqueue; auto.
  - apply cs_inject; auto.
Qed.

Lemma ctl_q_peek_loop_steps o units k mq off w :
  In k units -> chain_steps o units w (ctl_q_peek_loop k o mq off w).
Proof.
  intros Hk. revert off w. induction mq as [|data mq IH]; intros off w; simpl.
  - apply cs_refl.
  - destruct (off <? _); [|apply cs_refl].
    destruct (_ <=? _); [apply IH|].
    set (copyoffset := u32 (u64 (cfe_peeked (ebuf w k o) - off))).
    set (copylen := if _ >? _ then _ else _).
    destruct (copylen =? 0); [apply cs_refl|].
    pose proof (cs_data o units k data copyoffset copylen w Hk) as Hd.
    destruct (cfil_dispatch_data_event w k o data copyoffset copylen) as [error w1].
    simpl in Hd.
    destruct (negb (error =? 0)); [exact Hd|].
    pose proof (cs_peeked o units k copylen w1 Hk) as Hp.
    destruct (_ <? _).
    + eapply cs_trans; [exact Hd|exact Hp].
    + eapply cs_trans; [exact Hd|]. eapply cs_trans; [exact Hp|]. apply IH.
Qed.

Lemma service_ctl_q_gate_steps o units k w :
  In k units ->
  match service_ctl_q_gate w k with
  | inl (_, w') => chain_steps o units w w'
  | inr w' => chain_steps o units w w'
  end.
Proof.
  intros Hk. unfold service_ctl_q_gate.
  destruct (negb (has_flag _ CFEF_SENT_SOCK_ATTACHED)).
  - pose proof (cs_attach o units k w Hk) as Ha.
    destruct (cfil_dispatch_attach_event w k) as [error w1]. simpl in Ha.
    destruct (negb (error =? 0)); exact Ha.
  - destruct (negb _); apply cs_refl.
Qed.

Lemma cfil_data_service_ctl_q_with_steps o units k sp w :
  In k units ->
  (forall w0, chain_steps o units w0 (snd (sp w0))) ->
  chain_steps o units w (snd (cfil_data_service_ctl_q_with sp w k o)).
Proof.
  intros Hk Hsp. unfold cfil_data_service_ctl_q_with.
  pose proof (service_ctl_q_gate_steps o units k w Hk) as Hg.
  destruct (service_ctl_q_gate w k) as [[e w']|w1]; [exact Hg|].
  set (w2 := upd_ebuf k o _ w1).
  assert (H2 : chain_steps o units w1 w2) by (apply cs_pass; exact Hk).
  set (w3 := ctl_q_peek_loop k o _ _ w2).
  assert (H3 : chain_steps o units w2 w3) by (apply ctl_q_peek_loop_steps; exact Hk).
  pose proof (Hsp w3) as H4. destruct (sp w3) as [error w4]. simpl in H4.
  assert (H04 : chain_steps o units w w4).
  { eapply cs_trans; [exact Hg|]. eapply cs_trans; [exact H2|].
    eapply cs_trans; [exact H3|exact H4]. }
  destruct (negb (error =? 0)); [exact H04|].
  destruct o; (destruct (_ && _); [|exact H04]); simpl;
    (eapply cs_trans; [exact H04|]); apply cs_disconnect; exact Hk.
Qed.

Lemma pending_q_loop_steps o units k next rounds passlen curlen error w :
  In k units ->
  (forall c e w0, call_ok c -> chain_steps o units w0 (snd (next c e w0))) ->
  chain_steps o units w (snd (pending_q_loop next rounds k o passlen curlen error w)).
Proof.
  intros Hk Hnext. revert curlen error w.
  induction rounds as [|rounds IH]; intros curlen error w; simpl; [apply cs_refl|].
  destruct (cfil_queue_first _) as [data|]; [|apply cs_refl].
  destruct (_ >? _); [apply cs_refl|].
  set (w1 := upd_ebuf k o _ w).
  assert (H1 : chain_steps o units w w1) by (apply cs_remove; exact Hk).
  pose proof (Hnext (CallFilter data (cfil_data_length data)) error w1 eq_refl) as H2.
  destruct (next _ error w1) as [error' w2]. simpl in H2.
  eapply cs_trans; [|apply IH].
  eapply cs_trans; [exact H1|]. eapply cs_trans; [exact H2|].
  destruct (error' =? 0); [apply cs_inject; exact Hk|apply cs_refl].
Qed.

Lemma cfil_service_pending_queue_with_steps o units k next w :
  In k units ->
  (forall c e w0, call_ok c -> chain_steps o units w0 (snd (next c e w0))) ->
  chain_steps o units w (snd (cfil_service_pending_queue_with next k o w)).
Proof.
  intros Hk Hnext. unfold cfil_service_pending_queue_with.
  destruct (cfil_queue_empty _).
  - apply Hnext. exact I.
  - apply pending_q_loop_steps; assumption.
Qed.

Lemma cfil_data_filter_with_steps o units k next data w :
  In k units ->
  (forall c e w0, call_ok c -> chain_steps o units w0 (snd (next c e w0))) ->
  chain_steps o units w
    (snd (cfil_data_filter_with next w k o data (cfil_data_length data))).
Proof.
  intros Hk Hnext. unfold cfil_data_filter_with.
  destruct (cfe_filter _); [|apply cs_refl].
  set (w1 := upd_ebuf k o _ w).
  assert (H1 : chain_steps o units w w1) by (apply cs_enqueue; exact Hk).
  pose proof (cfil_data_service_ctl_q_with_steps o units k
                (cfil_service_pending_queue_with next k o) w1 Hk) as H2.
  destruct (cfil_data_service_ctl_q_with _ w1 k o) as [e w2]. simpl in *.
  eapply cs_trans; [exact H1|]. apply H2.
  intros w0. apply cfil_service_pending_queue_with_steps; assumption.
Qed.

Lemma chain_run_steps o rest c error w :
  call_ok c -> chain_steps o rest w (snd (chain_run o rest c error w)).
Proof.
  revert c error w. induction rest as [|k rest IH]; intros c error w Hc; simpl.
  - apply cs_refl.
  - assert (Hrest : forall c e w0, call_ok c ->
              chain_steps o (k :: rest) w0 (snd (chain_run o rest c e w0))).
    { intros c0 e0 w0 Hc0. eapply chain_steps_mono; [|apply IH; exact Hc0].
      intros k0 Hk0. right. exact Hk0. }
    assert (Hk : In k (k :: rest)) by (left; reflexivity).
    destruct c as [data datalen|].
    + simpl in Hc. subst datalen.
      pose proof (cfil_data_filter_with_steps o (k :: rest) k (chain_run o rest) data w Hk Hrest) as H1.
      destruct (cfil_data_filter_with _ w k o data _) as [error' w']. simpl in H1.
      destruct (error' =? 0); [|exact H1].
      eapply cs_trans; [exact H1|]. apply Hrest. reflexivity.
    + pose proof (cfil_data_service_ctl_q_with_steps o (k :: rest) k
                    (cfil_service_pending_queue_with (chain_run o rest) k o) w Hk) as H1.
      destruct (cfil_data_service_ctl_q_with _ w k o) as [error' w']. simpl in H1.
      assert (H1' : chain_steps o (k :: rest) w w').
      { apply H1. intros w0. apply cfil_service_pending_queue_with_steps; assumption. }
      destruct (error' =? 0); [|exact H1'].
      eapply cs_trans; [exact H1'|]. apply Hrest. exact I.
Qed.

(** ** What queue servicing leaves alone *)

Lemma chain_frame_refl o units w : chain_frame o units w w.
Proof. constructor; reflexivity. Qed.

Lemma chain_frame_trans o units w1 w2 w3 :
  chain_frame o units w1 w2 -> chain_frame o units w2 w3 -> chain_frame o units w1 w3.
Proof.
  intros [] []. constructor; intros;
    repeat match goal with H : _ |- _ => rewrite H by assumption end; reflexivity.
Qed.

(** Two states that agree on everything the frame speaks of. *)
Lemma chain_frame_of_same o units w w' :
  w_so w' = w_so w ->
  cfi_ordered_entries (w_info w') = cfi_ordered_entries (w_info w) ->
  length (cfi_entries (w_info w')) = length (cfi_entries (w_info w)) ->
  cfil_udp_gc_mbuf_num_max w' = cfil_udp_gc_mbuf_num_max w ->
  cfil_udp_gc_mbuf_cnt_max w' = cfil_udp_gc_mbuf_cnt_max w ->
  (forall k, cfe_filter (entry_at w' k) = cfe_filter (entry_at w k)) ->
  (forall k d, ebuf w' k d = ebuf w k d) ->
  cfi_flags (w_info w') = cfi_flags (w_info w) ->
  (forall d, ibuf w' d = ibuf w d) ->
  (forall d, bytes_submitted d (w_log w') = bytes_submitted d (w_log w)) ->
  (forall d, bytes_released d (w_log w') = bytes_released d (w_log w)) ->
  chain_frame o units w w'.
Proof.
  intros Hso Hord Hlen Hn Hc Hf Hb Hfl Hi Hs Hr.
  constructor; intros; rewrite ?Hb, ?Hi, ?Hfl; auto.
Qed.

Lemma chain_frame_upd_entry_flags o units k g w :
  chain_frame o units w (upd_entry k (fun e => with_cfe_flags (g e) e) w).
Proof.
  destruct (upd_entry_rest k (fun e => with_cfe_flags (g e) e) w)
    as (Hso&_&Hlog&_&Hn&Hc&Hfl&_&_&Hord&_).
  apply chain_frame_of_same; auto.
  - apply upd_entry_length.
  - intros. apply cfe_filter_upd_entry_flags.
  - intros. apply ebuf_upd_entry_flags.
  - intros. apply ibuf_upd_entry.
  - intros. rewrite Hlog. reflexivity.
  - intros. rewrite Hlog. reflexivity.
Qed.

Lemma chain_frame_upd_filter_flags o units u g w :
  chain_frame o units w (upd_filter_flags u g w).
Proof.
  destruct (upd_filter_flags_rest u g w) as (Hso&Hlog&_&Hn&Hc).
  apply chain_frame_of_same; auto; intros;
    rewrite ?w_info_upd_filter_flags, ?Hlog; auto.
  - rewrite entry_at_upd_filter_flags. reflexivity.
  - unfold ebuf. rewrite entry_at_upd_filter_flags. reflexivity.
  - unfold ibuf. rewrite w_info_upd_filter_flags. reflexivity.
Qed.

Lemma chain_frame_ext_call o units w : chain_frame o units w (snd (ext_call w)).
Proof.
  destruct (ext_call_rest w) as (Hso&Hi&_&Hlog&Hn&Hc).
  apply chain_frame_of_same; auto; intros; rewrite ?Hi, ?Hlog; auto.
  - rewrite entry_at_ext_call. reflexivity.
  - unfold ebuf. rewrite entry_at_ext_call. reflexivity.
  - unfold ibuf. rewrite Hi. reflexivity.
Qed.

Lemma chain_frame_log_event o units ev w :
  quiet_event ev -> chain_frame o units w (log_event ev w).
Proof.
  intros Hq. apply chain_frame_of_same; auto; intros;
    destruct ev; simpl in *; try contradiction; reflexivity.
Qed.

Lemma chain_frame_no_close_wait o units w :
  chain_frame o units w (upd_cfi_flags (fun f => set_flag f CFIF_NO_CLOSE_WAIT) w).
Proof.
  constructor; intros; try reflexivity.
  simpl. unfold set_flag. rewrite <- Z.lor_assoc, Z.lor_diag. reflexivity.
Qed.

Lemma upd_ebuf_rest k o g w :
  w_so (upd_ebuf k o g w) = w_so w
  /\ w_filters (upd_ebuf k o g w) = w_filters w
  /\ w_log (upd_ebuf k o g w) = w_log w
  /\ w_ext (upd_ebuf k o g w) = w_ext w
  /\ cfil_udp_gc_mbuf_num_max (upd_ebuf k o g w) = cfil_udp_gc_mbuf_num_max w
  /\ cfil_udp_gc_mbuf_cnt_max (upd_ebuf k o g w) = cfil_udp_gc_mbuf_cnt_max w
  /\ cfi_flags (w_info (upd_ebuf k o g w)) = cfi_flags (w_info w)
  /\ cfi_ordered_entries (w_info (upd_ebuf k o g w)) = cfi_ordered_entries (w_info w)
  /\ length (cfi_entries (w_info (upd_ebuf k o g w))) = length (cfi_entries (w_info w))
  /\ (forall d, ibuf (upd_ebuf k o g w) d = ibuf w d).
Proof.
  unfold upd_ebuf.
  match goal with |- context [upd_entry k ?f w] =>
    destruct (upd_entry_rest k f w) as (Hso&Hf&Hlog&He&Hn&Hc&Hfl&_&_&Hord&_) end.
  repeat split; auto.
  - apply upd_entry_length.
  - intros. apply ibuf_upd_entry.
Qed.

(** An update of one entry buffer of direction [o] that keeps its two
    offsets. *)
Lemma chain_frame_upd_ebuf o units k g w :
  In k units ->
  (forall b, cfe_pass_offset (g b) = cfe_pass_offset b) ->
  (forall b, cfe_peek_offset (g b) = cfe_peek_offset b) ->
  chain_frame o units w (upd_ebuf k o g w).
Proof.
  intros Hk Hpass Hpeek.
  destruct (upd_ebuf_rest k o g w) as (Hso&_&Hlog&_&Hn&Hc&Hfl&Hord&Hlen&Hib).
  constructor; intros; rewrite ?Hib, ?Hlog, ?Hfl; auto.
  - apply cfe_filter_upd_ebuf.
  - apply (ebuf_upd_ebuf_proj cfe_pass_offset). exact Hpass.
  - apply (ebuf_upd_ebuf_proj cfe_peek_offset). exact Hpeek.
  - apply ebuf_upd_ebuf_other_dir.
  - apply ebuf_upd_ebuf_ne. intros ->. contradiction.
Qed.

Lemma chain_frame_upd_inject_q o units g w :
  (forall cb, cfi_pending_first (g cb) = cfi_pending_first cb) ->
  (forall cb, cfi_pending_last (g cb) = cfi_pending_last cb) ->
  (forall cb, cfi_pending_mbcnt (g cb) = cfi_pending_mbcnt cb) ->
  (forall cb, cfi_pending_mbnum (g cb) = cfi_pending_mbnum cb) ->
  (forall cb, cfi_tail_drop_cnt (g cb) = cfi_tail_drop_cnt cb) ->
  (forall cb, cfi_pass_offset (g cb) = cfi_pass_offset cb) ->
  chain_frame o units w (upd_ibuf o g w).
Proof.
  intros H1 H2 H3 H4 H5 H6.
  constructor; intros; rewrite ?ibuf_upd_ibuf_eq, ?ibuf_upd_ibuf_other; auto;
    try (unfold ebuf; rewrite entry_at_upd_ibuf; reflexivity);
    try (rewrite entry_at_upd_ibuf; reflexivity);
    destruct o; reflexivity.
Qed.

Lemma chain_frame_dispatch_done o units w k cfc error :
  chain_frame o units w (snd (dispatch_done w k cfc error)).
Proof.
  unfold dispatch_done. destruct (error =? ENOBUFS); simpl; [|apply chain_frame_refl].
  eapply chain_frame_trans; [|apply chain_frame_upd_filter_flags].
  apply chain_frame_upd_entry_flags.
Qed.

(** Steps through a body of nested updates, outermost first. *)
Ltac frame_step :=
  match goal with
  | |- chain_frame _ _ ?w ?w => apply chain_frame_refl
  | H : chain_frame ?o ?u ?w ?w' |- chain_frame ?o ?u ?w ?w' => exact H
  | |- chain_frame _ _ _ (snd (dispatch_done _ _ _ _)) =>
      eapply chain_frame_trans; [|apply chain_frame_dispatch_done]
  | |- chain_frame _ _ _ (log_event _ _) =>
      eapply chain_frame_trans; [|apply chain_frame_log_event; exact I]
  | |- chain_frame _ _ _ (upd_entry _ (fun e => with_cfe_flags _ e) _) =>
      eapply chain_frame_trans; [|apply chain_frame_upd_entry_flags]
  | |- chain_frame _ _ _ (upd_filter_flags _ _ _) =>
      eapply chain_frame_trans; [|apply chain_frame_upd_filter_flags]
  | |- chain_frame _ _ _ (upd_cfi_flags (fun f => set_flag f CFIF_NO_CLOSE_WAIT) _) =>
      eapply chain_frame_trans; [|apply chain_frame_no_close_wait]
  | |- chain_frame _ _ _ (snd (ext_call _)) =>
      eapply chain_frame_trans; [|apply chain_frame_ext_call]
  end.

(** Names the state after a call into a collaborator. *)
Ltac name_ext_call :=
  match goal with
  | |- context [ext_call ?w] =>
      let H := fresh "Hext" in
      pose proof (fun o u => chain_frame_ext_call o u w) as H;
      destruct (ext_call w) as [? ?]; simpl in H
  end.

Lemma chain_frame_attach_event o units w k :
  chain_frame o units w (snd (cfil_dispatch_attach_event w k)).
Proof.
  unfold cfil_dispatch_attach_event.
  destruct (negb (so_proto_ok _)); [apply chain_frame_refl|].
  destruct (match k with O => _ | S _ => _ end) as [k'|]; [|apply chain_frame_refl].
  destruct (cfe_filter _) as [cfc|]; [|apply chain_frame_refl].
  destruct (has_flag _ CFEF_SENT_SOCK_ATTACHED); [apply chain_frame_refl|].
  destruct (has_flag _ CFF_FLOW_CONTROLLED); [repeat frame_step|].
  name_ext_call. destruct (negb (_ =? 0)).
  { frame_step. apply Hext. }
  name_ext_call. destruct (negb (_ =? 0)).
  { frame_step. eapply chain_frame_trans; [apply Hext|apply Hext0]. }
  repeat frame_step. eapply chain_frame_trans; [apply Hext|apply Hext0].
Qed.

Lemma chain_frame_disconnect_event o units w k d :
  chain_frame o units w (snd (cfil_dispatch_disconnect_event w k d)).
Proof.
  unfold cfil_dispatch_disconnect_event.
  destruct (cfe_filter _) as [cfc|]; [|apply chain_frame_refl].
  set (w0 := if _ && _ then _ else w).
  assert (H0 : chain_frame o units w w0).
  { subst w0. destruct (_ && _); repeat frame_step. }
  clearbody w0.
  destruct (_ || _); [exact H0|].
  destruct (d && negb _); [repeat frame_step|].
  destruct (has_flag _ CFF_FLOW_CONTROLLED); [repeat frame_step|].
  name_ext_call. destruct (negb (_ =? 0)).
  { frame_step. eapply chain_frame_trans; [exact H0|apply Hext]. }
  repeat frame_step. eapply chain_frame_trans; [exact H0|apply Hext].
Qed.

Lemma chain_frame_data_event o units w k d data copyoffset copylen :
  chain_frame o units w (snd (cfil_dispatch_data_event w k d data copyoffset copylen)).
Proof.
  unfold cfil_dispatch_data_event.
  destruct (cfe_filter _) as [cfc|]; [|apply chain_frame_refl].
  destruct (has_flag _ CFF_FLOW_CONTROLLED); [repeat frame_step|].
  name_ext_call. destruct (negb (_ =? 0)).
  { frame_step. apply Hext. }
  name_ext_call. destruct (negb (_ =? 0)).
  { frame_step. eapply chain_frame_trans; [apply Hext|apply Hext0]. }
  name_ext_call. destruct (negb (_ =? 0)).
  { frame_step. eapply chain_frame_trans; [apply Hext|].
    eapply chain_frame_trans; [apply Hext0|apply Hext1]. }
  repeat frame_step. eapply chain_frame_trans; [apply Hext|].
  eapply chain_frame_trans; [apply Hext0|apply Hext1].
Qed.

Lemma ctl_q_pass_loop_offsets rounds b :
  cfe_pass_offset (ctl_q_pass_loop rounds b) = cfe_pass_offset b
  /\ cfe_peek_offset (ctl_q_pass_loop rounds b) = cfe_peek_offset b.
Proof.
  revert b. induction rounds as [|rounds IH]; intros b; simpl; [split; reflexivity|].
  destruct (cfil_queue_first _) as [data|]; [|split; reflexivity].
  destruct (_ <? _); [|split; reflexivity].
  set (copylen := if _ <=? _ then _ else _).
  set (b1 := if _ >? _ then _ else b).
  assert (H1 : cfe_pass_offset b1 = cfe_pass_offset b /\ cfe_peek_offset b1 = cfe_peek_offset b).
  { subst b1. destruct (_ >? _); split; reflexivity. }
  destruct (copylen <? _); [exact H1|].
  match goal with |- context [ctl_q_pass_loop rounds ?b'] =>
    destruct (IH b') as [Ha Hb] end.
  rewrite Ha, Hb. exact H1.
Qed.

Lemma chain_frame_inject_enqueue o units k data datalen w :
  chain_frame o units w (inject_enqueue k o data datalen w).
Proof.
  unfold inject_enqueue. frame_step. apply chain_frame_upd_inject_q; reflexivity.
Qed.

(** Every elementary move respects the frame. *)
Lemma chain_steps_frame o units w w' :
  chain_steps o units w w' -> chain_frame o units w w'.
Proof.
  intros H. induction H.
  - apply chain_frame_refl.
  - eapply chain_frame_trans; eassumption.
  - apply chain_frame_attach_event.
  - apply chain_frame_disconnect_event.
  - apply chain_frame_data_event.
  - apply chain_frame_upd_ebuf; [assumption|reflexivity|reflexivity].
  - apply chain_frame_upd_ebuf; [assumption| |]; intros b; apply ctl_q_pass_loop_offsets.
  - apply chain_frame_upd_ebuf; [assumption|reflexivity|reflexivity].
  - apply chain_frame_upd_ebuf; [assumption|reflexivity|reflexivity].
  - apply chain_frame_inject_enqueue.
Qed.

Lemma chain_run_frame o rest c error w :
  call_ok c -> chain_frame o rest w (snd (chain_run o rest c error w)).
Proof. intros Hc. apply chain_steps_frame, chain_run_steps, Hc. Qed.

Lemma cfil_data_service_ctl_q_steps w k o :
  chain_steps o (k :: slist_after k (cfi_ordered_entries (w_info w))) w
    (snd (cfil_data_service_ctl_q w k o)).
Proof.
  unfold cfil_data_service_ctl_q.
  apply cfil_data_service_ctl_q_with_steps; [left; reflexivity|].
  intros w0. apply cfil_service_pending_queue_with_steps; [left; reflexivity|].
  intros c e w1 Hc. eapply chain_steps_mono; [|apply chain_run_steps; exact Hc].
  intros k0 Hk0. right. exact Hk0.
Qed.

Lemma cfil_service_pending_queue_steps w k o :
  chain_steps o (k :: slist_after k (cfi_ordered_entries (w_info w))) w
    (snd (cfil_service_pending_queue w k o)).
Proof.
  unfold cfil_service_pending_queue.
  apply cfil_service_pending_queue_with_steps; [left; reflexivity|].
  intros c e w1 Hc. eapply chain_steps_mono; [|apply chain_run_steps; exact Hc].
  intros k0 Hk0. right. exact Hk0.
Qed.

Lemma cfil_data_service_ctl_q_frame w k o :
  chain_frame o (k :: slist_after k (cfi_ordered_entries (w_info w))) w
    (snd (cfil_data_service_ctl_q w k o)).
Proof. apply chain_steps_frame, cfil_data_service_ctl_q_steps. Qed.

Lemma cfil_service_pending_queue_frame w k o :
  chain_frame o (k :: slist_after k (cfi_ordered_entries (w_info w))) w
    (snd (cfil_service_pending_queue w k o)).
Proof. apply chain_steps_frame, cfil_service_pending_queue_steps. Qed.

(** ** Verdicts ([cfil_update_data_offsets]) *)

(** The block after [done:] touches entry flags and the trace only. *)
Lemma update_data_offsets_done_bufs w k :
  (forall k' d, ebuf (update_data_offsets_done w k) k' d = ebuf w k' d)
  /\ (forall d, ibuf (update_data_offsets_done w k) d = ibuf w d)
  /\ cfi_flags (w_info (update_data_offsets_done w k)) = cfi_flags (w_info w)
  /\ length (cfi_entries (w_info (update_data_offsets_done w k)))
     = length (cfi_entries (w_info w)).
Proof.
  unfold update_data_offsets_done.
  destruct (_ || _); [|repeat split; reflexivity].
  set (w1 := upd_entry k _ w).
  assert (H1 : (forall k' d, ebuf w1 k' d = ebuf w k' d)
               /\ (forall d, ibuf w1 d = ibuf w d)
               /\ cfi_flags (w_info w1) = cfi_flags (w_info w)
               /\ length (cfi_entries (w_info w1)) = length (cfi_entries (w_info w))).
  { subst w1. repeat split.
    - intros. apply ebuf_upd_entry_flags.
    - intros. apply ibuf_upd_entry.
    - apply upd_entry_rest.
    - apply upd_entry_length. }
  clearbody w1. destruct (_ && _); exact H1.
Qed.

(** What one verdict leaves in the two offsets of the entry it is for, as
    the two tests of the function decide it. *)
Lemma cfil_update_data_offsets_raw w k o pass_offset peek_offset :
  has_flag (cfi_flags (w_info w)) CFIF_DROP = false ->
  unit_in_range w k ->
  let w' := snd (cfil_update_data_offsets w k o pass_offset peek_offset) in
  let pass1 := Z.max (cfe_pass_offset (ebuf w k o)) pass_offset in
  let peek1 := if pass_offset >? cfe_pass_offset (ebuf w k o)
               then Z.max (cfe_peek_offset (ebuf w k o)) pass_offset
               else cfe_peek_offset (ebuf w k o) in
  cfe_pass_offset (ebuf w' k o) = pass1
  /\ cfe_peek_offset (ebuf w' k o)
     = if (peek_offset >? pass1) && (peek_offset >? peek1) then peek_offset else peek1.
Proof.
  intros Hdrop Hk. unfold cfil_update_data_offsets. rewrite Hdrop.
  set (raise_pass := pass_offset >? _).
  set (w1 := if raise_pass then _ else w).
  assert (Hr1 : unit_in_range w1 k).
  { subst w1. destruct raise_pass; [|exact Hk]. unfold upd_ebuf.
    apply unit_in_range_upd_entry. exact Hk. }
  assert (H1 : cfe_pass_offset (ebuf w1 k o) = Z.max (cfe_pass_offset (ebuf w k o)) pass_offset
               /\ cfe_peek_offset (ebuf w1 k o)
                  = if raise_pass
                    then Z.max (cfe_peek_offset (ebuf w k o)) pass_offset
                    else cfe_peek_offset (ebuf w k o)).
  { subst w1 raise_pass.
    destruct (Z.gtb_spec pass_offset (cfe_pass_offset (ebuf w k o))) as [Hgt|Hle].
    - rewrite ebuf_upd_ebuf_eq by exact Hk. cbn.
      destruct (Z.ltb_spec (cfe_peek_offset (ebuf w k o)) pass_offset); cbn; split; lia.
    - split; lia. }
  clearbody w1. destruct H1 as [H1a H1b].
  set (raise_peek := _ && _).
  set (w2 := if raise_peek then _ else w1).
  cbv zeta.
  assert (H2 : cfe_pass_offset (ebuf w2 k o) = Z.max (cfe_pass_offset (ebuf w k o)) pass_offset
               /\ cfe_peek_offset (ebuf w2 k o)
                  = if raise_peek then peek_offset else cfe_peek_offset (ebuf w1 k o)).
  { subst w2. destruct raise_peek; [|split; [exact H1a|reflexivity]].
    rewrite ebuf_upd_ebuf_eq by exact Hr1. cbn. split; [exact H1a|reflexivity]. }
  assert (Hpeek : raise_peek
                  = (peek_offset >? Z.max (cfe_pass_offset (ebuf w k o)) pass_offset)
                    && (peek_offset >? (if raise_pass
                                        then Z.max (cfe_peek_offset (ebuf w k o)) pass_offset
                                        else cfe_peek_offset (ebuf w k o)))).
  { subst raise_peek. rewrite H1a, H1b. reflexivity. }
  rewrite <- Hpeek, <- H1b. clear Hpeek H1a H1b.
  clearbody w2. clear -H2.
  assert (Hdone : forall w3, cfe_pass_offset (ebuf (update_data_offsets_done w3 k) k o)
                             = cfe_pass_offset (ebuf w3 k o)
                             /\ cfe_peek_offset (ebuf (update_data_offsets_done w3 k) k o)
                                = cfe_peek_offset (ebuf w3 k o)).
  { intros w3. destruct (update_data_offsets_done_bufs w3 k) as [Hb _]. rewrite Hb. tauto. }
  destruct (negb (raise_pass || raise_peek)); simpl.
  - destruct (Hdone w2) as [-> ->]. exact H2.
  - pose proof (cfil_data_service_ctl_q_frame w2 k o) as Hf.
    destruct (cfil_data_service_ctl_q w2 k o) as [error w3]. simpl in Hf.
    assert (H3 : cfe_pass_offset (ebuf w3 k o) = cfe_pass_offset (ebuf w2 k o)
                 /\ cfe_peek_offset (ebuf w3 k o) = cfe_peek_offset (ebuf w2 k o)).
    { split; [apply (fr_pass _ _ _ _ Hf)|apply (fr_peek _ _ _ _ Hf)]. }
    destruct (negb (error =? 0)); simpl; destruct (Hdone w3) as [-> ->];
      destruct H3 as [-> ->]; exact H2.
Qed.

(** With the peek offset at or above the pass offset beforehand: the pass
    offset becomes the larger of the old and the new, the peek offset the
    largest of the old one, the new pass offset and the new peek offset. *)
Lemma cfil_update_data_offsets_exact w k o pass_offset peek_offset :
  has_flag (cfi_flags (w_info w)) CFIF_DROP = false ->
  unit_in_range w k ->
  cfe_pass_offset (ebuf w k o) <= cfe_peek_offset (ebuf w k o) ->
  let w' := snd (cfil_update_data_offsets w k o pass_offset peek_offset) in
  cfe_pass_offset (ebuf w' k o) = Z.max (cfe_pass_offset (ebuf w k o)) pass_offset
  /\ cfe_peek_offset (ebuf w' k o)
     = Z.max (Z.max (cfe_peek_offset (ebuf w k o)) pass_offset) peek_offset.
Proof.
  intros Hdrop Hk Hinv.
  destruct (cfil_update_data_offsets_raw w k o pass_offset peek_offset Hdrop Hk) as [Ha Hb].
  cbv zeta in *. rewrite Ha, Hb. split; [reflexivity|].
  destruct (Z.gtb_spec pass_offset (cfe_pass_offset (ebuf w k o)));
    repeat match goal with
           | |- context [?a >? ?b] => destruct (Z.gtb_spec a b)
           end; cbn; lia.
Qed.

(** A verdict leaves the offsets of every other entry and of the other
    direction as they were; on a drop-latched flow it does nothing. *)
Lemma cfil_update_data_offsets_others w k o pass_offset peek_offset k' d :
  (k' <> k \/ d <> o \/ ~ unit_in_range w k
   \/ has_flag (cfi_flags (w_info w)) CFIF_DROP = true) ->
  let w' := snd (cfil_update_data_offsets w k o pass_offset peek_offset) in
  cfe_pass_offset (ebuf w' k' d) = cfe_pass_offset (ebuf w k' d)
  /\ cfe_peek_offset (ebuf w' k' d) = cfe_peek_offset (ebuf w k' d).
Proof.
  intros Hother. unfold cfil_update_data_offsets.
  destruct (has_flag (cfi_flags (w_info w)) CFIF_DROP) eqn:Hdrop; [split; reflexivity|].
  set (raise_pass := pass_offset >? _).
  set (w1 := if raise_pass then _ else w).
  set (raise_peek := _ && _).
  set (w2 := if raise_peek then _ else w1).
  assert (Hsame : forall g w0, length (cfi_entries (w_info w0)) = length (cfi_entries (w_info w)) ->
            ebuf (upd_ebuf k o g w0) k' d = ebuf w0 k' d).
  { intros g w0 Hlen. destruct Hother as [Hne|[Hne|[Hr|Hd]]].
    - apply ebuf_upd_ebuf_ne. congruence.
    - destruct d, o; try congruence;
        [apply (ebuf_upd_ebuf_other_dir k k' false g w0)
        |apply (ebuf_upd_ebuf_other_dir k k' true g w0)].
    - unfold upd_ebuf. rewrite upd_entry_out_of_range; [reflexivity|].
      unfold unit_in_range in *. rewrite Hlen. exact Hr.
    - congruence. }
  assert (H1 : ebuf w1 k' d = ebuf w k' d
               /\ length (cfi_entries (w_info w1)) = length (cfi_entries (w_info w))).
  { subst w1. destruct raise_pass; [|split; reflexivity]. split.
    - apply Hsame. reflexivity.
    - apply upd_ebuf_rest. }
  assert (H2 : ebuf w2 k' d = ebuf w k' d).
  { subst w2. destruct raise_peek; [|apply H1].
    rewrite Hsame by apply H1. apply H1. }
  clearbody w2. clear -H2.
  assert (Hdone : forall w3, ebuf (update_data_offsets_done w3 k) k' d = ebuf w3 k' d).
  { intros w3. apply update_data_offsets_done_bufs. }
  destruct (negb _); simpl.
  - rewrite Hdone, H2. split; reflexivity.
  - pose proof (cfil_data_service_ctl_q_frame w2 k o) as Hf.
    destruct (cfil_data_service_ctl_q w2 k o) as [error w3]. simpl in Hf.
    destruct (negb _); simpl; rewrite Hdone;
      rewrite (fr_pass _ _ _ _ Hf), (fr_peek _ _ _ _ Hf), H2; split; reflexivity.
Qed.

Lemma cfil_update_data_offsets_length w k o pass_offset peek_offset :
  length (cfi_entries (w_info (snd (cfil_update_data_offsets w k o pass_offset peek_offset))))
  = length (cfi_entries (w_info w)).
Proof.
  unfold cfil_update_data_offsets.
  destruct (has_flag _ CFIF_DROP); [reflexivity|].
  set (raise_pass := pass_offset >? _).
  set (w1 := if raise_pass then _ else w).
  set (raise_peek := _ && _).
  set (w2 := if raise_peek then _ else w1).
  assert (H1 : length (cfi_entries (w_info w1)) = length (cfi_entries (w_info w))).
  { subst w1. destruct raise_pass; [apply upd_ebuf_rest|reflexivity]. }
  assert (H2 : length (cfi_entries (w_info w2)) = length (cfi_entries (w_info w))).
  { subst w2. destruct raise_peek; [|exact H1]. rewrite <- H1. apply upd_ebuf_rest. }
  clearbody w2. clear -H2.
  assert (Hdone : forall w3, length (cfi_entries (w_info (update_data_offsets_done w3 k)))
                             = length (cfi_entries (w_info w3))).
  { intros w3. apply update_data_offsets_done_bufs. }
  destruct (negb _); simpl; [rewrite Hdone; exact H2|].
  pose proof (cfil_data_service_ctl_q_frame w2 k o) as Hf.
  destruct (cfil_data_service_ctl_q w2 k o) as [error w3]. simpl in Hf.
  destruct (negb _); simpl; rewrite Hdone, (fr_length _ _ _ _ Hf); exact H2.
Qed.

(** One verdict never lowers an offset of any entry, and keeps the peek
    offset at or above the pass offset wherever it was so. *)
Lemma cfil_update_data_offsets_monotone w k o pass_offset peek_offset k' d :
  let w' := snd (cfil_update_data_offsets w k o pass_offset peek_offset) in
  cfe_pass_offset (ebuf w k' d) <= cfe_pass_offset (ebuf w' k' d)
  /\ cfe_peek_offset (ebuf w k' d) <= cfe_peek_offset (ebuf w' k' d)
  /\ (cfe_pass_offset (ebuf w k' d) <= cfe_peek_offset (ebuf w k' d) ->
      cfe_pass_offset (ebuf w' k' d) <= cfe_peek_offset (ebuf w' k' d)).
Proof.
  intros w'.
  destruct (decide (k' = k)) as [->|Hne];
    [destruct (decide (d = o)) as [->|Hd];
       [destruct (unit_in_range_dec w k) as [Hr|Hr];
          [destruct (has_flag (cfi_flags (w_info w)) CFIF_DROP) eqn:Hdrop|]|]|].
  2: { destruct (cfil_update_data_offsets_raw w k o pass_offset peek_offset Hdrop Hr)
         as [Ha Hb]. cbv zeta in Ha, Hb. fold w' in Ha, Hb. rewrite Ha, Hb.
       destruct (Z.gtb_spec pass_offset (cfe_pass_offset (ebuf w k o)));
         repeat match goal with
                | |- context [?a >? ?b] => destruct (Z.gtb_spec a b)
                end; cbn; lia. }
  all: match goal with
       | |- cfe_pass_offset (ebuf _ ?kk ?dd) <= _ /\ _ =>
           destruct (cfil_update_data_offsets_others w k o pass_offset peek_offset kk dd)
             as [Ha Hb]; [tauto|]; cbv zeta in Ha, Hb; fold w' in Ha, Hb;
           rewrite Ha, Hb; lia
       end.
Qed.

(** C2.  Over any sequence of verdicts, applied to any units and
    directions, the pass offset and the peek offset of every entry and
    direction never decrease, and the peek offset stays at or above the
    pass offset; a verdict that asks for less is not applied (the offsets
    only ever move to the larger value, see
    [cfil_update_data_offsets_exact]). *)
Theorem verdicts_keep_offsets_monotone w vs k d :
  cfe_pass_offset (ebuf w k d) <= cfe_peek_offset (ebuf w k d) ->
  cfe_pass_offset (ebuf w k d) <= cfe_pass_offset (ebuf (apply_verdicts w vs) k d)
  /\ cfe_peek_offset (ebuf w k d) <= cfe_peek_offset (ebuf (apply_verdicts w vs) k d)
  /\ cfe_pass_offset (ebuf (apply_verdicts w vs) k d)
     <= cfe_peek_offset (ebuf (apply_verdicts w vs) k d).
Proof.
  revert w. induction vs as [|[[[k0 o0] p0] q0] vs IH]; intros w Hinv; simpl.
  - lia.
  - pose proof (cfil_update_data_offsets_monotone w k0 o0 p0 q0 k d) as (H1&H2&H3).
    specialize (H3 Hinv).
    destruct (IH _ H3) as (I1&I2&I3). unfold apply_verdicts in *. lia.
Qed.

(** The theorem at a flow with unit 1 attached, for a verdict that raises
    both offsets followed by one that asks for a lower pass offset. *)
Lemma verdicts_keep_offsets_monotone_witness :
  cfe_pass_offset (ebuf (fresh_world tcp_socket [1%nat]) 1 true)
  <= cfe_peek_offset (ebuf (fresh_world tcp_socket [1%nat]) 1 true)
  /\ (cfe_pass_offset (ebuf (fresh_world tcp_socket [1%nat]) 1 true)
      <= cfe_pass_offset
           (ebuf (apply_verdicts (fresh_world tcp_socket [1%nat])
                    [(1%nat, true, 100, 150); (1%nat, true, 50, 120)]) 1 true)
      /\ cfe_peek_offset (ebuf (fresh_world tcp_socket [1%nat]) 1 true)
         <= cfe_peek_offset
              (ebuf (apply_verdicts (fresh_world tcp_socket [1%nat])
                       [(1%nat, true, 100, 150); (1%nat, true, 50, 120)]) 1 true)
      /\ cfe_pass_offset
           (ebuf (apply_verdicts (fresh_world tcp_socket [1%nat])
                    [(1%nat, true, 100, 150); (1%nat, true, 50, 120)]) 1 true)
         <= cfe_peek_offset
              (ebuf (apply_verdicts (fresh_world tcp_socket [1%nat])
                       [(1%nat, true, 100, 150); (1%nat, true, 50, 120)]) 1 true)).
Proof.
  split.
  - vm_compute. discriminate.
  - apply (verdicts_keep_offsets_monotone (fresh_world tcp_socket [1%nat])
             [(1%nat, true, 100, 150); (1%nat, true, 50, 120)] 1 true).
    vm_compute. discriminate.
Defined.

(** A verdict that raises neither offset changes no queue, no cursor and
    no offset, and is no error. *)
Lemma cfil_update_data_offsets_noop w k o pass_offset peek_offset :
  pass_offset <= cfe_pass_offset (ebuf w k o) ->
  peek_offset <= cfe_pass_offset (ebuf w k o)
  \/ peek_offset <= cfe_peek_offset (ebuf w k o) ->
  (fst (cfil_update_data_offsets w k o pass_offset peek_offset) = 0
   \/ fst (cfil_update_data_offsets w k o pass_offset peek_offset) = EPIPE)
  /\ (forall k' d,
        ebuf (snd (cfil_update_data_offsets w k o pass_offset peek_offset)) k' d = ebuf w k' d)
  /\ (forall d,
        ibuf (snd (cfil_update_data_offsets w k o pass_offset peek_offset)) d = ibuf w d)
  /\ w_ext (snd (cfil_update_data_offsets w k o pass_offset peek_offset)) = w_ext w
  /\ cfi_flags (w_info (snd (cfil_update_data_offsets w k o pass_offset peek_offset)))
     = cfi_flags (w_info w).
Proof.
  intros Hp Hq. unfold cfil_update_data_offsets.
  destruct (has_flag _ CFIF_DROP); [simpl; auto 10|].
  assert (E1 : (pass_offset >? cfe_pass_offset (ebuf w k o)) = false).
  { destruct (Z.gtb_spec pass_offset (cfe_pass_offset (ebuf w k o))); [lia|reflexivity]. }
  rewrite E1.
  assert (E2 : (peek_offset >? cfe_pass_offset (ebuf w k o))
               && (peek_offset >? cfe_peek_offset (ebuf w k o)) = false).
  { destruct (Z.gtb_spec peek_offset (cfe_pass_offset (ebuf w k o)));
      destruct (Z.gtb_spec peek_offset (cfe_peek_offset (ebuf w k o))); try reflexivity; lia. }
  rewrite E2. simpl. clear E1 E2 Hp Hq.
  destruct (update_data_offsets_done_bufs w k) as (Hb&Hi&Hf&_).
  repeat split; auto.
  unfold update_data_offsets_done.
  match goal with |- w_ext (if ?c then _ else _) = _ => destruct c end; [|reflexivity].
  set (w1 := upd_entry k _ w).
  assert (H1 : w_ext w1 = w_ext w) by apply upd_entry_rest.
  clearbody w1.
  match goal with |- w_ext (if ?c then _ else _) = _ => destruct c end; exact H1.
Qed.

(** C5.  A verdict whose pair is the recorded one, or smaller, is a no-op:
    [cfil_update_data_offsets] returns without error (or with EPIPE on a
    drop-latched flow) and, for every entry and both directions, the
    control queue, the pending queue, their cursors, the peeked mark and
    both offsets are what they were, as are the flow's inject queues and
    pending window. *)
Theorem stale_verdict_is_noop w k o pass_offset peek_offset :
  pass_offset <= cfe_pass_offset (ebuf w k o) ->
  peek_offset <= cfe_peek_offset (ebuf w k o) ->
  (fst (cfil_update_data_offsets w k o pass_offset peek_offset) = 0
   \/ fst (cfil_update_data_offsets w k o pass_offset peek_offset) = EPIPE)
  /\ (forall k' d,
        ebuf (snd (cfil_update_data_offsets w k o pass_offset peek_offset)) k' d = ebuf w k' d)
  /\ (forall d,
        ibuf (snd (cfil_update_data_offsets w k o pass_offset peek_offset)) d = ibuf w d).
Proof.
  intros Hp Hq.
  destruct (cfil_update_data_offsets_noop w k o pass_offset peek_offset Hp (or_intror Hq))
    as (H1&H2&H3&_).
  auto.
Qed.

(** The theorem at a flow whose unit 1 has recorded the pair (100, 150),
    for the stale pair (50, 120). *)
Lemma stale_verdict_is_noop_witness :
  50 <= cfe_pass_offset (ebuf (apply_verdicts (fresh_world tcp_socket [1%nat])
                                 [(1%nat, true, 100, 150)]) 1 true)
  /\ 120 <= cfe_peek_offset (ebuf (apply_verdicts (fresh_world tcp_socket [1%nat])
                                     [(1%nat, true, 100, 150)]) 1 true)
  /\ forall k' d,
       ebuf (snd (cfil_update_data_offsets
                    (apply_verdicts (fresh_world tcp_socket [1%nat]) [(1%nat, true, 100, 150)])
                    1 true 50 120)) k' d
       = ebuf (apply_verdicts (fresh_world tcp_socket [1%nat]) [(1%nat, true, 100, 150)]) k' d.
Proof.
  assert (Hp : 50 <= cfe_pass_offset (ebuf (apply_verdicts (fresh_world tcp_socket [1%nat])
                                              [(1%nat, true, 100, 150)]) 1 true))
    by (vm_compute; discriminate).
  assert (Hq : 120 <= cfe_peek_offset (ebuf (apply_verdicts (fresh_world tcp_socket [1%nat])
                                               [(1%nat, true, 100, 150)]) 1 true))
    by (vm_compute; discriminate).
  split; [exact Hp|]. split; [exact Hq|].
  exact (proj1 (proj2 (stale_verdict_is_noop _ 1%nat true 50 120 Hp Hq))).
Defined.

(** Applying the same verdict a second time changes nothing either. *)
Lemma repeated_verdict_is_noop w k o pass_offset peek_offset :
  unit_in_range w k ->
  let w1 := snd (cfil_update_data_offsets w k o pass_offset peek_offset) in
  (fst (cfil_update_data_offsets w1 k o pass_offset peek_offset) = 0
   \/ fst (cfil_update_data_offsets w1 k o pass_offset peek_offset) = EPIPE)
  /\ (forall k' d,
        ebuf (snd (cfil_update_data_offsets w1 k o pass_offset peek_offset)) k' d = ebuf w1 k' d)
  /\ (forall d,
        ibuf (snd (cfil_update_data_offsets w1 k o pass_offset peek_offset)) d = ibuf w1 d).
Proof.
  intros Hk w1.
  destruct (has_flag (cfi_flags (w_info w)) CFIF_DROP) eqn:Hdrop.
  - assert (Hw1 : w1 = w).
    { subst w1. unfold cfil_update_data_offsets. rewrite Hdrop. reflexivity. }
    rewrite Hw1. unfold cfil_update_data_offsets. rewrite Hdrop. simpl. auto.
  - destruct (cfil_update_data_offsets_raw w k o pass_offset peek_offset Hdrop Hk) as [Ha Hb].
    cbv zeta in Ha, Hb. fold w1 in Ha, Hb.
    assert (Hp : pass_offset <= cfe_pass_offset (ebuf w1 k o)) by (rewrite Ha; lia).
    assert (Hq : peek_offset <= cfe_pass_offset (ebuf w1 k o)
                 \/ peek_offset <= cfe_peek_offset (ebuf w1 k o)).
    { rewrite Ha, Hb.
      repeat match goal with
             | |- context [?a >? ?b] => destruct (Z.gtb_spec a b)
             end; cbn; lia. }
    destruct (cfil_update_data_offsets_noop w1 k o pass_offset peek_offset Hp Hq)
      as (H1&H2&H3&_).
    auto.
Qed.

(** ** Submitting data ([cfil_data_common]) *)

Lemma ibuf_add_byte_count o datalen w d :
  ibuf (with_info (add_byte_count o datalen (w_info w)) w) d = ibuf w d.
Proof. destruct o, d; reflexivity. Qed.

Lemma entry_at_add_byte_count o datalen w k :
  entry_at (with_info (add_byte_count o datalen (w_info w)) w) k = entry_at w k.
Proof. destruct k; reflexivity. Qed.

Lemma u32_add_sub p n : 0 <= p < 2 ^ 32 -> u32 (u32 (p + n) - n) = p.
Proof.
  intros Hp. unfold u32. rewrite Zminus_mod_idemp_l.
  replace (p + n - n) with p by lia. apply Z.mod_small. exact Hp.
Qed.

(** [cfil_info_buffer_threshold_exceeded] answers true as soon as one of
    the two tail-drop counters is not 0. *)
Lemma threshold_exceeded_of_tail_drop i o :
  cfi_tail_drop_cnt (infobuf o i) <> 0 -> cfil_info_buffer_threshold_exceeded i = true.
Proof.
  intros H. unfold cfil_info_buffer_threshold_exceeded.
  destruct o; simpl in H.
  - destruct (Z.eqb_spec (cfi_tail_drop_cnt (cfi_snd i)) 0); [contradiction|reflexivity].
  - destruct (Z.eqb_spec (cfi_tail_drop_cnt (cfi_rcv i)) 0); [contradiction|].
    apply orb_true_r.
Qed.

(** The state in which [cfil_data_common] tests the datagram thresholds:
    the bytes are counted and the span is added to the pending counters. *)
(** *** Calls that return *)

Lemma cfil_data_common_returns msize w o data r :
  cfil_data_common msize w o data = Ret r -> r = data_common_effect msize w o data.
Proof.
  unfold cfil_data_common, data_common_effect, VERIFY.
  destruct (has_flag (cfi_flags (w_info w)) CFIF_DROP); [congruence|].
  destruct (cfil_data_length_cnt msize data) as [[datalen mbcnt] mbnum].
  destruct (datalen =? 0); [congruence|]. cbv zeta.
  match goal with |- context [if ?c then Ret (EPIPE, _) else _] => destruct c end;
    [congruence|].
  match goal with |- context [pending_cursors_verify ?b] =>
    destruct (pending_cursors_verify b) end; [|discriminate].
  match goal with |- context [match ?sl with inl _ => _ | inr _ => _ end] =>
    destruct sl as [ret|[error w3]] end; [congruence|].
  destruct (error =? 0); [|congruence].
  match goal with |- context [pending_cursors_verify ?b] =>
    destruct (pending_cursors_verify b) end; [congruence|discriminate].
Qed.

(** A submit whose two assertions hold returns. *)
Lemma cfil_data_common_verified msize w o data :
  let '(datalen, mbcnt, mbnum) := cfil_data_length_cnt msize data in
  let w2 := upd_ibuf o (pending_extend datalen mbcnt mbnum)
              (with_info (add_byte_count o datalen (w_info w)) w) in
  pending_cursors_verify (ibuf w2 o) = true ->
  (fst (data_common_effect msize w o data) = 0 ->
   pending_cursors_verify (ibuf (snd (data_common_effect msize w o data)) o) = true) ->
  cfil_data_common msize w o data = Ret (data_common_effect msize w o data).
Proof.
  unfold cfil_data_common, data_common_effect, VERIFY.
  destruct (cfil_data_length_cnt msize data) as [[datalen mbcnt] mbnum].
  cbv zeta.
  destruct (has_flag (cfi_flags (w_info w)) CFIF_DROP); [reflexivity|].
  destruct (datalen =? 0) eqn:Hlen; [reflexivity|].
  match goal with |- context [if ?c then Ret (EPIPE, _) else _] => destruct c end;
    [reflexivity|].
  intros -> H2.
  match goal with |- context [match ?sl with inl _ => _ | inr _ => _ end] =>
    destruct sl as [ret|[error w3]] end; [reflexivity|].
  destruct (error =? 0) eqn:He; [|reflexivity].
  cbn [fst snd] in H2. rewrite H2; [reflexivity|]. apply Z.eqb_eq. exact He.
Qed.

Lemma step_returns msize w op w' :
  step msize w op = Ret w' -> w' = step_effect msize w op.
Proof.
  destruct op as [o data|k o pass peek|k o|k o|o|k]; cbn [step step_effect];
    try congruence.
  destruct (cfil_data_common msize w o data) as [[error w1]|] eqn:Hc; [|discriminate].
  apply cfil_data_common_returns in Hc. rewrite <- Hc.
  intros H. injection H as <-. reflexivity.
Qed.

Lemma run_cons msize w op ops w1 :
  step msize w op = Ret w1 -> run msize w (op :: ops) = run msize w1 ops.
Proof. intros H. cbn [run]. rewrite H. reflexivity. Qed.

Lemma run_returns msize w ops w' :
  run msize w ops = Ret w' -> w' = run_effect msize w ops.
Proof.
  revert w. induction ops as [|op ops IH]; intros w H; cbn [run] in H.
  - injection H as <-. reflexivity.
  - destruct (step msize w op) as [w1|] eqn:Hs; [|discriminate].
    apply step_returns in Hs. subst w1. apply IH in H. exact H.
Qed.

(** Every call but a submit returns. *)
Lemma step_not_submit msize w op :
  (forall o data, op <> OpSubmit o data) -> step msize w op = Ret (step_effect msize w op).
Proof.
  intros Hop. destruct op as [o data|k o pass peek|k o|k o|o|k]; try reflexivity.
  exfalso. apply (Hop o data). reflexivity.
Qed.

Lemma cfil_data_common_tail_drop_eq msize w o data datalen mbcnt mbnum :
  so_dgram (w_so w) = true ->
  has_flag (cfi_flags (w_info w)) CFIF_DROP = false ->
  cfil_data_length_cnt msize data = (datalen, mbcnt, mbnum) ->
  datalen <> 0 ->
  (u32 (cfi_pending_mbnum (ibuf w o) + mbnum) > cfil_udp_gc_mbuf_num_max w
   \/ u32 (cfi_pending_mbcnt (ibuf w o) + mbcnt) > cfil_udp_gc_mbuf_cnt_max w) ->
  cfil_data_common msize w o data
  = Ret (EPIPE,
         upd_ibuf o (pending_tail_drop mbcnt mbnum)
           (upd_ibuf o (pending_extend datalen mbcnt mbnum)
              (with_info (add_byte_count o datalen (w_info w)) w))).
Proof.
  intros Hdgram Hdrop Hcnt Hlen Hover.
  unfold cfil_data_common. rewrite Hdrop, Hcnt.
  destruct (Z.eqb_spec datalen 0) as [|_]; [contradiction|].
  cbv zeta.
  set (w1 := with_info _ w).
  set (w2 := upd_ibuf o _ w1).
  assert (Hib : ibuf w2 o = pending_extend datalen mbcnt mbnum (ibuf w o)).
  { subst w2 w1. rewrite ibuf_upd_ibuf_eq, ibuf_add_byte_count. reflexivity. }
  assert (Hso : so_dgram (w_so w2) = true) by exact Hdgram.
  rewrite Hso, Hib.
  assert (Hov : (cfi_pending_mbnum (pending_extend datalen mbcnt mbnum (ibuf w o))
                   >? cfil_udp_gc_mbuf_num_max w2)
                || (cfi_pending_mbcnt (pending_extend datalen mbcnt mbnum (ibuf w o))
                      >? cfil_udp_gc_mbuf_cnt_max w2) = true).
  { change (cfil_udp_gc_mbuf_num_max w2) with (cfil_udp_gc_mbuf_num_max w).
    change (cfil_udp_gc_mbuf_cnt_max w2) with (cfil_udp_gc_mbuf_cnt_max w).
    cbn [pending_extend cfi_pending_mbnum cfi_pending_mbcnt].
    apply orb_true_iff.
    destruct Hover; [left|right]; apply Z.gtb_lt; lia. }
  rewrite Hov. reflexivity.
Qed.

(** C10.  On a datagram-tracked flow that is not drop-latched, a submit of
    a non-empty packet that takes the pending mbuf count or the pending
    mbuf bytes of its direction over the thresholds returns EPIPE: no
    entry buffer and no inject queue changes, nothing is sent or
    re-injected, the two mbuf counters are back at their values, and the
    tail-drop counter of the direction is one more; once that counter is
    not 0 the reaper's threshold test answers true and the flow is due for
    collection.  The two counters are [uint32_t] fields, and the
    thresholds are compared with them as stored. *)
Theorem datagram_tail_drop msize w o data timed_out :
  so_dgram (w_so w) = true ->
  has_flag (cfi_flags (w_info w)) CFIF_DROP = false ->
  fst (fst (cfil_data_length_cnt msize data)) <> 0 ->
  0 <= cfi_pending_mbcnt (ibuf w o) < 2 ^ 32 ->
  0 <= cfi_pending_mbnum (ibuf w o) < 2 ^ 32 ->
  (u32 (cfi_pending_mbnum (ibuf w o) + snd (cfil_data_length_cnt msize data))
     > cfil_udp_gc_mbuf_num_max w
   \/ u32 (cfi_pending_mbcnt (ibuf w o) + snd (fst (cfil_data_length_cnt msize data)))
      > cfil_udp_gc_mbuf_cnt_max w) ->
  exists w',
    cfil_data_common msize w o data = Ret (EPIPE, w')
    /\ (forall k d, ebuf w' k d = ebuf w k d)
    /\ (forall d, cfi_inject_q (ibuf w' d) = cfi_inject_q (ibuf w d))
    /\ w_log w' = w_log w
    /\ cfi_pending_mbcnt (ibuf w' o) = cfi_pending_mbcnt (ibuf w o)
    /\ cfi_pending_mbnum (ibuf w' o) = cfi_pending_mbnum (ibuf w o)
    /\ cfi_tail_drop_cnt (ibuf w' o) = u32 (cfi_tail_drop_cnt (ibuf w o) + 1)
    /\ (cfi_tail_drop_cnt (ibuf w' o) <> 0 ->
        cfil_info_buffer_threshold_exceeded (w_info w') = true
        /\ cfil_dgram_gc_needed (Some (w_info w')) timed_out = true).
Proof.
  intros Hdgram Hdrop Hlen Hc0 Hn0 Hover.
  destruct (cfil_data_length_cnt msize data) as [[datalen mbcnt] mbnum] eqn:Hcnt.
  cbn [fst snd] in Hlen, Hover.
  rewrite (cfil_data_common_tail_drop_eq msize w o data datalen mbcnt mbnum) by auto.
  eexists. split; [reflexivity|].
  set (w1 := with_info _ w).
  set (w2 := upd_ibuf o _ w1).
  assert (Hib' : ibuf (upd_ibuf o (pending_tail_drop mbcnt mbnum) w2) o
                 = pending_tail_drop mbcnt mbnum (pending_extend datalen mbcnt mbnum (ibuf w o))).
  { rewrite ibuf_upd_ibuf_eq. subst w2 w1.
    rewrite ibuf_upd_ibuf_eq, ibuf_add_byte_count. reflexivity. }
  split.
  { intros k d. unfold ebuf. rewrite entry_at_upd_ibuf. subst w2.
    rewrite entry_at_upd_ibuf. subst w1. rewrite entry_at_add_byte_count. reflexivity. }
  split.
  { intros d. destruct (decide (d = o)) as [->|Hd].
    - rewrite Hib'. reflexivity.
    - assert (d = negb o) as -> by (clear -Hd; destruct d, o; simpl; congruence).
      rewrite ibuf_upd_ibuf_other. subst w2. rewrite ibuf_upd_ibuf_other.
      subst w1. rewrite ibuf_add_byte_count. reflexivity. }
  split; [reflexivity|].
  rewrite Hib'.
  cbn [pending_tail_drop pending_extend cfi_pending_mbcnt cfi_pending_mbnum cfi_tail_drop_cnt].
  rewrite (u32_add_sub _ mbcnt Hc0), (u32_add_sub _ mbnum Hn0).
  split; [reflexivity|]. split; [reflexivity|]. split; [reflexivity|].
  intros Hnz.
  assert (Hex : cfil_info_buffer_threshold_exceeded
                  (w_info (upd_ibuf o (pending_tail_drop mbcnt mbnum) w2)) = true).
  { apply (threshold_exceeded_of_tail_drop _ o).
    fold (ibuf (upd_ibuf o (pending_tail_drop mbcnt mbnum) w2) o).
    rewrite Hib'. exact Hnz. }
  split; [exact Hex|].
  unfold cfil_dgram_gc_needed. rewrite Hex. apply orb_true_r.
Qed.

Lemma datagram_tail_drop_witness :
  exists w',
    cfil_data_common 256 crowded_world true (packet 7 100) = Ret (EPIPE, w')
    /\ cfil_dgram_gc_needed (Some (w_info w')) false = true.
Proof.
  destruct (datagram_tail_drop 256 crowded_world true (packet 7 100) false)
    as (w' & Hret & _ & _ & _ & _ & _ & Htail & Hgc).
  - reflexivity.
  - reflexivity.
  - vm_compute. discriminate.
  - vm_compute. split; [discriminate|reflexivity].
  - vm_compute. split; [discriminate|reflexivity].
  - left. vm_compute. reflexivity.
  - exists w'. split; [exact Hret|]. apply Hgc. rewrite Htail. vm_compute. discriminate.
Defined.

(** ** Loops over the units *)

Lemma sweep_cons sel o g k l w :
  sweep sel o g (k :: l) w
  = sweep sel o g l (if sel (entry_at w k) then upd_ebuf k o g w else w).
Proof. reflexivity. Qed.

Lemma sweep_entry_proj {A} (pr : cfil_entry -> A) sel o g l w k :
  (forall e b, pr (with_entrybuf o b e) = pr e) ->
  pr (entry_at (sweep sel o g l w) k) = pr (entry_at w k).
Proof.
  intros Hpr. revert w. induction l as [|k0 l IH]; intros w; [reflexivity|].
  rewrite sweep_cons, IH. destruct (sel (entry_at w k0)); [|reflexivity].
  unfold upd_ebuf. apply (entry_at_upd_entry_proj pr). intros e. apply Hpr.
Qed.

Lemma sweep_rest sel o g l w :
  w_so (sweep sel o g l w) = w_so w
  /\ w_filters (sweep sel o g l w) = w_filters w
  /\ w_log (sweep sel o g l w) = w_log w
  /\ w_ext (sweep sel o g l w) = w_ext w
  /\ cfil_udp_gc_mbuf_num_max (sweep sel o g l w) = cfil_udp_gc_mbuf_num_max w
  /\ cfil_udp_gc_mbuf_cnt_max (sweep sel o g l w) = cfil_udp_gc_mbuf_cnt_max w
  /\ cfi_flags (w_info (sweep sel o g l w)) = cfi_flags (w_info w)
  /\ cfi_ordered_entries (w_info (sweep sel o g l w)) = cfi_ordered_entries (w_info w)
  /\ length (cfi_entries (w_info (sweep sel o g l w))) = length (cfi_entries (w_info w))
  /\ (forall d, ibuf (sweep sel o g l w) d = ibuf w d).
Proof.
  revert w. induction l as [|k0 l IH]; intros w; [repeat split|].
  rewrite sweep_cons.
  destruct (IH (if sel (entry_at w k0) then upd_ebuf k0 o g w else w))
    as (H1&H2&H3&H4&H5&H6&H7&H8&H9&H10).
  destruct (sel (entry_at w k0)).
  - destruct (upd_ebuf_rest k0 o g w) as (G1&G2&G3&G4&G5&G6&G7&G8&G9&G10).
    repeat split; try congruence.
  - repeat split; assumption.
Qed.

Lemma sweep_entry_miss sel o g l w k :
  ~ In k l -> entry_at (sweep sel o g l w) k = entry_at w k.
Proof.
  revert w. induction l as [|k0 l IH]; intros w Hk; [reflexivity|].
  rewrite sweep_cons, IH by (intros ?; apply Hk; right; assumption).
  destruct (sel (entry_at w k0)); [|reflexivity].
  unfold upd_ebuf. apply entry_at_upd_entry_ne. intros ->. apply Hk. left. reflexivity.
Qed.

Lemma sweep_entry_unselected sel o g l w k :
  (forall e b, sel (with_entrybuf o b e) = sel e) ->
  sel (entry_at w k) = false ->
  entry_at (sweep sel o g l w) k = entry_at w k.
Proof.
  intros Hsel. revert w. induction l as [|k0 l IH]; intros w Hk; [reflexivity|].
  rewrite sweep_cons.
  destruct (sel (entry_at w k0)) eqn:E; [|apply IH; exact Hk].
  assert (Hne : k0 <> k) by (intros ->; congruence).
  rewrite IH.
  - unfold upd_ebuf. apply entry_at_upd_entry_ne. exact Hne.
  - unfold upd_ebuf. rewrite entry_at_upd_entry_ne by exact Hne. exact Hk.
Qed.

Lemma sweep_ebuf_hit sel o g l w k :
  NoDup l -> In k l -> unit_in_range w k -> sel (entry_at w k) = true ->
  ebuf (sweep sel o g l w) k o = g (ebuf w k o).
Proof.
  intros Hnd. revert w. induction Hnd as [|k0 l Hnotin Hnd IH]; intros w Hin Hr Hs.
  - destruct Hin.
  - rewrite sweep_cons. destruct (decide (k0 = k)) as [->|Hne].
    + rewrite Hs. unfold ebuf at 1.
      rewrite sweep_entry_miss by (rewrite <- list_elem_of_In; exact Hnotin).
      apply ebuf_upd_ebuf_eq. exact Hr.
    + destruct Hin as [?|Hin]; [contradiction|].
      destruct (sel (entry_at w k0)); [|apply IH; assumption].
      rewrite IH.
      * rewrite ebuf_upd_ebuf_ne by exact Hne. reflexivity.
      * exact Hin.
      * unfold upd_ebuf. apply unit_in_range_upd_entry. exact Hr.
      * unfold upd_ebuf. rewrite entry_at_upd_entry_ne by exact Hne. exact Hs.
Qed.

Lemma kcunits_NoDup : NoDup kcunits.
Proof. apply NoDup_seq. Qed.

Lemma has_filter_stable o e b : has_filter (with_entrybuf o b e) = has_filter e.
Proof. destruct o; reflexivity. Qed.

Lemma has_filter_in_range w k : has_filter (entry_at w k) = true -> unit_in_range w k.
Proof.
  intros H. destruct (unit_in_range_dec w k) as [Hr|Hr]; [exact Hr|].
  rewrite entry_at_out_of_range in H by exact Hr. discriminate.
Qed.

Lemma cfil_update_entry_offsets_sweep w o datalen :
  cfil_update_entry_offsets w o datalen
  = sweep has_filter o (update_entry_offsets_buf datalen) kcunits w.
Proof.
  unfold cfil_update_entry_offsets, sweep. generalize kcunits. intros l. revert w.
  induction l as [|k l IH]; intros w; [reflexivity|]. simpl. rewrite IH.
  unfold has_filter. destruct (cfe_filter (entry_at w k)); reflexivity.
Qed.

(** What [cfil_update_entry_offsets] leaves of every entry buffer. *)
Lemma cfil_update_entry_offsets_ebuf w o datalen k d :
  In k kcunits ->
  ebuf (cfil_update_entry_offsets w o datalen) k d
  = if Bool.eqb d o && has_filter (entry_at w k)
    then update_entry_offsets_buf datalen (ebuf w k o)
    else ebuf w k d.
Proof.
  intros Hin. rewrite cfil_update_entry_offsets_sweep.
  destruct (Bool.eqb d o) eqn:Ed.
  - apply Bool.eqb_prop in Ed. subst d. cbn [andb].
    destruct (has_filter (entry_at w k)) eqn:Ef.
    + apply sweep_ebuf_hit; auto using kcunits_NoDup, has_filter_in_range.
    + unfold ebuf. rewrite sweep_entry_unselected; auto using has_filter_stable.
  - cbn [andb]. assert (d = negb o) as -> by (clear -Ed; destruct d, o; simpl in *; congruence).
    unfold ebuf. apply (sweep_entry_proj (entrybuf (negb o))).
    intros e b. destruct o; reflexivity.
Qed.

(** ** The fast path of [cfil_data_common] *)

Lemma cfil_data_common_fast_path_eq msize w o data datalen mbcnt mbnum :
  has_flag (cfi_flags (w_info w)) CFIF_DROP = false ->
  cfil_data_length_cnt msize data = (datalen, mbcnt, mbnum) ->
  datalen <> 0 ->
  (so_dgram (w_so w) = false
   \/ (u32 (cfi_pending_mbnum (ibuf w o) + mbnum) <= cfil_udp_gc_mbuf_num_max w
       /\ u32 (cfi_pending_mbcnt (ibuf w o) + mbcnt) <= cfil_udp_gc_mbuf_cnt_max w)) ->
  u64 (cfi_pending_last (ibuf w o) + datalen) <= cfi_pass_offset (ibuf w o) ->
  data_common_effect msize w o data
  = (0,
     upd_ibuf o (pending_move_cursor datalen mbcnt mbnum)
       (cfil_update_entry_offsets
          (upd_ibuf o (pending_extend datalen mbcnt mbnum)
             (with_info (add_byte_count o datalen (w_info w)) w))
          o datalen)).
Proof.
  intros Hdrop Hcnt Hlen Hroom Hpass.
  unfold data_common_effect. rewrite Hdrop, Hcnt.
  destruct (Z.eqb_spec datalen 0) as [|_]; [contradiction|].
  cbv zeta.
  set (w1 := with_info _ w).
  set (w2 := upd_ibuf o _ w1).
  assert (Hib : ibuf w2 o = pending_extend datalen mbcnt mbnum (ibuf w o)).
  { subst w2 w1. rewrite ibuf_upd_ibuf_eq, ibuf_add_byte_count. reflexivity. }
  rewrite Hib.
  assert (Hgate : so_dgram (w_so w2)
                  && ((cfi_pending_mbnum (pending_extend datalen mbcnt mbnum (ibuf w o))
                         >? cfil_udp_gc_mbuf_num_max w2)
                      || (cfi_pending_mbcnt (pending_extend datalen mbcnt mbnum (ibuf w o))
                            >? cfil_udp_gc_mbuf_cnt_max w2)) = false).
  { change (so_dgram (w_so w2)) with (so_dgram (w_so w)).
    change (cfil_udp_gc_mbuf_num_max w2) with (cfil_udp_gc_mbuf_num_max w).
    change (cfil_udp_gc_mbuf_cnt_max w2) with (cfil_udp_gc_mbuf_cnt_max w).
    cbn [pending_extend cfi_pending_mbnum cfi_pending_mbcnt].
    destruct Hroom as [->|[Hn Hc]]; [reflexivity|].
    apply andb_false_iff. right. apply orb_false_iff.
    split; rewrite Z.gtb_ltb; apply Z.ltb_ge; assumption. }
  rewrite Hgate.
  assert (Hfast : (cfi_pending_last (pending_extend datalen mbcnt mbnum (ibuf w o))
                   <=? cfi_pass_offset (pending_extend datalen mbcnt mbnum (ibuf w o))) = true).
  { cbn [pending_extend cfi_pending_last cfi_pass_offset]. apply Z.leb_le. exact Hpass. }
  rewrite Hfast. reflexivity.
Qed.

Lemma only_unit_1 (P : nat -> Prop) (w : world) :
  (forall k, In k kcunits -> has_filter (entry_at w k) = true -> k = 1%nat) ->
  P 1%nat ->
  forall k, In k kcunits -> cfe_filter (entry_at w k) <> None -> P k.
Proof.
  intros Hone HP k Hin Hatt. rewrite (Hone k Hin); [exact HP|].
  unfold has_filter. destruct (cfe_filter (entry_at w k)); [reflexivity|contradiction].
Qed.

Lemma passed_ahead_world_reached :
  run 256 (fresh_world tcp_socket [1%nat]) [OpVerdict 1 true 1000 0] = Ret passed_ahead_world.
Proof. reflexivity. Qed.

Lemma stale_pass_world_reached :
  run 256 (refusing_world 1) (refused_ops ++ [OpServiceInject true]) = Ret stale_pass_world.
Proof. vm_compute. reflexivity. Qed.

(** C9 as the specification words it does not hold, on two counts.  On a
    flow whose agent has passed the first 1000 bytes, a submit of 100
    bytes takes the fast path and the entry's pass offset stays 1000 (it
    is only raised to the control queue's new start when it lies below
    it), it is not advanced by 100.  And the test is made against the pass
    offset kept for the socket, not against the agents' own: on
    [stale_pass_world] a submit of 50 bytes ends at 210, below the only
    agent's pass offset of 1000, and yet it goes through the agent's
    queues and returns [EJUSTRETURN]. *)
Lemma fast_path_offsets_not_advanced :
  ~ fast_path_as_specified 256 passed_ahead_world true (packet 1 100)
  /\ ~ fast_path_as_specified 256 stale_pass_world true (packet 3 50).
Proof.
  split; intros H.
  - destruct H as (w' & Hret & _ & H).
    + apply only_unit_1.
      * intros k Hin Hk. vm_compute in Hin.
        repeat (destruct Hin as [<-|Hin]; [first [reflexivity|vm_compute in Hk; discriminate]|]).
        contradiction.
      * vm_compute. discriminate.
    + destruct (H 1%nat) as (_ & _ & _ & _ & _ & _ & Hpass & _).
      * vm_compute. tauto.
      * vm_compute. discriminate.
      * apply cfil_data_common_returns in Hret. apply (f_equal snd) in Hret.
        cbn [snd] in Hret. subst w'. vm_compute in Hpass. discriminate.
  - destruct H as (w' & Hret & _).
    + apply only_unit_1.
      * intros k Hin Hk. vm_compute in Hin.
        repeat (destruct Hin as [<-|Hin]; [first [reflexivity|vm_compute in Hk; discriminate]|]).
        contradiction.
      * vm_compute. discriminate.
    + apply cfil_data_common_returns in Hret. apply (f_equal fst) in Hret.
      vm_compute in Hret. discriminate.
Qed.

(** The fast path of a submit that returns. *)
Lemma data_common_effect_fast_path msize w o data :
  has_flag (cfi_flags (w_info w)) CFIF_DROP = false ->
  fst (fst (cfil_data_length_cnt msize data)) <> 0 ->
  (so_dgram (w_so w) = false
   \/ (u32 (cfi_pending_mbnum (ibuf w o) + snd (cfil_data_length_cnt msize data))
         <= cfil_udp_gc_mbuf_num_max w
       /\ u32 (cfi_pending_mbcnt (ibuf w o) + snd (fst (cfil_data_length_cnt msize data)))
            <= cfil_udp_gc_mbuf_cnt_max w)) ->
  u64 (cfi_pending_last (ibuf w o) + fst (fst (cfil_data_length_cnt msize data)))
    <= cfi_pass_offset (ibuf w o) ->
  let datalen := fst (fst (cfil_data_length_cnt msize data)) in
  let w' := snd (data_common_effect msize w o data) in
  fst (data_common_effect msize w o data) = 0
  /\ w_log w' = w_log w
  /\ w_ext w' = w_ext w
  /\ cfi_inject_q (ibuf w' o) = cfi_inject_q (ibuf w o)
  /\ (forall k, In k kcunits -> ebuf w' k (negb o) = ebuf w k (negb o))
  /\ (forall k, In k kcunits -> cfe_filter (entry_at w k) = None ->
        ebuf w' k o = ebuf w k o)
  /\ (forall k, In k kcunits -> cfe_filter (entry_at w k) <> None ->
        let b := ebuf w k o in
        let b' := ebuf w' k o in
        let ctl_start := u64 (q_start (cfe_ctl_q b) + datalen) in
        q_mq (cfe_ctl_q b') = q_mq (cfe_ctl_q b)
        /\ q_mq (cfe_pending_q b') = q_mq (cfe_pending_q b)
        /\ q_start (cfe_ctl_q b') = ctl_start
        /\ q_end (cfe_ctl_q b') = u64 (q_end (cfe_ctl_q b) + datalen)
        /\ q_start (cfe_pending_q b') = u64 (q_start (cfe_pending_q b) + datalen)
        /\ q_end (cfe_pending_q b') = u64 (q_end (cfe_pending_q b) + datalen)
        /\ cfe_peeked b' = ctl_start
        /\ cfe_pass_offset b' = Z.max (cfe_pass_offset b) ctl_start
        /\ cfe_peek_offset b' = Z.max (cfe_peek_offset b) (Z.max (cfe_pass_offset b) ctl_start))
  /\ ibuf w' o
     = pending_move_cursor datalen (snd (fst (cfil_data_length_cnt msize data)))
         (snd (cfil_data_length_cnt msize data))
         (pending_extend datalen (snd (fst (cfil_data_length_cnt msize data)))
            (snd (cfil_data_length_cnt msize data)) (ibuf w o)).
Proof.
  intros Hdrop Hlen Hroom Hpass datalen w'. subst datalen w'.
  destruct (cfil_data_length_cnt msize data) as [[datalen mbcnt] mbnum] eqn:Hcnt.
  cbn [fst snd] in Hlen, Hroom, Hpass.
  rewrite (cfil_data_common_fast_path_eq msize w o data datalen mbcnt mbnum) by assumption.
  cbn [fst snd].
  set (w1 := with_info _ w).
  set (w2 := upd_ibuf o _ w1).
  assert (Hent : forall k, entry_at w2 k = entry_at w k).
  { intros k. subst w2 w1. rewrite entry_at_upd_ibuf. apply entry_at_add_byte_count. }
  assert (Hbuf : forall k d, In k kcunits ->
            ebuf (upd_ibuf o (pending_move_cursor datalen mbcnt mbnum)
                    (cfil_update_entry_offsets w2 o datalen)) k d
            = if Bool.eqb d o && has_filter (entry_at w k)
              then update_entry_offsets_buf datalen (ebuf w k o)
              else ebuf w k d).
  { intros k d Hin. unfold ebuf at 1. rewrite entry_at_upd_ibuf.
    fold (ebuf (cfil_update_entry_offsets w2 o datalen) k d).
    rewrite cfil_update_entry_offsets_ebuf by exact Hin.
    unfold ebuf. rewrite !Hent. reflexivity. }
  rewrite cfil_update_entry_offsets_sweep.
  destruct (sweep_rest has_filter o (update_entry_offsets_buf datalen) kcunits w2)
    as (_ & _ & Hlog & Hext & _ & _ & _ & _ & _ & Hibuf).
  assert (Hib : ibuf (upd_ibuf o (pending_move_cursor datalen mbcnt mbnum)
                        (sweep has_filter o (update_entry_offsets_buf datalen) kcunits w2)) o
                = pending_move_cursor datalen mbcnt mbnum
                    (pending_extend datalen mbcnt mbnum (ibuf w o))).
  { rewrite ibuf_upd_ibuf_eq, Hibuf. subst w2 w1.
    rewrite ibuf_upd_ibuf_eq, ibuf_add_byte_count. reflexivity. }
  split; [reflexivity|]. split; [exact Hlog|]. split; [exact Hext|]. split.
  { rewrite Hib. reflexivity. }
  rewrite <- cfil_update_entry_offsets_sweep.
  split.
  { intros k Hin. rewrite Hbuf by exact Hin.
    replace (Bool.eqb (negb o) o) with false by (destruct o; reflexivity). reflexivity. }
  split.
  { intros k Hin Hnone. rewrite Hbuf by exact Hin.
    unfold has_filter. rewrite Hnone, andb_false_r. reflexivity. }
  split; [|rewrite cfil_update_entry_offsets_sweep; exact Hib].
  intros k Hin Hsome. cbv zeta. rewrite Hbuf by exact Hin.
  rewrite Bool.eqb_reflx. unfold has_filter.
  destruct (cfe_filter (entry_at w k)); [|contradiction]. cbn [andb].
  unfold update_entry_offsets_buf.
  cbn [cfe_ctl_q cfe_pending_q cfe_peeked cfe_pass_offset cfe_peek_offset q_mq q_start q_end].
  repeat split.
  - destruct (Z.ltb_spec (cfe_pass_offset (ebuf w k o))
                (u64 (q_start (cfe_ctl_q (ebuf w k o)) + datalen))); lia.
  - destruct (Z.ltb_spec (cfe_pass_offset (ebuf w k o))
                (u64 (q_start (cfe_ctl_q (ebuf w k o)) + datalen)));
      match goal with |- context [?a <? ?b] => destruct (Z.ltb_spec a b) end; lia.
Qed.

(** C9, amended.  When the flow is not drop-latched, the span is not
    empty and not tail-dropped, the pending cursors of the direction are
    in order and its pending end extended by the span's length does not
    wrap (so that neither assertion of the function fails) and is at most
    [cfi_pass_offset], the pass offset kept for the socket, the submit
    returns 0 at once: nothing is logged (no data event), no queue gets
    the data, the other direction is untouched, and for every attached
    entry the cursors of both queues advance by the span's length, the
    peeked mark becomes the control queue's new start, the pass offset is
    raised to that start when it is below it, and the peek offset is
    raised to the pass offset when it is below it.  Entries without a
    filter keep their buffers. *)
Theorem fast_path_updates_offsets msize w o data :
  has_flag (cfi_flags (w_info w)) CFIF_DROP = false ->
  fst (fst (cfil_data_length_cnt msize data)) <> 0 ->
  (so_dgram (w_so w) = false
   \/ (u32 (cfi_pending_mbnum (ibuf w o) + snd (cfil_data_length_cnt msize data))
         <= cfil_udp_gc_mbuf_num_max w
       /\ u32 (cfi_pending_mbcnt (ibuf w o) + snd (fst (cfil_data_length_cnt msize data)))
            <= cfil_udp_gc_mbuf_cnt_max w)) ->
  0 <= cfi_pending_first (ibuf w o) <= cfi_pending_last (ibuf w o) ->
  cfi_pending_last (ibuf w o) + fst (fst (cfil_data_length_cnt msize data)) < 2 ^ 64 ->
  cfi_pending_last (ibuf w o) + fst (fst (cfil_data_length_cnt msize data))
    <= cfi_pass_offset (ibuf w o) ->
  let datalen := fst (fst (cfil_data_length_cnt msize data)) in
  exists w',
    cfil_data_common msize w o data = Ret (0, w')
    /\ w_log w' = w_log w
    /\ w_ext w' = w_ext w
    /\ cfi_inject_q (ibuf w' o) = cfi_inject_q (ibuf w o)
    /\ (forall k, In k kcunits -> ebuf w' k (negb o) = ebuf w k (negb o))
    /\ (forall k, In k kcunits -> cfe_filter (entry_at w k) = None ->
          ebuf w' k o = ebuf w k o)
    /\ (forall k, In k kcunits -> cfe_filter (entry_at w k) <> None ->
          let b := ebuf w k o in
          let b' := ebuf w' k o in
          let ctl_start := u64 (q_start (cfe_ctl_q b) + datalen) in
          q_mq (cfe_ctl_q b') = q_mq (cfe_ctl_q b)
          /\ q_mq (cfe_pending_q b') = q_mq (cfe_pending_q b)
          /\ q_start (cfe_ctl_q b') = ctl_start
          /\ q_end (cfe_ctl_q b') = u64 (q_end (cfe_ctl_q b) + datalen)
          /\ q_start (cfe_pending_q b') = u64 (q_start (cfe_pending_q b) + datalen)
          /\ q_end (cfe_pending_q b') = u64 (q_end (cfe_pending_q b) + datalen)
          /\ cfe_peeked b' = ctl_start
          /\ cfe_pass_offset b' = Z.max (cfe_pass_offset b) ctl_start
          /\ cfe_peek_offset b'
             = Z.max (cfe_peek_offset b) (Z.max (cfe_pass_offset b) ctl_start)).
Proof.
  intros Hdrop Hlen Hroom Hord Hwrap Hpass datalen.
  assert (Hrange : 0 <= datalen < 2 ^ 32).
  { subst datalen. rewrite cfil_data_length_cnt_fst. apply cfil_data_length_range. }
  assert (Hlast : u64 (cfi_pending_last (ibuf w o) + datalen)
                  = cfi_pending_last (ibuf w o) + datalen).
  { apply u64_small. subst datalen. lia. }
  destruct (data_common_effect_fast_path msize w o data Hdrop Hlen Hroom)
    as (Hret & Hlog & Hext & Hinj & Hother & Hnone & Hatt & Hib).
  { fold datalen. rewrite Hlast. exact Hpass. }
  fold datalen in Hib.
  exists (snd (data_common_effect msize w o data)).
  split; [|split; [exact Hlog|split; [exact Hext|split; [exact Hinj|
            split; [exact Hother|split; [exact Hnone|exact Hatt]]]]]].
  pose proof (cfil_data_common_verified msize w o data) as Hv.
  subst datalen.
  destruct (cfil_data_length_cnt msize data) as [[datalen mbcnt] mbnum] eqn:Hcnt.
  cbn [fst snd] in *. cbv zeta in Hv.
  rewrite Hv.
  - rewrite (surjective_pairing (data_common_effect msize w o data)), Hret. reflexivity.
  - rewrite ibuf_upd_ibuf_eq, ibuf_add_byte_count. unfold pending_cursors_verify.
    cbn [pending_extend cfi_pending_first cfi_pending_last].
    apply Z.leb_le. rewrite Hlast. lia.
  - intros _. rewrite Hib. unfold pending_cursors_verify.
    cbn [pending_move_cursor pending_extend cfi_pending_first cfi_pending_last].
    apply Z.leb_le. rewrite Hlast, u64_small by lia. lia.
Qed.

Lemma fast_path_updates_offsets_witness :
  exists w',
    cfil_data_common 256 passed_ahead_world true (packet 1 100) = Ret (0, w')
    /\ cfe_pass_offset (ebuf w' 1 true) = 1000.
Proof.
  destruct (fast_path_updates_offsets 256 passed_ahead_world true (packet 1 100))
    as (w' & Hret & _ & _ & _ & _ & _ & Hatt).
  - reflexivity.
  - vm_compute. discriminate.
  - left. reflexivity.
  - vm_compute. split; discriminate.
  - vm_compute. reflexivity.
  - vm_compute. discriminate.
  - exists w'. split; [exact Hret|].
    destruct (Hatt 1%nat) as (_ & _ & _ & _ & _ & _ & _ & Hpass & _).
    + vm_compute. tauto.
    + vm_compute. discriminate.
    + rewrite Hpass. vm_compute. reflexivity.
Defined.

(** ** Drop ([cfil_action_drop]) *)

Lemma force_defunct_rest w :
  w_info (snd (force_defunct w)) = w_info w
  /\ so_content_filter (w_so (snd (force_defunct w))) = so_content_filter (w_so w)
  /\ so_dgram (w_so (snd (force_defunct w))) = so_dgram (w_so w)
  /\ so_flow_db (w_so (snd (force_defunct w))) = so_flow_db (w_so w)
  /\ so_other_flows_attached (w_so (snd (force_defunct w))) = so_other_flows_attached (w_so w)
  /\ (w_log (snd (force_defunct w)) = w_log w
      \/ w_log (snd (force_defunct w)) = EvDefunct :: w_log w).
Proof.
  unfold force_defunct. destruct (negb (so_flow_db (w_so w))); [|repeat split; left; reflexivity].
  destruct (ext_call_rest w) as (Hso & Hinfo & _ & Hlog & _).
  destruct (ext_call w) as [e1 w1]. simpl in Hso, Hinfo, Hlog.
  destruct (e1 =? 0).
  - destruct (ext_call_rest w1) as (Hso2 & Hinfo2 & _ & Hlog2 & _).
    destruct (ext_call w1) as [e2 w2]. simpl in Hso2, Hinfo2, Hlog2.
    destruct (e2 =? 0); simpl; rewrite ?Hso2, ?Hinfo2, ?Hlog2, ?Hso, ?Hinfo, ?Hlog;
      repeat split; auto.
  - simpl. rewrite Hso, Hinfo, Hlog. repeat split; auto.
Qed.

Lemma upd_ibuf_rest o g w :
  cfi_flags (w_info (upd_ibuf o g w)) = cfi_flags (w_info w)
  /\ cfi_entries (w_info (upd_ibuf o g w)) = cfi_entries (w_info w)
  /\ cfi_ordered_entries (w_info (upd_ibuf o g w)) = cfi_ordered_entries (w_info w).
Proof. destruct o; repeat split. Qed.

Lemma flush_direction_sweep o w :
  flush_direction o w
  = upd_ibuf o drain_inject_q (sweep (fun _ => true) o drain_entry_buf kcunits w).
Proof. reflexivity. Qed.

Lemma flush_direction_rest o w :
  w_so (flush_direction o w) = w_so w
  /\ w_log (flush_direction o w) = w_log w
  /\ cfi_flags (w_info (flush_direction o w)) = cfi_flags (w_info w)
  /\ length (cfi_entries (w_info (flush_direction o w))) = length (cfi_entries (w_info w))
  /\ (forall k, cfe_flags (entry_at (flush_direction o w) k) = cfe_flags (entry_at w k))
  /\ (forall k, cfe_filter (entry_at (flush_direction o w) k) = cfe_filter (entry_at w k))
  /\ (forall k, ebuf (flush_direction o w) k (negb o) = ebuf w k (negb o))
  /\ ibuf (flush_direction o w) (negb o) = ibuf w (negb o)
  /\ cfi_inject_q (ibuf (flush_direction o w) o) = cfil_queue_init.
Proof.
  rewrite flush_direction_sweep.
  destruct (sweep_rest (fun _ => true) o drain_entry_buf kcunits w)
    as (Hso & _ & Hlog & _ & _ & _ & Hfl & _ & Hlen & Hib).
  destruct (upd_ibuf_rest o drain_inject_q (sweep (fun _ => true) o drain_entry_buf kcunits w))
    as (Hfl' & Hes' & _).
  split; [exact Hso|]. split; [exact Hlog|]. split; [rewrite Hfl'; exact Hfl|].
  split; [rewrite Hes'; exact Hlen|].
  split.
  { intros k. rewrite entry_at_upd_ibuf. apply (sweep_entry_proj cfe_flags).
    intros e b. destruct o; reflexivity. }
  split.
  { intros k. rewrite entry_at_upd_ibuf. apply (sweep_entry_proj cfe_filter).
    intros e b. destruct o; reflexivity. }
  split.
  { intros k. unfold ebuf. rewrite entry_at_upd_ibuf.
    apply (sweep_entry_proj (entrybuf (negb o))). intros e b. destruct o; reflexivity. }
  split.
  { rewrite ibuf_upd_ibuf_other. apply Hib. }
  rewrite ibuf_upd_ibuf_eq. reflexivity.
Qed.

Lemma flush_direction_drains o w k :
  In k kcunits -> unit_in_range w k ->
  ebuf (flush_direction o w) k o = drain_entry_buf (ebuf w k o).
Proof.
  intros Hin Hr. rewrite flush_direction_sweep. unfold ebuf at 1.
  rewrite entry_at_upd_ibuf.
  apply (sweep_ebuf_hit (fun _ => true)); auto using kcunits_NoDup.
Qed.

Lemma empty_buf_queues d :
  cfe_ctl_q (entrybuf d empty_entry) = cfil_queue_init
  /\ cfe_pending_q (entrybuf d empty_entry) = cfil_queue_init.
Proof. destruct d; split; reflexivity. Qed.

(** After [cfil_flush_queues] every queue of the flow is empty. *)
Lemma cfil_flush_queues_empty w :
  so_content_filter (w_so w) = true -> all_queues_empty (cfil_flush_queues w).
Proof.
  intros Hcf. unfold cfil_flush_queues. rewrite Hcf. cbn [negb].
  set (w1 := flush_direction true w).
  destruct (flush_direction_rest true w) as (_ & _ & _ & Hlen1 & _ & _ & Hoth1 & Hib1 & Hinj1).
  destruct (flush_direction_rest false w1) as (_ & _ & _ & Hlen2 & _ & _ & Hoth2 & Hib2 & Hinj2).
  fold w1 in Hlen1, Hoth1, Hib1, Hinj1.
  split.
  - intros k d Hin.
    destruct (unit_in_range_dec w k) as [Hr|Hr].
    + assert (Hr1 : unit_in_range w1 k) by (unfold unit_in_range in *; rewrite Hlen1; exact Hr).
      destruct d.
      * change true with (negb false) at 1 2. rewrite Hoth2. cbn [negb]. subst w1.
        rewrite flush_direction_drains by assumption. split; reflexivity.
      * rewrite flush_direction_drains by assumption. split; reflexivity.
    + assert (Hr2 : ~ unit_in_range (flush_direction false w1) k).
      { unfold unit_in_range in *. rewrite Hlen2, Hlen1. exact Hr. }
      unfold ebuf. rewrite entry_at_out_of_range by exact Hr2. apply empty_buf_queues.
  - intros d. destruct d.
    + change true with (negb false). rewrite Hib2. exact Hinj1.
    + exact Hinj2.
Qed.

Lemma cfil_flush_queues_rest w :
  w_so (cfil_flush_queues w) = w_so w
  /\ w_log (cfil_flush_queues w) = w_log w
  /\ cfi_flags (w_info (cfil_flush_queues w)) = cfi_flags (w_info w)
  /\ (forall k, cfe_flags (entry_at (cfil_flush_queues w) k) = cfe_flags (entry_at w k))
  /\ (forall k, cfe_filter (entry_at (cfil_flush_queues w) k) = cfe_filter (entry_at w k)).
Proof.
  unfold cfil_flush_queues. destruct (negb (so_content_filter (w_so w))); [repeat split|].
  set (w1 := flush_direction true w).
  destruct (flush_direction_rest true w) as (Hso1 & Hlog1 & Hfl1 & _ & Hef1 & Hfi1 & _).
  destruct (flush_direction_rest false w1) as (Hso2 & Hlog2 & Hfl2 & _ & Hef2 & Hfi2 & _).
  fold w1 in Hso1, Hlog1, Hfl1, Hef1, Hfi1.
  repeat split; intros; congruence.
Qed.

(** The shape of the state a drop leaves: the flow flags with [CFIF_DROP]
    added, the entry's flags with [CFEF_CFIL_DETACHED] added, all queues
    empty, and a trace extended by the socket's defuncting, if it took
    place, and then by the wakeup, if its condition held. *)
Lemma cfil_action_drop_shape w k :
  so_content_filter (w_so w) = true ->
  cfe_filter (entry_at w k) <> None ->
  let w' := snd (cfil_action_drop w k) in
  cfi_flags (w_info w') = set_flag (cfi_flags (w_info w)) CFIF_DROP
  /\ cfe_flags (entry_at w' k) = set_flag (cfe_flags (entry_at w k)) CFEF_CFIL_DETACHED
  /\ all_queues_empty w'
  /\ exists defunct,
       (defunct = [] \/ defunct = [EvDefunct])
       /\ w_log w'
          = (if has_flag (cfi_flags (w_info w')) CFIF_CLOSE_WAIT
                && negb (cfil_filters_attached w')
             then [EvWakeup] else []) ++ defunct ++ w_log w.
Proof.
  intros Hcf Hatt w'. subst w'. unfold cfil_action_drop. rewrite Hcf. cbn [negb].
  destruct (cfe_filter (entry_at w k)) as [u|] eqn:Efilter; [clear Hatt|contradiction].
  set (w1 := upd_cfi_flags _ w).
  destruct (force_defunct_rest w1) as (Hinfo2 & Hcf2 & _ & _ & _ & Hlog2).
  destruct (force_defunct w1) as [error w2]. cbn [snd] in Hinfo2, Hcf2, Hlog2.
  set (w3 := upd_entry k _ w2).
  assert (Hr : unit_in_range w2 k).
  { apply has_filter_in_range. unfold has_filter.
    replace (entry_at w2 k) with (entry_at w k);
      [rewrite Efilter; reflexivity|].
    destruct k; [reflexivity|]. unfold entry_at. rewrite Hinfo2. reflexivity. }
  assert (Hcf3 : so_content_filter (w_so w3) = true).
  { subst w3. destruct (upd_entry_rest k
      (fun e => with_cfe_flags (set_flag (cfe_flags e) CFEF_CFIL_DETACHED) e) w2) as (Hso & _).
    rewrite Hso, Hcf2. exact Hcf. }
  pose proof (cfil_flush_queues_empty w3 Hcf3) as Hempty.
  destruct (cfil_flush_queues_rest w3) as (Hso4 & Hlog4 & Hfl4 & Hef4 & _).
  set (w4 := cfil_flush_queues w3) in *.
  assert (Hfl : cfi_flags (w_info w4) = set_flag (cfi_flags (w_info w)) CFIF_DROP).
  { rewrite Hfl4. subst w3.
    destruct (upd_entry_rest k
      (fun e => with_cfe_flags (set_flag (cfe_flags e) CFEF_CFIL_DETACHED) e) w2)
      as (_ & _ & _ & _ & _ & _ & Hfl3 & _).
    rewrite Hfl3, Hinfo2. reflexivity. }
  assert (Hdet : cfe_flags (entry_at w4 k) = set_flag (cfe_flags (entry_at w k)) CFEF_CFIL_DETACHED).
  { rewrite Hef4. subst w3. rewrite entry_at_upd_entry_eq by exact Hr.
    replace (entry_at w2 k) with (entry_at w k); [reflexivity|].
    destruct k; [reflexivity|]. unfold entry_at. rewrite Hinfo2. reflexivity. }
  assert (Hlog : exists defunct, (defunct = [] \/ defunct = [EvDefunct])
                   /\ w_log w4 = defunct ++ w_log w).
  { rewrite Hlog4. subst w3.
    destruct (upd_entry_rest k
      (fun e => with_cfe_flags (set_flag (cfe_flags e) CFEF_CFIL_DETACHED) e) w2)
      as (_ & _ & Hlog3 & _).
    rewrite Hlog3.
    destruct Hlog2 as [-> | ->]; [exists []|exists [EvDefunct]]; split; auto. }
  clearbody w4. clear Hso4 Hlog4 Hfl4 Hef4.
  cbn [snd].
  assert (Hsame : forall c : bool,
             cfil_filters_attached (if c then log_event EvWakeup w4 else w4)
             = cfil_filters_attached w4) by (intros []; reflexivity).
  destruct Hlog as (defunct & Hd & Hlog).
  destruct (has_flag (cfi_flags (w_info w4)) CFIF_CLOSE_WAIT && negb (cfil_filters_attached w4))
    eqn:Ewake.
  - split; [exact Hfl|]. split; [exact Hdet|]. split; [exact Hempty|].
    exists defunct. split; [exact Hd|].
    change (cfi_flags (w_info (log_event EvWakeup w4))) with (cfi_flags (w_info w4)).
    rewrite (Hsame true), Ewake. cbn [w_log log_event]. rewrite Hlog. reflexivity.
  - split; [exact Hfl|]. split; [exact Hdet|]. split; [exact Hempty|].
    exists defunct. split; [exact Hd|]. rewrite Ewake. exact Hlog.
Qed.

(** *** The drop flag stays *)

Lemma has_flag_drop_lor f f' :
  Z.lor f' CFIF_NO_CLOSE_WAIT = Z.lor f CFIF_NO_CLOSE_WAIT ->
  has_flag f' CFIF_DROP = has_flag f CFIF_DROP.
Proof.
  intros H. unfold has_flag.
  assert (Hb : forall x, Z.land x CFIF_DROP = Z.land (Z.lor x CFIF_NO_CLOSE_WAIT) CFIF_DROP).
  { intros x. rewrite Z.land_lor_distr_l.
    change (Z.land CFIF_NO_CLOSE_WAIT CFIF_DROP) with 0. rewrite Z.lor_0_r. reflexivity. }
  rewrite (Hb f'), (Hb f), H. reflexivity.
Qed.

Lemma chain_frame_keeps_drop o units w w' :
  chain_frame o units w w' -> drop_latched w -> drop_latched w'.
Proof.
  intros Hfr Hd. unfold drop_latched in *.
  rewrite (has_flag_drop_lor _ _ (fr_flags _ _ _ _ Hfr)). exact Hd.
Qed.

Lemma inject_q_loop_flags msize rounds o w :
  cfi_flags (w_info (snd (inject_q_loop msize rounds o w))) = cfi_flags (w_info w).
Proof.
  revert w. induction rounds as [|rounds IH]; intros w; [reflexivity|].
  cbn [inject_q_loop].
  destruct (cfil_queue_first (cfi_inject_q (ibuf w o))) as [data|]; [|reflexivity].
  destruct (cfil_data_length_cnt msize data) as [[datalen mbcnt] mbnum].
  set (w1 := log_event _ _).
  assert (H1 : cfi_flags (w_info w1) = cfi_flags (w_info w)).
  { subst w1. cbn [log_event w_info]. apply upd_ibuf_rest. }
  destruct (ext_call_rest w1) as (_ & Hinfo & _).
  destruct (ext_call w1) as [error w2]. cbn [snd] in Hinfo.
  destruct (o && negb (error =? 0)).
  - cbn [snd]. rewrite Hinfo. exact H1.
  - rewrite IH, Hinfo. exact H1.
Qed.

Lemma cfil_sock_notify_shutdown_wr_frame o w :
  chain_frame o [] w (cfil_sock_notify_shutdown_wr w).
Proof.
  unfold cfil_sock_notify_shutdown_wr.
  destruct (_ && _); [|apply chain_frame_refl].
  generalize kcunits. intros l. revert w.
  induction l as [|k l IH]; intros w; [apply chain_frame_refl|].
  cbn [fold_left]. eapply chain_frame_trans; [apply chain_frame_disconnect_event|apply IH].
Qed.

Lemma cfil_service_inject_queue_keeps_drop msize w o :
  drop_latched w -> drop_latched (snd (cfil_service_inject_queue msize w o)).
Proof.
  unfold drop_latched. intros Hd. unfold cfil_service_inject_queue.
  destruct (so_defunct (w_so w)); [exact Hd|].
  set (retry := if o then CFIF_RETRY_INJECT_OUT else CFIF_RETRY_INJECT_IN).
  set (w1 := upd_cfi_flags _ w).
  assert (H1 : has_flag (cfi_flags (w_info w1)) CFIF_DROP = true).
  { subst w1. cbn [upd_cfi_flags with_info w_info with_cfi_flags cfi_flags].
    rewrite has_flag_clear_flag.
    replace (Z.land (Z.lnot retry) CFIF_DROP) with CFIF_DROP by (subst retry; destruct o; reflexivity).
    exact Hd. }
  clearbody w1.
  destruct (cfil_queue_empty (cfi_inject_q (ibuf w1 o))); [exact H1|].
  pose proof (inject_q_loop_flags msize (length (q_mq (cfi_inject_q (ibuf w1 o)))) o w1) as H2.
  destruct (inject_q_loop msize _ o w1) as [error w2]. cbn [snd] in H2 |- *.
  set (w3 := if negb (error =? 0) then _ else w2).
  assert (H3 : has_flag (cfi_flags (w_info w3)) CFIF_DROP = true).
  { subst w3. destruct (negb (error =? 0)); [|rewrite H2; exact H1].
    cbn [upd_cfi_flags with_info w_info with_cfi_flags cfi_flags].
    rewrite has_flag_set_flag, H2, H1. reflexivity. }
  clearbody w3.
  set (w4 := if has_flag (cfi_flags (w_info w3)) CFIF_SHUT_WR then _ else w3).
  assert (H4 : has_flag (cfi_flags (w_info w4)) CFIF_DROP = true).
  { subst w4. destruct (has_flag (cfi_flags (w_info w3)) CFIF_SHUT_WR); [|exact H3].
    apply (chain_frame_keeps_drop o [] w3); [apply cfil_sock_notify_shutdown_wr_frame|exact H3]. }
  clearbody w4.
  destruct (_ && _); exact H4.
Qed.

Lemma cfil_action_drop_keeps_drop w k :
  drop_latched w -> drop_latched (snd (cfil_action_drop w k)).
Proof.
  intros Hd.
  destruct (so_content_filter (w_so w)) eqn:Hcf.
  - destruct (cfe_filter (entry_at w k)) as [u|] eqn:Ef.
    + destruct (cfil_action_drop_shape w k Hcf) as (Hfl & _); [congruence|].
      unfold drop_latched. rewrite Hfl. apply has_flag_set_same. discriminate.
    + unfold cfil_action_drop. rewrite Hcf, Ef. exact Hd.
  - unfold cfil_action_drop. rewrite Hcf. exact Hd.
Qed.

Lemma step_keeps_drop msize w op :
  drop_latched w -> drop_latched (step_effect msize w op).
Proof.
  intros Hd. destruct op as [o data|k o pass peek|k o|k o|o|k]; cbn [step_effect].
  - unfold data_common_effect. unfold drop_latched in Hd. rewrite Hd. exact Hd.
  - unfold cfil_action_data_pass, cfil_acquire_sockbuf.
    unfold drop_latched in Hd. rewrite Hd. exact Hd.
  - eapply chain_frame_keeps_drop; [apply cfil_data_service_ctl_q_frame|exact Hd].
  - eapply chain_frame_keeps_drop; [apply cfil_service_pending_queue_frame|exact Hd].
  - apply cfil_service_inject_queue_keeps_drop. exact Hd.
  - apply cfil_action_drop_keeps_drop. exact Hd.
Qed.

Lemma run_keeps_drop msize w ops :
  drop_latched w -> drop_latched (run_effect msize w ops).
Proof.
  revert w. induction ops as [|op ops IH]; intros w Hd; [exact Hd|].
  cbn [run_effect fold_left]. apply IH, step_keeps_drop, Hd.
Qed.

(** On a drop-latched flow every submit returns EPIPE and changes
    nothing. *)
Lemma cfil_data_common_dropped msize w o data :
  drop_latched w -> cfil_data_common msize w o data = Ret (EPIPE, w).
Proof. intros Hd. unfold cfil_data_common. rewrite Hd. reflexivity. Qed.

(** On a drop-latched flow no call panics. *)
Lemma step_dropped msize w op :
  drop_latched w -> step msize w op = Ret (step_effect msize w op).
Proof.
  intros Hd. destruct op as [o data|k o pass peek|k o|k o|o|k]; try reflexivity.
  cbn [step step_effect]. rewrite cfil_data_common_dropped by exact Hd.
  unfold data_common_effect. unfold drop_latched in Hd. rewrite Hd. reflexivity.
Qed.

Lemma run_dropped msize w ops :
  drop_latched w -> run msize w ops = Ret (run_effect msize w ops).
Proof.
  revert w. induction ops as [|op ops IH]; intros w Hd; [reflexivity|].
  cbn [run]. rewrite step_dropped by exact Hd.
  rewrite IH by (apply step_keeps_drop; exact Hd). reflexivity.
Qed.

(** C4 as the specification words it does not hold: with two agents attached and a thread
    asleep in close-wait, a drop from agent 1 latches the flag, empties the
    queues and detaches entry 1, but agent 2 is still attached and the
    sleeper is not woken. *)
Lemma drop_does_not_always_wake : ~ drop_as_specified closing_world 1.
Proof.
  intros H. destruct H as (_ & _ & _ & Hwake & _).
  - reflexivity.
  - vm_compute. discriminate.
  - destruct Hwake as (new & Hlog & Hin); [reflexivity|].
    change (w_log closing_world) with (@nil event) in Hlog. rewrite app_nil_r in Hlog.
    subst new. vm_compute in Hin. intuition discriminate.
Qed.

(** C4, amended.  After [cfil_action_drop] on an attached entry of a
    socket with content filtering on, the flow's drop flag is set, every
    control, pending and inject queue of the flow is empty with its
    cursors reset, the entry is marked detached, and every later submit,
    whatever submits, verdicts, servicing and drops come in between,
    returns EPIPE before it reaches an assertion and leaves the flow as it
    is.  Sleepers are woken exactly when the flow is in close-wait and no
    filter is left attached to the socket. *)
Theorem drop_is_terminal w kcunit :
  so_content_filter (w_so w) = true ->
  cfe_filter (entry_at w kcunit) <> None ->
  let w' := snd (cfil_action_drop w kcunit) in
  drop_latched w'
  /\ all_queues_empty w'
  /\ has_flag (cfe_flags (entry_at w' kcunit)) CFEF_CFIL_DETACHED = true
  /\ (woken w w' <->
      has_flag (cfi_flags (w_info w)) CFIF_CLOSE_WAIT = true
      /\ cfil_filters_attached w' = false)
  /\ (forall msize ops o data,
        exists w'', run msize w' ops = Ret w''
                    /\ cfil_data_common msize w'' o data = Ret (EPIPE, w'')).
Proof.
  intros Hcf Hatt w'.
  destruct (cfil_action_drop_shape w kcunit Hcf Hatt) as (Hfl & Hdet & Hempty & defunct & Hd & Hlog).
  fold w' in Hfl, Hdet, Hempty, Hlog.
  assert (Hdrop : drop_latched w').
  { unfold drop_latched. rewrite Hfl. apply has_flag_set_same. discriminate. }
  split; [exact Hdrop|]. split; [exact Hempty|]. split.
  { rewrite Hdet. apply has_flag_set_same. discriminate. }
  split.
  { assert (Hcw : has_flag (cfi_flags (w_info w')) CFIF_CLOSE_WAIT
                  = has_flag (cfi_flags (w_info w)) CFIF_CLOSE_WAIT).
    { rewrite Hfl, has_flag_set_flag.
      change (has_flag CFIF_DROP CFIF_CLOSE_WAIT) with false. apply orb_false_r. }
    rewrite Hcw in Hlog. unfold woken. split.
    - intros (new & Hnew & Hin). rewrite Hlog, app_assoc in Hnew.
      apply app_inv_tail in Hnew. subst new.
      destruct (has_flag (cfi_flags (w_info w)) CFIF_CLOSE_WAIT);
        destruct (cfil_filters_attached w'); cbn [andb negb app] in Hin; auto;
        destruct Hd as [-> | ->]; cbn [In] in Hin; intuition discriminate.
    - intros [Hc Ha]. rewrite Hc, Ha in Hlog. cbn [andb negb] in Hlog.
      exists ([EvWakeup] ++ defunct). split.
      + rewrite Hlog, app_assoc. reflexivity.
      + left. reflexivity. }
  intros msize ops o data. exists (run_effect msize w' ops). split.
  - apply run_dropped. exact Hdrop.
  - apply cfil_data_common_dropped, run_keeps_drop. exact Hdrop.
Qed.

Lemma drop_is_terminal_witness :
  all_queues_empty (snd (cfil_action_drop closing_world 1))
  /\ exists w'',
       run 256 (snd (cfil_action_drop closing_world 1))
         [OpServiceInject true; OpSubmit false (packet 2 60)] = Ret w''
       /\ cfil_data_common 256 w'' true (packet 1 100) = Ret (EPIPE, w'').
Proof.
  destruct (drop_is_terminal closing_world 1) as (_ & Hempty & _ & _ & Hsubmit).
  - reflexivity.
  - vm_compute. discriminate.
  - split; [exact Hempty|]. apply Hsubmit.
Defined.

(** ** Spans are moved whole *)

Lemma packets_bytes_nonneg l : 0 <= packets_bytes l.
Proof.
  induction l as [|m l IH]; simpl; [lia|].
  pose proof (cfil_data_length_range m). lia.
Qed.

Lemma packets_bytes_app l1 l2 :
  packets_bytes (l1 ++ l2) = packets_bytes l1 + packets_bytes l2.
Proof. induction l1 as [|m l1 IH]; simpl; [reflexivity|]. rewrite IH. lia. Qed.

Lemma queue_bytes_packets cfq : queue_bytes cfq = packets_bytes (q_mq cfq).
Proof. reflexivity. Qed.

Lemma mbufq_remove_head m l : mbufq_remove m (m :: l) = l.
Proof. simpl. destruct (decide (m = m)); [reflexivity|contradiction]. Qed.

Lemma cfil_queue_first_head cfq data :
  cfil_queue_first cfq = Some data -> exists tl, q_mq cfq = data :: tl.
Proof.
  unfold cfil_queue_first. destruct (q_mq cfq) as [|m tl]; [discriminate|].
  simpl. intros [= ->]. exists tl. reflexivity.
Qed.

(** Closes the parts of a loop specification that hold by computation
    or arithmetic. *)
Ltac loop_parts := repeat split; intros; rewrite ?app_nil_r; try reflexivity; try lia; try congruence; try discriminate.

(** The move loop of [cfil_data_service_ctl_q] on a control queue whose
    cursors do not wrap: it moves a prefix [moved] of the packets, whole,
    to the pending queue; what it moves lies below the pass offset, and
    the packet it leaves at the head, if any, is not wholly below it. *)
Lemma ctl_q_pass_loop_spec rounds b :
  (length (q_mq (cfe_ctl_q b)) <= rounds)%nat ->
  queue_ok (cfe_ctl_q b) ->
  0 <= cfe_pass_offset b < 2 ^ 64 ->
  exists moved,
    q_mq (cfe_ctl_q b) = moved ++ q_mq (cfe_ctl_q (ctl_q_pass_loop rounds b))
    /\ q_mq (cfe_pending_q (ctl_q_pass_loop rounds b)) = q_mq (cfe_pending_q b) ++ moved
    /\ q_start (cfe_ctl_q (ctl_q_pass_loop rounds b))
       = q_start (cfe_ctl_q b) + packets_bytes moved
    /\ q_end (cfe_ctl_q (ctl_q_pass_loop rounds b)) = q_end (cfe_ctl_q b)
    /\ q_start (cfe_pending_q (ctl_q_pass_loop rounds b)) = q_start (cfe_pending_q b)
    /\ (moved <> [] -> q_start (cfe_ctl_q (ctl_q_pass_loop rounds b)) <= cfe_pass_offset b)
    /\ (forall data tl,
          q_mq (cfe_ctl_q (ctl_q_pass_loop rounds b)) = data :: tl ->
          ~ span_covered (q_start (cfe_ctl_q (ctl_q_pass_loop rounds b))) data
              (cfe_pass_offset b))
    /\ cfe_peeked b <= cfe_peeked (ctl_q_pass_loop rounds b).
Proof.
  revert b. induction rounds as [|rounds IH]; intros b Hlen [Hq0 Hq1] Hpass.
  { destruct (q_mq (cfe_ctl_q b)) as [|m tl] eqn:E; [|simpl in Hlen; lia].
    exists []. cbn [ctl_q_pass_loop]. rewrite E, app_nil_r.
    cbn [packets_bytes fold_right app].
    loop_parts. }
  cbn [ctl_q_pass_loop]. unfold cfil_queue_first.
  destruct (q_mq (cfe_ctl_q b)) as [|data tl] eqn:E.
  { exists []. cbn [head]. rewrite E, app_nil_r. cbn [packets_bytes fold_right app].
    loop_parts. }
  cbn [head]. cbn [packets_bytes fold_right] in Hq1. fold (packets_bytes tl) in Hq1.
  pose proof (cfil_data_length_range data) as Hd.
  pose proof (packets_bytes_nonneg tl) as Htl.
  destruct (Z.ltb_spec (q_start (cfe_ctl_q b)) (cfe_pass_offset b)) as [Hlt|Hge].
  2:{ exists []. rewrite E, app_nil_r. cbn [packets_bytes fold_right app].
      loop_parts. intros [Hc _]. lia. }
  rewrite (u64_small (q_start (cfe_ctl_q b) + cfil_data_length data)) by lia.
  destruct (Z.leb_spec (q_start (cfe_ctl_q b) + cfil_data_length data) (cfe_pass_offset b))
    as [Hfull|Hpart].
  - rewrite Z.ltb_irrefl.
    rewrite (u64_small (q_start (cfe_ctl_q b) + cfil_data_length data)) by lia.
    set (b1 := if _ >? _ then _ else b).
    assert (Hb1 : cfe_ctl_q b1 = cfe_ctl_q b /\ cfe_pending_q b1 = cfe_pending_q b
                  /\ cfe_pass_offset b1 = cfe_pass_offset b
                  /\ cfe_peeked b <= cfe_peeked b1).
    { subst b1. destruct (Z.gtb_spec (q_start (cfe_ctl_q b) + cfil_data_length data) (cfe_peeked b));
        cbn; repeat split; lia. }
    destruct Hb1 as (Hc1 & Hp1 & Hpo1 & Hpk1). clearbody b1.
    set (b3 := with_pending_q _ _).
    assert (Hc3 : cfe_ctl_q b3
                  = {| q_start := q_start (cfe_ctl_q b) + cfil_data_length data;
                       q_end := q_end (cfe_ctl_q b); q_mq := tl |}).
    { subst b3. unfold with_pending_q, with_ctl_q, cfil_queue_remove.
      cbn [cfe_ctl_q q_start q_end q_mq]. rewrite Hc1, E, mbufq_remove_head.
      rewrite u64_small by lia. reflexivity. }
    assert (Hp3 : q_mq (cfe_pending_q b3) = q_mq (cfe_pending_q b) ++ [data]
                  /\ q_start (cfe_pending_q b3) = q_start (cfe_pending_q b)).
    { subst b3. unfold with_pending_q, with_ctl_q, cfil_queue_enqueue.
      cbn [cfe_pending_q q_start q_end q_mq]. rewrite Hp1. split; reflexivity. }
    assert (Ho3 : cfe_pass_offset b3 = cfe_pass_offset b /\ cfe_peeked b3 = cfe_peeked b1).
    { subst b3. unfold with_pending_q, with_ctl_q.
      cbn [cfe_pass_offset cfe_peeked]. split; [exact Hpo1|reflexivity]. }
    clearbody b3. destruct Hp3 as [Hp3 Hp3']. destruct Ho3 as [Ho3 Hk3].
    destruct (IH b3) as (moved & M1 & M2 & M3 & M4 & M5 & M6 & M7 & M8).
    { rewrite Hc3. cbn [q_mq]. clear -Hlen. cbn [length] in Hlen. lia. }
    { rewrite Hc3. split; cbn [q_start q_mq]; lia. }
    { rewrite Ho3. exact Hpass. }
    exists (data :: moved). rewrite Hc3 in M1, M3, M4. cbn [q_start q_end q_mq] in M1, M3, M4.
    rewrite Ho3 in M6, M7.
    split; [cbn; rewrite <- M1; reflexivity|].
    split; [rewrite M2, Hp3, <- app_assoc; reflexivity|].
    split; [rewrite M3; cbn [packets_bytes fold_right]; fold (packets_bytes moved); lia|].
    split; [exact M4|]. split; [rewrite M5; exact Hp3'|].
    split.
    { intros _. destruct moved as [|m' moved']; [|apply M6; discriminate].
      rewrite M3. cbn [packets_bytes fold_right]. lia. }
    split; [exact M7|]. lia.
  - assert (Hcopy : u32 (u64 (cfe_pass_offset b - q_start (cfe_ctl_q b)))
                    = cfe_pass_offset b - q_start (cfe_ctl_q b)).
    { rewrite (u64_small (cfe_pass_offset b - q_start (cfe_ctl_q b))) by lia.
      apply u32_small. lia. }
    rewrite Hcopy.
    destruct (Z.ltb_spec (cfe_pass_offset b - q_start (cfe_ctl_q b)) (cfil_data_length data));
      [|lia].
    set (b1 := if _ >? _ then _ else b).
    assert (Hb1 : cfe_ctl_q b1 = cfe_ctl_q b /\ cfe_pending_q b1 = cfe_pending_q b
                  /\ cfe_peeked b <= cfe_peeked b1).
    { subst b1.
      match goal with |- context [?a >? ?c] => destruct (Z.gtb_spec a c) end;
        cbn; repeat split; lia. }
    destruct Hb1 as (Hc1 & Hp1 & Hpk1). clearbody b1.
    exists []. rewrite Hc1, Hp1, E, app_nil_r. cbn [packets_bytes fold_right app].
    loop_parts.
    match goal with H : _ :: _ = _ :: _ |- _ => injection H as <- <- end.
    intros [_ Hc]. lia.
Qed.

Lemma pending_in_range w k o data tl :
  q_mq (cfe_pending_q (ebuf w k o)) = data :: tl -> unit_in_range w k.
Proof.
  intros H. destruct (unit_in_range_dec w k) as [Hr|Hr]; [exact Hr|].
  unfold ebuf in H. rewrite entry_at_out_of_range in H by exact Hr.
  destruct o; discriminate.
Qed.

Lemma ebuf_inject_enqueue k o data datalen w k' d :
  ebuf (inject_enqueue k o data datalen w) k' d = ebuf w k' d.
Proof. unfold inject_enqueue, ebuf. cbn [log_event w_info]. destruct k', o; reflexivity. Qed.

(** The loop of [cfil_service_pending_queue] on a pending queue whose
    cursors do not wrap, when the entries it hands the packets to leave
    this entry's pending queue alone: it unlinks a prefix [moved] of the
    packets, whole, whose cumulated length fits in [passlen], and the
    packet left at the head, if any, would exceed it. *)
Lemma pending_q_loop_spec o k next rounds passlen curlen error w :
  (forall c e w0, call_ok c ->
     cfe_pending_q (ebuf (snd (next c e w0)) k o) = cfe_pending_q (ebuf w0 k o)) ->
  (length (q_mq (cfe_pending_q (ebuf w k o))) <= rounds)%nat ->
  queue_ok (cfe_pending_q (ebuf w k o)) ->
  0 <= curlen ->
  curlen + packets_bytes (q_mq (cfe_pending_q (ebuf w k o))) < 2 ^ 64 ->
  exists moved,
    q_mq (cfe_pending_q (ebuf w k o))
    = moved ++ q_mq (cfe_pending_q
                      (ebuf (snd (pending_q_loop next rounds k o passlen curlen error w)) k o))
    /\ q_start (cfe_pending_q
                  (ebuf (snd (pending_q_loop next rounds k o passlen curlen error w)) k o))
       = q_start (cfe_pending_q (ebuf w k o)) + packets_bytes moved
    /\ q_end (cfe_pending_q
                (ebuf (snd (pending_q_loop next rounds k o passlen curlen error w)) k o))
       = q_end (cfe_pending_q (ebuf w k o))
    /\ (moved <> [] -> curlen + packets_bytes moved <= passlen)
    /\ (forall data tl,
          q_mq (cfe_pending_q
                  (ebuf (snd (pending_q_loop next rounds k o passlen curlen error w)) k o))
          = data :: tl ->
          passlen < curlen + packets_bytes moved + cfil_data_length data).
Proof.
  intros Hnext. revert curlen error w.
  induction rounds as [|rounds IH]; intros curlen error w Hlen [Hq0 Hq1] Hc0 Hc1.
  { destruct (q_mq (cfe_pending_q (ebuf w k o))) as [|m tl] eqn:E; [|simpl in Hlen; lia].
    exists []. cbn [pending_q_loop snd]. rewrite E.
    cbn [packets_bytes fold_right app]. loop_parts. }
  cbn [pending_q_loop]. unfold cfil_queue_first.
  destruct (q_mq (cfe_pending_q (ebuf w k o))) as [|data tl] eqn:E.
  { exists []. cbn [head snd]. rewrite E. cbn [packets_bytes fold_right app]. loop_parts. }
  cbn [head]. cbn [packets_bytes fold_right] in Hq1, Hc1. fold (packets_bytes tl) in Hq1, Hc1.
  pose proof (cfil_data_length_range data) as Hd.
  pose proof (packets_bytes_nonneg tl) as Htl.
  pose proof (pending_in_range w k o data tl E) as Hr.
  rewrite (u64_small (curlen + cfil_data_length data)) by lia.
  destruct (Z.gtb_spec (curlen + cfil_data_length data) passlen) as [Hgt|Hle].
  { exists []. cbn [snd]. rewrite E. cbn [packets_bytes fold_right app]. loop_parts.
    match goal with H : _ :: _ = _ :: _ |- _ => injection H as <- <- end. lia. }
  set (w1 := upd_ebuf k o _ w).
  assert (H1 : cfe_pending_q (ebuf w1 k o)
               = {| q_start := q_start (cfe_pending_q (ebuf w k o)) + cfil_data_length data;
                    q_end := q_end (cfe_pending_q (ebuf w k o)); q_mq := tl |}).
  { subst w1. rewrite ebuf_upd_ebuf_eq by exact Hr.
    unfold with_pending_q, cfil_queue_remove. cbn [cfe_pending_q].
    rewrite E, mbufq_remove_head, u64_small by lia. reflexivity. }
  pose proof (Hnext (CallFilter data (cfil_data_length data)) error w1 eq_refl) as H2.
  destruct (next (CallFilter data (cfil_data_length data)) error w1) as [e' w2].
  cbn [snd] in H2.
  set (w3 := if e' =? 0 then _ else w2).
  assert (H3 : cfe_pending_q (ebuf w3 k o) = cfe_pending_q (ebuf w1 k o)).
  { subst w3. destruct (e' =? 0); [rewrite ebuf_inject_enqueue|]; exact H2. }
  clearbody w3 w1.
  destruct (IH (curlen + cfil_data_length data) e' w3) as (moved & M1 & M2 & M3 & M4 & M5).
  { rewrite H3, H1. cbn [q_mq]. clear -Hlen. cbn [length] in Hlen. lia. }
  { rewrite H3, H1. split; cbn [q_start q_mq]; lia. }
  { lia. }
  { rewrite H3, H1. cbn [q_mq]. lia. }
  rewrite H3, H1 in M1, M2, M3. cbn [q_start q_end q_mq] in M1, M2, M3.
  exists (data :: moved).
  split; [cbn [app]; rewrite <- M1; reflexivity|].
  split; [rewrite M2; cbn [packets_bytes fold_right]; fold (packets_bytes moved); lia|].
  split; [exact M3|].
  cbn [packets_bytes fold_right]. fold (packets_bytes moved).
  split.
  - intros _. destruct moved as [|m' moved']; [cbn [packets_bytes fold_right]; lia|].
    assert (m' :: moved' <> []) as Hne by discriminate. specialize (M4 Hne). lia.
  - intros d t Hd'. specialize (M5 d t Hd'). lia.
Qed.

Lemma slist_after_incl k l x : In x (slist_after k l) -> In x l.
Proof.
  induction l as [|y l IH]; simpl; [tauto|].
  destruct (decide (y = k)); [tauto|]. intros H. right. apply IH, H.
Qed.

Lemma slist_after_not_in k l : NoDup l -> ~ In k (slist_after k l).
Proof.
  induction 1 as [|y l Hy Hnd IH]; simpl; [tauto|].
  destruct (decide (y = k)) as [->|Hne]; [|exact IH].
  rewrite <- list_elem_of_In. exact Hy.
Qed.

(** C8.  On an entry whose queue cursors do not wrap: the move loop of
    [cfil_data_service_ctl_q] moves a prefix of the packets of the control
    queue, whole, to the pending queue, all of it below the pass offset,
    and stops at the first packet that is not wholly below the pass offset,
    which stays in the control queue while the peeked mark can only grow;
    [cfil_service_pending_queue] unlinks a prefix of the packets of the
    pending queue, whole, all of it below the pass offset, and leaves the
    first packet whose end would lie beyond the pass offset, and all
    after it, in the pending queue. *)
Theorem span_never_split w k o :
  NoDup (cfi_ordered_entries (w_info w)) ->
  queue_ok (cfe_ctl_q (ebuf w k o)) ->
  queue_ok (cfe_pending_q (ebuf w k o)) ->
  q_start (cfe_pending_q (ebuf w k o)) <= cfe_pass_offset (ebuf w k o) < 2 ^ 64 ->
  let b := ebuf w k o in
  let b' := ctl_q_pass_loop (length (q_mq (cfe_ctl_q b))) b in
  let p' := cfe_pending_q (ebuf (snd (cfil_service_pending_queue w k o)) k o) in
  (exists moved,
     q_mq (cfe_ctl_q b) = moved ++ q_mq (cfe_ctl_q b')
     /\ q_mq (cfe_pending_q b') = q_mq (cfe_pending_q b) ++ moved
     /\ q_start (cfe_ctl_q b') = q_start (cfe_ctl_q b) + packets_bytes moved
     /\ (moved <> [] -> q_start (cfe_ctl_q b') <= cfe_pass_offset b)
     /\ (forall data tl,
           q_mq (cfe_ctl_q b') = data :: tl ->
           ~ span_covered (q_start (cfe_ctl_q b')) data (cfe_pass_offset b))
     /\ cfe_pass_offset b' = cfe_pass_offset b
     /\ cfe_peeked b <= cfe_peeked b')
  /\ (exists moved,
        q_mq (cfe_pending_q b) = moved ++ q_mq p'
        /\ q_start p' = q_start (cfe_pending_q b) + packets_bytes moved
        /\ q_start p' <= cfe_pass_offset b
        /\ (forall data tl,
              q_mq p' = data :: tl ->
              cfe_pass_offset b < q_start p' + cfil_data_length data)).
Proof.
  intros Hnd Hctl Hpend Hpass b b' p'. fold b in Hctl, Hpend, Hpass. split.
  - destruct (ctl_q_pass_loop_spec (length (q_mq (cfe_ctl_q b))) b)
      as (moved & M1 & M2 & M3 & _ & _ & M6 & M7 & M8).
    { lia. } { exact Hctl. } { destruct Hpend. lia. }
    exists moved. fold b' in M1, M2, M3, M6, M7, M8.
    repeat split; try assumption.
    apply ctl_q_pass_loop_offsets.
  - subst p'. clear b'. subst b.
    unfold cfil_service_pending_queue, cfil_service_pending_queue_with.
    set (rest := slist_after k (cfi_ordered_entries (w_info w))).
    assert (Hnext : forall c e w0, call_ok c ->
              cfe_pending_q (ebuf (snd (chain_run o rest c e w0)) k o)
              = cfe_pending_q (ebuf w0 k o)).
    { intros c e w0 Hc. f_equal.
      apply (fr_outside _ _ _ _ (chain_run_frame o rest c e w0 Hc)).
      apply slist_after_not_in, Hnd. }
    destruct Hpend as [Hq0 Hq1].
    unfold cfil_queue_empty.
    destruct (q_mq (cfe_pending_q (ebuf w k o))) as [|data tl] eqn:E.
    + exists []. rewrite (Hnext CallService 0 w I). rewrite E.
      cbn [packets_bytes fold_right app]. loop_parts.
    + rewrite (u64_small (cfe_pass_offset (ebuf w k o) - q_start (cfe_pending_q (ebuf w k o))))
        by lia.
      destruct (pending_q_loop_spec o k (chain_run o rest)
                  (length (data :: tl))
                  (cfe_pass_offset (ebuf w k o) - q_start (cfe_pending_q (ebuf w k o)))
                  0 0 w Hnext)
        as (moved & M1 & M2 & _ & M4 & M5).
      { rewrite E. lia. } { split; [exact Hq0|rewrite E; exact Hq1]. } { lia. }
      { rewrite E. lia. }
      rewrite E in M1.
      exists moved. split; [exact M1|]. split; [exact M2|]. split.
      * rewrite M2. destruct moved as [|m' moved'];
          [cbn [packets_bytes fold_right]; lia|].
        assert (m' :: moved' <> []) as Hne by discriminate. specialize (M4 Hne). lia.
      * intros d t Hd. specialize (M5 d t Hd). rewrite M2. lia.
Qed.

Lemma span_never_split_witness :
  exists moved,
    q_mq (cfe_ctl_q (ebuf half_passed_world 1 true))
    = moved ++ q_mq (cfe_ctl_q
                      (ctl_q_pass_loop 2 (ebuf half_passed_world 1 true)))
    /\ q_mq (cfe_pending_q (ctl_q_pass_loop 2 (ebuf half_passed_world 1 true)))
       = q_mq (cfe_pending_q (ebuf half_passed_world 1 true)) ++ moved.
Proof.
  destruct (span_never_split half_passed_world 1 true) as [(moved & M1 & M2 & _) _].
  - apply (bool_decide_unpack _). vm_compute. exact I.
  - split; vm_compute; [discriminate|reflexivity].
  - split; vm_compute; [discriminate|reflexivity].
  - split; vm_compute; [discriminate|reflexivity].
  - exists moved. split; [exact M1|exact M2].
Defined.

(** ** Queue servicing, packet by packet *)

Lemma quiet_dispatch_done w k cfc error :
  quiet_steps w (snd (dispatch_done w k cfc error)).
Proof.
  unfold dispatch_done. destruct (error =? ENOBUFS); cbn [snd]; [|apply qs_refl].
  eapply qs_trans; [|apply qs_filter_flags].
  apply (qs_entry_flags k (fun e => set_flag (cfe_flags e) CFEF_FLOW_CONTROLLED)).
Qed.

(** Steps through a body of nested updates, outermost first. *)
Ltac quiet_step :=
  match goal with
  | |- quiet_steps ?w ?w => apply qs_refl
  | H : quiet_steps ?w ?w' |- quiet_steps ?w ?w' => exact H
  | |- quiet_steps _ (snd (dispatch_done _ _ _ _)) =>
      eapply qs_trans; [|apply quiet_dispatch_done]
  | |- quiet_steps _ (log_event _ _) =>
      eapply qs_trans; [|apply qs_event; exact I]
  | |- quiet_steps _ (upd_entry ?k (fun e => with_cfe_flags (@?g e) e) _) =>
      eapply qs_trans; [|apply (qs_entry_flags k g)]
  | |- quiet_steps _ (upd_filter_flags _ _ _) =>
      eapply qs_trans; [|apply qs_filter_flags]
  | |- quiet_steps _ (upd_cfi_flags _ _) =>
      eapply qs_trans; [|apply qs_cfi_flags]
  | |- quiet_steps _ (snd (ext_call _)) =>
      eapply qs_trans; [|apply qs_ext_call]
  end.

Ltac name_quiet_call :=
  match goal with
  | |- context [ext_call ?w] =>
      let H := fresh "Hext" in
      pose proof (qs_ext_call w) as H;
      destruct (ext_call w) as [? ?]; cbn [snd] in H
  end.

Ltac quiet_done := repeat quiet_step; eauto 4 using qs_trans.

Lemma quiet_attach_event w k :
  quiet_steps w (snd (cfil_dispatch_attach_event w k)).
Proof.
  unfold cfil_dispatch_attach_event.
  destruct (negb (so_proto_ok _)); [apply qs_refl|].
  destruct (match k with O => _ | S _ => _ end) as [k'|]; [|apply qs_refl].
  destruct (cfe_filter _) as [cfc|]; [|apply qs_refl].
  destruct (has_flag _ CFEF_SENT_SOCK_ATTACHED); [apply qs_refl|].
  destruct (has_flag _ CFF_FLOW_CONTROLLED); [quiet_done|].
  name_quiet_call. destruct (negb (_ =? 0)); [quiet_done|].
  name_quiet_call. destruct (negb (_ =? 0)); quiet_done.
Qed.

Lemma quiet_disconnect_event w k d :
  quiet_steps w (snd (cfil_dispatch_disconnect_event w k d)).
Proof.
  unfold cfil_dispatch_disconnect_event.
  destruct (cfe_filter _) as [cfc|]; [|apply qs_refl].
  set (w0 := if _ && _ then _ else w).
  assert (H0 : quiet_steps w w0).
  { subst w0. destruct (_ && _); quiet_done. }
  clearbody w0.
  destruct (_ || _); [exact H0|].
  destruct (d && negb _); [quiet_done|].
  destruct (has_flag _ CFF_FLOW_CONTROLLED); [quiet_done|].
  name_quiet_call. destruct (negb (_ =? 0)); quiet_done.
Qed.

Lemma quiet_data_event w k d data copyoffset copylen :
  quiet_steps w (snd (cfil_dispatch_data_event w k d data copyoffset copylen)).
Proof.
  unfold cfil_dispatch_data_event.
  destruct (cfe_filter _) as [cfc|]; [|apply qs_refl].
  destruct (has_flag _ CFF_FLOW_CONTROLLED); [quiet_done|].
  name_quiet_call. destruct (negb (_ =? 0)); [quiet_done|].
  name_quiet_call. destruct (negb (_ =? 0)); [quiet_done|].
  name_quiet_call. destruct (negb (_ =? 0)); quiet_done.
Qed.

Lemma moves_prepend o pre units w w' :
  moves o units w w' -> moves o (pre ++ units) w w'.
Proof.
  induction 1 as [w|w1 w2 w3 _ IH1 _ IH2|w w' Hq|k w Hk
                  |l1 k skipped k' l2 data tl w Hu Hd Hs Hk'|l1 k post data tl w Hu Hd Hp].
  - apply mv_refl.
  - eapply mv_trans; eassumption.
  - apply mv_quiet. exact Hq.
  - apply mv_pass. apply in_or_app. right. exact Hk.
  - apply (mv_hand o _ (pre ++ l1) k skipped k' l2 data tl); auto.
    rewrite Hu, app_assoc. reflexivity.
  - apply (mv_release o _ (pre ++ l1) k post data tl); auto.
    rewrite Hu, app_assoc. reflexivity.
Qed.

Lemma moves_cons o k units w w' : moves o units w w' -> moves o (k :: units) w w'.
Proof. apply (moves_prepend o [k]). Qed.

Lemma ctl_q_peek_loop_quiet k o mq off w :
  quiet_steps w (ctl_q_peek_loop k o mq off w).
Proof.
  revert off w. induction mq as [|data mq IH]; intros off w; cbn [ctl_q_peek_loop].
  - apply qs_refl.
  - destruct (off <? _); [|apply qs_refl].
    destruct (_ <=? _); [apply IH|].
    set (copyoffset := u32 (u64 (cfe_peeked (ebuf w k o) - off))).
    set (copylen := if _ >? _ then _ else _).
    destruct (copylen =? 0); [apply qs_refl|].
    pose proof (quiet_data_event w k o data copyoffset copylen) as Hd.
    destruct (cfil_dispatch_data_event w k o data copyoffset copylen) as [error w1].
    cbn [snd] in Hd.
    destruct (negb (error =? 0)); [exact Hd|].
    pose proof (qs_peeked k o (fun b => u64 (cfe_peeked b + copylen)) w1) as Hp.
    destruct (_ <? _).
    + eapply qs_trans; [exact Hd|exact Hp].
    + eapply qs_trans; [exact Hd|]. eapply qs_trans; [exact Hp|]. apply IH.
Qed.

Lemma service_ctl_q_gate_quiet k w :
  match service_ctl_q_gate w k with
  | inl (_, w') => quiet_steps w w'
  | inr w' => quiet_steps w w'
  end.
Proof.
  unfold service_ctl_q_gate.
  destruct (negb (has_flag _ CFEF_SENT_SOCK_ATTACHED)).
  - pose proof (quiet_attach_event w k) as Ha.
    destruct (cfil_dispatch_attach_event w k) as [error w1]. cbn [snd] in Ha.
    destruct (negb (error =? 0)); exact Ha.
  - destruct (negb _); apply qs_refl.
Qed.

Lemma cfil_data_service_ctl_q_with_moves o units k sp w :
  In k units ->
  (forall w0, moves o units w0 (snd (sp w0))) ->
  moves o units w (snd (cfil_data_service_ctl_q_with sp w k o)).
Proof.
  intros Hk Hsp. unfold cfil_data_service_ctl_q_with.
  pose proof (service_ctl_q_gate_quiet k w) as Hg.
  destruct (service_ctl_q_gate w k) as [[e w']|w1]; [apply mv_quiet; exact Hg|].
  set (w2 := upd_ebuf k o _ w1).
  assert (H2 : moves o units w1 w2) by (apply mv_pass; exact Hk).
  set (w3 := ctl_q_peek_loop k o _ _ w2).
  assert (H3 : moves o units w2 w3) by (apply mv_quiet, ctl_q_peek_loop_quiet).
  pose proof (Hsp w3) as H4. destruct (sp w3) as [error w4]. cbn [snd] in H4.
  assert (H04 : moves o units w w4).
  { eapply mv_trans; [apply mv_quiet; exact Hg|]. eapply mv_trans; [exact H2|].
    eapply mv_trans; [exact H3|exact H4]. }
  destruct (negb (error =? 0)); [exact H04|].
  destruct o; (destruct (_ && _); [|exact H04]); cbn [snd];
    (eapply mv_trans; [exact H04|]); apply mv_quiet, quiet_disconnect_event.
Qed.

Lemma unattached_unlink_pending k o data w j :
  unattached (unlink_pending k o data w) j <-> unattached w j.
Proof.
  unfold unattached, unlink_pending, has_filter. rewrite cfe_filter_upd_ebuf. reflexivity.
Qed.

Lemma pending_q_loop_moves o k rest next rounds passlen curlen error w :
  next_ok o rest next ->
  error = 0 \/ rest <> [] ->
  moves o (k :: rest) w (snd (pending_q_loop next rounds k o passlen curlen error w)).
Proof.
  intros [_ Hnext]. revert curlen error w.
  induction rounds as [|rounds IH]; intros curlen error w Herr; cbn [pending_q_loop];
    [apply mv_refl|].
  unfold cfil_queue_first.
  destruct (q_mq (cfe_pending_q (ebuf w k o))) as [|data tl] eqn:E; [apply mv_refl|].
  cbn [head]. destruct (_ >? _); [apply mv_refl|].
  fold (unlink_pending k o data w).
  destruct (Hnext data error (unlink_pending k o data w)) as [(He & Hw & Hun)|(He & Hh)].
  { intros ->. destruct Herr as [?|Hne]; [assumption|contradiction]. }
  - destruct (next _ error (unlink_pending k o data w)) as [error' w2].
    cbn [fst snd] in He, Hw. subst error' w2. cbn [Z.eqb].
    eapply mv_trans; [|apply IH; left; reflexivity].
    apply (mv_release o _ [] k rest data tl); auto.
    eapply Forall_impl; [exact Hun|]. intros j. apply unattached_unlink_pending.
  - destruct (next _ error (unlink_pending k o data w)) as [error' w2].
    cbn [fst snd] in He, Hh.
    destruct Hh as (skipped & k' & l2 & Hrest & Hskip & Hk' & Hmv).
    destruct (Z.eqb_spec error' 0) as [|_]; [contradiction|].
    eapply mv_trans; [|apply IH; right; rewrite Hrest; destruct skipped; discriminate].
    eapply mv_trans.
    + apply (mv_hand o _ [] k skipped k' l2 data tl); auto.
      * rewrite Hrest. reflexivity.
      * eapply Forall_impl; [exact Hskip|]. intros j. apply unattached_unlink_pending.
      * unfold unlink_pending in Hk'. unfold has_filter in *.
        rewrite cfe_filter_upd_ebuf in Hk'. exact Hk'.
    + rewrite Hrest. apply (moves_prepend o (k :: skipped)). exact Hmv.
Qed.

Lemma cfil_service_pending_queue_with_moves o k rest next w :
  next_ok o rest next ->
  moves o (k :: rest) w (snd (cfil_service_pending_queue_with next k o w)).
Proof.
  intros Hnext. unfold cfil_service_pending_queue_with.
  destruct (cfil_queue_empty _).
  - apply moves_cons, Hnext.
  - apply pending_q_loop_moves; [exact Hnext|left; reflexivity].
Qed.

Lemma cfil_data_filter_with_moves o k rest next data w :
  next_ok o rest next ->
  (unattached w k /\ cfil_data_filter_with next w k o data (cfil_data_length data) = (0, w))
  \/ (has_filter (entry_at w k) = true
      /\ fst (cfil_data_filter_with next w k o data (cfil_data_length data)) = EJUSTRETURN
      /\ moves o (k :: rest) (link_ctl k o data w)
           (snd (cfil_data_filter_with next w k o data (cfil_data_length data)))).
Proof.
  intros Hnext. unfold cfil_data_filter_with, unattached, has_filter.
  destruct (cfe_filter (entry_at w k)) as [cfc|]; [right|left; split; reflexivity].
  fold (link_ctl k o data w).
  pose proof (cfil_data_service_ctl_q_with_moves o (k :: rest) k
                (cfil_service_pending_queue_with next k o) (link_ctl k o data w)
                (or_introl eq_refl)) as H2.
  destruct (cfil_data_service_ctl_q_with _ (link_ctl k o data w) k o) as [e w2].
  cbn [fst snd] in *.
  split; [reflexivity|]. split; [reflexivity|].
  apply H2. intros w0. apply cfil_service_pending_queue_with_moves. exact Hnext.
Qed.

Lemma chain_run_ok o rest : next_ok o rest (chain_run o rest).
Proof.
  induction rest as [|k rest IH].
  - split.
    + intros error w. apply mv_refl.
    + intros data error w Herr. left. cbn [chain_run fst snd].
      split; [apply Herr; reflexivity|]. split; [reflexivity|constructor].
  - split.
    + intros error w. cbn [chain_run].
      pose proof (cfil_data_service_ctl_q_with_moves o (k :: rest) k
                    (cfil_service_pending_queue_with (chain_run o rest) k o) w
                    (or_introl eq_refl)) as H1.
      destruct (cfil_data_service_ctl_q_with _ w k o) as [error' w']. cbn [snd] in H1.
      assert (H1' : moves o (k :: rest) w w').
      { apply H1. intros w0. apply cfil_service_pending_queue_with_moves. exact IH. }
      destruct (error' =? 0); [|exact H1'].
      eapply mv_trans; [exact H1'|]. apply moves_cons, IH.
    + intros data error w _. cbn [chain_run].
      destruct (cfil_data_filter_with_moves o k rest (chain_run o rest) data w IH)
        as [[Hun Heq]|(Hatt & He & Hmv)].
      * rewrite Heq. cbn [Z.eqb].
        destruct IH as [_ IHf].
        destruct (IHf data 0 w (fun _ => eq_refl)) as [(He & Hw & Hall)|(He & Hh)].
        -- left. split; [exact He|]. split; [exact Hw|]. constructor; assumption.
        -- right. split; [exact He|].
           destruct Hh as (skipped & k' & l2 & Hrest & Hskip & Hk' & Hmv).
           exists (k :: skipped), k', l2.
           split; [rewrite Hrest; reflexivity|].
           split; [constructor; assumption|]. split; assumption.
      * destruct (cfil_data_filter_with (chain_run o rest) w k o data (cfil_data_length data))
          as [error' w'].
        cbn [fst snd] in He, Hmv. subst error'. cbn [Z.eqb EJUSTRETURN fst snd].
        right. split; [discriminate|].
        exists [], k, rest. split; [reflexivity|]. split; [constructor|]. split; assumption.
Qed.

Lemma ordered_split k l : In k l -> exists pre, l = pre ++ k :: slist_after k l.
Proof.
  induction l as [|y l IH]; [intros []|]. intros Hin. cbn [slist_after].
  destruct (decide (y = k)) as [->|Hne].
  - exists []. reflexivity.
  - destruct Hin as [?|Hin]; [contradiction|]. destruct (IH Hin) as [pre Hpre].
    exists (y :: pre). cbn [app]. rewrite <- Hpre. reflexivity.
Qed.

Lemma cfil_service_pending_queue_moves w k o :
  moves o (k :: slist_after k (cfi_ordered_entries (w_info w))) w
    (snd (cfil_service_pending_queue w k o)).
Proof. apply cfil_service_pending_queue_with_moves, chain_run_ok. Qed.

Lemma cfil_data_service_ctl_q_moves w k o :
  moves o (k :: slist_after k (cfi_ordered_entries (w_info w))) w
    (snd (cfil_data_service_ctl_q w k o)).
Proof.
  apply cfil_data_service_ctl_q_with_moves; [left; reflexivity|].
  intros w0. apply cfil_service_pending_queue_with_moves, chain_run_ok.
Qed.

(** ** What the quiet steps leave alone *)

Lemma same_queues_refl w : same_queues w w.
Proof. constructor; auto. exists []. split; [reflexivity|constructor]. Qed.

Lemma same_queues_trans w1 w2 w3 :
  same_queues w1 w2 -> same_queues w2 w3 -> same_queues w1 w3.
Proof.
  intros [A1 A2 A3 A4 A5 A6 A7 A8 A9 (n1 & L1 & F1)] [B1 B2 B3 B4 B5 B6 B7 B8 B9 (n2 & L2 & F2)].
  constructor; intros; try congruence.
  exists (n2 ++ n1). split.
  - rewrite L2, L1, app_assoc. reflexivity.
  - apply Forall_app. split; assumption.
Qed.

(** A step that keeps the socket and the flow state. *)
Lemma same_queues_of_info w w' new :
  w_so w' = w_so w -> w_info w' = w_info w ->
  w_log w' = new ++ w_log w -> Forall silent_event new ->
  same_queues w w'.
Proof.
  intros Hso Hinfo Hlog Hnew.
  assert (He : forall k, entry_at w' k = entry_at w k).
  { intros [|i]; [reflexivity|]. unfold entry_at. rewrite Hinfo. reflexivity. }
  constructor; intros; unfold ebuf, ibuf; rewrite ?He, ?Hinfo; auto.
  exists new. split; assumption.
Qed.

Lemma quiet_steps_same w w' : quiet_steps w w' -> same_queues w w'.
Proof.
  induction 1 as [w|w1 w2 w3 _ IH1 _ IH2|k g w|u g w|g w|w|ev w Hev|k o g w].
  - apply same_queues_refl.
  - eapply same_queues_trans; eassumption.
  - destruct (upd_entry_rest k (fun e => with_cfe_flags (g e) e) w)
      as (Hso & _ & Hlog & _ & _ & _ & _ & Hs & Hr & Hord & _).
    constructor; auto.
    + apply upd_entry_length.
    + intros. apply cfe_filter_upd_entry_flags.
    + intros. rewrite ebuf_upd_entry_flags. reflexivity.
    + intros. rewrite ebuf_upd_entry_flags. reflexivity.
    + intros. rewrite ebuf_upd_entry_flags. reflexivity.
    + intros. rewrite ebuf_upd_entry_flags. reflexivity.
    + intros. apply ibuf_upd_entry.
    + exists []. split; [exact Hlog|constructor].
  - destruct (upd_filter_flags_rest u g w) as (Hso & Hlog & _).
    apply (same_queues_of_info _ _ []); auto using w_info_upd_filter_flags.
  - constructor; intros; unfold ebuf; rewrite ?entry_at_upd_cfi_flags; try reflexivity.
    all: try (destruct d; reflexivity).
    all: exists []; split; [reflexivity|constructor].
  - destruct (ext_call_rest w) as (Hso & Hinfo & _ & Hlog & _).
    apply (same_queues_of_info _ _ []); auto.
  - apply (same_queues_of_info _ _ [ev]); auto.
  - destruct (upd_ebuf_rest k o (fun b => with_peeked (g b) b) w)
      as (Hso & _ & Hlog & _ & _ & _ & _ & Hord & Hlen & Hib).
    constructor; auto.
    + intros. apply cfe_filter_upd_ebuf.
    + intros. apply (ebuf_upd_ebuf_proj cfe_ctl_q). reflexivity.
    + intros. apply (ebuf_upd_ebuf_proj cfe_pending_q). reflexivity.
    + intros. apply (ebuf_upd_ebuf_proj cfe_pass_offset). reflexivity.
    + intros. apply (ebuf_upd_ebuf_proj cfe_peek_offset). reflexivity.
    + exists []. split; [exact Hlog|constructor].
Qed.

(** ** The books *)

Lemma entries_bytes_insert d es i e e' :
  es !! i = Some e ->
  entries_bytes d (<[i := e']> es)
  = entries_bytes d es + buf_bytes (entrybuf d e') - buf_bytes (entrybuf d e).
Proof.
  revert i. induction es as [|x es IH]; intros i Hi; [discriminate|].
  destruct i as [|i].
  - injection Hi as ->.
    change (<[0%nat := e']> (e :: es)) with (e' :: es).
    unfold entries_bytes, buf_bytes. cbn [fold_right]. lia.
  - change (<[S i := e']> (x :: es)) with (x :: <[i := e']> es).
    unfold entries_bytes in *. cbn [fold_right]. rewrite (IH i Hi). lia.
Qed.

Lemma entries_bytes_ext d es es' :
  length es = length es' ->
  (forall i, buf_bytes (entrybuf d (default empty_entry (es !! i)))
             = buf_bytes (entrybuf d (default empty_entry (es' !! i)))) ->
  entries_bytes d es = entries_bytes d es'.
Proof.
  revert es'. induction es as [|x es IH]; intros [|y es'] Hlen Hall;
    try discriminate; [reflexivity|].
  unfold entries_bytes in *. cbn [fold_right].
  pose proof (Hall 0%nat) as H0. cbn in H0. unfold buf_bytes in H0.
  rewrite (IH es'); [lia|cbn in Hlen; congruence|].
  intros i. apply (Hall (S i)).
Qed.

Lemma queued_bytes_same w w' d :
  same_queues w w' -> queued_bytes d w' = queued_bytes d w.
Proof.
  intros Hs. unfold queued_bytes. rewrite (sq_ibuf _ _ Hs). f_equal.
  apply entries_bytes_ext; [apply (sq_length _ _ Hs)|].
  intros i. pose proof (sq_ctl _ _ Hs (S i) d) as H1.
  pose proof (sq_pending _ _ Hs (S i) d) as H2.
  unfold ebuf, entry_at in H1, H2. unfold buf_bytes. rewrite H1, H2. reflexivity.
Qed.

Lemma queued_bytes_upd_ebuf d k o g w :
  unit_in_range w k ->
  queued_bytes d (upd_ebuf k o g w)
  = queued_bytes d w
    + (if Bool.eqb d o then buf_bytes (g (ebuf w k o)) - buf_bytes (ebuf w k o) else 0).
Proof.
  unfold unit_in_range. intros Hr. destruct k as [|i]; [lia|].
  unfold queued_bytes. rewrite (proj2 (proj2 (proj2 (proj2 (proj2 (proj2 (proj2 (proj2 (proj2
    (upd_ebuf_rest (S i) o g w)))))))))).
  unfold upd_ebuf, upd_entry, ebuf, entry_at.
  destruct (cfi_entries (w_info w) !! i) as [e|] eqn:E.
  2:{ apply lookup_ge_None in E. lia. }
  cbn [w_info with_info cfi_entries with_cfi_entries default].
  rewrite (entries_bytes_insert d _ i e _ E).
  destruct d, o; cbn [Bool.eqb entrybuf with_entrybuf cfe_snd cfe_rcv]; unfold id; lia.
Qed.

Lemma queued_bytes_upd_ebuf_keep d k o g w :
  (forall b, buf_bytes (g b) = buf_bytes b) ->
  queued_bytes d (upd_ebuf k o g w) = queued_bytes d w.
Proof.
  intros Hg. destruct (unit_in_range_dec w k) as [Hr|Hr].
  - rewrite queued_bytes_upd_ebuf by exact Hr. rewrite Hg. destruct (Bool.eqb d o); lia.
  - unfold upd_ebuf. rewrite upd_entry_out_of_range by exact Hr. reflexivity.
Qed.

Lemma queued_bytes_upd_ibuf d o g w :
  queued_bytes d (upd_ibuf o g w)
  = queued_bytes d w
    + (if Bool.eqb d o
       then queue_bytes (cfi_inject_q (g (ibuf w o))) - queue_bytes (cfi_inject_q (ibuf w o))
       else 0).
Proof.
  unfold queued_bytes.
  rewrite (proj1 (proj2 (upd_ibuf_rest o g w))).
  destruct d, o; cbn [Bool.eqb]; rewrite ?ibuf_upd_ibuf_eq;
    try (change false with (negb true); rewrite ibuf_upd_ibuf_other);
    try (change true with (negb false) at 2; rewrite ibuf_upd_ibuf_other);
    cbn [negb]; lia.
Qed.

Lemma silent_quiet ev : silent_event ev -> quiet_event ev.
Proof. destruct ev; cbn; tauto. Qed.

Lemma bytes_app_quiet d new log :
  Forall quiet_event new ->
  bytes_submitted d (new ++ log) = bytes_submitted d log
  /\ bytes_released d (new ++ log) = bytes_released d log.
Proof.
  induction 1 as [|ev new Hev _ IH]; [split; reflexivity|].
  destruct IH as [IH1 IH2].
  destruct ev; cbn in Hev; try contradiction; cbn [app bytes_submitted bytes_released];
    split; assumption.
Qed.

Lemma balance_same w w' d : same_queues w w' -> balance d w' = balance d w.
Proof.
  intros Hs. unfold balance. rewrite (queued_bytes_same w w' d Hs).
  destruct (sq_log _ _ Hs) as (new & Hlog & Hnew). rewrite Hlog.
  destruct (bytes_app_quiet d new (w_log w)) as [-> ->]; [|reflexivity].
  eapply Forall_impl; [exact Hnew|]. apply silent_quiet.
Qed.

Lemma buf_bytes_pass_loop rounds b :
  buf_bytes (ctl_q_pass_loop rounds b) = buf_bytes b.
Proof.
  revert b. induction rounds as [|rounds IH]; intros b; cbn [ctl_q_pass_loop]; [reflexivity|].
  unfold cfil_queue_first.
  destruct (q_mq (cfe_ctl_q b)) as [|data tl] eqn:E; [reflexivity|]. cbn [head].
  destruct (_ <? _); [|reflexivity].
  set (copylen := if _ <=? _ then _ else _).
  set (b1 := if _ >? _ then _ else b).
  assert (H1 : cfe_ctl_q b1 = cfe_ctl_q b /\ cfe_pending_q b1 = cfe_pending_q b).
  { subst b1. destruct (_ >? _); split; reflexivity. }
  destruct H1 as [Hc Hp].
  assert (Hb1 : buf_bytes b1 = buf_bytes b) by (unfold buf_bytes; rewrite Hc, Hp; reflexivity).
  destruct (copylen <? _); [exact Hb1|].
  rewrite IH, <- Hb1. unfold buf_bytes, with_pending_q, with_ctl_q, cfil_queue_enqueue,
    cfil_queue_remove, queue_bytes.
  cbn [cfe_ctl_q cfe_pending_q q_mq]. rewrite Hc, E, mbufq_remove_head.
  fold (packets_bytes (q_mq (cfe_pending_q b1) ++ [data])).
  rewrite packets_bytes_app. unfold packets_bytes. cbn [fold_right]. lia.
Qed.

Lemma balance_upd_ebuf d k o g w :
  unit_in_range w k ->
  balance d (upd_ebuf k o g w)
  = balance d w
    + (if Bool.eqb d o then buf_bytes (g (ebuf w k o)) - buf_bytes (ebuf w k o) else 0).
Proof.
  intros Hr. unfold balance. rewrite queued_bytes_upd_ebuf by exact Hr.
  destruct (upd_ebuf_rest k o g w) as (_ & _ & -> & _). lia.
Qed.

Lemma balance_upd_ebuf_keep d k o g w :
  (forall b, buf_bytes (g b) = buf_bytes b) ->
  balance d (upd_ebuf k o g w) = balance d w.
Proof.
  intros Hg. unfold balance. rewrite queued_bytes_upd_ebuf_keep by exact Hg.
  destruct (upd_ebuf_rest k o g w) as (_ & _ & -> & _). reflexivity.
Qed.

Lemma balance_upd_ibuf_keep d o g w :
  (forall cb, cfi_inject_q (g cb) = cfi_inject_q cb) ->
  balance d (upd_ibuf o g w) = balance d w.
Proof.
  intros Hg. unfold balance. rewrite queued_bytes_upd_ibuf, Hg.
  change (w_log (upd_ibuf o g w)) with (w_log w). destruct (Bool.eqb d o); lia.
Qed.

Lemma balance_unlink_pending d k o data tl w :
  q_mq (cfe_pending_q (ebuf w k o)) = data :: tl ->
  balance d (unlink_pending k o data w)
  = balance d w - (if Bool.eqb d o then cfil_data_length data else 0).
Proof.
  intros E. unfold unlink_pending.
  rewrite balance_upd_ebuf by (eapply pending_in_range; exact E).
  destruct (Bool.eqb d o); [|lia].
  unfold buf_bytes, with_pending_q, cfil_queue_remove, queue_bytes.
  cbn [cfe_ctl_q cfe_pending_q q_mq]. rewrite E, mbufq_remove_head. cbn [fold_right]. lia.
Qed.

Lemma balance_link_ctl d k o data w :
  unit_in_range w k ->
  balance d (link_ctl k o data w)
  = balance d w + (if Bool.eqb d o then cfil_data_length data else 0).
Proof.
  intros Hr. unfold link_ctl. rewrite balance_upd_ebuf by exact Hr.
  destruct (Bool.eqb d o); [|lia].
  unfold buf_bytes, with_ctl_q, cfil_queue_enqueue, queue_bytes.
  cbn [cfe_ctl_q cfe_pending_q q_mq].
  fold (packets_bytes (q_mq (cfe_ctl_q (ebuf w k o)) ++ [data])).
  rewrite packets_bytes_app. unfold packets_bytes. cbn [fold_right]. lia.
Qed.

Lemma balance_inject_enqueue d k o data datalen w :
  balance d (inject_enqueue k o data datalen w)
  = balance d w + (if Bool.eqb d o then cfil_data_length data else 0).
Proof.
  unfold inject_enqueue, balance.
  match goal with |- context [log_event ?ev (upd_ibuf o ?g w)] =>
    change (queued_bytes d (log_event ev (upd_ibuf o g w)))
      with (queued_bytes d (upd_ibuf o g w));
    change (w_log (log_event ev (upd_ibuf o g w))) with (ev :: w_log w)
  end.
  rewrite queued_bytes_upd_ibuf. cbn [bytes_submitted bytes_released cfi_inject_q].
  destruct (Bool.eqb d o); [|lia].
  unfold cfil_queue_enqueue, queue_bytes. cbn [q_mq].
  fold (packets_bytes (q_mq (cfi_inject_q (ibuf w o)) ++ [data])).
  rewrite packets_bytes_app. unfold packets_bytes. cbn [fold_right]. lia.
Qed.

Lemma unit_in_range_unlink_pending k o data w k' :
  unit_in_range (unlink_pending k o data w) k' <-> unit_in_range w k'.
Proof. unfold unlink_pending, upd_ebuf. apply unit_in_range_upd_entry. Qed.

(** Queue servicing keeps the books of both directions. *)
Lemma moves_balance o units w w' d :
  moves o units w w' -> balance d w' = balance d w.
Proof.
  induction 1 as [w|w1 w2 w3 _ IH1 _ IH2|w w' Hq|k w Hk
                  |l1 k skipped k' l2 data tl w Hu Hd Hs Hk'|l1 k post data tl w Hu Hd Hp].
  - reflexivity.
  - congruence.
  - apply balance_same, quiet_steps_same, Hq.
  - apply balance_upd_ebuf_keep. intros b. apply buf_bytes_pass_loop.
  - unfold hand_over. rewrite balance_link_ctl.
    + rewrite (balance_unlink_pending d k o data tl w Hd). lia.
    + apply unit_in_range_unlink_pending, has_filter_in_range, Hk'.
  - unfold release. rewrite balance_inject_enqueue.
    rewrite (balance_unlink_pending d k o data tl w Hd). lia.
Qed.

Lemma balance_quiet w w' d : quiet_steps w w' -> balance d w' = balance d w.
Proof. intros H. apply balance_same, quiet_steps_same, H. Qed.

Lemma inject_q_loop_balance msize rounds o w d :
  balance d (snd (inject_q_loop msize rounds o w)) = balance d w.
Proof.
  revert w. induction rounds as [|rounds IH]; intros w; cbn [inject_q_loop]; [reflexivity|].
  unfold cfil_queue_first.
  destruct (q_mq (cfi_inject_q (ibuf w o))) as [|data tl] eqn:E; [reflexivity|]. cbn [head].
  pose proof (cfil_data_length_cnt_fst msize data) as Hlen.
  destruct (cfil_data_length_cnt msize data) as [[datalen mbcnt] mbnum]. cbn [fst] in Hlen.
  set (w1 := upd_ibuf o _ w).
  assert (H1 : balance d (log_event (EvReinject o data) w1) = balance d w).
  { unfold balance.
    change (queued_bytes d (log_event (EvReinject o data) w1)) with (queued_bytes d w1).
    change (w_log (log_event (EvReinject o data) w1)) with (EvReinject o data :: w_log w).
    subst w1. rewrite queued_bytes_upd_ibuf. cbn [bytes_submitted bytes_released].
    unfold inject_dequeue, cfil_queue_remove, queue_bytes. cbn [cfi_inject_q q_mq].
    rewrite E, mbufq_remove_head. cbn [fold_right].
    destruct d, o; cbn [Bool.eqb]; lia. }
  pose proof (balance_quiet _ _ d (qs_ext_call (log_event (EvReinject o data) w1))) as H2.
  destruct (ext_call (log_event (EvReinject o data) w1)) as [error w2]. cbn [snd] in H2.
  destruct (o && negb (error =? 0)).
  - cbn [snd]. congruence.
  - rewrite IH. congruence.
Qed.

Lemma cfil_sock_notify_shutdown_wr_quiet w :
  quiet_steps w (cfil_sock_notify_shutdown_wr w).
Proof.
  unfold cfil_sock_notify_shutdown_wr.
  destruct (_ && _); [|apply qs_refl].
  generalize kcunits. intros l. revert w.
  induction l as [|k l IH]; intros w; [apply qs_refl|].
  cbn [fold_left]. eapply qs_trans; [apply quiet_disconnect_event|apply IH].
Qed.

Lemma cfil_service_inject_queue_balance msize w o d :
  balance d (snd (cfil_service_inject_queue msize w o)) = balance d w.
Proof.
  unfold cfil_service_inject_queue.
  destruct (so_defunct (w_so w)); [reflexivity|].
  set (retry := if o then CFIF_RETRY_INJECT_OUT else CFIF_RETRY_INJECT_IN).
  set (w1 := upd_cfi_flags _ w).
  assert (H1 : balance d w1 = balance d w) by (apply balance_quiet, qs_cfi_flags).
  clearbody w1.
  destruct (cfil_queue_empty (cfi_inject_q (ibuf w1 o))); [exact H1|].
  pose proof (inject_q_loop_balance msize (length (q_mq (cfi_inject_q (ibuf w1 o)))) o w1 d)
    as H2.
  destruct (inject_q_loop msize _ o w1) as [error w2]. cbn [snd] in H2 |- *.
  set (w3 := if negb (error =? 0) then _ else w2).
  assert (H3 : balance d w3 = balance d w2).
  { subst w3. destruct (negb (error =? 0)); [apply balance_quiet, qs_cfi_flags|reflexivity]. }
  clearbody w3.
  set (w4 := if has_flag (cfi_flags (w_info w3)) CFIF_SHUT_WR then _ else w3).
  assert (H4 : balance d w4 = balance d w3).
  { subst w4. destruct (has_flag (cfi_flags (w_info w3)) CFIF_SHUT_WR); [|reflexivity].
    apply balance_quiet, cfil_sock_notify_shutdown_wr_quiet. }
  clearbody w4.
  destruct (_ && _); [rewrite (balance_quiet w4 _ d (qs_event EvWakeup w4 I))|]; congruence.
Qed.

Lemma update_data_offsets_done_quiet w k :
  quiet_steps w (update_data_offsets_done w k).
Proof.
  unfold update_data_offsets_done.
  destruct (_ || _); [|apply qs_refl].
  set (w1 := upd_entry k _ w).
  assert (H1 : quiet_steps w w1)
    by apply (qs_entry_flags k (fun e => set_flag (cfe_flags e) CFEF_CFIL_DETACHED)).
  clearbody w1.
  destruct (_ && _); [|exact H1].
  eapply qs_trans; [exact H1|]. apply qs_event. exact I.
Qed.

Lemma cfil_update_data_offsets_balance w k o pass peek d :
  balance d (snd (cfil_update_data_offsets w k o pass peek)) = balance d w.
Proof.
  unfold cfil_update_data_offsets.
  destruct (has_flag _ CFIF_DROP); [reflexivity|]. cbv zeta.
  set (raise_pass := pass >? _).
  set (w1 := if raise_pass then _ else w).
  assert (H1 : balance d w1 = balance d w).
  { subst w1. destruct raise_pass; [|reflexivity].
    apply balance_upd_ebuf_keep. intros b. cbv zeta.
    destruct (_ <? _); reflexivity. }
  clearbody w1.
  set (raise_peek := _ && _).
  set (w2 := if raise_peek then _ else w1).
  assert (H2 : balance d w2 = balance d w1).
  { subst w2. destruct raise_peek; [|reflexivity].
    apply balance_upd_ebuf_keep. intros b. reflexivity. }
  clearbody w2.
  destruct (negb (raise_pass || raise_peek)).
  { cbn [snd]. rewrite (balance_quiet _ _ d (update_data_offsets_done_quiet w2 k)). congruence. }
  pose proof (moves_balance _ _ _ _ d (cfil_data_service_ctl_q_moves w2 k o)) as H3.
  destruct (cfil_data_service_ctl_q w2 k o) as [error w3]. cbn [snd] in H3.
  destruct (negb (error =? 0)); cbn [snd];
    rewrite (balance_quiet _ _ d (update_data_offsets_done_quiet w3 k)); congruence.
Qed.

Lemma cfil_set_socket_pass_offset_balance w o d :
  balance d (cfil_set_socket_pass_offset w o) = balance d w.
Proof.
  unfold cfil_set_socket_pass_offset. cbv zeta.
  destruct (_ =? 0); [|reflexivity].
  destruct (fold_left _ kcunits (0, true)) as [pass_offset first].
  apply balance_upd_ibuf_keep. reflexivity.
Qed.

Lemma cfil_action_data_pass_balance msize w k o pass peek d :
  balance d (snd (cfil_action_data_pass msize w k o pass peek)) = balance d w.
Proof.
  unfold cfil_action_data_pass.
  destruct (negb (cfil_acquire_sockbuf w =? 0)); [reflexivity|].
  pose proof (cfil_update_data_offsets_balance w k o pass peek d) as H1.
  destruct (cfil_update_data_offsets w k o pass peek) as [error w1]. cbn [snd] in H1 |- *.
  rewrite cfil_set_socket_pass_offset_balance, cfil_service_inject_queue_balance. exact H1.
Qed.

Lemma balance_sweep_keep d sel o g l w :
  (forall b, buf_bytes (g b) = buf_bytes b) ->
  balance d (sweep sel o g l w) = balance d w.
Proof.
  intros Hg. revert w. induction l as [|k l IH]; intros w; [reflexivity|].
  rewrite sweep_cons, IH. destruct (sel (entry_at w k)); [|reflexivity].
  apply balance_upd_ebuf_keep, Hg.
Qed.

Lemma balance_add_byte_count d o datalen w :
  balance d (with_info (add_byte_count o datalen (w_info w)) w) = balance d w.
Proof.
  unfold balance, queued_bytes. rewrite ibuf_add_byte_count.
  replace (cfi_entries (w_info (with_info (add_byte_count o datalen (w_info w)) w)))
    with (cfi_entries (w_info w)) by (destruct o; reflexivity).
  reflexivity.
Qed.

(** The loop of [cfil_data_common] over the ordered entries either fails
    before any filter saw the packet, or ends with no filter attached and
    the value 0, or leaves the packet with the first attached filter and
    the value EJUSTRETURN. *)
Lemma data_common_loop_balance o l chained data w d :
  match data_common_loop o l chained data (cfil_data_length data) 0 w with
  | inl (e, w') => e = ENOBUFS /\ balance d w' = balance d w
  | inr (e, w') =>
      (e = 0 /\ balance d w' = balance d w)
      \/ (e = EJUSTRETURN
          /\ balance d w'
             = balance d w + (if Bool.eqb d o then cfil_data_length data else 0))
  end.
Proof.
  revert chained w. induction l as [|k l IH]; intros chained w; cbn [data_common_loop].
  { left. split; reflexivity. }
  destruct (IS_ENTRY_ATTACHED w k); [|apply IH].
  set (r := if so_dgram (w_so w) && negb chained then ext_call w else (0, w)).
  assert (Hr : balance d (snd r) = balance d w).
  { subst r. destruct (_ && _); [apply balance_quiet, qs_ext_call|reflexivity]. }
  destruct r as [chain w1]. cbn [snd] in Hr.
  destruct (negb (chain =? 0)); [split; [reflexivity|exact Hr]|].
  destruct (cfil_data_filter_with_moves o k l (chain_run o l) data w1 (chain_run_ok o l))
    as [[Hun Heq]|(Hatt & He & Hmv)].
  - rewrite Heq. cbn [Z.eqb negb].
    specialize (IH true w1). destruct (data_common_loop o l true data _ 0 w1) as [[e w']|[e w']].
    + rewrite <- Hr. exact IH.
    + rewrite <- Hr. exact IH.
  - pose proof (moves_balance _ _ _ _ d Hmv) as Hb.
    rewrite balance_link_ctl in Hb by (apply has_filter_in_range; exact Hatt).
    destruct (cfil_data_filter_with (chain_run o l) w1 k o data (cfil_data_length data))
      as [e w2].
    cbn [fst snd] in He, Hb. subst e. cbn [EJUSTRETURN Z.eqb negb].
    right. split; [reflexivity|]. rewrite Hb, Hr. reflexivity.
Qed.

(** A submit adds the packet to the books of its direction exactly when
    it returns EJUSTRETURN. *)
Lemma cfil_data_common_balance msize w o data d :
  balance d (snd (data_common_effect msize w o data))
  = balance d w
    + (if Bool.eqb d o && (fst (data_common_effect msize w o data) =? EJUSTRETURN)
       then cfil_data_length data else 0).
Proof.
  unfold data_common_effect.
  destruct (has_flag _ CFIF_DROP); [cbn [fst snd EPIPE EJUSTRETURN Z.eqb]; rewrite andb_false_r; lia|].
  pose proof (cfil_data_length_cnt_fst msize data) as Hlen.
  destruct (cfil_data_length_cnt msize data) as [[datalen mbcnt] mbnum]. cbn [fst] in Hlen.
  subst datalen.
  destruct (_ =? 0); [cbn [fst snd EJUSTRETURN Z.eqb]; rewrite andb_false_r; lia|].
  cbv zeta.
  set (w1 := with_info _ w).
  set (w2 := upd_ibuf o _ w1).
  assert (H2 : balance d w2 = balance d w).
  { subst w2 w1. rewrite balance_upd_ibuf_keep by reflexivity. apply balance_add_byte_count. }
  clearbody w2. clear w1.
  destruct (_ && _).
  { cbn [fst snd EPIPE EJUSTRETURN Z.eqb]. rewrite andb_false_r.
    rewrite balance_upd_ibuf_keep by reflexivity. lia. }
  destruct (_ <=? _).
  { cbn [fst snd EJUSTRETURN Z.eqb]. rewrite andb_false_r.
    rewrite balance_upd_ibuf_keep by reflexivity.
    rewrite cfil_update_entry_offsets_sweep, balance_sweep_keep by reflexivity. lia. }
  pose proof (data_common_loop_balance o (cfi_ordered_entries (w_info w2)) false data w2 d) as H3.
  destruct (data_common_loop o _ false data _ 0 w2) as [[e w3]|[e w3]].
  - destruct H3 as [-> H3]. cbn [fst snd ENOBUFS EJUSTRETURN Z.eqb]. rewrite andb_false_r. lia.
  - destruct H3 as [[-> H3]|[-> H3]].
    + cbn [fst snd EJUSTRETURN Z.eqb]. rewrite andb_false_r.
      rewrite balance_upd_ibuf_keep by reflexivity. lia.
    + cbn [fst snd EJUSTRETURN Z.eqb Pos.eqb]. rewrite andb_true_r, H3, H2. lia.
Qed.

Lemma step_balance msize w op d :
  (forall k, op <> OpDrop k) -> balance d (step_effect msize w op) = balance d w.
Proof.
  intros Hop. destruct op as [o data|k o pass peek|k o|k o|o|k]; cbn [step_effect].
  - pose proof (cfil_data_common_balance msize w o data d) as H.
    destruct (data_common_effect msize w o data) as [e w']. cbn [fst snd] in H.
    rewrite cfil_data_length_cnt_fst.
    unfold balance in *.
    change (queued_bytes d (log_event (EvSubmit o (cfil_data_length data) e) w'))
      with (queued_bytes d w').
    change (w_log (log_event (EvSubmit o (cfil_data_length data) e) w'))
      with (EvSubmit o (cfil_data_length data) e :: w_log w').
    cbn [bytes_submitted bytes_released].
    assert (Hd : Bool.eqb o d = Bool.eqb d o) by (destruct o, d; reflexivity).
    rewrite Hd.
    destruct (Bool.eqb d o); cbn [andb] in *; [|lia].
    destruct (Z.eqb_spec e EJUSTRETURN) as [->|Hne].
    + cbn [EJUSTRETURN Z.eqb orb]. lia.
    + rewrite orb_false_r. destruct (e =? 0); lia.
  - apply cfil_action_data_pass_balance.
  - apply (moves_balance o _ _ _ d (cfil_data_service_ctl_q_moves w k o)).
  - apply (moves_balance o _ _ _ d (cfil_service_pending_queue_moves w k o)).
  - apply cfil_service_inject_queue_balance.
  - exfalso. apply (Hop k). reflexivity.
Qed.

(** X24. Per direction, no submit, verdict or queue-servicing call
    changes the books of the engine: if the bytes held by the control
    queues and the pending queues of all entries and by the inject queue,
    plus the bytes that left the engine (passed through by a submit that
    returned 0, or handed to the socket layer for re-injection, whatever
    it answered), make up the bytes taken from the socket layer (by
    submits that returned 0 or EJUSTRETURN), then they still do after any
    sequence of submits, verdicts, and calls that service a control
    queue, a pending queue or an inject queue. *)
Theorem engine_books_balance msize w ops d w' :
  Forall (fun op => forall k, op <> OpDrop k) ops ->
  queued_bytes d w + bytes_released d (w_log w) = bytes_submitted d (w_log w) ->
  run msize w ops = Ret w' ->
  queued_bytes d w' + bytes_released d (w_log w') = bytes_submitted d (w_log w').
Proof.
  intros Hops Hw Hrun. apply run_returns in Hrun. subst w'.
  assert (Hb : balance d (run_effect msize w ops) = balance d w).
  { clear Hw. revert w. induction Hops as [|op ops Hop _ IH]; intros w; [reflexivity|].
    cbn [run_effect fold_left]. fold (run_effect msize (step_effect msize w op) ops).
    rewrite IH. apply step_balance, Hop. }
  unfold balance in Hb. lia.
Qed.

Lemma engine_books_balance_witness :
  exists w',
    run 256 (fresh_world tcp_socket [1%nat; 2%nat]) relay_ops = Ret w'
    /\ queued_bytes true w' + bytes_released true (w_log w') = bytes_submitted true (w_log w').
Proof.
  destruct (run 256 (fresh_world tcp_socket [1%nat; 2%nat]) relay_ops) as [w'|] eqn:Hrun;
    [|vm_compute in Hrun; discriminate].
  exists w'. split; [reflexivity|].
  apply (engine_books_balance 256 (fresh_world tcp_socket [1%nat; 2%nat]) relay_ops true w').
  - unfold relay_ops. repeat constructor; intros k; discriminate.
  - reflexivity.
  - exact Hrun.
Defined.

(** C1.  Queue conservation as the specification words it does not hold
    of the code: a packet that the socket layer refuses on re-injection
    is lost.  [cfil_service_inject_queue]
    unlinks a packet from the inject queue and moves the pending cursor
    past it before it hands it to [sosend_reinject], and leaves the loop
    on an error without linking it back.  On a new flow with one agent,
    two packets of 100 and 60 bytes are submitted and held, and the agent
    passes them; the socket refuses the first, which is gone from the
    inject queue while the second waits on it.  When the inject queue is
    serviced again and the socket refuses the second too, the call
    returns [ENOBUFS] and asks for a retry, and the flow holds no byte of
    the 160 it took: the retry finds an empty queue and hands nothing
    over. *)
Theorem refused_reinjection_loses_bytes :
  exists w1 w2 w3,
    run 256 (refusing_world 2) refused_ops = Ret w1
    /\ bytes_submitted true (w_log w1) = 160
    /\ q_mq (cfi_inject_q (ibuf w1 true)) = [packet 2 60]
    /\ queued_bytes true w1 = 60
    /\ w_ext w1 = [ENOBUFS]
    /\ cfil_service_inject_queue 256 w1 true = (ENOBUFS, w2)
    /\ w_log w2 = EvReinject true (packet 2 60) :: w_log w1
    /\ w_ext w2 = []
    /\ queued_bytes true w2 = 0
    /\ queued_len true w2 = 0
    /\ q_mq (cfi_inject_q (ibuf w2 true)) = []
    /\ bytes_submitted true (w_log w2) = 160
    /\ has_flag (cfi_flags (w_info w2)) CFIF_RETRY_INJECT_OUT = true
    /\ cfil_service_inject_queue 256 w2 true = (0, w3)
    /\ w_log w3 = w_log w2
    /\ queued_bytes true w3 = 0.
Proof.
  exists (run_effect 256 (refusing_world 2) refused_ops).
  exists (snd (cfil_service_inject_queue 256
                 (run_effect 256 (refusing_world 2) refused_ops) true)).
  exists (snd (cfil_service_inject_queue 256
                 (snd (cfil_service_inject_queue 256
                         (run_effect 256 (refusing_world 2) refused_ops) true)) true)).
  repeat match goal with |- _ /\ _ => split; [vm_compute; reflexivity|] end.
  vm_compute. reflexivity.
Qed.

(** ** The chain of entries *)

Lemma entry_same_refl o w k : entry_same o w w k.
Proof. repeat split. apply Z.le_refl. Qed.

Lemma buf_ok_same b b' :
  cfe_ctl_q b' = cfe_ctl_q b -> cfe_pending_q b' = cfe_pending_q b ->
  cfe_pass_offset b <= cfe_pass_offset b' ->
  buf_ok b -> buf_ok b'.
Proof.
  unfold buf_ok. intros -> -> Hp (H1 & H2 & H3 & H4 & H5 & H6). repeat split; auto. lia.
Qed.

Lemma chain_ok_same o U U' l w w' :
  (forall k, In k l -> entry_same o w w' k) ->
  U <= U' ->
  chain_ok o U l w -> chain_ok o U' l w'.
Proof.
  revert U U'. induction l as [|k l IH]; intros U U' Hs HU; cbn [chain_ok]; [tauto|].
  destruct (Hs k (or_introl eq_refl)) as (Hf & Hc & Hp & Ho).
  rewrite Hf. destruct (has_filter (entry_at w k)).
  - intros (Hb & Hq & Hr). split; [|split].
    + apply (buf_ok_same (ebuf w k o)); auto.
    + rewrite Hc. lia.
    + rewrite Hp. apply (IH _ _ (fun j Hj => Hs j (or_intror Hj)) (Z.le_refl _) Hr).
  - intros ([Hi1 Hi2] & Hr). split.
    + split; [rewrite Hc|rewrite Hp]; assumption.
    + apply (IH _ _ (fun j Hj => Hs j (or_intror Hj)) HU Hr).
Qed.

Lemma bound_after_same o U l w w' :
  (forall k, In k l -> entry_same o w w' k) ->
  bound_after o U l w' = bound_after o U l w.
Proof.
  revert U. induction l as [|k l IH]; intros U Hs; cbn [bound_after]; [reflexivity|].
  destruct (Hs k (or_introl eq_refl)) as (Hf & Hc & Hp & Ho).
  rewrite Hf, Hp. apply IH. intros j Hj. apply Hs. right. exact Hj.
Qed.

Lemma bound_after_app o U l1 l2 w :
  bound_after o U (l1 ++ l2) w = bound_after o (bound_after o U l1 w) l2 w.
Proof.
  revert U. induction l1 as [|k l1 IH]; intros U; cbn [bound_after app]; [reflexivity|].
  apply IH.
Qed.

Lemma bound_after_unattached o U l w :
  Forall (unattached w) l -> bound_after o U l w = U.
Proof.
  induction 1 as [|k l Hk _ IH]; cbn [bound_after]; [reflexivity|].
  unfold unattached in Hk. rewrite Hk. exact IH.
Qed.

Lemma chain_ok_app o U l1 l2 w :
  chain_ok o U (l1 ++ l2) w
  <-> chain_ok o U l1 w /\ chain_ok o (bound_after o U l1 w) l2 w.
Proof.
  revert U. induction l1 as [|k l1 IH]; intros U; cbn [chain_ok bound_after app]; [tauto|].
  destruct (has_filter (entry_at w k)); rewrite IH; tauto.
Qed.

Lemma buf_ok_order b :
  buf_ok b ->
  0 <= q_start (cfe_pending_q b) <= q_end (cfe_pending_q b)
  /\ q_end (cfe_pending_q b) <= q_start (cfe_ctl_q b) <= q_end (cfe_ctl_q b).
Proof.
  intros (H1 & H2 & H3 & H4 & H5 & H6).
  pose proof (packets_bytes_nonneg (q_mq (cfe_pending_q b))).
  pose proof (packets_bytes_nonneg (q_mq (cfe_ctl_q b))).
  rewrite queue_bytes_packets in H2, H4. lia.
Qed.

(** The bound only goes down along the chain, and stays at or below the
    pass offset of every entry with a filter it has gone through. *)
Lemma chain_ok_bound o U l w :
  chain_ok o U l w ->
  bound_after o U l w <= U
  /\ forall j, In j l -> has_filter (entry_at w j) = true ->
       bound_after o U l w <= cfe_pass_offset (ebuf w j o).
Proof.
  revert U. induction l as [|k l IH]; intros U; cbn [chain_ok bound_after].
  { intros _. split; [lia|intros j []]. }
  destruct (has_filter (entry_at w k)) eqn:Ef.
  - intros (Hb & Hq & Hr). destruct (IH _ Hr) as [HU Hj].
    pose proof (buf_ok_order _ Hb) as Ho. destruct Hb as (_ & _ & _ & _ & _ & Hpass).
    split; [lia|]. intros j [<-|Hin] Hatt; [lia|]. apply Hj; assumption.
  - intros (_ & Hr). destruct (IH _ Hr) as [HU Hj]. split; [exact HU|].
    intros j [<-|Hin] Hatt; [congruence|]. apply Hj; assumption.
Qed.

(** One entry with a filter changes: the chain stands when its buffer is
    in order, has received no more than its bound allows, and has let go
    no less than before. *)
Lemma chain_ok_upd o U l1 k l2 w w' :
  NoDup (l1 ++ k :: l2) ->
  (forall j, j <> k -> entry_same o w w' j) ->
  has_filter (entry_at w k) = true ->
  has_filter (entry_at w' k) = true ->
  buf_ok (ebuf w' k o) ->
  q_end (cfe_ctl_q (ebuf w' k o)) <= bound_after o U l1 w ->
  q_start (cfe_pending_q (ebuf w k o)) <= q_start (cfe_pending_q (ebuf w' k o)) ->
  chain_ok o U (l1 ++ k :: l2) w ->
  chain_ok o U (l1 ++ k :: l2) w'.
Proof.
  intros Hnd Hsame Hf Hf' Hb Hq Hs Hc.
  apply NoDup_app in Hnd. destruct Hnd as (_ & Hdis & Hnd2).
  apply NoDup_cons in Hnd2. destruct Hnd2 as [Hk2 _].
  assert (H1 : forall j, In j l1 -> entry_same o w w' j).
  { intros j Hj. apply Hsame. intros ->. apply (Hdis k).
    - apply list_elem_of_In. exact Hj.
    - left. }
  assert (H2 : forall j, In j l2 -> entry_same o w w' j).
  { intros j Hj. apply Hsame. intros ->. apply Hk2, list_elem_of_In. exact Hj. }
  apply chain_ok_app in Hc. destruct Hc as [Hc1 Hc2]. apply chain_ok_app. split.
  - apply (chain_ok_same o U U l1 w w' H1 (Z.le_refl _) Hc1).
  - rewrite (bound_after_same o U l1 w w' H1).
    cbn [chain_ok] in Hc2 |- *. rewrite Hf in Hc2. rewrite Hf'.
    destruct Hc2 as (_ & _ & Hc2). split; [exact Hb|]. split; [exact Hq|].
    apply (chain_ok_same o _ _ l2 w w' H2 Hs Hc2).
Qed.

(** The move loop keeps an entry buffer in order, and leaves alone what
    the entry has received and what it has let go. *)
Lemma buf_ok_pass_loop rounds b :
  buf_ok b ->
  buf_ok (ctl_q_pass_loop rounds b)
  /\ q_end (cfe_ctl_q (ctl_q_pass_loop rounds b)) = q_end (cfe_ctl_q b)
  /\ q_start (cfe_pending_q (ctl_q_pass_loop rounds b)) = q_start (cfe_pending_q b).
Proof.
  revert b. induction rounds as [|rounds IH]; intros b Hb; cbn [ctl_q_pass_loop]; [auto|].
  unfold cfil_queue_first.
  destruct (q_mq (cfe_ctl_q b)) as [|data tl] eqn:E; [auto|]. cbn [head].
  pose proof (buf_ok_order b Hb) as Ho.
  destruct Hb as (B1 & B2 & B3 & B4 & B5 & B6).
  rewrite queue_bytes_packets in B2, B4. rewrite E in B4.
  cbn [packets_bytes fold_right] in B4. fold (packets_bytes tl) in B4.
  pose proof (cfil_data_length_range data) as Hd.
  pose proof (packets_bytes_nonneg tl) as Htl.
  assert (Hb0 : buf_ok b).
  { unfold buf_ok. rewrite !queue_bytes_packets, E. cbn [packets_bytes fold_right].
    fold (packets_bytes tl). repeat split; lia. }
  destruct (Z.ltb_spec (q_start (cfe_ctl_q b)) (cfe_pass_offset b)) as [Hlt|Hge]; [|auto].
  rewrite (u64_small (q_start (cfe_ctl_q b) + cfil_data_length data)) by lia.
  destruct (Z.leb_spec (q_start (cfe_ctl_q b) + cfil_data_length data) (cfe_pass_offset b))
    as [Hfull|Hpart].
  - rewrite Z.ltb_irrefl.
    set (b1 := if _ >? _ then _ else b).
    assert (Hb1 : cfe_ctl_q b1 = cfe_ctl_q b /\ cfe_pending_q b1 = cfe_pending_q b
                  /\ cfe_pass_offset b1 = cfe_pass_offset b).
    { subst b1. destruct (_ >? _); repeat split. }
    destruct Hb1 as (Hc1 & Hp1 & Hpo1). clearbody b1.
    set (b3 := with_pending_q _ _).
    assert (Hc3 : cfe_ctl_q b3
                  = {| q_start := q_start (cfe_ctl_q b) + cfil_data_length data;
                       q_end := q_end (cfe_ctl_q b); q_mq := tl |}).
    { subst b3. unfold with_pending_q, with_ctl_q, cfil_queue_remove.
      cbn [cfe_ctl_q q_start q_end q_mq]. rewrite Hc1, E, mbufq_remove_head.
      rewrite u64_small by lia. reflexivity. }
    assert (Hp3 : cfe_pending_q b3
                  = {| q_start := q_start (cfe_pending_q b);
                       q_end := q_end (cfe_pending_q b) + cfil_data_length data;
                       q_mq := q_mq (cfe_pending_q b) ++ [data] |}).
    { subst b3. unfold with_pending_q, with_ctl_q, cfil_queue_enqueue.
      cbn [cfe_pending_q q_start q_end q_mq]. rewrite Hp1, u64_small by lia. reflexivity. }
    assert (Ho3 : cfe_pass_offset b3 = cfe_pass_offset b).
    { subst b3. unfold with_pending_q, with_ctl_q. cbn [cfe_pass_offset]. exact Hpo1. }
    clearbody b3.
    destruct (IH b3) as (I1 & I2 & I3).
    { unfold buf_ok. rewrite !queue_bytes_packets, Hc3, Hp3, Ho3.
      cbn [q_start q_end q_mq]. rewrite packets_bytes_app.
      cbn [packets_bytes fold_right]. repeat split; lia. }
    rewrite Hc3 in I2. rewrite Hp3 in I3. cbn [q_start q_end] in I2, I3. auto.
  - assert (Hcopy : u32 (u64 (cfe_pass_offset b - q_start (cfe_ctl_q b)))
                    = cfe_pass_offset b - q_start (cfe_ctl_q b)).
    { rewrite (u64_small (cfe_pass_offset b - q_start (cfe_ctl_q b))) by lia.
      apply u32_small. lia. }
    rewrite Hcopy.
    destruct (Z.ltb_spec (cfe_pass_offset b - q_start (cfe_ctl_q b)) (cfil_data_length data));
      [|lia].
    destruct (_ >? _); auto.
Qed.

Lemma pass_loop_idle rounds b :
  q_mq (cfe_ctl_q b) = [] -> ctl_q_pass_loop rounds b = b.
Proof.
  intros E. destruct rounds; cbn [ctl_q_pass_loop]; [reflexivity|].
  unfold cfil_queue_first. rewrite E. reflexivity.
Qed.

(** An update of the buffer of one entry leaves the others as they
    are. *)
Lemma entry_same_upd_ebuf_ne o k g w j :
  j <> k -> entry_same o w (upd_ebuf k o g w) j.
Proof.
  intros Hne. unfold entry_same, has_filter.
  rewrite cfe_filter_upd_ebuf, !ebuf_upd_ebuf_ne by congruence. repeat split. apply Z.le_refl.
Qed.

Lemma entry_same_of_queues o w w' k :
  same_queues w w' -> entry_same o w w' k.
Proof.
  intros Hs. unfold entry_same, has_filter.
  rewrite (sq_filter _ _ Hs), (sq_ctl _ _ Hs), (sq_pending _ _ Hs), (sq_pass _ _ Hs).
  repeat split. apply Z.le_refl.
Qed.

Lemma entry_same_inject_enqueue o k data datalen w j :
  entry_same o w (inject_enqueue k o data datalen w) j.
Proof.
  unfold entry_same, has_filter. rewrite !ebuf_inject_enqueue.
  replace (entry_at (inject_enqueue k o data datalen w) j) with (entry_at w j);
    [repeat split; apply Z.le_refl|].
  unfold inject_enqueue. destruct j, o; reflexivity.
Qed.

Lemma entry_same_trans o w1 w2 w3 k :
  entry_same o w1 w2 k -> entry_same o w2 w3 k -> entry_same o w1 w3 k.
Proof.
  unfold entry_same. intros (A1&A2&A3&A4) (B1&B2&B3&B4).
  repeat split; try congruence. lia.
Qed.

Lemma chain_ok_In o U l w k :
  chain_ok o U l w -> In k l ->
  if has_filter (entry_at w k) then buf_ok (ebuf w k o) else buf_idle (ebuf w k o).
Proof.
  revert U. induction l as [|j l IH]; intros U Hc Hin; [destruct Hin|].
  cbn [chain_ok] in Hc. destruct Hin as [->|Hin].
  - destruct (has_filter (entry_at w k)); tauto.
  - destruct (has_filter (entry_at w j)).
    + destruct Hc as (_ & _ & Hc). exact (IH _ Hc Hin).
    + destruct Hc as (_ & Hc). exact (IH _ Hc Hin).
Qed.

Lemma unlink_pending_buf o k data tl w :
  q_mq (cfe_pending_q (ebuf w k o)) = data :: tl ->
  buf_ok (ebuf w k o) ->
  cfe_ctl_q (ebuf (unlink_pending k o data w) k o) = cfe_ctl_q (ebuf w k o)
  /\ cfe_pass_offset (ebuf (unlink_pending k o data w) k o) = cfe_pass_offset (ebuf w k o)
  /\ cfe_pending_q (ebuf (unlink_pending k o data w) k o)
     = {| q_start := q_start (cfe_pending_q (ebuf w k o)) + cfil_data_length data;
          q_end := q_end (cfe_pending_q (ebuf w k o)); q_mq := tl |}
  /\ buf_ok (ebuf (unlink_pending k o data w) k o).
Proof.
  intros E Hb. pose proof (buf_ok_order _ Hb) as Ho.
  destruct Hb as (B1 & B2 & B3 & B4 & B5 & B6).
  pose proof (cfil_data_length_range data) as Hd.
  pose proof (packets_bytes_nonneg tl) as Htl.
  assert (B2' := B2). rewrite queue_bytes_packets, E in B2'.
  cbn [packets_bytes fold_right] in B2'. fold (packets_bytes tl) in B2'.
  unfold unlink_pending. rewrite ebuf_upd_ebuf_eq by (eapply pending_in_range; exact E).
  unfold with_pending_q, cfil_queue_remove, buf_ok.
  cbn [cfe_ctl_q cfe_pending_q cfe_pass_offset q_start q_end q_mq].
  rewrite E, mbufq_remove_head, u64_small by lia.
  rewrite !queue_bytes_packets. cbn [q_mq].
  repeat split; try reflexivity; try lia.
  rewrite queue_bytes_packets in B4. exact B4.
Qed.

Lemma link_ctl_buf o k data w :
  unit_in_range w k ->
  buf_ok (ebuf w k o) ->
  q_end (cfe_ctl_q (ebuf w k o)) + cfil_data_length data < 2 ^ 64 ->
  cfe_pending_q (ebuf (link_ctl k o data w) k o) = cfe_pending_q (ebuf w k o)
  /\ q_end (cfe_ctl_q (ebuf (link_ctl k o data w) k o))
     = q_end (cfe_ctl_q (ebuf w k o)) + cfil_data_length data
  /\ buf_ok (ebuf (link_ctl k o data w) k o).
Proof.
  intros Hr Hb Hfit. pose proof (buf_ok_order _ Hb) as Ho.
  destruct Hb as (B1 & B2 & B3 & B4 & B5 & B6).
  pose proof (cfil_data_length_range data) as Hd.
  unfold link_ctl. rewrite ebuf_upd_ebuf_eq by exact Hr.
  unfold with_ctl_q, cfil_queue_enqueue, buf_ok.
  cbn [cfe_ctl_q cfe_pending_q cfe_pass_offset q_start q_end q_mq].
  rewrite u64_small by lia.
  rewrite !queue_bytes_packets in *. cbn [q_mq]. rewrite packets_bytes_app.
  cbn [packets_bytes fold_right].
  repeat split; try reflexivity; try lia.
Qed.

Lemma attached_pass_offsets_Forall o w (P : Z -> Prop) :
  (forall k, has_filter (entry_at w k) = true -> P (cfe_pass_offset (ebuf w k o))) ->
  Forall P (attached_pass_offsets o (cfi_entries (w_info w))).
Proof.
  intros H.
  assert (G : forall es,
             (forall i e, es !! i = Some e -> has_filter e = true ->
                          P (cfe_pass_offset (entrybuf o e))) ->
             Forall P (attached_pass_offsets o es)).
  { induction es as [|e es IH]; intros He; cbn [attached_pass_offsets]; [constructor|].
    pose proof (He 0%nat e eq_refl) as H0. unfold has_filter in H0.
    destruct (cfe_filter e).
    - constructor; [apply H0; reflexivity|]. apply IH. intros i e' Hi. apply (He (S i)). exact Hi.
    - apply IH. intros i e' Hi. apply (He (S i)). exact Hi. }
  apply G. intros i e Hi He. specialize (H (S i)). unfold ebuf, entry_at in H.
  rewrite Hi in H. apply H. exact He.
Qed.

Lemma silent_not_inject o new : Forall silent_event new -> injects_covered o new.
Proof.
  intros Hs E snap Hin. rewrite Forall_forall in Hs.
  apply list_elem_of_In in Hin. destruct (Hs _ Hin).
Qed.

Lemma injects_covered_app o l1 l2 :
  injects_covered o l1 -> injects_covered o l2 -> injects_covered o (l1 ++ l2).
Proof.
  intros H1 H2 E snap Hin. apply in_app_or in Hin. destruct Hin; [eapply H1|eapply H2]; eassumption.
Qed.

Lemma injects_covered_nil o : injects_covered o [].
Proof. intros E snap []. Qed.

Lemma has_filter_upd_ebuf k o g w j :
  has_filter (entry_at (upd_ebuf k o g w) j) = has_filter (entry_at w j).
Proof. unfold has_filter. rewrite cfe_filter_upd_ebuf. reflexivity. Qed.

Lemma chain_inv_upd_ebuf_static o units k g w :
  cfi_ordered_entries (w_info w) = units ->
  (forall j, has_filter (entry_at w j) = true -> In j units) ->
  cfi_ordered_entries (w_info (upd_ebuf k o g w)) = units
  /\ (forall j, has_filter (entry_at (upd_ebuf k o g w) j) = true -> In j units).
Proof.
  intros Hord Hatt. destruct (upd_ebuf_rest k o g w) as (_&_&_&_&_&_&_&Ho&_).
  split; [congruence|]. intros j. rewrite has_filter_upd_ebuf. apply Hatt.
Qed.

Lemma w_log_inject_enqueue k o data datalen w :
  w_log (inject_enqueue k o data datalen w)
  = EvInjectQ o (q_start (cfe_pending_q (ebuf w k o)))
      (attached_pass_offsets o (cfi_entries (w_info w))) :: w_log w.
Proof. reflexivity. Qed.

Lemma w_log_upd_ebuf k o g w : w_log (upd_ebuf k o g w) = w_log w.
Proof. apply upd_ebuf_rest. Qed.

(** Unlinking the first packet of the pending queue of an entry of the
    chain. *)
Lemma unlink_chain o l1 k post data tl w :
  chain_inv o (l1 ++ k :: post) w ->
  q_mq (cfe_pending_q (ebuf w k o)) = data :: tl ->
  chain_inv o (l1 ++ k :: post) (unlink_pending k o data w)
  /\ has_filter (entry_at w k) = true
  /\ buf_ok (ebuf w k o)
  /\ q_start (cfe_pending_q (ebuf (unlink_pending k o data w) k o))
     = q_start (cfe_pending_q (ebuf w k o)) + cfil_data_length data.
Proof.
  intros (Hord & Hnd & Hatt & Hc) E.
  assert (Hin : In k (l1 ++ k :: post)) by (apply in_or_app; right; left; reflexivity).
  pose proof (chain_ok_In o _ _ w k Hc Hin) as Hk.
  destruct (has_filter (entry_at w k)) eqn:Ef.
  2:{ destruct Hk as [_ Hk]. congruence. }
  destruct (unlink_pending_buf o k data tl w E Hk) as (U1 & U2 & U3 & U4).
  destruct (chain_inv_upd_ebuf_static o _ k
              (fun b => with_pending_q
                          (cfil_queue_remove (cfe_pending_q b) data (cfil_data_length data)) b)
              w Hord Hatt) as [Hord' Hatt'].
  fold (unlink_pending k o data w) in Hord', Hatt'.
  split; [|split; [reflexivity|split; [exact Hk|rewrite U3; reflexivity]]].
  split; [exact Hord'|]. split; [exact Hnd|]. split; [exact Hatt'|].
  apply (chain_ok_upd o _ l1 k post w); auto.
  - intros j Hj. apply entry_same_upd_ebuf_ne. exact Hj.
  - unfold unlink_pending. rewrite has_filter_upd_ebuf. exact Ef.
  - rewrite U1. apply chain_ok_app in Hc. destruct Hc as [_ Hc].
    cbn [chain_ok] in Hc. rewrite Ef in Hc. tauto.
  - rewrite U3. cbn [q_start]. pose proof (cfil_data_length_range data). lia.
Qed.

Lemma chain_inv_same o units w w' :
  cfi_ordered_entries (w_info w') = cfi_ordered_entries (w_info w) ->
  (forall j, entry_same o w w' j) ->
  chain_inv o units w -> chain_inv o units w'.
Proof.
  intros Ho Hs (Hord & Hnd & Hatt & Hc).
  split; [congruence|]. split; [exact Hnd|]. split.
  - intros j Hj. apply Hatt. destruct (Hs j) as (Hf & _). congruence.
  - apply (chain_ok_same o (2 ^ 64 - 1) (2 ^ 64 - 1) units w w'); auto. lia.
Qed.

(** Queue servicing keeps the chain in order, and what it puts on the
    inject queue ends at or below the pass offset of every entry with a
    filter. *)
Lemma moves_chain o units w w' :
  moves o units w w' ->
  chain_inv o units w ->
  chain_inv o units w'
  /\ exists new, w_log w' = new ++ w_log w /\ injects_covered o new.
Proof.
  induction 1 as [w|w1 w2 w3 _ IH1 _ IH2|w w' Hq|k w Hk
                  |l1 k skipped k' l2 data tl w Hu Hd Hs Hk'|l1 k post data tl w Hu Hd Hp];
    intros Hinv.
  - split; [exact Hinv|]. exists []. split; [reflexivity|apply injects_covered_nil].
  - destruct (IH1 Hinv) as (Hinv2 & n1 & L1 & C1).
    destruct (IH2 Hinv2) as (Hinv3 & n2 & L2 & C2).
    split; [exact Hinv3|]. exists (n2 ++ n1). split.
    + rewrite L2, L1, app_assoc. reflexivity.
    + apply injects_covered_app; assumption.
  - pose proof (quiet_steps_same _ _ Hq) as Hs. split.
    + apply (chain_inv_same o units w w'); auto.
      * apply (sq_ordered _ _ Hs).
      * intros j. apply entry_same_of_queues, Hs.
    + destruct (sq_log _ _ Hs) as (new & Hlog & Hnew). exists new.
      split; [exact Hlog|]. apply silent_not_inject, Hnew.
  - set (g := fun b => ctl_q_pass_loop (length (q_mq (cfe_ctl_q b))) b).
    split.
    2:{ exists []. split; [|apply injects_covered_nil].
        rewrite w_log_upd_ebuf. reflexivity. }
    destruct Hinv as (Hord & Hnd & Hatt & Hc).
    destruct (chain_inv_upd_ebuf_static o units k g w Hord Hatt) as [Hord' Hatt'].
    pose proof (chain_ok_In o _ _ w k Hc Hk) as Hbk.
    destruct (has_filter (entry_at w k)) eqn:Ef.
    + split; [exact Hord'|]. split; [exact Hnd|]. split; [exact Hatt'|].
      destruct (in_split _ _ Hk) as (l1 & l2 & ->).
      assert (Heq : ebuf (upd_ebuf k o g w) k o = g (ebuf w k o)).
      { apply ebuf_upd_ebuf_eq. apply has_filter_in_range. exact Ef. }
      destruct (buf_ok_pass_loop (length (q_mq (cfe_ctl_q (ebuf w k o)))) (ebuf w k o) Hbk)
        as (P1 & P2 & P3).
      apply (chain_ok_upd o _ l1 k l2 w); auto.
      * intros j Hj. apply entry_same_upd_ebuf_ne. exact Hj.
      * rewrite has_filter_upd_ebuf. exact Ef.
      * rewrite Heq. exact P1.
      * rewrite Heq. unfold g. rewrite P2.
        apply chain_ok_app in Hc. destruct Hc as [_ Hc].
        cbn [chain_ok] in Hc. rewrite Ef in Hc. tauto.
      * rewrite Heq. unfold g. rewrite P3. lia.
    + apply (chain_inv_same o units w); [congruence| |repeat split; assumption].
      intros j. destruct (decide (j = k)) as [->|Hne];
        [|apply entry_same_upd_ebuf_ne; exact Hne].
      assert (Heq : ebuf (upd_ebuf k o g w) k o = ebuf w k o).
      { destruct (unit_in_range_dec w k) as [Hr|Hr].
        - rewrite ebuf_upd_ebuf_eq by exact Hr. unfold g. apply pass_loop_idle, Hbk.
        - unfold upd_ebuf. rewrite upd_entry_out_of_range by exact Hr. reflexivity. }
      unfold entry_same. rewrite has_filter_upd_ebuf, Heq. repeat split. apply Z.le_refl.
  - subst units.
    destruct (unlink_chain o l1 k (skipped ++ k' :: l2) data tl w Hinv Hd)
      as (Hinv1 & Hfk & Hbk & Hq1).
    set (w1 := unlink_pending k o data w) in *.
    split.
    2:{ exists []. split; [|apply injects_covered_nil].
        unfold hand_over, link_ctl, unlink_pending. rewrite !w_log_upd_ebuf. reflexivity. }
    destruct Hinv as (Hord & Hnd & Hatt & Hc).
    destruct Hinv1 as (Hord1 & _ & Hatt1 & Hc1).
    assert (Hne : k' <> k).
    { intros ->. apply NoDup_app in Hnd. destruct Hnd as (_ & _ & Hnd).
      apply NoDup_cons in Hnd. destruct Hnd as [Hnot _]. apply Hnot.
      apply list_elem_of_In, in_or_app. right. left. reflexivity. }
    assert (Hfk1 : has_filter (entry_at w1 k') = true).
    { subst w1. unfold unlink_pending. rewrite has_filter_upd_ebuf. exact Hk'. }
    assert (Hs1 : Forall (unattached w1) skipped).
    { eapply Forall_impl; [exact Hs|]. intros j. apply unattached_unlink_pending. }
    (* the bound that reaches k' *)
    assert (Hbound : forall w0,
              Forall (unattached w0) skipped -> has_filter (entry_at w0 k) = true ->
              bound_after o (2 ^ 64 - 1) (l1 ++ k :: skipped) w0
              = q_start (cfe_pending_q (ebuf w0 k o))).
    { intros w0 Hs0 Hf0. rewrite bound_after_app. cbn [bound_after]. rewrite Hf0.
      apply bound_after_unattached. exact Hs0. }
    assert (Hlist : l1 ++ k :: skipped ++ k' :: l2 = (l1 ++ k :: skipped) ++ k' :: l2).
    { rewrite <- app_assoc. reflexivity. }
    assert (Hck' : buf_ok (ebuf w k' o)
                   /\ q_end (cfe_ctl_q (ebuf w k' o)) <= q_start (cfe_pending_q (ebuf w k o))).
    { rewrite Hlist in Hc. apply chain_ok_app in Hc. destruct Hc as [_ Hc].
      rewrite (Hbound w Hs Hfk) in Hc. cbn [chain_ok] in Hc. rewrite Hk' in Hc. tauto. }
    destruct Hck' as [Hbk' Hqk'].
    assert (Hsame1 : entry_same o w w1 k').
    { subst w1. apply entry_same_upd_ebuf_ne. exact Hne. }
    destruct Hsame1 as (_ & S2 & S3 & S4).
    assert (Hbk1 : buf_ok (ebuf w1 k' o)).
    { apply (buf_ok_same (ebuf w k' o)); auto. }
    pose proof (buf_ok_order _ Hbk) as Hok.
    assert (E' := Hd). 
    destruct Hbk as (B1 & B2 & B3 & B4 & B5 & B6).
    rewrite queue_bytes_packets, E' in B2. cbn [packets_bytes fold_right] in B2.
    fold (packets_bytes tl) in B2. pose proof (packets_bytes_nonneg tl) as Htl.
    destruct (link_ctl_buf o k' data w1) as (L1 & L2 & L3).
    { apply has_filter_in_range. exact Hfk1. }
    { exact Hbk1. }
    { rewrite S2. lia. }
    unfold hand_over. fold w1.
    destruct (chain_inv_upd_ebuf_static o _ k'
                (fun b => with_ctl_q
                            (cfil_queue_enqueue (cfe_ctl_q b) data (cfil_data_length data)) b)
                w1 Hord1 Hatt1) as [Hord2 Hatt2].
    fold (link_ctl k' o data w1) in Hord2, Hatt2.
    split; [exact Hord2|]. split; [exact Hnd|]. split; [exact Hatt2|].
    rewrite Hlist in Hc1 |- *.
    apply (chain_ok_upd o _ (l1 ++ k :: skipped) k' l2 w1); auto.
    + rewrite <- Hlist. exact Hnd.
    + intros j Hj. apply entry_same_upd_ebuf_ne. exact Hj.
    + unfold link_ctl. rewrite has_filter_upd_ebuf. exact Hfk1.
    + rewrite L2, S2, Hbound; auto.
      * rewrite Hq1. lia.
      * subst w1. unfold unlink_pending. rewrite has_filter_upd_ebuf. exact Hfk.
    + rewrite L1. lia.
  - subst units.
    destruct (unlink_chain o l1 k post data tl w Hinv Hd) as (Hinv1 & Hfk & Hbk & Hq1).
    set (w1 := unlink_pending k o data w) in *.
    unfold release. fold w1. split.
    + apply (chain_inv_same o _ w1); auto.
      * unfold inject_enqueue. destruct o; reflexivity.
      * intros j. apply entry_same_inject_enqueue.
    + exists [EvInjectQ o (q_start (cfe_pending_q (ebuf w1 k o)))
                (attached_pass_offsets o (cfi_entries (w_info w1)))].
      split.
      { rewrite w_log_inject_enqueue. subst w1. unfold unlink_pending at 3.
        rewrite w_log_upd_ebuf. reflexivity. }
      intros E snap [Heq|[]]. injection Heq as <- <-.
      apply attached_pass_offsets_Forall. intros j Hj.
      destruct Hinv1 as (Hord1 & Hnd & Hatt1 & Hc1).
      pose proof (Hatt1 j Hj) as Hjin.
      assert (Hk1 : has_filter (entry_at w1 k) = true).
      { subst w1. unfold unlink_pending. rewrite has_filter_upd_ebuf. exact Hfk. }
      apply chain_ok_app in Hc1. destruct Hc1 as [Hc1 Hc2].
      cbn [chain_ok] in Hc2. rewrite Hk1 in Hc2. destruct Hc2 as (Hb1 & Hqb & _).
      pose proof (buf_ok_order _ Hb1) as Ho1.
      destruct (chain_ok_bound o _ l1 w1 Hc1) as [_ Hcov].
      apply in_app_or in Hjin. destruct Hjin as [Hj1|[<-|Hjp]].
      * specialize (Hcov j Hj1 Hj). lia.
      * destruct Hb1 as (_ & _ & _ & _ & _ & Hpass). lia.
      * rewrite Forall_forall in Hp. apply list_elem_of_In in Hjp.
        specialize (Hp j Hjp). unfold unattached in Hp.
        subst w1. unfold unlink_pending in Hj. rewrite has_filter_upd_ebuf in Hj. congruence.
Qed.

(** ** The chain through the operations *)

Lemma chain_step_refl o w : chain_step o w w.
Proof.
  intros units Hinv. split; [exact Hinv|].
  exists []. split; [reflexivity|apply injects_covered_nil].
Qed.

Lemma chain_step_trans o w1 w2 w3 :
  chain_step o w1 w2 -> chain_step o w2 w3 -> chain_step o w1 w3.
Proof.
  intros H1 H2 units Hinv.
  destruct (H1 units Hinv) as (Hinv2 & n1 & L1 & C1).
  destruct (H2 units Hinv2) as (Hinv3 & n2 & L2 & C2).
  split; [exact Hinv3|]. exists (n2 ++ n1). split.
  - rewrite L2, L1, app_assoc. reflexivity.
  - apply injects_covered_app; assumption.
Qed.

Lemma not_inject_covered o new : Forall (not_inject o) new -> injects_covered o new.
Proof.
  intros Hs E snap Hin. rewrite Forall_forall in Hs.
  apply list_elem_of_In in Hin. destruct (Hs _ Hin). reflexivity.
Qed.

Lemma chain_step_kept o w w' : chain_kept o w w' -> chain_step o w w'.
Proof.
  intros (Hord & Hs & new & Hlog & Hnew) units Hinv. split.
  - apply (chain_inv_same o units w w'); assumption.
  - exists new. split; [exact Hlog|]. apply not_inject_covered, Hnew.
Qed.

Lemma chain_step_moves o w w' :
  moves o (cfi_ordered_entries (w_info w)) w w' -> chain_step o w w'.
Proof.
  intros Hm units Hinv. destruct Hinv as (Hord & Hrest). rewrite Hord in Hm.
  apply (moves_chain o units w w' Hm). split; assumption.
Qed.

Lemma chain_kept_refl o w : chain_kept o w w.
Proof.
  split; [reflexivity|]. split; [intros j; apply entry_same_refl|].
  exists []. split; [reflexivity|constructor].
Qed.

Lemma chain_kept_trans o w1 w2 w3 :
  chain_kept o w1 w2 -> chain_kept o w2 w3 -> chain_kept o w1 w3.
Proof.
  intros (A1 & A2 & n1 & L1 & F1) (B1 & B2 & n2 & L2 & F2).
  split; [congruence|]. split.
  - intros j. eapply entry_same_trans; [apply A2|apply B2].
  - exists (n2 ++ n1). split.
    + rewrite L2, L1, app_assoc. reflexivity.
    + apply Forall_app. split; assumption.
Qed.

Lemma silent_not_inject_event o ev : silent_event ev -> not_inject o ev.
Proof. destruct ev; cbn; tauto. Qed.

Lemma chain_kept_quiet o w w' : quiet_steps w w' -> chain_kept o w w'.
Proof.
  intros Hq. pose proof (quiet_steps_same _ _ Hq) as Hs.
  split; [apply (sq_ordered _ _ Hs)|]. split.
  - intros j. apply entry_same_of_queues, Hs.
  - destruct (sq_log _ _ Hs) as (new & Hlog & Hnew). exists new. split; [exact Hlog|].
    eapply Forall_impl; [exact Hnew|]. intros ev. apply silent_not_inject_event.
Qed.

Lemma chain_kept_upd_ibuf o o' g w : chain_kept o w (upd_ibuf o' g w).
Proof.
  split; [apply upd_ibuf_rest|]. split.
  - intros j. unfold entry_same, ebuf. rewrite entry_at_upd_ibuf.
    repeat split. apply Z.le_refl.
  - exists []. split; [reflexivity|constructor].
Qed.

Lemma chain_kept_log_event o ev w : not_inject o ev -> chain_kept o w (log_event ev w).
Proof.
  intros Hev. split; [reflexivity|]. split.
  - intros j. unfold entry_same, ebuf.
    replace (entry_at (log_event ev w) j) with (entry_at w j) by (destruct j; reflexivity).
    repeat split. apply Z.le_refl.
  - exists [ev]. split; [reflexivity|]. constructor; [exact Hev|constructor].
Qed.

Lemma chain_kept_add_byte_count o o' datalen w :
  chain_kept o w (with_info (add_byte_count o' datalen (w_info w)) w).
Proof.
  split; [destruct o'; reflexivity|]. split.
  - intros j. unfold entry_same, ebuf. rewrite entry_at_add_byte_count.
    repeat split. apply Z.le_refl.
  - exists []. split; [reflexivity|constructor].
Qed.

(** An update of one entry buffer that keeps the queues and does not
    lower the pass offset. *)
Lemma chain_kept_upd_ebuf o k o' g w :
  (forall b, cfe_ctl_q (g b) = cfe_ctl_q b) ->
  (forall b, cfe_pending_q (g b) = cfe_pending_q b) ->
  (forall b, cfe_pass_offset b <= cfe_pass_offset (g b)) ->
  chain_kept o w (upd_ebuf k o' g w).
Proof.
  intros Hc Hp Ho.
  destruct (upd_ebuf_rest k o' g w) as (_ & _ & Hlog & _ & _ & _ & _ & Hord & _).
  split; [exact Hord|]. split.
  - intros j. unfold entry_same. rewrite has_filter_upd_ebuf.
    split; [reflexivity|].
    split; [apply (ebuf_upd_ebuf_proj cfe_ctl_q); exact Hc|].
    split; [apply (ebuf_upd_ebuf_proj cfe_pending_q); exact Hp|].
    destruct (decide (j = k)) as [->|Hne]; [|rewrite ebuf_upd_ebuf_ne by congruence; lia].
    destruct (unit_in_range_dec w k) as [Hr|Hr].
    + destruct (Bool.eqb o o') eqn:Eo.
      * apply Bool.eqb_prop in Eo. subst o'. rewrite ebuf_upd_ebuf_eq by exact Hr. apply Ho.
      * assert (o = negb o') as -> by (clear -Eo; destruct o, o'; cbn in *; congruence).
        rewrite ebuf_upd_ebuf_other_dir. lia.
    + unfold upd_ebuf. rewrite upd_entry_out_of_range by exact Hr. lia.
  - exists []. split; [exact Hlog|constructor].
Qed.

Lemma inject_q_loop_kept o msize rounds o' w :
  chain_kept o w (snd (inject_q_loop msize rounds o' w)).
Proof.
  revert w. induction rounds as [|rounds IH]; intros w; cbn [inject_q_loop];
    [apply chain_kept_refl|].
  destruct (cfil_queue_first _) as [data|]; [|apply chain_kept_refl].
  destruct (cfil_data_length_cnt msize data) as [[datalen mbcnt] mbnum].
  set (w1 := upd_ibuf o' _ w).
  assert (H1 : chain_kept o w (log_event (EvReinject o' data) w1)).
  { eapply chain_kept_trans; [apply chain_kept_upd_ibuf|].
    apply chain_kept_log_event. exact I. }
  pose proof (chain_kept_quiet o _ _ (qs_ext_call (log_event (EvReinject o' data) w1))) as H2.
  destruct (ext_call (log_event (EvReinject o' data) w1)) as [error w2]. cbn [snd] in H2.
  destruct (o' && negb (error =? 0)); cbn [snd].
  - eapply chain_kept_trans; eassumption.
  - eapply chain_kept_trans; [|apply IH]. eapply chain_kept_trans; eassumption.
Qed.

Lemma cfil_service_inject_queue_kept o msize w o' :
  chain_kept o w (snd (cfil_service_inject_queue msize w o')).
Proof.
  unfold cfil_service_inject_queue.
  destruct (so_defunct (w_so w)); [apply chain_kept_refl|].
  set (retry := if o' then CFIF_RETRY_INJECT_OUT else CFIF_RETRY_INJECT_IN).
  set (w1 := upd_cfi_flags _ w).
  assert (H1 : chain_kept o w w1) by (apply chain_kept_quiet, qs_cfi_flags).
  clearbody w1.
  destruct (cfil_queue_empty (cfi_inject_q (ibuf w1 o'))); [exact H1|].
  pose proof (inject_q_loop_kept o msize (length (q_mq (cfi_inject_q (ibuf w1 o')))) o' w1)
    as H2.
  destruct (inject_q_loop msize _ o' w1) as [error w2]. cbn [snd] in H2 |- *.
  set (w3 := if negb (error =? 0) then _ else w2).
  assert (H3 : chain_kept o w2 w3).
  { subst w3. destruct (negb (error =? 0));
      [apply chain_kept_quiet, qs_cfi_flags|apply chain_kept_refl]. }
  clearbody w3.
  set (w4 := if has_flag (cfi_flags (w_info w3)) CFIF_SHUT_WR then _ else w3).
  assert (H4 : chain_kept o w3 w4).
  { subst w4. destruct (has_flag (cfi_flags (w_info w3)) CFIF_SHUT_WR);
      [|apply chain_kept_refl].
    apply chain_kept_quiet, cfil_sock_notify_shutdown_wr_quiet. }
  clearbody w4.
  assert (H04 : chain_kept o w w4).
  { eapply chain_kept_trans; [exact H1|]. eapply chain_kept_trans; [exact H2|].
    eapply chain_kept_trans; [exact H3|exact H4]. }
  destruct (_ && _); [|exact H04].
  eapply chain_kept_trans; [exact H04|]. apply chain_kept_log_event. exact I.
Qed.

Lemma cfil_set_socket_pass_offset_kept o w o' :
  chain_kept o w (cfil_set_socket_pass_offset w o').
Proof.
  unfold cfil_set_socket_pass_offset. cbv zeta.
  destruct (_ =? 0); [|apply chain_kept_refl].
  destruct (fold_left _ kcunits (0, true)) as [pass_offset first].
  apply chain_kept_upd_ibuf.
Qed.

Lemma moves_ordered o w k w' :
  In k (cfi_ordered_entries (w_info w)) ->
  moves o (k :: slist_after k (cfi_ordered_entries (w_info w))) w w' ->
  moves o (cfi_ordered_entries (w_info w)) w w'.
Proof.
  intros Hin Hm. destruct (ordered_split k _ Hin) as [pre Hpre].
  rewrite Hpre at 1. apply moves_prepend. exact Hm.
Qed.

Lemma cfil_data_service_ctl_q_chain w k o :
  In k (cfi_ordered_entries (w_info w)) ->
  chain_step o w (snd (cfil_data_service_ctl_q w k o)).
Proof.
  intros Hin. apply chain_step_moves, (moves_ordered o w k); [exact Hin|].
  apply cfil_data_service_ctl_q_moves.
Qed.

Lemma cfil_service_pending_queue_chain w k o :
  In k (cfi_ordered_entries (w_info w)) ->
  chain_step o w (snd (cfil_service_pending_queue w k o)).
Proof.
  intros Hin. apply chain_step_moves, (moves_ordered o w k); [exact Hin|].
  apply cfil_service_pending_queue_moves.
Qed.

Lemma cfil_update_data_offsets_chain w k o pass peek :
  In k (cfi_ordered_entries (w_info w)) ->
  chain_step o w (snd (cfil_update_data_offsets w k o pass peek)).
Proof.
  intros Hin. unfold cfil_update_data_offsets.
  destruct (has_flag _ CFIF_DROP); [apply chain_step_refl|]. cbv zeta.
  set (raise_pass := pass >? _).
  set (w1 := if raise_pass then _ else w).
  assert (H1 : chain_kept o w w1).
  { subst w1. destruct raise_pass eqn:Er; [|apply chain_kept_refl].
    subst raise_pass. apply Z.gtb_lt in Er.
    destruct (unit_in_range_dec w k) as [Hr|Hr].
    2:{ unfold upd_ebuf. rewrite upd_entry_out_of_range by exact Hr. apply chain_kept_refl. }
    destruct (upd_ebuf_rest k o
      (fun b => let b1 := with_pass_offset pass b in
                if cfe_peek_offset b1 <? cfe_pass_offset b1
                then with_peek_offset (cfe_pass_offset b1) b1 else b1) w)
      as (_ & _ & Hlog & _ & _ & _ & _ & Hord & _).
    split; [exact Hord|]. split.
    - intros j. unfold entry_same. rewrite has_filter_upd_ebuf. split; [reflexivity|].
      destruct (decide (j = k)) as [->|Hne].
      + rewrite !ebuf_upd_ebuf_eq by exact Hr. cbv zeta.
        destruct (_ <? _); cbn [with_peek_offset with_pass_offset cfe_ctl_q cfe_pending_q
                                cfe_pass_offset]; repeat split; lia.
      + rewrite !ebuf_upd_ebuf_ne by congruence. repeat split. lia.
    - exists []. split; [exact Hlog|constructor]. }
  clearbody w1.
  set (raise_peek := _ && _).
  set (w2 := if raise_peek then _ else w1).
  assert (H2 : chain_kept o w1 w2).
  { subst w2. destruct raise_peek; [|apply chain_kept_refl].
    apply chain_kept_upd_ebuf; intros b; reflexivity. }
  clearbody w2.
  assert (H02 : chain_kept o w w2) by (eapply chain_kept_trans; eassumption).
  assert (Hin2 : In k (cfi_ordered_entries (w_info w2))).
  { destruct H02 as (Hord & _). rewrite Hord. exact Hin. }
  destruct (negb (raise_pass || raise_peek)).
  { cbn [snd]. apply chain_step_kept. eapply chain_kept_trans; [exact H02|].
    apply chain_kept_quiet, update_data_offsets_done_quiet. }
  pose proof (cfil_data_service_ctl_q_chain w2 k o Hin2) as H3.
  destruct (cfil_data_service_ctl_q w2 k o) as [error w3]. cbn [snd] in H3.
  assert (H4 : chain_step o w (update_data_offsets_done w3 k)).
  { eapply chain_step_trans; [apply chain_step_kept; exact H02|].
    eapply chain_step_trans; [exact H3|].
    apply chain_step_kept, chain_kept_quiet, update_data_offsets_done_quiet. }
  destruct (negb (error =? 0)); exact H4.
Qed.

Lemma cfil_action_data_pass_chain msize w k o pass peek :
  In k (cfi_ordered_entries (w_info w)) ->
  chain_step o w (snd (cfil_action_data_pass msize w k o pass peek)).
Proof.
  intros Hin. unfold cfil_action_data_pass.
  destruct (negb (cfil_acquire_sockbuf w =? 0)); [apply chain_step_refl|].
  pose proof (cfil_update_data_offsets_chain w k o pass peek Hin) as H1.
  destruct (cfil_update_data_offsets w k o pass peek) as [error w1]. cbn [snd] in H1 |- *.
  eapply chain_step_trans; [exact H1|].
  apply chain_step_kept. eapply chain_kept_trans;
    [apply cfil_service_inject_queue_kept|apply cfil_set_socket_pass_offset_kept].
Qed.

(** *** Submits *)

Lemma buf_ok_update_entry_offsets d b :
  0 <= d -> buf_ok b -> q_end (cfe_ctl_q b) + d < 2 ^ 64 ->
  buf_ok (update_entry_offsets_buf d b)
  /\ q_end (cfe_ctl_q (update_entry_offsets_buf d b)) = q_end (cfe_ctl_q b) + d
  /\ q_start (cfe_pending_q (update_entry_offsets_buf d b)) = q_start (cfe_pending_q b) + d.
Proof.
  intros Hd Hb Hfit. pose proof (buf_ok_order _ Hb) as Ho.
  destruct Hb as (B1 & B2 & B3 & B4 & B5 & B6).
  unfold update_entry_offsets_buf, buf_ok. cbv zeta.
  cbn [cfe_ctl_q cfe_pending_q cfe_pass_offset q_start q_end q_mq].
  rewrite !queue_bytes_packets in *. cbn [q_mq].
  rewrite (u64_small (q_start (cfe_ctl_q b) + d)) by lia.
  rewrite (u64_small (q_end (cfe_ctl_q b) + d)) by lia.
  rewrite (u64_small (q_start (cfe_pending_q b) + d)) by lia.
  rewrite (u64_small (q_end (cfe_pending_q b) + d)) by lia.
  destruct (Z.ltb_spec (cfe_pass_offset b) (q_start (cfe_ctl_q b) + d));
    repeat split; lia.
Qed.

(** The fast path moves every entry with a filter forward by the same
    length. *)
Lemma chain_ok_shift o d U U' l w w' :
  0 <= d ->
  (forall k, In k l -> has_filter (entry_at w' k) = has_filter (entry_at w k)) ->
  (forall k, In k l -> has_filter (entry_at w k) = true ->
     ebuf w' k o = update_entry_offsets_buf d (ebuf w k o)) ->
  (forall k, In k l -> has_filter (entry_at w k) = false -> ebuf w' k o = ebuf w k o) ->
  (forall k, In k l -> has_filter (entry_at w k) = true ->
     q_end (cfe_ctl_q (ebuf w k o)) + d < 2 ^ 64) ->
  (U + d <= U'
   \/ forall k, In k l -> has_filter (entry_at w k) = true ->
        q_end (cfe_ctl_q (ebuf w k o)) + d <= U') ->
  chain_ok o U l w -> chain_ok o U' l w'.
Proof.
  intros Hd. revert U U'. induction l as [|k l IH]; intros U U' Hf Ha Hu Hfit HU;
    cbn [chain_ok]; [tauto|].
  assert (Hk : In k (k :: l)) by (left; reflexivity).
  rewrite (Hf k Hk). destruct (has_filter (entry_at w k)) eqn:Ef.
  - intros (Hb & Hq & Hr). rewrite (Ha k Hk Ef).
    destruct (buf_ok_update_entry_offsets d _ Hd Hb (Hfit k Hk Ef)) as (S1 & S2 & S3).
    split; [exact S1|]. split.
    + rewrite S2. destruct HU as [HU|HU]; [lia|apply HU; assumption].
    + rewrite S3. apply (IH (q_start (cfe_pending_q (ebuf w k o)))); auto.
      * intros j Hj. apply Hf. right. exact Hj.
      * intros j Hj. apply Ha. right. exact Hj.
      * intros j Hj. apply Hu. right. exact Hj.
      * intros j Hj. apply Hfit. right. exact Hj.
      * left. lia.
  - intros (Hi & Hr). rewrite (Hu k Hk Ef). split; [exact Hi|].
    apply (IH U); auto.
    + intros j Hj. apply Hf. right. exact Hj.
    + intros j Hj. apply Ha. right. exact Hj.
    + intros j Hj. apply Hu. right. exact Hj.
    + intros j Hj. apply Hfit. right. exact Hj.
    + destruct HU as [HU|HU]; [left; exact HU|right].
      intros j Hj. apply HU. right. exact Hj.
Qed.

Lemma cfil_update_entry_offsets_chain w o d :
  0 <= d ->
  Forall (fun k => In k kcunits) (cfi_ordered_entries (w_info w)) ->
  (forall k, has_filter (entry_at w k) = true ->
     q_end (cfe_ctl_q (ebuf w k o)) + d < 2 ^ 64) ->
  chain_step o w (cfil_update_entry_offsets w o d).
Proof.
  intros Hd Hunits Hfit units (Hord & Hnd & Hatt & Hc).
  rewrite Hord in Hunits. rewrite Forall_forall in Hunits.
  assert (Hsw := cfil_update_entry_offsets_sweep w o d).
  destruct (sweep_rest has_filter o (update_entry_offsets_buf d) kcunits w)
    as (_ & _ & Hlog & _ & _ & _ & _ & Hord' & _).
  rewrite <- Hsw in Hlog, Hord'.
  assert (Hf : forall k, has_filter (entry_at (cfil_update_entry_offsets w o d) k)
                         = has_filter (entry_at w k)).
  { intros k. rewrite Hsw. apply (sweep_entry_proj has_filter). intros e b. apply has_filter_stable. }
  split.
  - split; [congruence|]. split; [exact Hnd|]. split.
    + intros k. rewrite Hf. apply Hatt.
    + apply (chain_ok_shift o d (2 ^ 64 - 1) (2 ^ 64 - 1) units w); auto.
      * intros k Hk Ha. rewrite cfil_update_entry_offsets_ebuf
          by (apply Hunits, list_elem_of_In; exact Hk).
        rewrite Bool.eqb_reflx, Ha. reflexivity.
      * intros k Hk Ha. rewrite cfil_update_entry_offsets_ebuf
          by (apply Hunits, list_elem_of_In; exact Hk).
        rewrite Ha, andb_false_r. reflexivity.
      * right. intros k Hk Ha. specialize (Hfit k Ha). lia.
  - exists []. split; [exact Hlog|apply injects_covered_nil].
Qed.

(** The packet is put on the control queue of the first entry with a
    filter. *)
Lemma link_first_chain o pre k l data w :
  cfi_ordered_entries (w_info w) = pre ++ k :: l ->
  Forall (unattached w) pre ->
  has_filter (entry_at w k) = true ->
  q_end (cfe_ctl_q (ebuf w k o)) + cfil_data_length data < 2 ^ 64 ->
  chain_step o w (link_ctl k o data w).
Proof.
  intros Hw Hpre Hk Hfit units (Hord & Hnd & Hatt & Hc).
  assert (Hu : units = pre ++ k :: l) by congruence.
  clear Hw. revert Hord Hnd Hatt Hc. rewrite Hu. clear Hu units. intros Hord Hnd Hatt Hc.
  assert (Hbk : buf_ok (ebuf w k o)).
  { pose proof (chain_ok_In o _ _ w k Hc) as H. rewrite Hk in H. apply H.
    apply in_or_app. right. left. reflexivity. }
  destruct (link_ctl_buf o k data w (has_filter_in_range w k Hk) Hbk Hfit) as (L1 & L2 & L3).
  destruct (chain_inv_upd_ebuf_static o _ k
              (fun b => with_ctl_q
                          (cfil_queue_enqueue (cfe_ctl_q b) data (cfil_data_length data)) b)
              w Hord Hatt) as [Hord2 Hatt2].
  fold (link_ctl k o data w) in Hord2, Hatt2.
  split.
  - split; [exact Hord2|]. split; [exact Hnd|]. split; [exact Hatt2|].
    apply (chain_ok_upd o _ pre k l w); auto.
    + intros j Hj. apply entry_same_upd_ebuf_ne. exact Hj.
    + unfold link_ctl. rewrite has_filter_upd_ebuf. exact Hk.
    + rewrite L2, bound_after_unattached by exact Hpre. lia.
    + rewrite L1. lia.
  - exists []. split; [|apply injects_covered_nil].
    unfold link_ctl. rewrite w_log_upd_ebuf. reflexivity.
Qed.

Lemma IS_ENTRY_ATTACHED_has_filter w k :
  In k kcunits -> IS_ENTRY_ATTACHED w k = has_filter (entry_at w k).
Proof.
  intros Hk. unfold IS_ENTRY_ATTACHED, has_filter.
  replace (k <=? MAX_CONTENT_FILTER)%nat with true; [reflexivity|].
  symmetry. apply Nat.leb_le. unfold kcunits in Hk.
  apply in_seq in Hk. unfold MAX_CONTENT_FILTER in *. lia.
Qed.

Lemma data_common_loop_chain o pre l chained data w :
  cfi_ordered_entries (w_info w) = pre ++ l ->
  Forall (unattached w) pre ->
  Forall (fun k => In k kcunits) l ->
  (forall k, has_filter (entry_at w k) = true ->
     q_end (cfe_ctl_q (ebuf w k o)) + cfil_data_length data < 2 ^ 64) ->
  match data_common_loop o l chained data (cfil_data_length data) 0 w with
  | inl (_, w') => chain_step o w w'
  | inr (_, w') => chain_step o w w'
  end.
Proof.
  revert pre chained w. induction l as [|k l IH]; intros pre chained w Hw Hpre Hunits Hfit;
    cbn [data_common_loop]; [apply chain_step_refl|].
  apply Forall_cons in Hunits. destruct Hunits as [Hk Hunits].
  rewrite (IS_ENTRY_ATTACHED_has_filter w k Hk).
  destruct (has_filter (entry_at w k)) eqn:Ef.
  - set (r := if so_dgram (w_so w) && negb chained then ext_call w else (0, w)).
    assert (Hr : quiet_steps w (snd r)).
    { subst r. destruct (_ && _); [apply qs_ext_call|apply qs_refl]. }
    destruct r as [chain w1]. cbn [snd] in Hr.
    pose proof (chain_kept_quiet o _ _ Hr) as Hk1.
    destruct (negb (chain =? 0)); [apply chain_step_kept; exact Hk1|].
    destruct Hk1 as (Hord1 & Hs1 & Hlog1).
    assert (Hf1 : forall j, has_filter (entry_at w1 j) = has_filter (entry_at w j)).
    { intros j. apply (Hs1 j). }
    destruct (cfil_data_filter_with_moves o k l (chain_run o l) data w1 (chain_run_ok o l))
      as [[Hun Heq]|(Hatt & He & Hmv)].
    { unfold unattached in Hun. rewrite Hf1 in Hun. congruence. }
    destruct (cfil_data_filter_with (chain_run o l) w1 k o data (cfil_data_length data))
      as [e w2].
    cbn [fst snd] in He, Hmv. subst e. cbn [EJUSTRETURN Z.eqb negb].
    eapply chain_step_trans; [apply chain_step_kept; split; [exact Hord1|split; assumption]|].
    eapply chain_step_trans.
    + apply (link_first_chain o pre k l data w1); auto.
      * rewrite Hord1. exact Hw.
      * eapply Forall_impl; [exact Hpre|]. intros j. unfold unattached. rewrite Hf1. tauto.
      * destruct (Hs1 k) as (_ & Hc & _). rewrite Hc. apply Hfit. exact Ef.
    + apply chain_step_moves.
      replace (cfi_ordered_entries (w_info (link_ctl k o data w1))) with (pre ++ k :: l).
      * apply moves_prepend. exact Hmv.
      * unfold link_ctl.
        match goal with |- _ = cfi_ordered_entries (w_info (upd_ebuf k o ?g w1)) =>
          destruct (upd_ebuf_rest k o g w1) as (_&_&_&_&_&_&_&Ho&_) end.
        rewrite Ho, Hord1. symmetry. exact Hw.
  - cbn [Z.eqb negb]. apply (IH (pre ++ [k])); auto.
    + rewrite <- app_assoc. exact Hw.
    + apply Forall_app. split; [exact Hpre|]. constructor; [exact Ef|constructor].
Qed.

Lemma cfil_data_common_chain msize w o data :
  Forall (fun k => In k kcunits) (cfi_ordered_entries (w_info w)) ->
  (forall k, has_filter (entry_at w k) = true ->
     q_end (cfe_ctl_q (ebuf w k o)) + cfil_data_length data < 2 ^ 64) ->
  chain_step o w (snd (data_common_effect msize w o data)).
Proof.
  intros Hunits Hfit. unfold data_common_effect.
  destruct (has_flag _ CFIF_DROP); [apply chain_step_refl|].
  pose proof (cfil_data_length_cnt_fst msize data) as Hlen.
  destruct (cfil_data_length_cnt msize data) as [[datalen mbcnt] mbnum]. cbn [fst] in Hlen.
  subst datalen.
  destruct (_ =? 0); [apply chain_step_refl|].
  cbv zeta.
  set (w1 := with_info _ w).
  set (w2 := upd_ibuf o _ w1).
  assert (H2 : chain_kept o w w2).
  { subst w2 w1. eapply chain_kept_trans;
      [apply chain_kept_add_byte_count|apply chain_kept_upd_ibuf]. }
  clearbody w2. clear w1.
  assert (Hunits2 : Forall (fun k => In k kcunits) (cfi_ordered_entries (w_info w2))).
  { destruct H2 as (-> & _). exact Hunits. }
  assert (Hfit2 : forall k, has_filter (entry_at w2 k) = true ->
            q_end (cfe_ctl_q (ebuf w2 k o)) + cfil_data_length data < 2 ^ 64).
  { intros k Hk. destruct H2 as (_ & Hs & _). destruct (Hs k) as (Hf & Hc & _).
    rewrite Hc. apply Hfit. congruence. }
  destruct (_ && _).
  { cbn [snd]. apply chain_step_kept. eapply chain_kept_trans;
      [exact H2|apply chain_kept_upd_ibuf]. }
  eapply chain_step_trans; [apply chain_step_kept; exact H2|].
  destruct (_ <=? _).
  { cbn [snd]. eapply chain_step_trans;
      [|apply chain_step_kept, chain_kept_upd_ibuf].
    apply cfil_update_entry_offsets_chain; auto.
    pose proof (cfil_data_length_range data). lia. }
  pose proof (data_common_loop_chain o [] (cfi_ordered_entries (w_info w2)) false data w2
                eq_refl (List.Forall_nil _) Hunits2 Hfit2) as H3.
  destruct (data_common_loop o _ false data _ 0 w2) as [[e w3]|[e w3]]; [exact H3|].
  destruct (e =? 0); cbn [snd]; [|exact H3].
  eapply chain_step_trans; [exact H3|apply chain_step_kept, chain_kept_upd_ibuf].
Qed.

(** *** Calls in the other direction *)

Lemma chain_kept_upd_ebuf_other d k g w : chain_kept (negb d) w (upd_ebuf k d g w).
Proof.
  destruct (upd_ebuf_rest k d g w) as (_ & _ & Hlog & _ & _ & _ & _ & Hord & _).
  split; [exact Hord|]. split.
  - intros j. unfold entry_same. rewrite has_filter_upd_ebuf, ebuf_upd_ebuf_other_dir.
    repeat split. apply Z.le_refl.
  - exists []. split; [exact Hlog|constructor].
Qed.

Lemma not_inject_other d span_end pass_offsets :
  not_inject (negb d) (EvInjectQ d span_end pass_offsets).
Proof. destruct d; cbn; discriminate. Qed.

Lemma chain_kept_inject_enqueue_other d k data datalen w :
  chain_kept (negb d) w (inject_enqueue k d data datalen w).
Proof.
  unfold inject_enqueue. eapply chain_kept_trans; [apply chain_kept_upd_ibuf|].
  apply chain_kept_log_event, not_inject_other.
Qed.

(** Servicing the queues of one direction leaves the chain of the other
    as it is. *)
Lemma moves_kept_other d units w w' : moves d units w w' -> chain_kept (negb d) w w'.
Proof.
  induction 1 as [w|w1 w2 w3 _ IH1 _ IH2|w w' Hq|k w Hk
                 |l1 k skipped k' l2 data tl w _ _ _ _|l1 k post data tl w _ _ _].
  - apply chain_kept_refl.
  - eapply chain_kept_trans; eassumption.
  - apply chain_kept_quiet, Hq.
  - apply chain_kept_upd_ebuf_other.
  - unfold hand_over, link_ctl, unlink_pending.
    eapply chain_kept_trans; apply chain_kept_upd_ebuf_other.
  - unfold release, unlink_pending.
    eapply chain_kept_trans;
      [apply chain_kept_upd_ebuf_other|apply chain_kept_inject_enqueue_other].
Qed.

Lemma sweep_kept_other sel d g l w : chain_kept (negb d) w (sweep sel d g l w).
Proof.
  revert w. induction l as [|k l IH]; intros w; [apply chain_kept_refl|].
  rewrite sweep_cons. eapply chain_kept_trans; [|apply IH].
  destruct (sel (entry_at w k)); [apply chain_kept_upd_ebuf_other|apply chain_kept_refl].
Qed.

Lemma cfil_update_data_offsets_kept_other w k d pass peek :
  chain_kept (negb d) w (snd (cfil_update_data_offsets w k d pass peek)).
Proof.
  unfold cfil_update_data_offsets.
  destruct (has_flag _ CFIF_DROP); [apply chain_kept_refl|]. cbv zeta.
  set (raise_pass := pass >? _).
  set (w1 := if raise_pass then _ else w).
  assert (H1 : chain_kept (negb d) w w1).
  { subst w1. destruct raise_pass; [apply chain_kept_upd_ebuf_other|apply chain_kept_refl]. }
  clearbody w1.
  set (raise_peek := _ && _).
  set (w2 := if raise_peek then _ else w1).
  assert (H2 : chain_kept (negb d) w1 w2).
  { subst w2. destruct raise_peek; [apply chain_kept_upd_ebuf_other|apply chain_kept_refl]. }
  clearbody w2.
  assert (H02 : chain_kept (negb d) w w2) by (eapply chain_kept_trans; eassumption).
  destruct (negb (raise_pass || raise_peek)).
  { cbn [snd]. eapply chain_kept_trans; [exact H02|].
    apply chain_kept_quiet, update_data_offsets_done_quiet. }
  pose proof (moves_kept_other _ _ _ _ (cfil_data_service_ctl_q_moves w2 k d)) as H3.
  destruct (cfil_data_service_ctl_q w2 k d) as [error w3]. cbn [snd] in H3.
  assert (H4 : chain_kept (negb d) w (update_data_offsets_done w3 k)).
  { eapply chain_kept_trans; [exact H02|]. eapply chain_kept_trans; [exact H3|].
    apply chain_kept_quiet, update_data_offsets_done_quiet. }
  destruct (negb (error =? 0)); exact H4.
Qed.

Lemma cfil_action_data_pass_kept_other msize w k d pass peek :
  chain_kept (negb d) w (snd (cfil_action_data_pass msize w k d pass peek)).
Proof.
  unfold cfil_action_data_pass.
  destruct (negb (cfil_acquire_sockbuf w =? 0)); [apply chain_kept_refl|].
  pose proof (cfil_update_data_offsets_kept_other w k d pass peek) as H1.
  destruct (cfil_update_data_offsets w k d pass peek) as [error w1]. cbn [snd] in H1 |- *.
  eapply chain_kept_trans; [exact H1|].
  eapply chain_kept_trans;
    [apply cfil_service_inject_queue_kept|apply cfil_set_socket_pass_offset_kept].
Qed.

Lemma data_common_loop_kept_other d l chained data w :
  match data_common_loop d l chained data (cfil_data_length data) 0 w with
  | inl (_, w') => chain_kept (negb d) w w'
  | inr (_, w') => chain_kept (negb d) w w'
  end.
Proof.
  revert chained w. induction l as [|k l IH]; intros chained w; cbn [data_common_loop];
    [apply chain_kept_refl|].
  destruct (IS_ENTRY_ATTACHED w k); [|apply IH].
  set (r := if so_dgram (w_so w) && negb chained then ext_call w else (0, w)).
  assert (Hr : chain_kept (negb d) w (snd r)).
  { subst r. destruct (_ && _); [apply chain_kept_quiet, qs_ext_call|apply chain_kept_refl]. }
  destruct r as [chain w1]. cbn [snd] in Hr.
  destruct (negb (chain =? 0)); [exact Hr|].
  destruct (cfil_data_filter_with_moves d k l (chain_run d l) data w1 (chain_run_ok d l))
    as [[Hun Heq]|(Hatt & He & Hmv)].
  - rewrite Heq. cbn [Z.eqb negb].
    specialize (IH true w1).
    destruct (data_common_loop d l true data _ 0 w1) as [[e w']|[e w']];
      eapply chain_kept_trans; eassumption.
  - apply moves_kept_other in Hmv.
    destruct (cfil_data_filter_with (chain_run d l) w1 k d data (cfil_data_length data))
      as [e w2].
    cbn [fst snd] in He, Hmv. subst e. cbn [EJUSTRETURN Z.eqb negb].
    eapply chain_kept_trans; [exact Hr|].
    eapply chain_kept_trans; [|exact Hmv].
    unfold link_ctl. apply chain_kept_upd_ebuf_other.
Qed.

(** A submit leaves the chain of the other direction as it is. *)
Lemma data_common_effect_kept_other msize w d data :
  chain_kept (negb d) w (snd (data_common_effect msize w d data)).
Proof.
  unfold data_common_effect.
  destruct (has_flag _ CFIF_DROP); [apply chain_kept_refl|].
  pose proof (cfil_data_length_cnt_fst msize data) as Hlen.
  destruct (cfil_data_length_cnt msize data) as [[datalen mbcnt] mbnum]. cbn [fst] in Hlen.
  subst datalen.
  destruct (_ =? 0); [apply chain_kept_refl|].
  cbv zeta.
  set (w1 := with_info _ w).
  set (w2 := upd_ibuf d _ w1).
  assert (H2 : chain_kept (negb d) w w2).
  { subst w2 w1. eapply chain_kept_trans;
      [apply chain_kept_add_byte_count|apply chain_kept_upd_ibuf]. }
  clearbody w2. clear w1.
  destruct (_ && _).
  { cbn [snd]. eapply chain_kept_trans; [exact H2|apply chain_kept_upd_ibuf]. }
  eapply chain_kept_trans; [exact H2|].
  destruct (_ <=? _).
  { cbn [snd]. eapply chain_kept_trans; [|apply chain_kept_upd_ibuf].
    rewrite cfil_update_entry_offsets_sweep. apply sweep_kept_other. }
  pose proof (data_common_loop_kept_other d (cfi_ordered_entries (w_info w2)) false data w2)
    as H3.
  destruct (data_common_loop d _ false data _ 0 w2) as [[e w3]|[e w3]]; [exact H3|].
  destruct (e =? 0); cbn [snd]; [|exact H3].
  eapply chain_kept_trans; [exact H3|apply chain_kept_upd_ibuf].
Qed.

(** *** Drop *)

Lemma entry_at_same_info w w' k : w_info w' = w_info w -> entry_at w' k = entry_at w k.
Proof. intros H. destruct k as [|i]; [reflexivity|]. unfold entry_at. rewrite H. reflexivity. Qed.

Lemma force_defunct_kept o w : chain_kept o w (snd (force_defunct w)).
Proof.
  destruct (force_defunct_rest w) as (Hinfo & _ & _ & _ & _ & Hlog).
  split; [rewrite Hinfo; reflexivity|]. split.
  - intros j. unfold entry_same, ebuf. rewrite (entry_at_same_info _ _ j Hinfo).
    repeat split. apply Z.le_refl.
  - destruct Hlog as [Hlog|Hlog].
    + exists []. split; [exact Hlog|constructor].
    + exists [EvDefunct]. split; [exact Hlog|]. constructor; [exact I|constructor].
Qed.

Lemma flush_direction_kept_other d w : chain_kept (negb d) w (flush_direction d w).
Proof.
  rewrite flush_direction_sweep.
  eapply chain_kept_trans; [apply sweep_kept_other|apply chain_kept_upd_ibuf].
Qed.

(** What [flush_direction] leaves of an entry buffer of its direction. *)
Lemma flush_direction_ebuf o w k :
  In k kcunits ->
  cfe_ctl_q (ebuf (flush_direction o w) k o) = cfil_queue_init
  /\ cfe_pending_q (ebuf (flush_direction o w) k o) = cfil_queue_init
  /\ cfe_pass_offset (ebuf (flush_direction o w) k o) = cfe_pass_offset (ebuf w k o).
Proof.
  intros Hin. destruct (unit_in_range_dec w k) as [Hr|Hr].
  - rewrite flush_direction_drains by assumption. repeat split.
  - destruct (flush_direction_rest o w) as (_ & _ & _ & Hlen & _).
    assert (Hr' : ~ unit_in_range (flush_direction o w) k).
    { unfold unit_in_range in *. rewrite Hlen. exact Hr. }
    unfold ebuf. rewrite (entry_at_out_of_range k w Hr), (entry_at_out_of_range k _ Hr').
    destruct (empty_buf_queues o) as [H1 H2]. repeat split; assumption.
Qed.

(** A chain in order stays in order when its queues are emptied. *)
Lemma chain_ok_drained o l w w' bound bound' :
  (forall k, In k l -> has_filter (entry_at w' k) = has_filter (entry_at w k)) ->
  (forall k, In k l ->
     cfe_ctl_q (ebuf w' k o) = cfil_queue_init
     /\ cfe_pending_q (ebuf w' k o) = cfil_queue_init
     /\ cfe_pass_offset (ebuf w' k o) = cfe_pass_offset (ebuf w k o)) ->
  0 <= bound' ->
  chain_ok o bound l w -> chain_ok o bound' l w'.
Proof.
  revert bound bound'. induction l as [|k l IH]; intros bound bound' Hf Hq Hb Hc;
    [exact I|].
  cbn [chain_ok] in Hc |- *.
  rewrite (Hf k) by (left; reflexivity).
  destruct (Hq k) as (Hctl & Hpend & Hpass); [left; reflexivity|].
  assert (Hf' : forall j, In j l -> has_filter (entry_at w' j) = has_filter (entry_at w j)).
  { intros j Hj. apply Hf. right. exact Hj. }
  assert (Hq' : forall j, In j l ->
            cfe_ctl_q (ebuf w' j o) = cfil_queue_init
            /\ cfe_pending_q (ebuf w' j o) = cfil_queue_init
            /\ cfe_pass_offset (ebuf w' j o) = cfe_pass_offset (ebuf w j o)).
  { intros j Hj. apply Hq. right. exact Hj. }
  destruct (has_filter (entry_at w k)).
  - destruct Hc as (Hok & _ & Hrest).
    split; [|split].
    + destruct Hok as (H1 & H2 & _ & _ & _ & H6).
      pose proof (packets_bytes_nonneg (q_mq (cfe_pending_q (ebuf w k o)))) as Hnn.
      unfold packets_bytes in Hnn. unfold queue_bytes in H2.
      unfold buf_ok. rewrite Hctl, Hpend, Hpass.
      change (queue_bytes cfil_queue_init) with 0.
      change (q_start cfil_queue_init) with 0. change (q_end cfil_queue_init) with 0.
      repeat split; lia.
    + rewrite Hctl. cbn [cfil_queue_init q_end]. exact Hb.
    + rewrite Hpend. cbn [cfil_queue_init q_start].
      apply (IH _ 0 Hf' Hq' (Z.le_refl 0) Hrest).
  - destruct Hc as (_ & Hrest). split.
    + unfold buf_idle. rewrite Hctl, Hpend. split; reflexivity.
    + apply (IH _ bound' Hf' Hq' Hb Hrest).
Qed.

Lemma flush_direction_chain o w :
  Forall (fun k => In k kcunits) (cfi_ordered_entries (w_info w)) ->
  chain_step o w (flush_direction o w).
Proof.
  intros Hunits units (Hord & Hnd & Hatt & Hc).
  destruct (flush_direction_rest o w) as (_ & Hlog & _ & _ & _ & Hfil & _).
  assert (Hord' : cfi_ordered_entries (w_info (flush_direction o w)) = units).
  { rewrite flush_direction_sweep.
    destruct (upd_ibuf_rest o drain_inject_q
                (sweep (fun _ => true) o drain_entry_buf kcunits w)) as (_ & _ & ->).
    destruct (sweep_rest (fun _ => true) o drain_entry_buf kcunits w)
      as (_ & _ & _ & _ & _ & _ & _ & -> & _).
    exact Hord. }
  assert (Hf : forall k, has_filter (entry_at (flush_direction o w) k)
                         = has_filter (entry_at w k)).
  { intros k. unfold has_filter. rewrite Hfil. reflexivity. }
  split.
  - split; [exact Hord'|]. split; [exact Hnd|]. split.
    + intros k Hk. apply Hatt. rewrite <- Hf. exact Hk.
    + apply (chain_ok_drained o units w _ (2 ^ 64 - 1)); [intros k _; apply Hf| |lia|exact Hc].
      intros k Hk. apply flush_direction_ebuf.
      rewrite List.Forall_forall in Hunits. apply Hunits. rewrite Hord. exact Hk.
  - exists []. split; [exact Hlog|apply injects_covered_nil].
Qed.

Lemma cfil_flush_queues_chain o w :
  Forall (fun k => In k kcunits) (cfi_ordered_entries (w_info w)) ->
  chain_step o w (cfil_flush_queues w).
Proof.
  intros Hunits. unfold cfil_flush_queues.
  destruct (negb (so_content_filter (w_so w))); [apply chain_step_refl|].
  destruct o.
  - eapply chain_step_trans; [apply flush_direction_chain, Hunits|].
    apply chain_step_kept. apply (flush_direction_kept_other false).
  - eapply chain_step_trans;
      [apply chain_step_kept; apply (flush_direction_kept_other true)|].
    apply flush_direction_chain.
    destruct (flush_direction_kept_other true w) as (-> & _). exact Hunits.
Qed.

(** A drop empties the queues and leaves the chain of either direction
    in order. *)
Lemma cfil_action_drop_chain o w k :
  Forall (fun k => In k kcunits) (cfi_ordered_entries (w_info w)) ->
  chain_step o w (snd (cfil_action_drop w k)).
Proof.
  intros Hunits. unfold cfil_action_drop.
  destruct (negb (so_content_filter (w_so w))); [apply chain_step_refl|].
  destruct (cfe_filter (entry_at w k)); [|apply chain_step_refl].
  set (w1 := upd_cfi_flags _ w).
  assert (H1 : chain_kept o w w1) by (apply chain_kept_quiet, qs_cfi_flags).
  pose proof (force_defunct_kept o w1) as H2.
  destruct (force_defunct w1) as [error w2]. cbn [snd] in H2 |- *.
  set (w3 := upd_entry k _ w2).
  assert (H3 : chain_kept o w2 w3).
  { subst w3. apply chain_kept_quiet.
    apply (qs_entry_flags k (fun e => set_flag (cfe_flags e) CFEF_CFIL_DETACHED) w2). }
  assert (H03 : chain_kept o w w3).
  { eapply chain_kept_trans; [exact H1|]. eapply chain_kept_trans; eassumption. }
  clearbody w3.
  assert (Hunits3 : Forall (fun k => In k kcunits) (cfi_ordered_entries (w_info w3))).
  { destruct H03 as (-> & _). exact Hunits. }
  eapply chain_step_trans; [apply chain_step_kept; exact H03|].
  eapply chain_step_trans; [apply cfil_flush_queues_chain, Hunits3|].
  destruct (_ && _); [|apply chain_step_refl].
  apply chain_step_kept, chain_kept_log_event. exact I.
Qed.

(** *** Any call *)

Lemma step_chain msize o w op : op_for o w op -> chain_step o w (step_effect msize w op).
Proof.
  destruct op as [o' data|k o' pass peek|k o'|k o'|o'|k]; cbn [op_for step_effect].
  - intros Hop. destruct (Bool.bool_dec o' o) as [->|Hne].
    + destruct (Hop eq_refl) as (Hunits & Hfit). intros units Hinv.
      assert (Hc : chain_step o w (snd (data_common_effect msize w o data))).
      { apply cfil_data_common_chain; [exact Hunits|].
        intros k Hk. rewrite Forall_forall in Hfit. apply Hfit.
        destruct Hinv as (Hord & _ & Hatt & _). rewrite Hord.
        apply list_elem_of_In, Hatt, Hk. }
      destruct (data_common_effect msize w o data) as [e w']. cbn [snd] in Hc.
      revert units Hinv. fold (chain_step o w (log_event (EvSubmit o
        (fst (fst (cfil_data_length_cnt msize data))) e) w')).
      eapply chain_step_trans; [exact Hc|].
      apply chain_step_kept, chain_kept_log_event. exact I.
    + assert (o = negb o') as -> by (destruct o, o'; cbn; congruence).
      pose proof (data_common_effect_kept_other msize w o' data) as Hc.
      destruct (data_common_effect msize w o' data) as [e w']. cbn [snd] in Hc.
      apply chain_step_kept. eapply chain_kept_trans; [exact Hc|].
      apply chain_kept_log_event. exact I.
  - intros Hop. destruct (Bool.bool_dec o' o) as [->|Hne].
    + apply cfil_action_data_pass_chain, Hop. reflexivity.
    + assert (o = negb o') as -> by (destruct o, o'; cbn; congruence).
      apply chain_step_kept, cfil_action_data_pass_kept_other.
  - intros Hop. destruct (Bool.bool_dec o' o) as [->|Hne].
    + apply cfil_data_service_ctl_q_chain, Hop. reflexivity.
    + assert (o = negb o') as -> by (destruct o, o'; cbn; congruence).
      apply chain_step_kept.
      apply (moves_kept_other _ _ _ _ (cfil_data_service_ctl_q_moves w k o')).
  - intros Hop. destruct (Bool.bool_dec o' o) as [->|Hne].
    + apply cfil_service_pending_queue_chain, Hop. reflexivity.
    + assert (o = negb o') as -> by (destruct o, o'; cbn; congruence).
      apply chain_step_kept.
      apply (moves_kept_other _ _ _ _ (cfil_service_pending_queue_moves w k o')).
  - intros _. apply chain_step_kept, cfil_service_inject_queue_kept.
  - intros Hunits. apply cfil_action_drop_chain, Hunits.
Qed.

Lemma flow_ok_chain_inv o w :
  flow_ok o w <-> chain_inv o (cfi_ordered_entries (w_info w)) w.
Proof. unfold flow_ok, chain_inv. tauto. Qed.

Lemma chain_inv_flow_ok o units w : chain_inv o units w -> flow_ok o w.
Proof. intros (<- & H). apply flow_ok_chain_inv. split; [reflexivity|exact H]. Qed.

(** C3.  From a flow whose chain of entries of a direction is in order,
    along any sequence of submits, verdicts, servicing calls and drops,
    in that direction and in the other, that returns, the chain stays in
    order and every span put on the inject queue of the direction ends at
    or below the pass offset that every entry with a filter has at that
    moment.  Asked of the calls is what [op_for] says: submits of the
    direction keep the offsets of the stream below 2^64, and the units
    named by its verdicts and servicing calls are linked in the ordered
    list, whose units are units of the entry array. *)
Theorem chaining_order msize o w ops w' :
  flow_ok o w ->
  ops_for msize o w ops ->
  run msize w ops = Ret w' ->
  flow_ok o w'
  /\ exists new, w_log w' = new ++ w_log w /\ injects_covered o new.
Proof.
  revert w. induction ops as [|op ops IH]; intros w Hok Hops Hrun.
  - cbn [run] in Hrun. injection Hrun as <-.
    split; [exact Hok|]. exists []. split; [reflexivity|apply injects_covered_nil].
  - destruct Hops as [Hop Hops]. cbn [run] in Hrun.
    destruct (step msize w op) as [w1|] eqn:Hstep; [|discriminate].
    apply flow_ok_chain_inv in Hok.
    destruct (step_chain msize o w op Hop _ Hok) as (Hinv1 & n1 & L1 & C1).
    rewrite <- (step_returns msize w op w1 Hstep) in Hinv1, L1.
    destruct (IH w1 (chain_inv_flow_ok _ _ _ Hinv1) Hops Hrun) as (Hok2 & n2 & L2 & C2).
    split; [exact Hok2|]. exists (n2 ++ n1). split.
    + rewrite L2, L1, app_assoc. reflexivity.
    + apply injects_covered_app; assumption.
Qed.

Lemma relay_flow_ok o : flow_ok o (fresh_world tcp_socket [1%nat; 2%nat]).
Proof.
  split; [|split].
  - apply (bool_decide_unpack _). vm_compute. exact I.
  - intros k.
    destruct k as [|[|[|[|[|[|[|[|[|k]]]]]]]]]; vm_compute; intros H;
      try discriminate; auto.
  - destruct o; vm_compute; repeat split; try reflexivity; discriminate.
Qed.

(** Settles a statement about the ordered entries of a given flow. *)
Ltac ordered_units :=
  match goal with
  | |- context [cfi_ordered_entries (w_info ?w)] =>
      let l := eval vm_compute in (cfi_ordered_entries (w_info w)) in
      replace (cfi_ordered_entries (w_info w)) with l by (vm_compute; reflexivity)
  end;
  repeat (apply List.Forall_cons; [vm_compute; (reflexivity || tauto)|]);
  try apply List.Forall_nil; try (vm_compute; tauto).

(** [ops_for] for a sequence of calls given in full, one call at a
    time. *)
Ltac ops_for_step :=
  cbn [ops_for]; split;
  [ cbn [op_for]; try exact I; try (intros _); try (intros H; discriminate H);
    try (split; ordered_units); try ordered_units
  | match goal with
    | |- match step ?m ?w ?op with Ret _ => _ | Panic => _ end =>
        let r := eval vm_compute in (step m w op) in
        change (step m w op) with r; cbv iota beta
    end ].

Lemma chaining_order_witness :
  exists w',
    run 256 (fresh_world tcp_socket [1%nat; 2%nat]) crossing_ops = Ret w'
    /\ flow_ok true w'
    /\ flow_ok false w'
    /\ exists new,
         w_log w' = new ++ w_log (fresh_world tcp_socket [1%nat; 2%nat])
         /\ injects_covered true new.
Proof.
  assert (Hops : forall o, ops_for 256 o (fresh_world tcp_socket [1%nat; 2%nat]) crossing_ops).
  { intros o. unfold crossing_ops. destruct o; repeat ops_for_step; exact I. }
  destruct (run 256 (fresh_world tcp_socket [1%nat; 2%nat]) crossing_ops) as [w'|] eqn:Hrun;
    [|vm_compute in Hrun; discriminate].
  exists w'. split; [reflexivity|].
  destruct (chaining_order 256 true (fresh_world tcp_socket [1%nat; 2%nat]) crossing_ops w'
              (relay_flow_ok true) (Hops true) Hrun) as (Hok & Hnew).
  split; [exact Hok|]. split; [|exact Hnew].
  apply (chaining_order 256 false (fresh_world tcp_socket [1%nat; 2%nat]) crossing_ops w'
           (relay_flow_ok false) (Hops false) Hrun).
Defined.

(* ===================================================================== *)
(** * Properties of the rest of the engine *)
(* ===================================================================== *)

(** ** Mbuf chains ([cfil_data_length], [cfil_data_start]) *)

Lemma s32_add_l a b : s32 (s32 a + b) = s32 (a + b).
Proof.
  unfold s32. f_equal.
  replace ((a + 2 ^ 31) mod 2 ^ 32 - 2 ^ 31 + b + 2 ^ 31)
    with ((a + 2 ^ 31) mod 2 ^ 32 + b) by lia.
  rewrite Zplus_mod_idemp_l. f_equal. lia.
Qed.

Lemma s32_idem a : s32 (s32 a) = s32 a.
Proof.
  replace (s32 a) with (s32 a + 0) at 1 by lia. rewrite s32_add_l. f_equal. lia.
Qed.

Lemma u32_add_l a b : u32 (u32 a + b) = u32 (a + b).
Proof. unfold u32. apply Zplus_mod_idemp_l. Qed.

(** The three accumulators after the loop, from any values they start
    with. *)
Lemma data_length_loop_counts msize c a b n :
  data_length_loop msize c a b n
  = match c with
    | [] => (a, b, n)
    | _ => (u32 (a + chain_bytes c),
            s32 (b + msize * Z.of_nat (length c) + chain_ext_bytes c),
            s32 (n + Z.of_nat (length c)))
    end.
Proof.
  revert a b n. induction c as [|s c IH]; intros a b n; [reflexivity|].
  cbn [data_length_loop]. cbv zeta. rewrite IH.
  unfold chain_bytes, chain_ext_bytes. cbn [fold_right length].
  fold (chain_bytes c). fold (chain_ext_bytes c).
  assert (Hcnt : s32 ((if m_ext s then s32 (s32 (b + msize) + ext_size s) else s32 (b + msize))
                      + msize * Z.of_nat (length c) + chain_ext_bytes c)
                 = s32 (b + msize * Z.of_nat (S (length c))
                        + ((if m_ext s then ext_size s else 0) + chain_ext_bytes c))).
  { destruct (m_ext s);
      repeat (rewrite <- !Z.add_assoc || rewrite s32_add_l); f_equal; lia. }
  destruct c as [|s' c'].
  - clear Hcnt. cbn [chain_bytes chain_ext_bytes fold_right length].
    apply (f_equal2 pair); [apply (f_equal2 pair)|].
    + f_equal; lia.
    + destruct (m_ext s); rewrite ?s32_add_l; f_equal; lia.
    + f_equal; lia.
  - set (c := s' :: c') in *.
    apply (f_equal2 pair); [apply (f_equal2 pair)|].
    + rewrite u32_add_l. f_equal. lia.
    + exact Hcnt.
    + rewrite s32_add_l. f_equal. lia.
Qed.

(** X1. What [cfil_data_length] gives with its two out-parameters: the
    [m_len] of the mbufs from the packet start on, added up in an
    [unsigned int]; in [*retmbnum] their number, and in [*retmbcnt]
    [_MSIZE] for each of them plus the size of every cluster, both as the
    [int] they are counted in. *)
Theorem cfil_data_length_cnt_counts msize m :
  cfil_data_length_cnt msize m
  = (u32 (chain_bytes (cfil_data_start (m_chain m))),
     s32 (msize * Z.of_nat (length (cfil_data_start (m_chain m)))
          + chain_ext_bytes (cfil_data_start (m_chain m))),
     s32 (Z.of_nat (length (cfil_data_start (m_chain m))))).
Proof.
  unfold cfil_data_length_cnt. rewrite data_length_loop_counts.
  destruct (cfil_data_start (m_chain m)) as [|s c].
  - cbn [length chain_bytes chain_ext_bytes fold_right Z.of_nat].
    rewrite Z.mul_0_r. reflexivity.
  - rewrite !Z.add_0_l. reflexivity.
Qed.

Lemma pkthdr_suffix_spec c :
  match pkthdr_suffix c with
  | Some c' =>
      exists pre s tl, c = pre ++ c' /\ c' = s :: tl /\ m_pkthdr s = true
                       /\ Forall (fun s => m_pkthdr s = false) pre
  | None => Forall (fun s => m_pkthdr s = false) c
  end.
Proof.
  induction c as [|s c IH]; simpl.
  - constructor.
  - destruct (m_pkthdr s) eqn:Hs.
    + exists [], s, c. split; [reflexivity|]. split; [reflexivity|].
      split; [assumption|constructor].
    + destruct (pkthdr_suffix c) as [c'|].
      * destruct IH as (pre & s' & tl & -> & -> & Hs' & Hpre).
        exists (s :: pre), s', tl. split; [reflexivity|]. split; [reflexivity|].
        split; [assumption|]. constructor; assumption.
      * constructor; assumption.
Qed.

(** X2. [cfil_data_start] skips exactly the mbufs in front of the first
    one with [M_PKTHDR]: what it returns is the chain from that mbuf on,
    and the whole chain when no mbuf has the flag; applied again it
    changes nothing. *)
Theorem cfil_data_start_spec c :
  (exists pre,
     c = pre ++ cfil_data_start c
     /\ Forall (fun s => m_pkthdr s = false) pre
     /\ match cfil_data_start c with
        | s :: _ => m_pkthdr s = true \/ (pre = [] /\ Forall (fun s => m_pkthdr s = false) c)
        | [] => c = []
        end)
  /\ cfil_data_start (cfil_data_start c) = cfil_data_start c.
Proof.
  pose proof (pkthdr_suffix_spec c) as H.
  assert (Hdef : cfil_data_start c
                 = match pkthdr_suffix c with Some c' => c' | None => c end) by reflexivity.
  destruct (pkthdr_suffix c) as [c'|] eqn:E; rewrite Hdef.
  - destruct H as (pre & s & tl & Hc & Hc' & Hs & Hpre). split.
    + exists pre. split; [assumption|]. split; [assumption|].
      rewrite Hc'. left. assumption.
    + unfold cfil_data_start. rewrite Hc'. simpl. rewrite Hs. reflexivity.
  - split.
    + exists []. split; [reflexivity|]. split; [constructor|].
      destruct c; [reflexivity|]. right. split; [reflexivity|assumption].
    + unfold cfil_data_start. rewrite E. reflexivity.
Qed.

(** ** The byte-range queue and its assertions ([cfil_queue_verify]) *)

Lemma fold_u32_chain_bytes c a :
  Forall (fun s => 0 <= m_len s) c -> 0 <= a -> a + chain_bytes c < 2 ^ 32 ->
  fold_left (fun pktlen s => u32 (pktlen + m_len s)) c a = a + chain_bytes c.
Proof.
  revert a. induction c as [|s c IH]; intros a Hc Ha Hlt; simpl in *; [lia|].
  inversion Hc as [|? ? Hs Hc']; subst.
  assert (0 <= chain_bytes c).
  { clear -Hc'. induction Hc'; simpl; [lia|]. fold (chain_bytes l). lia. }
  fold (chain_bytes c) in Hlt.
  rewrite u32_small by lia. rewrite IH by (try assumption; lia). lia.
Qed.

Lemma fold_u64_chain_bytes c a :
  Forall (fun s => 0 <= m_len s) c -> 0 <= a -> a + chain_bytes c < 2 ^ 64 ->
  fold_left (fun acc s => u64 (acc + m_len s)) c a = a + chain_bytes c.
Proof.
  revert a. induction c as [|s c IH]; intros a Hc Ha Hlt; simpl in *; [lia|].
  inversion Hc as [|? ? Hs Hc']; subst.
  assert (0 <= chain_bytes c).
  { clear -Hc'. induction Hc'; simpl; [lia|]. fold (chain_bytes l). lia. }
  fold (chain_bytes c) in Hlt.
  rewrite u64_small by lia. rewrite IH by (try assumption; lia). lia.
Qed.

Lemma packet_ok_length m :
  packet_ok m ->
  cfil_data_length m = chain_bytes (cfil_data_start (m_chain m))
  /\ chainsize m = chain_bytes (cfil_data_start (m_chain m))
  /\ 0 < cfil_data_length m.
Proof.
  intros [Hc Hb]. unfold cfil_data_length, chainsize.
  rewrite fold_u32_chain_bytes by (try assumption; lia).
  rewrite fold_u64_chain_bytes by (try assumption; lia). lia.
Qed.

Lemma queue_verify_loop_sound l a :
  Forall packet_ok l -> 0 <= a -> a + packets_bytes l < 2 ^ 64 ->
  queue_verify_loop l a = Some (a + packets_bytes l).
Proof.
  revert a. induction l as [|m l IH]; intros a Hl Ha Hlt; simpl in *.
  - f_equal. lia.
  - inversion Hl as [|? ? Hm Hl']; subst.
    destruct (packet_ok_length m Hm) as (Hlen & Hcs & Hpos).
    fold (packets_bytes l) in Hlt.
    pose proof (packets_bytes_nonneg l).
    destruct (cfil_data_start (m_chain m)) as [|s c] eqn:Hstart.
    { exfalso. rewrite Hlen in Hpos. simpl in Hpos. lia. }
    rewrite Hlen, Hcs, Z.eqb_refl. cbn [negb].
    rewrite u64_small by lia. rewrite IH by (try assumption; lia).
    f_equal. fold (packets_bytes l). lia.
Qed.

Lemma packets_bytes_pos l :
  Forall packet_ok l -> l <> [] -> 0 < packets_bytes l.
Proof.
  intros Hl Hne. destruct l as [|m l]; [congruence|].
  inversion Hl as [|? ? Hm Hl']; subst. simpl. fold (packets_bytes l).
  pose proof (packets_bytes_nonneg l).
  destruct (packet_ok_length m Hm) as (_ & _ & Hpos). lia.
Qed.

Lemma queue_sound_verify cfq :
  queue_sound cfq ->
  cfil_queue_verify cfq = true /\ cfil_queue_len cfq = packets_bytes (q_mq cfq).
Proof.
  intros (Hs & He & Hl & Hsum).
  pose proof (packets_bytes_nonneg (q_mq cfq)) as Hnn.
  unfold cfil_queue_verify, cfil_queue_len.
  rewrite (queue_verify_loop_sound (q_mq cfq) 0) by (try assumption; lia).
  rewrite (u64_small (q_end cfq - q_start cfq)) by lia.
  split; [|lia].
  repeat (apply andb_true_iff; split).
  - apply Z.leb_le. lia.
  - unfold cfil_queue_empty. destruct (q_mq cfq) as [|m l] eqn:Hq; cbn [negb andb orb].
    + rewrite orb_false_r. apply Z.eqb_eq. simpl in Hsum. lia.
    + apply negb_true_iff, Z.eqb_neq.
      assert (0 < packets_bytes (m :: l)); [|lia].
      apply packets_bytes_pos; [assumption|discriminate].
  - apply Z.eqb_eq. lia.
Qed.

Lemma packets_bytes_remove m l :
  In m l -> packets_bytes (mbufq_remove m l) = packets_bytes l - cfil_data_length m.
Proof.
  induction l as [|x l IH]; intros Hin; [destruct Hin|].
  simpl. destruct (decide (x = m)) as [->|Hne].
  - fold (packets_bytes l). lia.
  - destruct Hin as [->|Hin]; [congruence|].
    simpl. fold (packets_bytes l) (packets_bytes (mbufq_remove m l)).
    rewrite IH by assumption. lia.
Qed.

Lemma Forall_mbufq_remove (P : mbuf -> Prop) m l :
  Forall P l -> Forall P (mbufq_remove m l).
Proof.
  induction 1 as [|x l Hx Hl IH]; simpl; [constructor|].
  destruct (decide (x = m)); [assumption|]. constructor; assumption.
Qed.

Lemma queue_sound_init : queue_sound cfil_queue_init.
Proof. unfold queue_sound. simpl. repeat split; try lia. constructor. Qed.

Lemma queue_sound_step cfq op :
  queue_sound cfq -> queue_op_ok cfq op -> queue_sound (queue_step cfq op).
Proof.
  intros (Hs & He & Hl & Hsum) Hop.
  pose proof (packets_bytes_nonneg (q_mq cfq)) as Hnn.
  destruct op as [m|m|]; simpl in Hop |- *.
  - destruct Hop as [Hm Hlt].
    destruct (packet_ok_length m Hm) as (_ & _ & Hpos).
    unfold queue_sound; cbn [cfil_queue_enqueue q_start q_end q_mq].
    rewrite u64_small by lia. rewrite packets_bytes_app.
    repeat split; try lia.
    + apply Forall_app. split; [assumption|]. constructor; [assumption|constructor].
    + simpl. lia.
  - pose proof (cfil_data_length_range m) as Hr.
    assert (Hle : cfil_data_length m <= packets_bytes (q_mq cfq)).
    { pose proof (packets_bytes_remove m _ Hop).
      pose proof (packets_bytes_nonneg (mbufq_remove m (q_mq cfq))). lia. }
    unfold queue_sound; cbn [cfil_queue_remove q_start q_end q_mq].
    rewrite u64_small by lia. rewrite packets_bytes_remove by assumption.
    repeat split; try lia. apply Forall_mbufq_remove. assumption.
  - apply queue_sound_init.
Qed.

(** X3. Starting from a queue whose cursors are the offsets of its
    packets, such as the one [cfil_queue_init] leaves, every sequence of
    enqueues of packets that hold data, removals of packets that are on
    the queue and drains leaves a queue on which [cfil_queue_verify] finds
    nothing to panic about, and whose [cfil_queue_len] is the number of
    bytes of the packets it holds. *)
Theorem cfil_queue_verify_invariant cfq ops :
  queue_sound cfq ->
  queue_ops_ok cfq ops ->
  cfil_queue_verify (fold_left queue_step ops cfq) = true
  /\ cfil_queue_len (fold_left queue_step ops cfq)
     = packets_bytes (q_mq (fold_left queue_step ops cfq)).
Proof.
  revert cfq. induction ops as [|op ops IH]; intros cfq Hq Hops.
  - apply queue_sound_verify. assumption.
  - destruct Hops as [Hop Hops]. simpl. apply IH; [|assumption].
    apply queue_sound_step; assumption.
Qed.

Lemma cfil_queue_verify_invariant_witness :
  cfil_queue_verify
    (fold_left queue_step [QEnqueue (packet 1 100); QEnqueue (packet 2 60); QRemove (packet 1 100)]
       cfil_queue_init) = true
  /\ cfil_queue_len
       (fold_left queue_step [QEnqueue (packet 1 100); QEnqueue (packet 2 60); QRemove (packet 1 100)]
          cfil_queue_init)
     = packets_bytes
         (q_mq (fold_left queue_step
                  [QEnqueue (packet 1 100); QEnqueue (packet 2 60); QRemove (packet 1 100)]
                  cfil_queue_init)).
Proof.
  apply cfil_queue_verify_invariant.
  - unfold queue_sound. simpl. repeat split; try lia. constructor.
  - simpl. unfold packet_ok. simpl. vm_compute.
    repeat split; try discriminate; try reflexivity;
      try (repeat constructor; discriminate); try (left; reflexivity).
Defined.

(** X4. A packet without data must not be put on an empty queue: after
    [cfil_queue_enqueue] with a length of 0 the queue holds a packet while
    its two offsets are equal, which [cfil_queue_verify] does not accept. *)
Theorem cfil_queue_verify_rejects_empty_packet cfq m :
  cfil_queue_verify cfq = true ->
  cfil_queue_empty cfq = true ->
  0 <= q_end cfq < 2 ^ 64 ->
  cfil_queue_verify (cfil_queue_enqueue cfq m 0) = false.
Proof.
  intros Hv Hempty Hr.
  unfold cfil_queue_verify in Hv.
  apply andb_true_iff in Hv. destruct Hv as [Hv _].
  apply andb_true_iff in Hv. destruct Hv as [_ Hv].
  rewrite Hempty in Hv. simpl in Hv. rewrite orb_false_r in Hv.
  apply Z.eqb_eq in Hv.
  unfold cfil_queue_verify, cfil_queue_empty. cbn [cfil_queue_enqueue q_start q_end q_mq].
  rewrite Z.add_0_r, u64_small by lia.
  destruct (q_mq cfq ++ [m]) eqn:E; [destruct (q_mq cfq); discriminate|].
  rewrite Hv, Z.eqb_refl. simpl. rewrite andb_false_r. reflexivity.
Qed.

Lemma cfil_queue_verify_rejects_empty_packet_witness :
  cfil_queue_verify (cfil_queue_enqueue cfil_queue_init (packet 1 0) 0) = false.
Proof.
  apply cfil_queue_verify_rejects_empty_packet; [reflexivity|reflexivity|simpl; lia].
Defined.

(** ** The assertions of a submit ([cfil_data_common]) *)

Lemma holding_world_reached :
  run 256 (fresh_world tcp_socket [1%nat]) [OpSubmit true (packet 1 100)] = Ret holding_world.
Proof. vm_compute. reflexivity. Qed.

(** X25. A submit panics when the pending end of its direction, extended
    by the length of the packet, wraps below the pending start: on a flow
    that is not drop-latched, for a packet that is not empty and not
    tail-dropped, [cfil_info_buf_verify] fails on
    [cfi_pending_first <= cfi_pending_last] before any filter is looked
    at. *)
Theorem cfil_data_common_panics msize w o data :
  has_flag (cfi_flags (w_info w)) CFIF_DROP = false ->
  fst (fst (cfil_data_length_cnt msize data)) <> 0 ->
  (so_dgram (w_so w) = false
   \/ (u32 (cfi_pending_mbnum (ibuf w o) + snd (cfil_data_length_cnt msize data))
         <= cfil_udp_gc_mbuf_num_max w
       /\ u32 (cfi_pending_mbcnt (ibuf w o) + snd (fst (cfil_data_length_cnt msize data)))
            <= cfil_udp_gc_mbuf_cnt_max w)) ->
  u64 (cfi_pending_last (ibuf w o) + fst (fst (cfil_data_length_cnt msize data)))
    < cfi_pending_first (ibuf w o) ->
  cfil_data_common msize w o data = Panic.
Proof.
  intros Hdrop Hlen Hroom Hwrap.
  unfold cfil_data_common. rewrite Hdrop.
  destruct (cfil_data_length_cnt msize data) as [[datalen mbcnt] mbnum] eqn:Hcnt.
  cbn [fst snd] in Hlen, Hroom, Hwrap.
  destruct (Z.eqb_spec datalen 0) as [|_]; [contradiction|].
  cbv zeta.
  set (w1 := with_info _ w).
  set (w2 := upd_ibuf o _ w1).
  assert (Hib : ibuf w2 o = pending_extend datalen mbcnt mbnum (ibuf w o)).
  { subst w2 w1. rewrite ibuf_upd_ibuf_eq, ibuf_add_byte_count. reflexivity. }
  rewrite Hib.
  assert (Hgate : so_dgram (w_so w2)
                  && ((cfi_pending_mbnum (pending_extend datalen mbcnt mbnum (ibuf w o))
                         >? cfil_udp_gc_mbuf_num_max w2)
                      || (cfi_pending_mbcnt (pending_extend datalen mbcnt mbnum (ibuf w o))
                            >? cfil_udp_gc_mbuf_cnt_max w2)) = false).
  { change (so_dgram (w_so w2)) with (so_dgram (w_so w)).
    change (cfil_udp_gc_mbuf_num_max w2) with (cfil_udp_gc_mbuf_num_max w).
    change (cfil_udp_gc_mbuf_cnt_max w2) with (cfil_udp_gc_mbuf_cnt_max w).
    cbn [pending_extend cfi_pending_mbnum cfi_pending_mbcnt].
    destruct Hroom as [->|[Hn Hc]]; [reflexivity|].
    apply andb_false_iff. right. apply orb_false_iff.
    split; rewrite Z.gtb_ltb; apply Z.ltb_ge; assumption. }
  rewrite Hgate.
  assert (Hv : pending_cursors_verify (pending_extend datalen mbcnt mbnum (ibuf w o)) = false).
  { unfold pending_cursors_verify. cbn [pending_extend cfi_pending_first cfi_pending_last].
    apply Z.leb_gt. exact Hwrap. }
  rewrite Hv. reflexivity.
Qed.

Lemma cfil_data_common_panics_witness :
  cfil_data_common 256 wrapping_world true (packet 1 100) = Panic.
Proof.
  apply cfil_data_common_panics.
  - reflexivity.
  - vm_compute. discriminate.
  - left. reflexivity.
  - vm_compute. reflexivity.
Defined.

(** ** The socket pass offset ([cfil_set_socket_pass_offset]) *)

Lemma smallest_pass_offset_spec w o l p f :
  let r := smallest_pass_offset w o l (p, f) in
  (snd r = true <-> f = true /\ Forall (fun k => has_filter (entry_at w k) = false) l)
  /\ (snd r = false ->
      (f = false -> fst r <= p)
      /\ Forall (fun k => has_filter (entry_at w k) = true ->
                          fst r <= cfe_pass_offset (ebuf w k o)) l
      /\ ((f = false /\ fst r = p)
          \/ Exists (fun k => has_filter (entry_at w k) = true
                              /\ fst r = cfe_pass_offset (ebuf w k o)) l)).
Proof.
  revert p f. induction l as [|k l IH]; intros p f.
  - simpl. split.
    + split; [intros ->; split; [reflexivity|constructor]|tauto].
    + intros ->. split; [intros _; lia|]. split; [constructor|]. left. split; reflexivity.
  - cbn [smallest_pass_offset fold_left].
    unfold has_filter at 1 2 3. unfold ebuf at 1 2.
    destruct (cfe_filter (entry_at w k)) as [cfc|] eqn:Hk.
    + destruct (f || (cfe_pass_offset (entrybuf o (entry_at w k)) <? p)) eqn:Hc.
      * specialize (IH (cfe_pass_offset (entrybuf o (entry_at w k))) false).
        fold (smallest_pass_offset w o l (cfe_pass_offset (entrybuf o (entry_at w k)), false)).
        cbv zeta in IH |- *. destruct IH as [IH1 IH2]. split.
        -- split.
           ++ intros H. apply IH1 in H. destruct H as [H _]. discriminate.
           ++ intros [_ H]. inversion H as [|? ? Hf _]; subst.
              unfold has_filter in Hf. rewrite Hk in Hf. discriminate.
        -- intros Hr. destruct (IH2 Hr) as (Hle & Hall & Hex).
           specialize (Hle eq_refl).
           split; [|split].
           ++ intros ->. simpl in Hc. apply Z.ltb_lt in Hc. lia.
           ++ constructor; [intros _; exact Hle|exact Hall].
           ++ right. destruct Hex as [[_ Heq]|Hex].
              ** apply Exists_cons_hd. split; [unfold has_filter; rewrite Hk; reflexivity|].
                 exact Heq.
              ** apply Exists_cons_tl. exact Hex.
      * apply orb_false_iff in Hc. destruct Hc as [-> Hc]. apply Z.ltb_ge in Hc.
        specialize (IH p false).
        fold (smallest_pass_offset w o l (p, false)).
        cbv zeta in IH |- *. destruct IH as [IH1 IH2]. split.
        -- split.
           ++ intros H. apply IH1 in H. destruct H as [H _]. discriminate.
           ++ intros [H _]. discriminate.
        -- intros Hr. destruct (IH2 Hr) as (Hle & Hall & Hex).
           specialize (Hle eq_refl).
           split; [intros _; exact Hle|]. split.
           ++ constructor; [intros _; unfold ebuf; lia|exact Hall].
           ++ destruct Hex as [[_ Heq]|Hex]; [left; split; [reflexivity|exact Heq]|].
              right. apply Exists_cons_tl. exact Hex.
    + specialize (IH p f).
      fold (smallest_pass_offset w o l (p, f)).
      cbv zeta in IH |- *. destruct IH as [IH1 IH2]. split.
      * rewrite IH1. split.
        -- intros [-> H]. split; [reflexivity|]. constructor; [|exact H].
           unfold has_filter. rewrite Hk. reflexivity.
        -- intros [-> H]. split; [reflexivity|]. inversion H; assumption.
      * intros Hr. destruct (IH2 Hr) as (Hle & Hall & Hex).
        split; [exact Hle|]. split.
        -- constructor; [|exact Hall]. unfold has_filter. rewrite Hk. discriminate.
        -- destruct Hex as [Hex|Hex]; [left; exact Hex|].
           right. apply Exists_cons_tl. exact Hex.
Qed.

Lemma cfil_set_socket_pass_offset_eq w o :
  u64 (cfi_pending_last (ibuf w o) - cfi_pending_first (ibuf w o)) = 0 ->
  cfi_pass_offset (ibuf (cfil_set_socket_pass_offset w o) o)
  = fst (smallest_pass_offset w o kcunits (0, true))
  /\ (forall k, entry_at (cfil_set_socket_pass_offset w o) k = entry_at w k)
  /\ cfi_inject_q (ibuf (cfil_set_socket_pass_offset w o) o) = cfi_inject_q (ibuf w o)
  /\ cfi_pending_first (ibuf (cfil_set_socket_pass_offset w o) o) = cfi_pending_first (ibuf w o)
  /\ cfi_pending_last (ibuf (cfil_set_socket_pass_offset w o) o) = cfi_pending_last (ibuf w o)
  /\ ibuf (cfil_set_socket_pass_offset w o) (negb o) = ibuf w (negb o).
Proof.
  intros Hp. unfold cfil_set_socket_pass_offset. cbv zeta.
  rewrite Hp. cbn [Z.eqb].
  fold (smallest_pass_offset w o kcunits (0, true)).
  destruct (smallest_pass_offset w o kcunits (0, true)) as [p f].
  rewrite ibuf_upd_ibuf_eq, ibuf_upd_ibuf_other. cbn [cfi_pass_offset cfi_inject_q
    cfi_pending_first cfi_pending_last fst].
  repeat split. intros k. apply entry_at_upd_ibuf.
Qed.

(** X5. With no data pending in a direction, [cfil_set_socket_pass_offset]
    leaves in [cfi_pass_offset] the smallest pass offset of the entries
    that have a filter: it is at most the pass offset of each of them and
    is the pass offset of one of them, and it is 0 when no entry has a
    filter.  Entries, queues and pending cursors are left as they are. *)
Theorem cfil_set_socket_pass_offset_smallest w o :
  u64 (cfi_pending_last (ibuf w o) - cfi_pending_first (ibuf w o)) = 0 ->
  let w' := cfil_set_socket_pass_offset w o in
  (forall k, In k kcunits -> has_filter (entry_at w k) = true ->
             cfi_pass_offset (ibuf w' o) <= cfe_pass_offset (ebuf w k o))
  /\ ((exists k, In k kcunits /\ has_filter (entry_at w k) = true
                 /\ cfi_pass_offset (ibuf w' o) = cfe_pass_offset (ebuf w k o))
      \/ ((forall k, In k kcunits -> has_filter (entry_at w k) = false)
          /\ cfi_pass_offset (ibuf w' o) = 0))
  /\ (forall k, entry_at w' k = entry_at w k)
  /\ cfi_inject_q (ibuf w' o) = cfi_inject_q (ibuf w o)
  /\ cfi_pending_first (ibuf w' o) = cfi_pending_first (ibuf w o)
  /\ cfi_pending_last (ibuf w' o) = cfi_pending_last (ibuf w o)
  /\ ibuf w' (negb o) = ibuf w (negb o).
Proof.
  intros Hp w'. subst w'.
  destruct (cfil_set_socket_pass_offset_eq w o Hp) as (Heq & Hrest).
  rewrite Heq.
  pose proof (smallest_pass_offset_spec w o kcunits 0 true) as Hs. cbv zeta in Hs.
  destruct Hs as [Hs1 Hs2].
  split; [|split; [|exact Hrest]].
  - intros k Hin Hk.
    destruct (snd (smallest_pass_offset w o kcunits (0, true))) eqn:Hf.
    + destruct (proj1 Hs1 eq_refl) as [_ Hall].
      rewrite List.Forall_forall in Hall. rewrite (Hall k Hin) in Hk. discriminate.
    + destruct (Hs2 eq_refl) as (_ & Hall & _).
      rewrite List.Forall_forall in Hall. apply Hall; assumption.
  - destruct (snd (smallest_pass_offset w o kcunits (0, true))) eqn:Hf.
    + right. destruct (proj1 Hs1 eq_refl) as [_ Hall].
      split; [rewrite List.Forall_forall in Hall; exact Hall|].
      clear -Hall. unfold smallest_pass_offset.
      generalize dependent kcunits. intros l Hall.
      induction Hall as [|k l Hk Hall IH]; [reflexivity|].
      cbn [fold_left]. unfold has_filter in Hk.
      destruct (cfe_filter (entry_at w k)); [discriminate|]. exact IH.
    + left. destruct (Hs2 eq_refl) as (_ & _ & [[Hc _]|Hex]); [discriminate|].
      apply List.Exists_exists in Hex. destruct Hex as (k & Hin & Hk & Heq').
      exists k. repeat split; assumption.
Qed.

Lemma cfil_set_socket_pass_offset_smallest_witness :
  cfi_pass_offset (ibuf (cfil_set_socket_pass_offset two_passes_world true) true) = 120.
Proof.
  assert (Hp : u64 (cfi_pending_last (ibuf two_passes_world true)
                    - cfi_pending_first (ibuf two_passes_world true)) = 0) by reflexivity.
  destruct (cfil_set_socket_pass_offset_smallest two_passes_world true Hp)
    as (Hle & Hex & _).
  assert (H2 : cfi_pass_offset (ibuf (cfil_set_socket_pass_offset two_passes_world true) true)
               <= 120).
  { apply (Hle 2%nat); [vm_compute; tauto|reflexivity]. }
  destruct Hex as [(k & Hin & Hk & Heq)|[Hnone _]].
  - rewrite Heq in *.
    assert (Hcases : k = 1%nat \/ k = 2%nat).
    { vm_compute in Hin.
      repeat (destruct Hin as [Hin|Hin];
              [subst k; try (vm_compute in Hk; discriminate); tauto|]).
      destruct Hin. }
    destruct Hcases as [-> | ->]; [vm_compute in H2; exfalso; apply H2; reflexivity|reflexivity].
  - specialize (Hnone 1%nat). exfalso.
    assert (Hin : In 1%nat kcunits) by (vm_compute; tauto).
    apply Hnone in Hin. vm_compute in Hin. discriminate.
Defined.

(** ** Re-injection ([cfil_service_inject_queue]) *)

Lemma has_flag_clear_same f m : has_flag (clear_flag f m) m = false.
Proof.
  unfold has_flag, clear_flag. rewrite <- Z.land_assoc.
  rewrite (Z.land_comm (Z.lnot m) m), Z.land_lnot_diag, Z.land_0_r. reflexivity.
Qed.

Lemma has_flag_lor_no_close_wait f f' m :
  Z.land CFIF_NO_CLOSE_WAIT m = 0 ->
  Z.lor f' CFIF_NO_CLOSE_WAIT = Z.lor f CFIF_NO_CLOSE_WAIT ->
  has_flag f' m = has_flag f m.
Proof.
  intros Hm H. unfold has_flag.
  assert (Hb : forall x, Z.land x m = Z.land (Z.lor x CFIF_NO_CLOSE_WAIT) m).
  { intros x. rewrite Z.land_lor_distr_l, Hm, Z.lor_0_r. reflexivity. }
  rewrite (Hb f'), (Hb f), H. reflexivity.
Qed.

Lemma u64_add_l a b : u64 (u64 a + b) = u64 (a + b).
Proof. unfold u64. apply Zplus_mod_idemp_l. Qed.

(** The loop takes the packets from the head of the queue, hands each to
    the socket layer, and stops at the first the socket layer refuses;
    that one has left the queue too. *)
Lemma inject_q_loop_spec msize rounds o w :
  (length (q_mq (cfi_inject_q (ibuf w o))) <= rounds)%nat ->
  exists taken,
    q_mq (cfi_inject_q (ibuf w o))
    = taken ++ q_mq (cfi_inject_q (ibuf (snd (inject_q_loop msize rounds o w)) o))
    /\ w_log (snd (inject_q_loop msize rounds o w))
       = rev (map (EvReinject o) taken) ++ w_log w
    /\ u64 (cfi_pending_first (ibuf (snd (inject_q_loop msize rounds o w)) o))
       = u64 (cfi_pending_first (ibuf w o) + packets_bytes taken)
    /\ (fst (inject_q_loop msize rounds o w) = 0 ->
        q_mq (cfi_inject_q (ibuf (snd (inject_q_loop msize rounds o w)) o)) = [])
    /\ (fst (inject_q_loop msize rounds o w) <> 0 -> o = true)
    /\ (forall k, entry_at (snd (inject_q_loop msize rounds o w)) k = entry_at w k)
    /\ w_so (snd (inject_q_loop msize rounds o w)) = w_so w.
Proof.
  revert w. induction rounds as [|rounds IH]; intros w Hlen.
  - exists []. simpl. destruct (q_mq (cfi_inject_q (ibuf w o))) eqn:E; [|simpl in Hlen; lia].
    repeat split; try reflexivity; try congruence.
    rewrite Z.add_0_r. reflexivity.
  - cbn [inject_q_loop]. unfold cfil_queue_first.
    destruct (q_mq (cfi_inject_q (ibuf w o))) as [|data tl] eqn:Hq.
    { exists []. simpl. repeat split; try reflexivity; try congruence.
      rewrite Z.add_0_r. reflexivity. }
    cbn [head].
    pose proof (cfil_data_length_cnt_fst msize data) as Hdl.
    destruct (cfil_data_length_cnt msize data) as [[datalen mbcnt] mbnum].
    cbn [fst] in Hdl. subst datalen.
    set (w1 := upd_ibuf o (inject_dequeue data (cfil_data_length data) mbcnt mbnum) w).
    assert (Hq1 : q_mq (cfi_inject_q (ibuf w1 o)) = tl).
    { subst w1. rewrite ibuf_upd_ibuf_eq. cbn [inject_dequeue cfi_inject_q cfil_queue_remove q_mq].
      rewrite Hq. apply mbufq_remove_head. }
    assert (Hf1 : cfi_pending_first (ibuf w1 o)
                  = u64 (cfi_pending_first (ibuf w o) + cfil_data_length data)).
    { subst w1. rewrite ibuf_upd_ibuf_eq. reflexivity. }
    assert (He1 : forall k, entry_at w1 k = entry_at w k).
    { intros k. subst w1. apply entry_at_upd_ibuf. }
    set (w1' := log_event (EvReinject o data) w1).
    destruct (ext_call_rest w1') as (Hso & Hinfo & _ & Hlog & _).
    assert (Hi2 : forall d, ibuf (snd (ext_call w1')) d = ibuf w1 d).
    { intros d. unfold ibuf. rewrite Hinfo. reflexivity. }
    assert (He2 : forall k, entry_at (snd (ext_call w1')) k = entry_at w k).
    { intros k. rewrite entry_at_ext_call. exact (He1 k). }
    destruct (ext_call w1') as [error w2]. cbn [snd] in *.
    destruct (o && negb (error =? 0)) eqn:Hstop.
    + exists [data]. cbn [fst snd]. rewrite Hi2, Hq1, Hlog.
      apply andb_true_iff in Hstop. destruct Hstop as [-> Herr].
      split; [reflexivity|]. split; [reflexivity|].
      split.
      { rewrite Hf1. unfold packets_bytes. cbn [fold_right].
        rewrite (u64_small (u64 _)) by apply u64_range. f_equal. lia. }
      split; [intros ->; simpl in Herr; discriminate|].
      split; [intros _; reflexivity|].
      split; [exact He2|exact Hso].
    + destruct (IH w2) as (taken & Hsplit & Hlog' & Hfirst & Hzero & Herr & Hent & Hso').
      { rewrite Hi2, Hq1. simpl in Hlen. lia. }
      exists (data :: taken). rewrite Hi2, Hq1 in Hsplit.
      split; [rewrite Hsplit at 1; reflexivity|].
      split; [rewrite Hlog', Hlog; simpl; rewrite <- app_assoc; reflexivity|].
      split.
      { rewrite Hfirst, Hi2, Hf1, u64_add_l. f_equal.
        unfold packets_bytes. cbn [fold_right]. lia. }
      split; [exact Hzero|]. split; [exact Herr|].
      split; [intros k; rewrite Hent; apply He2|].
      rewrite Hso'. exact Hso.
Qed.

Lemma same_queues_log_event_silent ev w :
  silent_event ev -> same_queues w (log_event ev w).
Proof.
  intros Hev. apply (same_queues_of_info w (log_event ev w) [ev]); try reflexivity.
  constructor; [exact Hev|constructor].
Qed.

(** What [cfil_service_inject_queue] comes to on a socket that is not
    defunct. *)
Lemma cfil_service_inject_queue_spec msize w (o : bool) :
  so_defunct (w_so w) = false ->
  let retry := if o then CFIF_RETRY_INJECT_OUT else CFIF_RETRY_INJECT_IN in
  let r := cfil_service_inject_queue msize w o in
  exists taken notices,
    q_mq (cfi_inject_q (ibuf w o)) = taken ++ q_mq (cfi_inject_q (ibuf (snd r) o))
    /\ w_log (snd r) = notices ++ rev (map (EvReinject o) taken) ++ w_log w
    /\ Forall silent_event notices
    /\ u64 (cfi_pending_first (ibuf (snd r) o))
       = u64 (cfi_pending_first (ibuf w o) + packets_bytes taken)
    /\ (fst r = 0 -> q_mq (cfi_inject_q (ibuf (snd r) o)) = [])
    /\ (fst r <> 0 -> o = true)
    /\ has_flag (cfi_flags (w_info (snd r))) retry = negb (fst r =? 0).
Proof.
  intros Hdef retry r. subst r. unfold cfil_service_inject_queue.
  rewrite Hdef. fold retry.
  set (w1 := upd_cfi_flags (fun f => clear_flag f retry) w).
  assert (Hi1 : forall d, ibuf w1 d = ibuf w d) by (intros []; reflexivity).
  assert (Hflag1 : has_flag (cfi_flags (w_info w1)) retry = false).
  { subst w1. unfold upd_cfi_flags. cbn [with_info w_info with_cfi_flags cfi_flags].
    apply has_flag_clear_same. }
  assert (Hncw : Z.land CFIF_NO_CLOSE_WAIT retry = 0) by (subst retry; destruct o; reflexivity).
  unfold cfil_queue_empty. rewrite Hi1.
  destruct (q_mq (cfi_inject_q (ibuf w o))) as [|d0 tl0] eqn:Hq.
  { exists [], []. cbn [fst snd]. rewrite Hi1, Hq. simpl.
    repeat split; try reflexivity; try congruence; try constructor.
    - rewrite Z.add_0_r. reflexivity.
    - exact Hflag1. }
  rewrite <- Hq.
  destruct (inject_q_loop_spec msize (length (q_mq (cfi_inject_q (ibuf w o)))) o w1)
    as (taken & Hsplit & Hlog & Hfirst & Hzero & Herr & Hent & Hso).
  { rewrite Hi1. lia. }
  pose proof (inject_q_loop_flags msize (length (q_mq (cfi_inject_q (ibuf w o)))) o w1) as Hfl.
  destruct (inject_q_loop msize (length (q_mq (cfi_inject_q (ibuf w o)))) o w1) as [error w2].
  cbn [fst snd] in *. rewrite Hi1 in Hsplit, Hfirst.
  set (w3 := if negb (error =? 0) then upd_cfi_flags (fun f => set_flag f retry) w2 else w2).
  assert (Hi3 : forall d, ibuf w3 d = ibuf w2 d).
  { intros d. subst w3. destruct (negb (error =? 0)); [destruct d|]; reflexivity. }
  assert (Hlog3 : w_log w3 = w_log w2).
  { subst w3. destruct (negb (error =? 0)); reflexivity. }
  assert (Hflag3 : has_flag (cfi_flags (w_info w3)) retry = negb (error =? 0)).
  { subst w3. destruct (negb (error =? 0)) eqn:He.
    - unfold upd_cfi_flags. cbn [with_info w_info with_cfi_flags cfi_flags].
      apply has_flag_set_same. subst retry. destruct o; discriminate.
    - rewrite Hfl. exact Hflag1. }
  set (w4 := if has_flag (cfi_flags (w_info w3)) CFIF_SHUT_WR
             then cfil_sock_notify_shutdown_wr w3 else w3).
  assert (Hq4 : quiet_steps w3 w4).
  { subst w4. destruct (has_flag _ CFIF_SHUT_WR);
      [apply cfil_sock_notify_shutdown_wr_quiet|apply qs_refl]. }
  assert (Hfr4 : chain_frame o [] w3 w4).
  { subst w4. destruct (has_flag _ CFIF_SHUT_WR);
      [apply cfil_sock_notify_shutdown_wr_frame|apply chain_frame_refl]. }
  pose proof (quiet_steps_same _ _ Hq4) as Hs4.
  destruct (sq_log _ _ Hs4) as (new4 & Hlog4 & Hnew4).
  set (w5 := if has_flag (cfi_flags (w_info w4)) CFIF_CLOSE_WAIT && negb (cfil_filters_attached w4)
             then log_event EvWakeup w4 else w4).
  assert (H5 : exists new5, w_log w5 = new5 ++ w_log w4 /\ Forall silent_event new5
                            /\ w_info w5 = w_info w4).
  { subst w5. destruct (_ && _).
    - exists [EvWakeup]. repeat split. constructor; [exact I|constructor].
    - exists []. repeat split. constructor. }
  destruct H5 as (new5 & Hlog5 & Hnew5 & Hinfo5).
  assert (Hi5 : forall d, ibuf w5 d = ibuf w2 d).
  { intros d. unfold ibuf at 1. rewrite Hinfo5. fold (ibuf w4 d).
    rewrite (sq_ibuf _ _ Hs4). apply Hi3. }
  exists taken, (new5 ++ new4). cbn [fst snd]. rewrite !Hi5.
  split; [exact Hsplit|].
  split; [rewrite Hlog5, Hlog4, Hlog3, Hlog, <- app_assoc; reflexivity|].
  split; [apply Forall_app; split; assumption|].
  split; [exact Hfirst|]. split; [exact Hzero|]. split; [exact Herr|].
  rewrite Hinfo5.
  rewrite (has_flag_lor_no_close_wait _ _ retry Hncw (fr_flags _ _ _ _ Hfr4)).
  exact Hflag3.
Qed.





(** ** Events to the agents *)

Lemma dispatch_done_value w k cfc error : fst (dispatch_done w k cfc error) = error.
Proof. unfold dispatch_done. destruct (error =? ENOBUFS); reflexivity. Qed.

Lemma dispatch_done_other w k cfc error :
  error <> ENOBUFS -> dispatch_done w k cfc error = (error, w).
Proof.
  intros H. unfold dispatch_done.
  destruct (Z.eqb_spec error ENOBUFS); [contradiction|reflexivity].
Qed.

Lemma filter_at_upd_filter_flags_eq u g w :
  (1 <= u <= length (w_filters w))%nat ->
  cf_flags (filter_at (upd_filter_flags u g w) u) = g (cf_flags (filter_at w u)).
Proof.
  intros Hu. destruct u as [|i]; [lia|]. unfold upd_filter_flags, filter_at.
  destruct (w_filters w !! i) as [c|] eqn:E.
  - cbn [with_filters w_filters].
    rewrite list_lookup_insert_eq by (apply lookup_lt_Some in E; exact E). reflexivity.
  - apply lookup_ge_None in E. lia.
Qed.

Lemma dispatch_done_marks w k cfc :
  unit_in_range w k ->
  (1 <= cfc <= length (w_filters w))%nat ->
  has_flag (cfe_flags (entry_at (snd (dispatch_done w k cfc ENOBUFS)) k)) CFEF_FLOW_CONTROLLED
  = true
  /\ has_flag (cf_flags (filter_at (snd (dispatch_done w k cfc ENOBUFS)) cfc))
       CFF_FLOW_CONTROLLED = true.
Proof.
  intros Hk Hc. unfold dispatch_done. rewrite Z.eqb_refl. cbn [snd]. split.
  - rewrite entry_at_upd_filter_flags, entry_at_upd_entry_eq by exact Hk.
    cbn [with_cfe_flags cfe_flags]. apply has_flag_set_same. discriminate.
  - rewrite filter_at_upd_filter_flags_eq.
    + apply has_flag_set_same. discriminate.
    + destruct (upd_entry_rest k
                  (fun e => with_cfe_flags (set_flag (cfe_flags e) CFEF_FLOW_CONTROLLED) e) w)
        as (_ & -> & _). exact Hc.
Qed.

(** The leaves of the dispatch functions: a world that differs from the
    one at the call in the script, the trace, flags of the flow or of the
    entry. *)
Lemma in_range_ext_call w k : unit_in_range w k -> unit_in_range (snd (ext_call w)) k.
Proof.
  unfold unit_in_range. destruct (ext_call_rest w) as (_ & -> & _). tauto.
Qed.

Lemma filters_ext_call w : w_filters (snd (ext_call w)) = w_filters w.
Proof. destruct (ext_call_rest w) as (_ & _ & -> & _). reflexivity. Qed.

Lemma in_range_upd_cfi_flags g w k : unit_in_range w k -> unit_in_range (upd_cfi_flags g w) k.
Proof. unfold unit_in_range. tauto. Qed.

Ltac done_leaf :=
  lazymatch goal with
  | |- context [dispatch_done ?w' ?k ?cfc ?e] =>
      let Hv := fresh "Hv" in
      intros Hv; rewrite dispatch_done_value in Hv;
      first [ discriminate Hv
            | subst; apply dispatch_done_marks
            | idtac ]
  | |- fst (_, _) = ENOBUFS -> _ => intros Hv; cbn [fst] in Hv; discriminate Hv
  end.

(** Whichever event was being sent, the value [ENOBUFS] comes with the
    flow-control marks on the entry and on its filter. *)
Lemma attach_event_enobufs w k cfc :
  cfe_filter (entry_at w k) = Some cfc ->
  (1 <= cfc <= length (w_filters w))%nat ->
  fst (cfil_dispatch_attach_event w k) = ENOBUFS ->
  has_flag (cfe_flags (entry_at (snd (cfil_dispatch_attach_event w k)) k)) CFEF_FLOW_CONTROLLED
  = true
  /\ has_flag (cf_flags (filter_at (snd (cfil_dispatch_attach_event w k)) cfc))
       CFF_FLOW_CONTROLLED = true.
Proof.
  intros Hf Hc.
  assert (Hk : unit_in_range w k).
  { apply has_filter_in_range. unfold has_filter. rewrite Hf. reflexivity. }
  unfold cfil_dispatch_attach_event.
  destruct (negb (so_proto_ok (w_so w))); [done_leaf|].
  destruct k as [|k']; [unfold unit_in_range in Hk; lia|].
  rewrite Hf.
  destruct (has_flag (cfe_flags (entry_at w (S k'))) CFEF_SENT_SOCK_ATTACHED); [done_leaf|].
  destruct (has_flag (cf_flags (filter_at w cfc)) CFF_FLOW_CONTROLLED).
  { intros _. apply dispatch_done_marks; assumption. }
  pose proof (in_range_ext_call w _ Hk) as Hk1.
  pose proof (filters_ext_call w) as Hf1.
  destruct (ext_call w) as [msg w1]. cbn [snd] in *.
  destruct (negb (msg =? 0)).
  { intros Hv. rewrite dispatch_done_value in Hv. discriminate Hv. }
  pose proof (in_range_ext_call w1 _ Hk1) as Hk2.
  pose proof (filters_ext_call w1) as Hf2.
  destruct (ext_call w1) as [error w2]. cbn [snd] in *.
  destruct (negb (error =? 0)).
  { intros Hv. rewrite dispatch_done_value in Hv. subst error.
    apply dispatch_done_marks; [assumption|]. rewrite Hf2, Hf1. exact Hc. }
  intros Hv. rewrite dispatch_done_value in Hv. discriminate Hv.
Qed.

Lemma data_event_enobufs w k cfc o data copyoffset copylen :
  cfe_filter (entry_at w k) = Some cfc ->
  (1 <= cfc <= length (w_filters w))%nat ->
  fst (cfil_dispatch_data_event w k o data copyoffset copylen) = ENOBUFS ->
  has_flag (cfe_flags (entry_at (snd (cfil_dispatch_data_event w k o data copyoffset copylen)) k))
    CFEF_FLOW_CONTROLLED = true
  /\ has_flag (cf_flags (filter_at (snd (cfil_dispatch_data_event w k o data copyoffset copylen))
                           cfc)) CFF_FLOW_CONTROLLED = true.
Proof.
  intros Hf Hc.
  assert (Hk : unit_in_range w k).
  { apply has_filter_in_range. unfold has_filter. rewrite Hf. reflexivity. }
  unfold cfil_dispatch_data_event. cbv zeta. rewrite Hf.
  destruct (has_flag (cf_flags (filter_at w cfc)) CFF_FLOW_CONTROLLED).
  { intros _. apply dispatch_done_marks; assumption. }
  pose proof (in_range_ext_call w _ Hk) as Hk1.
  pose proof (filters_ext_call w) as Hf1.
  destruct (ext_call w) as [copy w1]. cbn [snd] in *.
  destruct (negb (copy =? 0)).
  { intros Hv. rewrite dispatch_done_value in Hv. discriminate Hv. }
  pose proof (in_range_ext_call w1 _ Hk1) as Hk2.
  pose proof (filters_ext_call w1) as Hf2.
  destruct (ext_call w1) as [alloc w2]. cbn [snd] in *.
  destruct (negb (alloc =? 0)).
  { intros Hv. rewrite dispatch_done_value in Hv. discriminate Hv. }
  pose proof (in_range_ext_call w2 _ Hk2) as Hk3.
  pose proof (filters_ext_call w2) as Hf3.
  destruct (ext_call w2) as [error w3]. cbn [snd] in *.
  destruct (negb (error =? 0)).
  { intros Hv. rewrite dispatch_done_value in Hv. subst error.
    apply dispatch_done_marks; [assumption|]. rewrite Hf3, Hf2, Hf1. exact Hc. }
  intros Hv. rewrite dispatch_done_value in Hv. discriminate Hv.
Qed.

Lemma disconnect_event_enobufs w k cfc o :
  cfe_filter (entry_at w k) = Some cfc ->
  (1 <= cfc <= length (w_filters w))%nat ->
  fst (cfil_dispatch_disconnect_event w k o) = ENOBUFS ->
  has_flag (cfe_flags (entry_at (snd (cfil_dispatch_disconnect_event w k o)) k))
    CFEF_FLOW_CONTROLLED = true
  /\ has_flag (cf_flags (filter_at (snd (cfil_dispatch_disconnect_event w k o)) cfc))
       CFF_FLOW_CONTROLLED = true.
Proof.
  intros Hf Hc.
  assert (Hk : unit_in_range w k).
  { apply has_filter_in_range. unfold has_filter. rewrite Hf. reflexivity. }
  unfold cfil_dispatch_disconnect_event. cbv zeta. rewrite Hf.
  set (w0 := if _ && _ then upd_cfi_flags _ w else w).
  assert (Hk0 : unit_in_range w0 k).
  { subst w0. destruct (_ && _); [apply in_range_upd_cfi_flags|]; exact Hk. }
  assert (Hf0 : w_filters w0 = w_filters w).
  { subst w0. destruct (_ && _); reflexivity. }
  clearbody w0.
  destruct (_ || _); [done_leaf|].
  destruct (o && _).
  { intros Hv. rewrite dispatch_done_value in Hv. discriminate Hv. }
  destruct (has_flag (cf_flags (filter_at w0 cfc)) CFF_FLOW_CONTROLLED).
  { intros _. apply dispatch_done_marks; [assumption|]. rewrite Hf0. exact Hc. }
  pose proof (in_range_ext_call w0 _ Hk0) as Hk1.
  pose proof (filters_ext_call w0) as Hf1.
  destruct (ext_call w0) as [error w1]. cbn [snd] in *.
  destruct (negb (error =? 0)).
  { intros Hv. rewrite dispatch_done_value in Hv. subst error.
    apply dispatch_done_marks; [assumption|]. rewrite Hf1, Hf0. exact Hc. }
  intros Hv. rewrite dispatch_done_value in Hv. discriminate Hv.
Qed.

Lemma closed_event_enobufs w k cfc :
  cfe_filter (entry_at w k) = Some cfc ->
  (1 <= cfc <= length (w_filters w))%nat ->
  fst (cfil_dispatch_closed_event w k) = ENOBUFS ->
  has_flag (cfe_flags (entry_at (snd (cfil_dispatch_closed_event w k)) k))
    CFEF_FLOW_CONTROLLED = true
  /\ has_flag (cf_flags (filter_at (snd (cfil_dispatch_closed_event w k)) cfc))
       CFF_FLOW_CONTROLLED = true.
Proof.
  intros Hf Hc.
  assert (Hk : unit_in_range w k).
  { apply has_filter_in_range. unfold has_filter. rewrite Hf. reflexivity. }
  unfold cfil_dispatch_closed_event. cbv zeta. rewrite Hf.
  destruct (has_flag (cf_flags (filter_at w cfc)) CFF_FLOW_CONTROLLED).
  { intros _. apply dispatch_done_marks; assumption. }
  destruct (has_flag (cfe_flags (entry_at w k)) CFEF_SENT_SOCK_CLOSED); [done_leaf|].
  destruct (negb (has_flag (cfe_flags (entry_at w k)) CFEF_SENT_SOCK_ATTACHED)); [done_leaf|].
  pose proof (in_range_ext_call w _ Hk) as Hk1.
  pose proof (filters_ext_call w) as Hf1.
  destruct (ext_call w) as [error w1]. cbn [snd] in *.
  destruct (negb (error =? 0)).
  { intros Hv. rewrite dispatch_done_value in Hv. subst error.
    apply dispatch_done_marks; [assumption|]. rewrite Hf1. exact Hc. }
  intros Hv. rewrite dispatch_done_value in Hv. discriminate Hv.
Qed.

(** X8. Whenever one of the four dispatch functions returns [ENOBUFS]
    for an entry with a filter, the entry is marked
    [CFEF_FLOW_CONTROLLED] and its filter [CFF_FLOW_CONTROLLED]
    afterwards, whether the control socket was found full at the call or
    was already known to be. *)
Theorem enobufs_marks_flow_controlled w k cfc r :
  cfe_filter (entry_at w k) = Some cfc ->
  (1 <= cfc <= length (w_filters w))%nat ->
  r = cfil_dispatch_attach_event w k
  \/ (exists o, r = cfil_dispatch_disconnect_event w k o)
  \/ (exists o data copyoffset copylen,
        r = cfil_dispatch_data_event w k o data copyoffset copylen)
  \/ r = cfil_dispatch_closed_event w k ->
  fst r = ENOBUFS ->
  has_flag (cfe_flags (entry_at (snd r) k)) CFEF_FLOW_CONTROLLED = true
  /\ has_flag (cf_flags (filter_at (snd r) cfc)) CFF_FLOW_CONTROLLED = true.
Proof.
  intros Hf Hc [->|[(o & ->)|[(o & data & copyoffset & copylen & ->)| ->]]].
  - apply attach_event_enobufs; assumption.
  - apply disconnect_event_enobufs; assumption.
  - apply data_event_enobufs; assumption.
  - apply closed_event_enobufs; assumption.
Qed.

Lemma enobufs_marks_flow_controlled_witness :
  has_flag
    (cfe_flags
       (entry_at (snd (cfil_dispatch_data_event flow_controlled_world 1 true (packet 1 100) 0 100))
          1)) CFEF_FLOW_CONTROLLED = true
  /\ has_flag
       (cf_flags
          (filter_at
             (snd (cfil_dispatch_data_event flow_controlled_world 1 true (packet 1 100) 0 100)) 1))
       CFF_FLOW_CONTROLLED = true.
Proof.
  apply (enobufs_marks_flow_controlled flow_controlled_world 1 1).
  - reflexivity.
  - simpl. lia.
  - right. right. left. exists true, (packet 1 100), 0, 100. reflexivity.
  - reflexivity.
Defined.

Lemma upd_cfi_flags_id g w :
  g (cfi_flags (w_info w)) = cfi_flags (w_info w) -> upd_cfi_flags g w = w.
Proof.
  intros H. unfold upd_cfi_flags, with_info, with_cfi_flags. rewrite H.
  destruct w as [so [] fs a b l e]. reflexivity.
Qed.

Lemma set_flag_idem f m : set_flag (set_flag f m) m = set_flag f m.
Proof. unfold set_flag. rewrite <- Z.lor_assoc, Z.lor_diag. reflexivity. Qed.

Lemma ordered_upd_entry k f w :
  cfi_ordered_entries (w_info (upd_entry k f w)) = cfi_ordered_entries (w_info w).
Proof.
  destruct k as [|i]; [reflexivity|]. unfold upd_entry.
  destruct (cfi_entries (w_info w) !! i); reflexivity.
Qed.

Lemma so_upd_entry k f w : w_so (upd_entry k f w) = w_so w.
Proof. destruct (upd_entry_rest k f w) as (-> & _). reflexivity. Qed.

Lemma cfi_flags_upd_entry k f w :
  cfi_flags (w_info (upd_entry k f w)) = cfi_flags (w_info w).
Proof. destruct (upd_entry_rest k f w) as (_ & _ & _ & _ & _ & _ & -> & _). reflexivity. Qed.

Lemma filter_at_upd_entry k f w u : filter_at (upd_entry k f w) u = filter_at w u.
Proof.
  destruct u as [|j]; [reflexivity|]. unfold filter_at.
  destruct (upd_entry_rest k f w) as (_ & -> & _). reflexivity.
Qed.

Lemma filter_at_ext_call w u : filter_at (snd (ext_call w)) u = filter_at w u.
Proof.
  destruct u as [|j]; [reflexivity|]. unfold filter_at. rewrite filters_ext_call. reflexivity.
Qed.

(** An attach event that went through is not sent again. *)
Lemma attach_event_once w k :
  fst (cfil_dispatch_attach_event w k) = 0 ->
  cfil_dispatch_attach_event (snd (cfil_dispatch_attach_event w k)) k
  = (0, snd (cfil_dispatch_attach_event w k)).
Proof.
  assert (Hsame : forall r, cfil_dispatch_attach_event w k = r -> snd r = w -> fst r = 0 ->
                            cfil_dispatch_attach_event (snd r) k = (0, snd r)).
  { intros [e w'] Hr Hw He. cbn [fst snd] in *. subst. exact Hr. }
  unfold cfil_dispatch_attach_event at 1 3 4.
  destruct (negb (so_proto_ok (w_so w))) eqn:Hso; [intros H; discriminate H|].
  set (unit := match k with O => head (cfi_ordered_entries (w_info w)) | S _ => Some k end).
  assert (Hunit : forall w', cfi_ordered_entries (w_info w') = cfi_ordered_entries (w_info w) ->
            match k with O => head (cfi_ordered_entries (w_info w')) | S _ => Some k end = unit).
  { intros w' H. subst unit. destruct k; [rewrite H|]; reflexivity. }
  destruct unit as [u|] eqn:Hu.
  2:{ intros _. cbn [snd]. unfold cfil_dispatch_attach_event. rewrite Hso.
      rewrite (Hunit w eq_refl). reflexivity. }
  destruct (cfe_filter (entry_at w u)) as [cfc|] eqn:Hf.
  2:{ intros _. cbn [snd]. unfold cfil_dispatch_attach_event. rewrite Hso.
      rewrite (Hunit w eq_refl), Hf. reflexivity. }
  destruct (has_flag (cfe_flags (entry_at w u)) CFEF_SENT_SOCK_ATTACHED) eqn:Hsent.
  { intros _. cbn [snd]. unfold cfil_dispatch_attach_event. rewrite Hso.
    rewrite (Hunit w eq_refl), Hf, Hsent. reflexivity. }
  destruct (has_flag (cf_flags (filter_at w cfc)) CFF_FLOW_CONTROLLED).
  { rewrite dispatch_done_value. discriminate. }
  assert (Hk : unit_in_range w u).
  { apply has_filter_in_range. unfold has_filter. rewrite Hf. reflexivity. }
  pose proof (in_range_ext_call w _ Hk) as Hk1.
  pose proof (entry_at_ext_call w u) as He1.
  destruct (ext_call_rest w) as (Hso1 & Hinfo1 & _).
  destruct (ext_call w) as [msg w1]. cbn [snd] in *.
  destruct (negb (msg =? 0)); [rewrite dispatch_done_value; discriminate|].
  pose proof (in_range_ext_call w1 _ Hk1) as Hk2.
  pose proof (entry_at_ext_call w1 u) as He2.
  destruct (ext_call_rest w1) as (Hso2 & Hinfo2 & _).
  destruct (ext_call w1) as [error w2]. cbn [snd] in *.
  destruct (negb (error =? 0)) eqn:Herr.
  { rewrite dispatch_done_value. intros ->. discriminate Herr. }
  intros _. rewrite dispatch_done_other by discriminate. cbn [snd].
  set (w3 := upd_entry u _ w2).
  assert (Hso3 : w_so w3 = w_so w).
  { subst w3. rewrite so_upd_entry, Hso2, Hso1. reflexivity. }
  unfold cfil_dispatch_attach_event. cbn [log_event w_so w_info].
  rewrite Hso3, Hso.
  rewrite (Hunit w3) by (subst w3; rewrite ordered_upd_entry, Hinfo2, Hinfo1; reflexivity).
  assert (He3 : entry_at (log_event (EvAttach u) w3) u
                = with_cfe_flags (set_flag (cfe_flags (entry_at w u)) CFEF_SENT_SOCK_ATTACHED)
                    (entry_at w u)).
  { change (entry_at (log_event (EvAttach u) w3) u) with (entry_at w3 u).
    subst w3. rewrite entry_at_upd_entry_eq by exact Hk2. rewrite He2, He1. reflexivity. }
  rewrite He3. cbn [with_cfe_flags cfe_filter cfe_flags]. rewrite Hf.
  rewrite has_flag_set_same by discriminate. reflexivity.
Qed.

(** A disconnect event that went through is not sent again. *)
Lemma disconnect_event_once w k o :
  fst (cfil_dispatch_disconnect_event w k o) = 0 ->
  cfil_dispatch_disconnect_event (snd (cfil_dispatch_disconnect_event w k o)) k o
  = (0, snd (cfil_dispatch_disconnect_event w k o)).
Proof.
  unfold cfil_dispatch_disconnect_event at 1 3 4. cbv zeta.
  destruct (cfe_filter (entry_at w k)) as [cfc|] eqn:Hf.
  2:{ intros _. cbn [snd]. unfold cfil_dispatch_disconnect_event. rewrite Hf. reflexivity. }
  assert (Hk : unit_in_range w k).
  { apply has_filter_in_range. unfold has_filter. rewrite Hf. reflexivity. }
  set (ncw := negb (has_flag (cfi_flags (w_info w)) CFIF_INITIAL_VERDICT)
              && so_loopback_faddr (w_so w)).
  set (w0 := if ncw then upd_cfi_flags (fun f => set_flag f CFIF_NO_CLOSE_WAIT) w else w).
  assert (He0 : forall j, entry_at w0 j = entry_at w j).
  { intros j. subst w0. destruct ncw; [apply entry_at_upd_cfi_flags|reflexivity]. }
  assert (Hso0 : w_so w0 = w_so w) by (subst w0; destruct ncw; reflexivity).
  (* the same call on a world [w'] that has the flags of [w0] starts from [w'] *)
  assert (Hagain : forall w',
            w_so w' = w_so w0 -> cfi_flags (w_info w') = cfi_flags (w_info w0) ->
            (if negb (has_flag (cfi_flags (w_info w')) CFIF_INITIAL_VERDICT)
                && so_loopback_faddr (w_so w')
             then upd_cfi_flags (fun f => set_flag f CFIF_NO_CLOSE_WAIT) w' else w') = w').
  { intros w' Hso' Hfl'. rewrite Hso', Hfl', Hso0.
    assert (Hiv : has_flag (cfi_flags (w_info w0)) CFIF_INITIAL_VERDICT
                  = has_flag (cfi_flags (w_info w)) CFIF_INITIAL_VERDICT).
    { subst w0. destruct ncw; [|reflexivity].
      unfold upd_cfi_flags. cbn [with_info w_info with_cfi_flags cfi_flags].
      rewrite has_flag_set_flag. change (has_flag CFIF_NO_CLOSE_WAIT CFIF_INITIAL_VERDICT) with false.
      apply orb_false_r. }
    rewrite Hiv. fold ncw. destruct ncw eqn:Hncw; [|reflexivity].
    apply upd_cfi_flags_id. rewrite Hfl'. subst w0.
    unfold upd_cfi_flags. cbn [with_info w_info with_cfi_flags cfi_flags].
    apply set_flag_idem. }
  clearbody w0. clear ncw.
  destruct ((o && has_flag (cfe_flags (entry_at w k)) CFEF_SENT_DISCONNECT_OUT)
            || (negb o && has_flag (cfe_flags (entry_at w k)) CFEF_SENT_DISCONNECT_IN)) eqn:Hsent.
  { intros _. cbn [snd]. unfold cfil_dispatch_disconnect_event. cbv zeta.
    rewrite He0, Hf, (Hagain w0 eq_refl eq_refl), Hsent. reflexivity. }
  destruct (o && negb (cfil_queue_empty (cfe_ctl_q (entrybuf o (entry_at w k))))).
  { rewrite dispatch_done_value. discriminate. }
  destruct (has_flag (cf_flags (filter_at w0 cfc)) CFF_FLOW_CONTROLLED).
  { rewrite dispatch_done_value. discriminate. }
  assert (Hk0 : unit_in_range w0 k).
  { unfold unit_in_range in *. clear -Hk He0 Hf.
    destruct (unit_in_range_dec w0 k) as [H|H]; [exact H|].
    pose proof (He0 k) as E. rewrite entry_at_out_of_range in E by exact H.
    rewrite <- E in Hf. discriminate. }
  pose proof (in_range_ext_call w0 _ Hk0) as Hk1.
  pose proof (entry_at_ext_call w0 k) as He1.
  destruct (ext_call_rest w0) as (Hso1 & Hinfo1 & _).
  destruct (ext_call w0) as [error w1]. cbn [snd] in *.
  destruct (negb (error =? 0)) eqn:Herr.
  { rewrite dispatch_done_value. intros ->. discriminate Herr. }
  intros _. rewrite dispatch_done_other by discriminate. cbn [snd].
  set (sent := if o then CFEF_SENT_DISCONNECT_OUT else CFEF_SENT_DISCONNECT_IN).
  set (w2 := upd_entry k _ w1).
  assert (He2 : entry_at (log_event (EvDisconnect k o) w2) k
                = with_cfe_flags (set_flag (cfe_flags (entry_at w k)) sent) (entry_at w k)).
  { change (entry_at (log_event (EvDisconnect k o) w2) k) with (entry_at w2 k).
    subst w2. rewrite entry_at_upd_entry_eq by exact Hk1. rewrite He1, He0. reflexivity. }
  unfold cfil_dispatch_disconnect_event. cbv zeta.
  rewrite He2. cbn [with_cfe_flags cfe_filter cfe_flags]. rewrite Hf.
  rewrite (Hagain (log_event (EvDisconnect k o) w2)).
  2:{ cbn [log_event w_so]. subst w2. rewrite so_upd_entry. exact Hso1. }
  2:{ cbn [log_event w_info]. subst w2. rewrite cfi_flags_upd_entry, Hinfo1. reflexivity. }
  assert (Hs : (o && has_flag (set_flag (cfe_flags (entry_at w k)) sent) CFEF_SENT_DISCONNECT_OUT)
               || (negb o
                   && has_flag (set_flag (cfe_flags (entry_at w k)) sent) CFEF_SENT_DISCONNECT_IN)
               = true).
  { subst sent. destruct o; cbn [andb negb orb]; rewrite ?orb_false_r;
      apply has_flag_set_same; discriminate. }
  rewrite Hs. reflexivity.
Qed.

(** A closed event that went through is not sent again. *)
Lemma closed_event_once w k :
  fst (cfil_dispatch_closed_event w k) = 0 ->
  cfil_dispatch_closed_event (snd (cfil_dispatch_closed_event w k)) k
  = (0, snd (cfil_dispatch_closed_event w k)).
Proof.
  unfold cfil_dispatch_closed_event at 1 3 4. cbv zeta.
  destruct (cfe_filter (entry_at w k)) as [cfc|] eqn:Hf.
  2:{ intros _. cbn [snd]. unfold cfil_dispatch_closed_event. rewrite Hf. reflexivity. }
  assert (Hk : unit_in_range w k).
  { apply has_filter_in_range. unfold has_filter. rewrite Hf. reflexivity. }
  destruct (has_flag (cf_flags (filter_at w cfc)) CFF_FLOW_CONTROLLED) eqn:Hfc.
  { rewrite dispatch_done_value. discriminate. }
  destruct (has_flag (cfe_flags (entry_at w k)) CFEF_SENT_SOCK_CLOSED) eqn:Hsent.
  { intros _. cbn [snd]. unfold cfil_dispatch_closed_event. cbv zeta.
    rewrite Hf, Hfc, Hsent. reflexivity. }
  destruct (negb (has_flag (cfe_flags (entry_at w k)) CFEF_SENT_SOCK_ATTACHED)) eqn:Hatt.
  { intros _. cbn [snd]. unfold cfil_dispatch_closed_event. cbv zeta.
    rewrite Hf, Hfc, Hsent, Hatt. reflexivity. }
  pose proof (in_range_ext_call w _ Hk) as Hk1.
  pose proof (entry_at_ext_call w k) as He1.
  pose proof (filter_at_ext_call w cfc) as Hfa1.
  destruct (ext_call w) as [error w1]. cbn [snd] in *.
  destruct (negb (error =? 0)) eqn:Herr.
  { rewrite dispatch_done_value. intros ->. discriminate Herr. }
  intros _. rewrite dispatch_done_other by discriminate. cbn [snd].
  unfold cfil_dispatch_closed_event. cbv zeta.
  rewrite entry_at_upd_entry_eq by exact Hk1. rewrite He1.
  cbn [with_cfe_flags cfe_filter cfe_flags]. rewrite Hf.
  rewrite filter_at_upd_entry, Hfa1, Hfc.
  rewrite has_flag_set_same by discriminate. reflexivity.
Qed.

(** X9. A notification that has gone through is not repeated: when
    [cfil_dispatch_attach_event], [cfil_dispatch_disconnect_event] (for
    one direction) or [cfil_dispatch_closed_event] has returned 0, the
    same call again returns 0 and changes nothing, so it neither reaches
    the agent's control socket nor adds to the trace. *)
Theorem notifications_sent_once w k o :
  (fst (cfil_dispatch_attach_event w k) = 0 ->
   cfil_dispatch_attach_event (snd (cfil_dispatch_attach_event w k)) k
   = (0, snd (cfil_dispatch_attach_event w k)))
  /\ (fst (cfil_dispatch_disconnect_event w k o) = 0 ->
      cfil_dispatch_disconnect_event (snd (cfil_dispatch_disconnect_event w k o)) k o
      = (0, snd (cfil_dispatch_disconnect_event w k o)))
  /\ (fst (cfil_dispatch_closed_event w k) = 0 ->
      cfil_dispatch_closed_event (snd (cfil_dispatch_closed_event w k)) k
      = (0, snd (cfil_dispatch_closed_event w k))).
Proof.
  split; [apply attach_event_once|]. split; [apply disconnect_event_once|apply closed_event_once].
Qed.

(** ** Callbacks of the socket layer *)

Lemma notify_shutdown_loop_frame o how w :
  chain_frame o [] w (notify_shutdown_loop how w)
  /\ quiet_steps w (notify_shutdown_loop how w).
Proof.
  unfold notify_shutdown_loop. generalize kcunits. intros l. revert w.
  induction l as [|k l IH]; intros w; [split; [apply chain_frame_refl|apply qs_refl]|].
  cbn [fold_left]. cbv zeta.
  set (w1 := if negb (how =? SHUT_WR)
             then snd (cfil_dispatch_disconnect_event w k false) else w).
  assert (H1 : chain_frame o [] w w1 /\ quiet_steps w w1).
  { subst w1. destruct (negb (how =? SHUT_WR)).
    - split; [apply chain_frame_disconnect_event|apply quiet_disconnect_event].
    - split; [apply chain_frame_refl|apply qs_refl]. }
  set (w2 := if negb (how =? SHUT_RD)
             then snd (cfil_dispatch_disconnect_event w1 k true) else w1).
  assert (H2 : chain_frame o [] w1 w2 /\ quiet_steps w1 w2).
  { subst w2. destruct (negb (how =? SHUT_RD)).
    - split; [apply chain_frame_disconnect_event|apply quiet_disconnect_event].
    - split; [apply chain_frame_refl|apply qs_refl]. }
  destruct H1 as [F1 Q1]. destruct H2 as [F2 Q2]. destruct (IH w2) as [F3 Q3].
  split.
  - eapply chain_frame_trans; [exact F1|]. eapply chain_frame_trans; [exact F2|exact F3].
  - eapply qs_trans; [exact Q1|]. eapply qs_trans; [exact Q2|exact Q3].
Qed.

Lemma cfil_sock_notify_shutdown_frame o how w :
  chain_frame o [] w (cfil_sock_notify_shutdown w how)
  /\ quiet_steps w (cfil_sock_notify_shutdown w how).
Proof.
  unfold cfil_sock_notify_shutdown.
  destruct (so_dgram (w_so w)).
  - destruct (_ && _); [apply notify_shutdown_loop_frame|].
    split; [apply chain_frame_refl|apply qs_refl].
  - destruct (negb _); [split; [apply chain_frame_refl|apply qs_refl]|].
    apply notify_shutdown_loop_frame.
Qed.

(** The notice of a write shutdown that [cfil_service_inject_queue] gives
    is [cfil_sock_notify_shutdown] with [SHUT_WR]. *)
Lemma cfil_sock_notify_shutdown_wr_eq w :
  cfil_sock_notify_shutdown w SHUT_WR = cfil_sock_notify_shutdown_wr w.
Proof.
  assert (Hloop : forall l w0,
            fold_left
              (fun w kcunit =>
                 let w1 := if negb (SHUT_WR =? SHUT_WR)
                           then snd (cfil_dispatch_disconnect_event w kcunit false) else w in
                 if negb (SHUT_WR =? SHUT_RD)
                 then snd (cfil_dispatch_disconnect_event w1 kcunit true) else w1) l w0
            = fold_left (fun w kcunit => snd (cfil_dispatch_disconnect_event w kcunit true)) l w0).
  { induction l as [|k l IH]; intros w0; [reflexivity|].
    cbn [fold_left]. rewrite <- IH. reflexivity. }
  unfold cfil_sock_notify_shutdown, cfil_sock_notify_shutdown_wr, notify_shutdown_loop.
  rewrite Hloop.
  destruct (so_dgram (w_so w)); destruct (so_content_filter (w_so w));
    destruct (so_flow_db (w_so w)); cbn [andb orb negb]; reflexivity.
Qed.

Lemma flags_after_notify w how m :
  Z.land CFIF_NO_CLOSE_WAIT m = 0 ->
  has_flag (cfi_flags (w_info (cfil_sock_notify_shutdown w how))) m
  = has_flag (cfi_flags (w_info w)) m.
Proof.
  intros Hm. destruct (cfil_sock_notify_shutdown_frame true how w) as [F _].
  apply (has_flag_lor_no_close_wait _ _ m Hm (fr_flags _ _ _ _ F)).
Qed.

Lemma so_after_notify w how : w_so (cfil_sock_notify_shutdown w how) = w_so w.
Proof. destruct (cfil_sock_notify_shutdown_frame true how w) as [F _]. apply (fr_so _ _ _ _ F). Qed.

Lemma cfi_flags_upd_set w m m' :
  m' <> 0 ->
  has_flag (cfi_flags (w_info (upd_cfi_flags (fun f => set_flag f m') w))) m
  = has_flag (cfi_flags (w_info w)) m || has_flag m' m.
Proof.
  intros _. unfold upd_cfi_flags. cbn [with_info w_info with_cfi_flags cfi_flags].
  apply has_flag_set_flag.
Qed.

Lemma shutdown_marks_fin w how w2 extra :
  so_dgram (w_so w) = false ->
  so_content_filter (w_so w) = true ->
  has_flag (cfi_flags (w_info w)) CFIF_DROP = false ->
  w_so w2 = w_so w ->
  (forall m, Z.land CFIF_NO_CLOSE_WAIT m = 0 ->
             has_flag (cfi_flags (w_info w2)) m
             = has_flag (cfi_flags (w_info w)) m || has_flag extra m) ->
  has_flag extra CFIF_DROP = false ->
  (how <> SHUT_WR -> has_flag extra CFIF_SHUT_RD = true) ->
  (how <> SHUT_RD -> has_flag extra CFIF_SHUT_WR = true) ->
  so_dgram (w_so w2) = false
  /\ so_content_filter (w_so w2) = true
  /\ has_flag (cfi_flags (w_info w2)) CFIF_DROP = false
  /\ (how <> SHUT_WR -> has_flag (cfi_flags (w_info w2)) CFIF_SHUT_RD = true)
  /\ (how <> SHUT_RD -> has_flag (cfi_flags (w_info w2)) CFIF_SHUT_WR = true)
  /\ (has_flag (cfi_flags (w_info w)) CFIF_SHUT_RD = true ->
      has_flag (cfi_flags (w_info w2)) CFIF_SHUT_RD = true)
  /\ (has_flag (cfi_flags (w_info w)) CFIF_SHUT_WR = true ->
      has_flag (cfi_flags (w_info w2)) CFIF_SHUT_WR = true).
Proof.
  intros Hdg Hcf Hdrop Hso2 Hw2 Hx1 Hx2 Hx3. rewrite Hso2, Hdg, Hcf.
  rewrite !Hw2 by reflexivity. rewrite Hdrop, Hx1.
  split; [reflexivity|]. split; [reflexivity|]. split; [reflexivity|].
  split; [intros H; rewrite (Hx2 H); apply orb_true_r|].
  split; [intros H; rewrite (Hx3 H); apply orb_true_r|].
  split; intros ->; reflexivity.
Qed.

(** A shutdown that is let through marks the directions it shuts. *)
Lemma cfil_sock_shutdown_marks w how c1 c2 error how' w' :
  so_content_filter (w_so w) = true ->
  has_flag (cfi_flags (w_info w)) CFIF_DROP = false ->
  how = SHUT_RD \/ how = SHUT_WR \/ how = SHUT_RDWR ->
  cfil_sock_shutdown w how c1 c2 = Some (Ret (error, how', w')) ->
  error <> ENOTCONN ->
  so_dgram (w_so w') = false
  /\ so_content_filter (w_so w') = true
  /\ has_flag (cfi_flags (w_info w')) CFIF_DROP = false
  /\ (how <> SHUT_WR -> has_flag (cfi_flags (w_info w')) CFIF_SHUT_RD = true)
  /\ (how <> SHUT_RD -> has_flag (cfi_flags (w_info w')) CFIF_SHUT_WR = true)
  /\ (has_flag (cfi_flags (w_info w)) CFIF_SHUT_RD = true ->
      has_flag (cfi_flags (w_info w')) CFIF_SHUT_RD = true)
  /\ (has_flag (cfi_flags (w_info w)) CFIF_SHUT_WR = true ->
      has_flag (cfi_flags (w_info w')) CFIF_SHUT_WR = true).
Proof.
  intros Hcf Hdrop Hhow Hcall Herr.
  assert (Hdg : so_dgram (w_so w) = false).
  { unfold cfil_sock_shutdown in Hcall. destruct (so_dgram (w_so w)); [discriminate|reflexivity]. }
  pose proof (shutdown_marks_fin w how) as Hfin.
  specialize (fun w2 extra => Hfin w2 extra Hdg Hcf Hdrop).
  unfold cfil_sock_shutdown in Hcall. rewrite Hcf, Hdrop, Hdg in Hcall. cbn [negb] in Hcall.
  destruct (negb (how =? SHUT_WR) && c1); [injection Hcall as <- _ _; congruence|].
  destruct (negb (how =? SHUT_RD) && c2); [injection Hcall as <- _ _; congruence|].
  set (wr := upd_cfi_flags (fun f => set_flag f CFIF_SHUT_RD) w) in Hcall.
  set (w1r := cfil_sock_notify_shutdown wr SHUT_RD) in Hcall.
  assert (Hw1r : forall m, Z.land CFIF_NO_CLOSE_WAIT m = 0 ->
             has_flag (cfi_flags (w_info w1r)) m
             = has_flag (cfi_flags (w_info w)) m || has_flag CFIF_SHUT_RD m).
  { intros m Hm. subst w1r wr. rewrite flags_after_notify by exact Hm.
    apply cfi_flags_upd_set. discriminate. }
  assert (Hso1r : w_so w1r = w_so w) by (subst w1r; rewrite so_after_notify; reflexivity).
  assert (Hrdb : forall b, has_flag (cfi_flags (w_info w)) CFIF_SHUT_RD = b -> True) by auto.
  destruct Hhow as [Hh|[Hh|Hh]]; rewrite Hh in Hcall.
  - (* SHUT_RD *)
    change (negb (SHUT_RD =? SHUT_WR)) with true in Hcall.
    change (negb (SHUT_RD =? SHUT_RD)) with false in Hcall. cbv iota in Hcall.
    remember (has_flag (cfi_flags (w_info w)) CFIF_SHUT_RD) as rd eqn:Hrd in Hcall.
    destruct rd; [injection Hcall as <- _ _; congruence|].
    injection Hcall as <- <- <-.
    apply (Hfin w1r CFIF_SHUT_RD Hso1r Hw1r); [reflexivity|reflexivity|congruence].
  - (* SHUT_WR *)
    change (negb (SHUT_WR =? SHUT_WR)) with false in Hcall.
    change (negb (SHUT_WR =? SHUT_RD)) with true in Hcall. cbv iota in Hcall.
    remember (has_flag (cfi_flags (w_info w)) CFIF_SHUT_WR) as wr0 eqn:Hwr in Hcall.
    destruct wr0; [injection Hcall as <- _ _; congruence|].
    set (ww := upd_cfi_flags (fun f => set_flag f CFIF_SHUT_WR) w) in Hcall.
    set (w2 := cfil_sock_notify_shutdown ww SHUT_WR) in Hcall.
    assert (Hw2 : forall m, Z.land CFIF_NO_CLOSE_WAIT m = 0 ->
               has_flag (cfi_flags (w_info w2)) m
               = has_flag (cfi_flags (w_info w)) m || has_flag CFIF_SHUT_WR m).
    { intros m Hm. subst w2 ww. rewrite flags_after_notify by exact Hm.
      apply cfi_flags_upd_set. discriminate. }
    assert (Hso2 : w_so w2 = w_so w) by (subst w2; rewrite so_after_notify; reflexivity).
    assert (Hres := Hfin w2 CFIF_SHUT_WR Hso2 Hw2 eq_refl).
    change (SHUT_WR =? SHUT_WR) with true in Hcall. cbv iota in Hcall.
    destruct (sock_data_pending w2 true) as [pending|]; [|discriminate].
    destruct (negb (pending =? 0));
      injection Hcall as <- <- <-; apply Hres; solve [congruence|reflexivity].
  - (* SHUT_RDWR *)
    change (negb (SHUT_RDWR =? SHUT_WR)) with true in Hcall.
    change (negb (SHUT_RDWR =? SHUT_RD)) with true in Hcall. cbv iota in Hcall.
    remember (has_flag (cfi_flags (w_info w)) CFIF_SHUT_RD) as rd eqn:Hrd in Hcall.
    destruct rd; [injection Hcall as <- _ _; congruence|].
    remember (has_flag (cfi_flags (w_info w1r)) CFIF_SHUT_WR) as wr1 eqn:Hwr1 in Hcall.
    destruct wr1; [injection Hcall as <- _ _; congruence|].
    set (ww := upd_cfi_flags (fun f => set_flag f CFIF_SHUT_WR) w1r) in Hcall.
    set (w2 := cfil_sock_notify_shutdown ww SHUT_WR) in Hcall.
    assert (Hw2 : forall m, Z.land CFIF_NO_CLOSE_WAIT m = 0 ->
               has_flag (cfi_flags (w_info w2)) m
               = has_flag (cfi_flags (w_info w)) m
                 || has_flag (Z.lor CFIF_SHUT_RD CFIF_SHUT_WR) m).
    { intros m Hm. subst w2 ww. rewrite flags_after_notify by exact Hm.
      rewrite cfi_flags_upd_set by discriminate. rewrite Hw1r by exact Hm.
      rewrite <- orb_assoc. f_equal.
      change (Z.lor CFIF_SHUT_RD CFIF_SHUT_WR) with (set_flag CFIF_SHUT_RD CFIF_SHUT_WR).
      rewrite has_flag_set_flag. reflexivity. }
    assert (Hso2 : w_so w2 = w_so w).
    { subst w2. rewrite so_after_notify. subst ww. exact Hso1r. }
    assert (Hres := Hfin w2 (Z.lor CFIF_SHUT_RD CFIF_SHUT_WR) Hso2 Hw2 eq_refl).
    change (SHUT_RDWR =? SHUT_WR) with false in Hcall.
    change (SHUT_RDWR =? SHUT_RDWR) with true in Hcall. cbv iota in Hcall.
    destruct (sock_data_pending w2 true) as [pending|]; [|discriminate].
    destruct (negb (pending =? 0));
      injection Hcall as <- <- <-; apply Hres; reflexivity.
Qed.

Lemma cfil_sock_shutdown_again w how c1 c2 :
  so_dgram (w_so w) = false ->
  so_content_filter (w_so w) = true ->
  has_flag (cfi_flags (w_info w)) CFIF_DROP = false ->
  how = SHUT_RD \/ how = SHUT_WR \/ how = SHUT_RDWR ->
  (how <> SHUT_WR /\ has_flag (cfi_flags (w_info w)) CFIF_SHUT_RD = true)
  \/ (how <> SHUT_RD /\ has_flag (cfi_flags (w_info w)) CFIF_SHUT_WR = true) ->
  exists w', cfil_sock_shutdown w how c1 c2 = Some (Ret (ENOTCONN, how, w')).
Proof.
  intros Hdg Hcf Hdrop Hhow Hshut. unfold cfil_sock_shutdown.
  rewrite Hdg, Hcf, Hdrop. cbn [negb].
  destruct (negb (how =? SHUT_WR) && c1); [eexists; reflexivity|].
  destruct (negb (how =? SHUT_RD) && c2); [eexists; reflexivity|].
  destruct (has_flag (cfi_flags (w_info w)) CFIF_SHUT_RD) eqn:Hrd.
  - destruct Hhow as [->|[->| ->]].
    + eexists; reflexivity.
    + change (negb (SHUT_WR =? SHUT_WR)) with false.
      change (negb (SHUT_WR =? SHUT_RD)) with true. cbv iota.
      destruct Hshut as [[H _]|[_ H]]; [congruence|]. rewrite H. eexists; reflexivity.
    + eexists; reflexivity.
  - destruct Hshut as [[_ H]|[Hne Hwr]]; [discriminate|].
    destruct Hhow as [->|[->| ->]]; [congruence| |].
    + change (negb (SHUT_WR =? SHUT_WR)) with false.
      change (negb (SHUT_WR =? SHUT_RD)) with true. cbv iota.
      rewrite Hwr. eexists; reflexivity.
    + change (negb (SHUT_RDWR =? SHUT_WR)) with true.
      change (negb (SHUT_RDWR =? SHUT_RD)) with true. cbv iota.
      rewrite flags_after_notify by reflexivity.
      rewrite cfi_flags_upd_set by discriminate. rewrite Hwr. eexists; reflexivity.
Qed.

(** X10. On a stream socket under filter, a direction is shut down once:
    after a [cfil_sock_shutdown] that was let through (it returned, and
    not [ENOTCONN]), every further [cfil_sock_shutdown] that names a
    direction already shut returns [ENOTCONN] and leaves [how] as it was,
    whatever the state of the socket. *)
Theorem cfil_sock_shutdown_once w how c1 c2 error how' w' how2 c1' c2' :
  so_content_filter (w_so w) = true ->
  has_flag (cfi_flags (w_info w)) CFIF_DROP = false ->
  how = SHUT_RD \/ how = SHUT_WR \/ how = SHUT_RDWR ->
  how2 = SHUT_RD \/ how2 = SHUT_WR \/ how2 = SHUT_RDWR ->
  ~ (how = SHUT_RD /\ how2 = SHUT_WR) ->
  ~ (how = SHUT_WR /\ how2 = SHUT_RD) ->
  cfil_sock_shutdown w how c1 c2 = Some (Ret (error, how', w')) ->
  error <> ENOTCONN ->
  exists w'', cfil_sock_shutdown w' how2 c1' c2' = Some (Ret (ENOTCONN, how2, w'')).
Proof.
  intros Hcf Hdrop Hhow Hhow2 Hn1 Hn2 Hcall Herr.
  destruct (cfil_sock_shutdown_marks w how c1 c2 error how' w' Hcf Hdrop Hhow Hcall Herr)
    as (Hdg' & Hcf' & Hdrop' & Hrd & Hwr & _).
  apply cfil_sock_shutdown_again; try assumption.
  destruct Hhow as [->|[->| ->]]; destruct Hhow2 as [->|[->| ->]];
    try (exfalso; apply Hn1; split; reflexivity);
    try (exfalso; apply Hn2; split; reflexivity).
  - left. split; [discriminate|apply Hrd; discriminate].
  - left. split; [discriminate|apply Hrd; discriminate].
  - right. split; [discriminate|apply Hwr; discriminate].
  - right. split; [discriminate|apply Hwr; discriminate].
  - left. split; [discriminate|apply Hrd; discriminate].
  - right. split; [discriminate|apply Hwr; discriminate].
  - left. split; [discriminate|apply Hrd; discriminate].
Qed.

Lemma cfil_sock_shutdown_once_witness :
  exists w' w'',
    cfil_sock_shutdown (fresh_world tcp_socket [1%nat]) SHUT_WR false false
    = Some (Ret (0, SHUT_WR, w'))
    /\ cfil_sock_shutdown w' SHUT_RDWR false false = Some (Ret (ENOTCONN, SHUT_RDWR, w'')).
Proof.
  destruct (cfil_sock_shutdown (fresh_world tcp_socket [1%nat]) SHUT_WR false false)
    as [[[[e h] w']|]|] eqn:E; [|vm_compute in E; discriminate|vm_compute in E; discriminate].
  assert (He : e = 0 /\ h = SHUT_WR).
  { vm_compute in E. injection E as <- <- _. split; reflexivity. }
  destruct He as [-> ->].
  destruct (cfil_sock_shutdown_once (fresh_world tcp_socket [1%nat]) SHUT_WR false false
              0 SHUT_WR w' SHUT_RDWR false false) as [w'' Hw''];
    try reflexivity; try (right; left; reflexivity); try (right; right; reflexivity);
    try (intros [H1 H2]; discriminate); try exact E; try discriminate.
  exists w', w''. split; [reflexivity|exact Hw''].
Defined.

Lemma sock_data_pending_frame w w' :
  chain_frame true [] w w' -> sock_data_pending w' true = sock_data_pending w true.
Proof.
  intros F. unfold sock_data_pending.
  rewrite (fr_so _ _ _ _ F), (fr_first _ _ _ _ F), (fr_last _ _ _ _ F), (fr_mbcnt _ _ _ _ F).
  reflexivity.
Qed.

(** X11. A write shutdown waits for the outgoing data the filters still
    hold.  On a stream socket under filter with neither side shut,
    [cfil_sock_shutdown] for [SHUT_WR] or [SHUT_RDWR] panics exactly when
    the assertion of [cfil_sock_data_pending] on the send buffer fails
    (2 GiB or more are pending).  Otherwise, with outgoing data pending it
    returns [EJUSTRETURN] for [SHUT_WR], and for [SHUT_RDWR] returns 0
    after turning [how] into [SHUT_RD]; with none pending it returns 0 and
    leaves [how].  The pending data is what it was before the call. *)
Theorem cfil_sock_shutdown_delays_write w how :
  so_dgram (w_so w) = false ->
  so_content_filter (w_so w) = true ->
  has_flag (cfi_flags (w_info w)) CFIF_DROP = false ->
  has_flag (cfi_flags (w_info w)) CFIF_SHUT_RD = false ->
  has_flag (cfi_flags (w_info w)) CFIF_SHUT_WR = false ->
  how = SHUT_WR \/ how = SHUT_RDWR ->
  match sock_data_pending w true with
  | Panic => cfil_sock_shutdown w how false false = Some Panic
  | Ret pending =>
      exists w',
        cfil_sock_shutdown w how false false
        = Some (Ret (if pending =? 0 then (0, how, w')
                     else if how =? SHUT_WR then (EJUSTRETURN, how, w')
                          else (0, SHUT_RD, w')))
        /\ sock_data_pending w' true = Ret pending
  end.
Proof.
  intros Hdg Hcf Hdrop Hrd Hwr Hhow. unfold cfil_sock_shutdown.
  rewrite Hdg, Hcf, Hdrop, Hrd. cbn [negb]. rewrite !andb_false_r.
  destruct Hhow as [-> | ->].
  - change (negb (SHUT_WR =? SHUT_WR)) with false.
    change (negb (SHUT_WR =? SHUT_RD)) with true. cbv iota. rewrite Hwr.
    set (w2 := cfil_sock_notify_shutdown _ SHUT_WR).
    assert (Hp : sock_data_pending w2 true = sock_data_pending w true).
    { subst w2. destruct (cfil_sock_notify_shutdown_frame true SHUT_WR
                            (upd_cfi_flags (fun f => set_flag f CFIF_SHUT_WR) w)) as [F _].
      rewrite (sock_data_pending_frame _ _ F). reflexivity. }
    rewrite Hp.
    destruct (sock_data_pending w true) as [pending|] eqn:Hpend; [|reflexivity].
    exists w2. split; [|exact Hp].
    change (SHUT_WR =? SHUT_WR) with true.
    destruct (pending =? 0); reflexivity.
  - change (negb (SHUT_RDWR =? SHUT_WR)) with true.
    change (negb (SHUT_RDWR =? SHUT_RD)) with true. cbv iota.
    set (w1 := cfil_sock_notify_shutdown _ SHUT_RD).
    assert (Hp1 : sock_data_pending w1 true = sock_data_pending w true).
    { subst w1. destruct (cfil_sock_notify_shutdown_frame true SHUT_RD
                            (upd_cfi_flags (fun f => set_flag f CFIF_SHUT_RD) w)) as [F _].
      rewrite (sock_data_pending_frame _ _ F). reflexivity. }
    assert (Hwr1 : has_flag (cfi_flags (w_info w1)) CFIF_SHUT_WR = false).
    { subst w1. rewrite flags_after_notify by reflexivity.
      rewrite cfi_flags_upd_set by discriminate. rewrite Hwr. reflexivity. }
    rewrite Hwr1.
    set (w2 := cfil_sock_notify_shutdown _ SHUT_WR).
    assert (Hp : sock_data_pending w2 true = sock_data_pending w true).
    { subst w2. destruct (cfil_sock_notify_shutdown_frame true SHUT_WR
                            (upd_cfi_flags (fun f => set_flag f CFIF_SHUT_WR) w1)) as [F _].
      rewrite (sock_data_pending_frame _ _ F). exact Hp1. }
    rewrite Hp.
    destruct (sock_data_pending w true) as [pending|] eqn:Hpend; [|reflexivity].
    exists w2. split; [|exact Hp].
    change (SHUT_RDWR =? SHUT_WR) with false. change (SHUT_RDWR =? SHUT_RDWR) with true.
    destruct (pending =? 0); reflexivity.
Qed.

Lemma cfil_sock_shutdown_delays_write_witness :
  exists w', cfil_sock_shutdown holding_world SHUT_WR false false
             = Some (Ret (EJUSTRETURN, SHUT_WR, w')).
Proof.
  pose proof (cfil_sock_shutdown_delays_write holding_world SHUT_WR) as H.
  change (sock_data_pending holding_world true) with (Ret (A := Z) 100) in H.
  destruct H as (w' & H & _); try reflexivity; [left; reflexivity|].
  exists w'. exact H.
Defined.







(** ** The initial verdict *)

Lemma has_flag_clear_other f m m' :
  Z.land (Z.lnot m) m' = m' -> has_flag (clear_flag f m) m' = has_flag f m'.
Proof. intros H. rewrite has_flag_clear_flag, H. reflexivity. Qed.

(** X13. A connection held back for the initial verdict is released once,
    by the first verdict.  While no verdict has been received
    [cfil_sock_connected_pending_verdict] answers true and remembers the
    connection; the next [cfil_sock_received_verdict] calls
    [soisconnected]; from then on the first answers false and changes
    nothing, and a further verdict does not call [soisconnected] again. *)
Theorem initial_verdict_releases_once (i : cfil_info) :
  has_flag (cfi_flags i) CFIF_INITIAL_VERDICT = false ->
  exists i1 i2,
    cfil_sock_connected_pending_verdict (Some i) = (true, Some i1)
    /\ cfil_sock_received_verdict (Some i1) = (Some i2, true)
    /\ cfil_sock_connected_pending_verdict (Some i2) = (false, Some i2)
    /\ cfil_sock_received_verdict (Some i2) = (Some i2, false).
Proof.
  intros Hiv.
  set (i1 := with_cfi_flags (set_flag (cfi_flags i) CFIF_SOCKET_CONNECTED) i).
  set (f2 := clear_flag (set_flag (cfi_flags i1) CFIF_INITIAL_VERDICT) CFIF_SOCKET_CONNECTED).
  set (i2 := with_cfi_flags f2 (with_cfi_flags (set_flag (cfi_flags i1) CFIF_INITIAL_VERDICT) i1)).
  assert (Hc1 : has_flag (set_flag (cfi_flags i1) CFIF_INITIAL_VERDICT) CFIF_SOCKET_CONNECTED
                = true).
  { rewrite has_flag_set_flag. subst i1. cbn [with_cfi_flags cfi_flags].
    rewrite has_flag_set_same by discriminate. reflexivity. }
  assert (Hiv2 : has_flag f2 CFIF_INITIAL_VERDICT = true).
  { subst f2. rewrite has_flag_clear_other by reflexivity.
    apply has_flag_set_same. discriminate. }
  assert (Hc2 : has_flag f2 CFIF_SOCKET_CONNECTED = false).
  { subst f2. apply has_flag_clear_same. }
  assert (Hset2 : set_flag f2 CFIF_INITIAL_VERDICT = f2).
  { subst f2. unfold set_flag, clear_flag.
    apply Z.bits_inj'. intros n Hn.
    rewrite Z.lor_spec, !Z.land_spec, Z.lor_spec, Z.lnot_spec by exact Hn.
    destruct (Z.testbit (cfi_flags i1) n), (Z.testbit CFIF_INITIAL_VERDICT n) eqn:E1,
      (Z.testbit CFIF_SOCKET_CONNECTED n) eqn:E2; try reflexivity; exfalso.
    - assert (Hb : Z.testbit (Z.land CFIF_INITIAL_VERDICT CFIF_SOCKET_CONNECTED) n = true)
        by (rewrite Z.land_spec, E1, E2; reflexivity).
      change (Z.land CFIF_INITIAL_VERDICT CFIF_SOCKET_CONNECTED) with 0 in Hb.
      rewrite Z.bits_0 in Hb. discriminate.
    - assert (Hb : Z.testbit (Z.land CFIF_INITIAL_VERDICT CFIF_SOCKET_CONNECTED) n = true)
        by (rewrite Z.land_spec, E1, E2; reflexivity).
      change (Z.land CFIF_INITIAL_VERDICT CFIF_SOCKET_CONNECTED) with 0 in Hb.
      rewrite Z.bits_0 in Hb. discriminate. }
  exists i1, i2. split; [|split; [|split]].
  - unfold cfil_sock_connected_pending_verdict. rewrite Hiv. reflexivity.
  - unfold cfil_sock_received_verdict. cbv zeta.
    cbn [with_cfi_flags cfi_flags]. rewrite Hc1. reflexivity.
  - unfold cfil_sock_connected_pending_verdict.
    change (cfi_flags i2) with f2. rewrite Hiv2. reflexivity.
  - unfold cfil_sock_received_verdict. cbv zeta.
    change (cfi_flags i2) with f2.
    cbn [with_cfi_flags cfi_flags]. rewrite Hset2, Hc2.
    subst i2. cbn [with_cfi_flags]. reflexivity.
Qed.

Lemma initial_verdict_releases_once_witness :
  exists i1 i2,
    cfil_sock_connected_pending_verdict (Some (fresh_info [1%nat])) = (true, Some i1)
    /\ cfil_sock_received_verdict (Some i1) = (Some i2, true)
    /\ cfil_sock_connected_pending_verdict (Some i2) = (false, Some i2)
    /\ cfil_sock_received_verdict (Some i2) = (Some i2, false).
Proof. apply initial_verdict_releases_once. reflexivity. Defined.

(** ** The retry flags ([cfil_sock_buf_update]) *)

Lemma same_flow_flags_refl w : same_flow_flags w w.
Proof. reflexivity. Qed.

Lemma same_flow_flags_trans w1 w2 w3 :
  same_flow_flags w1 w2 -> same_flow_flags w2 w3 -> same_flow_flags w1 w3.
Proof. unfold same_flow_flags. congruence. Qed.

Lemma same_flow_flags_eq w w' :
  cfi_flags (w_info w') = cfi_flags (w_info w) -> same_flow_flags w w'.
Proof. unfold same_flow_flags. intros ->. reflexivity. Qed.

Lemma same_flow_flags_frame o units w w' : chain_frame o units w w' -> same_flow_flags w w'.
Proof. intros F. exact (fr_flags _ _ _ _ F). Qed.

Lemma same_flow_flags_has w w' m :
  Z.land CFIF_NO_CLOSE_WAIT m = 0 ->
  same_flow_flags w w' ->
  has_flag (cfi_flags (w_info w')) m = has_flag (cfi_flags (w_info w)) m.
Proof. intros Hm H. exact (has_flag_lor_no_close_wait _ _ m Hm H). Qed.

Lemma cfil_data_filter_flags o rest k data w :
  same_flow_flags w
    (snd (cfil_data_filter_with (chain_run o rest) w k o data (cfil_data_length data))).
Proof.
  apply (same_flow_flags_frame o (k :: rest)), chain_steps_frame.
  apply cfil_data_filter_with_steps; [left; reflexivity|].
  intros c e w0 Hc. eapply chain_steps_mono; [|apply chain_run_steps; exact Hc].
  intros j Hj. right. exact Hj.
Qed.

Lemma data_common_loop_flags o rest chained data error w :
  same_flow_flags w
    (match data_common_loop o rest chained data (cfil_data_length data) error w with
     | inl r => snd r
     | inr r => snd r
     end).
Proof.
  revert chained error w. induction rest as [|k rest IH]; intros chained error w.
  - apply same_flow_flags_refl.
  - cbn [data_common_loop].
    destruct (IS_ENTRY_ATTACHED w k).
    + set (c := if so_dgram (w_so w) && negb chained then ext_call w else (0, w)).
      assert (Hc : same_flow_flags w (snd c)).
      { subst c. destruct (so_dgram (w_so w) && negb chained); [|apply same_flow_flags_refl].
        apply same_flow_flags_eq. destruct (ext_call_rest w) as (_ & -> & _). reflexivity. }
      destruct c as [chain w1]. cbn [snd] in Hc.
      destruct (negb (chain =? 0)); [exact Hc|].
      pose proof (cfil_data_filter_flags o rest k data w1) as Hf.
      destruct (cfil_data_filter_with (chain_run o rest) w1 k o data (cfil_data_length data))
        as [error' w2]. cbn [snd] in Hf.
      destruct (negb (error' =? 0)).
      * cbn [snd]. eapply same_flow_flags_trans; eassumption.
      * eapply same_flow_flags_trans; [exact Hc|].
        eapply same_flow_flags_trans; [exact Hf|apply IH].
    + destruct (negb (error =? 0)); [apply same_flow_flags_refl|apply IH].
Qed.

Lemma cfil_data_common_flags msize w o data :
  same_flow_flags w (snd (data_common_effect msize w o data)).
Proof.
  unfold data_common_effect.
  destruct (has_flag (cfi_flags (w_info w)) CFIF_DROP); [apply same_flow_flags_refl|].
  pose proof (cfil_data_length_cnt_fst msize data) as Hdl.
  destruct (cfil_data_length_cnt msize data) as [[datalen mbcnt] mbnum].
  cbn [fst] in Hdl. subst datalen.
  destruct (cfil_data_length data =? 0); [apply same_flow_flags_refl|].
  set (w1 := with_info (add_byte_count o (cfil_data_length data) (w_info w)) w).
  set (w2 := upd_ibuf o (pending_extend (cfil_data_length data) mbcnt mbnum) w1).
  assert (H2 : same_flow_flags w w2).
  { apply same_flow_flags_eq. subst w2.
    destruct (upd_ibuf_rest o (pending_extend (cfil_data_length data) mbcnt mbnum) w1) as (-> & _).
    subst w1. destruct o; reflexivity. }
  clearbody w2. clear w1.
  destruct (so_dgram (w_so w2) && _).
  { cbn [snd]. eapply same_flow_flags_trans; [exact H2|]. apply same_flow_flags_eq.
    destruct (upd_ibuf_rest o (pending_tail_drop mbcnt mbnum) w2) as (-> & _). reflexivity. }
  destruct (cfi_pending_last (ibuf w2 o) <=? cfi_pass_offset (ibuf w2 o)).
  - assert (H3 : same_flow_flags w2 (cfil_update_entry_offsets w2 o (cfil_data_length data))).
    { apply same_flow_flags_eq. rewrite cfil_update_entry_offsets_sweep.
      destruct (sweep_rest has_filter o (update_entry_offsets_buf (cfil_data_length data))
                  kcunits w2) as (_ & _ & _ & _ & _ & _ & -> & _). reflexivity. }
    cbn [Z.eqb]. cbn [snd]. eapply same_flow_flags_trans; [exact H2|].
    eapply same_flow_flags_trans; [exact H3|]. apply same_flow_flags_eq.
    destruct (upd_ibuf_rest o (pending_move_cursor (cfil_data_length data) mbcnt mbnum)
                (cfil_update_entry_offsets w2 o (cfil_data_length data))) as (-> & _).
    reflexivity.
  - pose proof (data_common_loop_flags o (cfi_ordered_entries (w_info w2)) false data 0 w2) as H3.
    destruct (data_common_loop o (cfi_ordered_entries (w_info w2)) false data
                (cfil_data_length data) 0 w2) as [[e w3]|[e w3]]; cbn [snd] in H3.
    + cbn [snd]. eapply same_flow_flags_trans; eassumption.
    + destruct (e =? 0); cbn [snd].
      * eapply same_flow_flags_trans; [exact H2|].
        eapply same_flow_flags_trans; [exact H3|]. apply same_flow_flags_eq.
        destruct (upd_ibuf_rest o (pending_move_cursor (cfil_data_length data) mbcnt mbnum) w3)
          as (-> & _). reflexivity.
      * eapply same_flow_flags_trans; eassumption.
Qed.

Lemma cfil_update_data_offsets_flags w k o pass_offset peek_offset :
  same_flow_flags w (snd (cfil_update_data_offsets w k o pass_offset peek_offset)).
Proof.
  unfold cfil_update_data_offsets.
  destruct (has_flag (cfi_flags (w_info w)) CFIF_DROP); [apply same_flow_flags_refl|].
  cbv zeta.
  set (w1 := if pass_offset >? cfe_pass_offset (ebuf w k o) then _ else w).
  assert (H1 : same_flow_flags w w1).
  { subst w1. destruct (pass_offset >? _); [|apply same_flow_flags_refl].
    apply same_flow_flags_eq. apply cfi_flags_upd_entry. }
  clearbody w1.
  set (rp := (peek_offset >? cfe_pass_offset (ebuf w1 k o))
             && (peek_offset >? cfe_peek_offset (ebuf w1 k o))).
  set (w2 := if rp then upd_ebuf k o (with_peek_offset peek_offset) w1 else w1).
  assert (H2 : same_flow_flags w w2).
  { eapply same_flow_flags_trans; [exact H1|]. subst w2. destruct rp; [|apply same_flow_flags_refl].
    apply same_flow_flags_eq. apply cfi_flags_upd_entry. }
  clearbody w2.
  assert (Hdone : forall w3, same_flow_flags w3 (update_data_offsets_done w3 k)).
  { intros w3. apply same_flow_flags_eq.
    destruct (update_data_offsets_done_bufs w3 k) as (_ & _ & -> & _). reflexivity. }
  destruct (negb _).
  - cbn [snd]. eapply same_flow_flags_trans; [exact H2|apply Hdone].
  - pose proof (cfil_data_service_ctl_q_frame w2 k o) as Hf.
    apply same_flow_flags_frame in Hf.
    destruct (cfil_data_service_ctl_q w2 k o) as [error w3]. cbn [snd] in Hf.
    destruct (negb (error =? 0)); cbn [snd];
      (eapply same_flow_flags_trans; [exact H2|];
       eapply same_flow_flags_trans; [exact Hf|apply Hdone]).
Qed.

(** [cfil_service_inject_queue] touches the retry flag of its direction
    and no other flag of the data path. *)
Lemma cfil_service_inject_queue_other_flags msize w (o : bool) m :
  Z.land CFIF_NO_CLOSE_WAIT m = 0 ->
  Z.land (if o then CFIF_RETRY_INJECT_OUT else CFIF_RETRY_INJECT_IN) m = 0 ->
  has_flag (cfi_flags (w_info (snd (cfil_service_inject_queue msize w o)))) m
  = has_flag (cfi_flags (w_info w)) m.
Proof.
  intros Hncw Hm. unfold cfil_service_inject_queue.
  destruct (so_defunct (w_so w)); [reflexivity|].
  set (retry := if o then CFIF_RETRY_INJECT_OUT else CFIF_RETRY_INJECT_IN) in *.
  set (w1 := upd_cfi_flags (fun f => clear_flag f retry) w).
  assert (H1 : has_flag (cfi_flags (w_info w1)) m = has_flag (cfi_flags (w_info w)) m).
  { subst w1. unfold upd_cfi_flags. cbn [with_info w_info with_cfi_flags cfi_flags].
    unfold has_flag, clear_flag. f_equal. f_equal.
    apply Z.bits_inj'. intros n Hn.
    rewrite !Z.land_spec, Z.lnot_spec by exact Hn.
    destruct (Z.testbit (cfi_flags (w_info w)) n); [|reflexivity].
    destruct (Z.testbit m n) eqn:E2; [|rewrite !andb_false_r; reflexivity].
    destruct (Z.testbit retry n) eqn:E1; [|reflexivity].
    assert (Hb : Z.testbit (Z.land retry m) n = true) by (rewrite Z.land_spec, E1, E2; reflexivity).
    rewrite Hm, Z.bits_0 in Hb. discriminate. }
  destruct (cfil_queue_empty (cfi_inject_q (ibuf w1 o))); [exact H1|].
  pose proof (inject_q_loop_flags msize (length (q_mq (cfi_inject_q (ibuf w1 o)))) o w1) as H2.
  destruct (inject_q_loop msize _ o w1) as [error w2]. cbn [snd] in H2 |- *.
  set (w3 := if negb (error =? 0) then upd_cfi_flags (fun f => set_flag f retry) w2 else w2).
  assert (H3 : has_flag (cfi_flags (w_info w3)) m = has_flag (cfi_flags (w_info w)) m).
  { subst w3. destruct (negb (error =? 0)); [|rewrite H2; exact H1].
    unfold upd_cfi_flags. cbn [with_info w_info with_cfi_flags cfi_flags].
    rewrite has_flag_set_flag, H2, H1.
    assert (has_flag retry m = false) as ->; [|apply orb_false_r].
    unfold has_flag. rewrite Hm. reflexivity. }
  clearbody w3.
  set (w4 := if has_flag (cfi_flags (w_info w3)) CFIF_SHUT_WR
             then cfil_sock_notify_shutdown_wr w3 else w3).
  assert (H4 : has_flag (cfi_flags (w_info w4)) m = has_flag (cfi_flags (w_info w)) m).
  { subst w4. destruct (has_flag (cfi_flags (w_info w3)) CFIF_SHUT_WR); [|exact H3].
    rewrite <- H3. apply (same_flow_flags_has _ _ m Hncw).
    apply (same_flow_flags_frame o []), cfil_sock_notify_shutdown_wr_frame. }
  clearbody w4.
  destruct (_ && _); exact H4.
Qed.

Lemma step_retry_in msize w op :
  has_flag (cfi_flags (w_info w)) CFIF_RETRY_INJECT_IN = false ->
  has_flag (cfi_flags (w_info (step_effect msize w op))) CFIF_RETRY_INJECT_IN = false.
Proof.
  intros Hw.
  assert (Hsame : forall w', same_flow_flags w w' ->
            has_flag (cfi_flags (w_info w')) CFIF_RETRY_INJECT_IN = false).
  { intros w' H. rewrite (same_flow_flags_has _ _ CFIF_RETRY_INJECT_IN eq_refl H). exact Hw. }
  destruct op as [o data|k o pass peek|k o|k o|o|k]; cbn [step_effect].
  - pose proof (cfil_data_common_flags msize w o data) as H.
    destruct (data_common_effect msize w o data) as [error w']. cbn [snd] in H.
    apply (Hsame _ H).
  - unfold cfil_action_data_pass.
    destruct (negb (cfil_acquire_sockbuf w =? 0)); [exact Hw|].
    pose proof (cfil_update_data_offsets_flags w k o pass peek) as H1.
    destruct (cfil_update_data_offsets w k o pass peek) as [error w1]. cbn [snd] in H1 |- *.
    assert (H2 : has_flag (cfi_flags (w_info (snd (cfil_service_inject_queue msize w1 o))))
                   CFIF_RETRY_INJECT_IN = false).
    { destruct o.
      - rewrite cfil_service_inject_queue_other_flags by reflexivity. apply (Hsame _ H1).
      - destruct (so_defunct (w_so w1)) eqn:Hdef.
        + unfold cfil_service_inject_queue. rewrite Hdef. apply (Hsame _ H1).
        + destruct (cfil_service_inject_queue_spec msize w1 false Hdef)
            as (taken & notices & _ & _ & _ & _ & _ & Herr & Hflag).
          rewrite Hflag.
          destruct (Z.eqb_spec (fst (cfil_service_inject_queue msize w1 false)) 0) as [E|E];
            [reflexivity|]. apply Herr in E. discriminate. }
    unfold cfil_set_socket_pass_offset.
    destruct (u64 _ =? 0); [|exact H2].
    destruct (fold_left _ kcunits (0, true)) as [p f].
    destruct (upd_ibuf_rest o
                (fun cb => {| cfi_pending_first := cfi_pending_first cb;
                              cfi_pending_last := cfi_pending_last cb;
                              cfi_pending_mbcnt := cfi_pending_mbcnt cb;
                              cfi_pending_mbnum := cfi_pending_mbnum cb;
                              cfi_tail_drop_cnt := cfi_tail_drop_cnt cb;
                              cfi_pass_offset := p;
                              cfi_inject_q := cfi_inject_q cb |})
                (snd (cfil_service_inject_queue msize w1 o))) as (-> & _).
    exact H2.
  - apply Hsame, (same_flow_flags_frame o _ _ _ (cfil_data_service_ctl_q_frame w k o)).
  - apply Hsame, (same_flow_flags_frame o _ _ _ (cfil_service_pending_queue_frame w k o)).
  - destruct o.
    + rewrite cfil_service_inject_queue_other_flags by reflexivity. exact Hw.
    + destruct (so_defunct (w_so w)) eqn:Hdef.
      * unfold cfil_service_inject_queue. rewrite Hdef. exact Hw.
      * destruct (cfil_service_inject_queue_spec msize w false Hdef)
          as (taken & notices & _ & _ & _ & _ & _ & Herr & Hflag).
        rewrite Hflag.
        destruct (Z.eqb_spec (fst (cfil_service_inject_queue msize w false)) 0) as [E|E];
          [reflexivity|]. apply Herr in E. discriminate.
  - destruct (so_content_filter (w_so w)) eqn:Hcf.
    + destruct (cfe_filter (entry_at w k)) as [u|] eqn:Ef.
      * destruct (cfil_action_drop_shape w k Hcf) as (Hfl & _); [congruence|].
        rewrite Hfl, has_flag_set_flag, Hw. reflexivity.
      * unfold cfil_action_drop. rewrite Hcf, Ef. exact Hw.
    + unfold cfil_action_drop. rewrite Hcf. exact Hw.
Qed.

Lemma run_retry_in msize w ops :
  has_flag (cfi_flags (w_info w)) CFIF_RETRY_INJECT_IN = false ->
  has_flag (cfi_flags (w_info (run_effect msize w ops))) CFIF_RETRY_INJECT_IN = false.
Proof.
  revert w. induction ops as [|op ops IH]; intros w Hw; [exact Hw|].
  cbn [run_effect fold_left]. apply IH, step_retry_in, Hw.
Qed.

(** X14. The receive side never asks for a retry.  Along every sequence
    of submits, verdicts, queue services and drops, [CFIF_RETRY_INJECT_IN]
    stays clear once it is clear, as it is on a new flow: re-injection of
    incoming data does not fail.  So [cfil_sock_buf_update] on the receive
    buffer changes nothing in any state the operations lead to. *)
Theorem receive_side_never_retries msize cfil_sbtrim w ops w' :
  has_flag (cfi_flags (w_info w)) CFIF_RETRY_INJECT_IN = false ->
  run msize w ops = Ret w' ->
  has_flag (cfi_flags (w_info w')) CFIF_RETRY_INJECT_IN = false
  /\ cfil_sock_buf_update msize cfil_sbtrim w' false = w'.
Proof.
  intros Hw Hrun'. apply run_returns in Hrun'. subst w'.
  pose proof (run_retry_in msize w ops Hw) as Hrun.
  split; [exact Hrun|].
  unfold cfil_sock_buf_update, sock_buf_update_flow. rewrite Hrun. cbn [negb].
  destruct (so_dgram (w_so (run_effect msize w ops)));
    destruct (so_content_filter (w_so (run_effect msize w ops)));
    destruct (so_flow_db (w_so (run_effect msize w ops))); destruct cfil_sbtrim;
    cbn [andb negb]; reflexivity.
Qed.

Lemma receive_side_never_retries_witness :
  exists w',
    run 256 (fresh_world tcp_socket [1%nat; 2%nat]) relay_ops = Ret w'
    /\ cfil_sock_buf_update 256 true w' false = w'.
Proof.
  destruct (run 256 (fresh_world tcp_socket [1%nat; 2%nat]) relay_ops) as [w'|] eqn:Hrun;
    [|vm_compute in Hrun; discriminate].
  exists w'. split; [reflexivity|].
  apply (receive_side_never_retries 256 true (fresh_world tcp_socket [1%nat; 2%nat])
           relay_ops w'); [reflexivity|exact Hrun].
Defined.

(** ** The registry of the filter agents ([cfil_ctl_connect], options) *)

Lemma filter_slot_set_eq r k c :
  (1 <= k <= length (Ctl.content_filters r))%nat ->
  Ctl.filter_slot (Ctl.set_slot k c r) k = c.
Proof.
  intros Hk. destruct k as [|i]; [lia|]. unfold Ctl.filter_slot, Ctl.set_slot.
  cbn [Ctl.content_filters Ctl.with_content_filters].
  rewrite list_lookup_insert_eq by lia. reflexivity.
Qed.

Lemma filter_slot_set_ne r k k' c :
  k <> k' ->
  Ctl.filter_slot (Ctl.set_slot k c r) k' = Ctl.filter_slot r k'.
Proof.
  intros Hne. destruct k as [|i]; [reflexivity|]. destruct k' as [|j]; [reflexivity|].
  unfold Ctl.filter_slot, Ctl.set_slot. cbn [Ctl.content_filters Ctl.with_content_filters].
  rewrite list_lookup_insert_ne by congruence. reflexivity.
Qed.

Lemma length_set_slot r k c :
  length (Ctl.content_filters (Ctl.set_slot k c r)) = length (Ctl.content_filters r).
Proof.
  destruct k as [|i]; [reflexivity|]. unfold Ctl.set_slot.
  cbn [Ctl.content_filters Ctl.with_content_filters]. apply length_insert.
Qed.

(** X15. [cfil_ctl_connect] takes a unit that is free and in range, and
    nothing else.  For unit 0 or a unit above [MAX_CONTENT_FILTER] it
    returns [EINVAL], for a unit in use [EADDRINUSE], and in both cases
    the registry is as it was and [unitinfo] is not set.  Otherwise it
    returns 0, stores the new filter, with its unit, no flags, no control
    unit and no socket, in the slot of the unit and in [unitinfo], leaves
    the other slots alone and counts one more active filter; the unit is
    then in use, so that a second connect to it returns [EADDRINUSE]. *)
Theorem cfil_ctl_connect_claims_unit r sc_unit cfc :
  length (Ctl.content_filters r) = MAX_CONTENT_FILTER ->
  ((sc_unit = 0%nat \/ (MAX_CONTENT_FILTER < sc_unit)%nat) ->
   Ctl.cfil_ctl_connect r sc_unit cfc = (EINVAL, r, None))
  /\ ((1 <= sc_unit <= MAX_CONTENT_FILTER)%nat ->
      Ctl.filter_slot r sc_unit <> None ->
      Ctl.cfil_ctl_connect r sc_unit cfc = (Ctl.EADDRINUSE, r, None))
  /\ ((1 <= sc_unit <= MAX_CONTENT_FILTER)%nat ->
      Ctl.filter_slot r sc_unit = None ->
      exists r',
        Ctl.cfil_ctl_connect r sc_unit cfc = (0, r', Some cfc)
        /\ Ctl.filter_slot r' sc_unit
           = Some {| Ctl.cf_addr := cfc; Ctl.cf_kcunit := sc_unit; Ctl.cf_flags := 0;
                     Ctl.cf_necp_control_unit := 0; Ctl.cf_sock_count := 0;
                     Ctl.cf_sock_entries := [] |}
        /\ (forall k, k <> sc_unit -> Ctl.filter_slot r' k = Ctl.filter_slot r k)
        /\ Ctl.cfil_active_count r' = u32 (Ctl.cfil_active_count r + 1)
        /\ length (Ctl.content_filters r') = MAX_CONTENT_FILTER
        /\ forall cfc', Ctl.cfil_ctl_connect r' sc_unit cfc' = (Ctl.EADDRINUSE, r', None)).
Proof.
  intros Hlen. split; [|split].
  - intros Hbad. unfold Ctl.cfil_ctl_connect.
    assert (H : (sc_unit =? 0)%nat || (MAX_CONTENT_FILTER <? sc_unit)%nat = true).
    { apply orb_true_iff. destruct Hbad as [->|Hgt]; [left; reflexivity|].
      right. apply Nat.ltb_lt. exact Hgt. }
    rewrite H. reflexivity.
  - intros Hr Hused. unfold Ctl.cfil_ctl_connect.
    assert (H : (sc_unit =? 0)%nat || (MAX_CONTENT_FILTER <? sc_unit)%nat = false).
    { apply orb_false_iff. split; [apply Nat.eqb_neq; lia|apply Nat.ltb_ge; lia]. }
    rewrite H. destruct (Ctl.filter_slot r sc_unit); [reflexivity|congruence].
  - intros Hr Hfree.
    assert (H : (sc_unit =? 0)%nat || (MAX_CONTENT_FILTER <? sc_unit)%nat = false).
    { apply orb_false_iff. split; [apply Nat.eqb_neq; lia|apply Nat.ltb_ge; lia]. }
    unfold Ctl.cfil_ctl_connect at 1. rewrite H, Hfree. cbv zeta.
    eexists. split; [reflexivity|].
    assert (Hs : forall r0 n k,
              Ctl.filter_slot (Ctl.with_active_count n r0) k = Ctl.filter_slot r0 k).
    { intros r0 n [|k]; reflexivity. }
    split; [rewrite Hs; apply filter_slot_set_eq; lia|].
    split; [intros k Hk; rewrite Hs; apply filter_slot_set_ne; congruence|].
    split; [destruct sc_unit; [lia|reflexivity]|].
    split; [cbn [Ctl.content_filters Ctl.with_active_count]; rewrite length_set_slot; exact Hlen|].
    intros cfc'. unfold Ctl.cfil_ctl_connect. rewrite H, Hs.
    rewrite filter_slot_set_eq by lia. reflexivity.
Qed.

Lemma cfil_ctl_connect_claims_unit_witness :
  exists r',
    Ctl.cfil_ctl_connect Ctl.empty_registry 3 77 = (0, r', Some 77%nat)
    /\ forall cfc', Ctl.cfil_ctl_connect r' 3 cfc' = (Ctl.EADDRINUSE, r', None).
Proof.
  destruct (cfil_ctl_connect_claims_unit Ctl.empty_registry 3 77 eq_refl) as (_ & _ & H).
  destruct H as (r' & Hc & _ & _ & _ & _ & Hagain).
  - unfold MAX_CONTENT_FILTER. lia.
  - reflexivity.
  - exists r'. split; [exact Hc|exact Hagain].
Defined.

Lemma unitinfo_filter_set r k c c' :
  (1 <= k <= length (Ctl.content_filters r))%nat ->
  Ctl.cf_addr c' = c ->
  Ctl.unitinfo_filter (Ctl.set_slot k (Some c') r) k c = Some c'.
Proof.
  intros Hk Ha. unfold Ctl.unitinfo_filter. rewrite filter_slot_set_eq by exact Hk.
  rewrite Ha, Nat.eqb_refl. reflexivity.
Qed.

Lemma unitinfo_filter_addr r k cfc c :
  Ctl.unitinfo_filter r k cfc = Some c -> Ctl.cf_addr c = cfc /\ Ctl.filter_slot r k = Some c.
Proof.
  unfold Ctl.unitinfo_filter. destruct (Ctl.filter_slot r k) as [c0|]; [|discriminate].
  destruct (Nat.eqb_spec (Ctl.cf_addr c0) cfc) as [E|E]; [|discriminate].
  intros [= <-]. split; [exact E|reflexivity].
Qed.

(** X16. The NECP control unit of a filter is set once and read back.
    For a connected filter whose control unit is still 0,
    [cfil_ctl_setopt] with a control unit other than 0 returns 0 and
    touches no other slot; from then on [cfil_ctl_getopt] writes that
    control unit, while every further [cfil_ctl_setopt] of the option
    returns [EINVAL] and changes nothing. *)
Theorem necp_control_unit_set_once r kcunit cfc c data len :
  (1 <= kcunit <= MAX_CONTENT_FILTER)%nat ->
  length (Ctl.content_filters r) = MAX_CONTENT_FILTER ->
  Ctl.unitinfo_filter r kcunit cfc = Some c ->
  Ctl.cf_necp_control_unit c = 0 ->
  data <> 0 ->
  4 <= len ->
  exists r',
    Ctl.cfil_ctl_setopt r kcunit (Some cfc) Ctl.CFIL_OPT_NECP_CONTROL_UNIT data len = (0, r')
    /\ (forall k, k <> kcunit -> Ctl.filter_slot r' k = Ctl.filter_slot r k)
    /\ Ctl.cfil_ctl_getopt r' kcunit (Some cfc) Ctl.CFIL_OPT_NECP_CONTROL_UNIT true len
       = Some (0, Some data)
    /\ forall data' len',
         Ctl.cfil_ctl_setopt r' kcunit (Some cfc) Ctl.CFIL_OPT_NECP_CONTROL_UNIT data' len'
         = (EINVAL, r').
Proof.
  intros Hk Hlen Hu Hz Hd Hl.
  assert (Hmax : (MAX_CONTENT_FILTER <? kcunit)%nat = false) by (apply Nat.ltb_ge; lia).
  assert (Hl4 : (len <? 4) = false) by (apply Z.ltb_ge; lia).
  destruct (unitinfo_filter_addr _ _ _ _ Hu) as [Haddr _].
  unfold Ctl.cfil_ctl_setopt at 1. rewrite Hmax, Hu, Hl4, Hz. cbn [Z.eqb negb].
  eexists. split; [reflexivity|].
  assert (Hu' : Ctl.unitinfo_filter
                  (Ctl.set_slot kcunit (Some (Ctl.with_cf_necp_control_unit data c)) r) kcunit cfc
                = Some (Ctl.with_cf_necp_control_unit data c)).
  { apply unitinfo_filter_set; [lia|exact Haddr]. }
  split; [intros k Hne; apply filter_slot_set_ne; congruence|].
  split.
  - unfold Ctl.cfil_ctl_getopt. rewrite Hmax, Hu', Hl4. reflexivity.
  - intros data' len'. unfold Ctl.cfil_ctl_setopt. rewrite Hmax, Hu'.
    destruct (len' <? 4); [reflexivity|].
    cbn [Ctl.cf_necp_control_unit Ctl.with_cf_necp_control_unit].
    destruct (Z.eqb_spec data 0) as [E|E]; [contradiction|reflexivity].
Qed.

Lemma necp_control_unit_set_once_witness :
  exists r0 r',
    Ctl.cfil_ctl_connect Ctl.empty_registry 3 77 = (0, r0, Some 77%nat)
    /\ Ctl.cfil_ctl_setopt r0 3 (Some 77%nat) Ctl.CFIL_OPT_NECP_CONTROL_UNIT 5 4 = (0, r')
    /\ Ctl.cfil_ctl_getopt r' 3 (Some 77%nat) Ctl.CFIL_OPT_NECP_CONTROL_UNIT true 4
       = Some (0, Some 5).
Proof.
  eexists.
  destruct (necp_control_unit_set_once
              (snd (fst (Ctl.cfil_ctl_connect Ctl.empty_registry 3 77))) 3 77
              {| Ctl.cf_addr := 77; Ctl.cf_kcunit := 3; Ctl.cf_flags := 0;
                 Ctl.cf_necp_control_unit := 0; Ctl.cf_sock_count := 0;
                 Ctl.cf_sock_entries := [] |} 5 4)
    as (r' & Hs & _ & Hg & _); try reflexivity; try lia; try discriminate.
  - unfold MAX_CONTENT_FILTER. lia.
  - exists r'. split; [reflexivity|]. split; [exact Hs|exact Hg].
Defined.

Lemma preserve_connections_loop_spec l acc :
  Ctl.preserve_connections_loop l acc = true
  <-> (Forall (fun s => match s with
                        | Some c => has_flag (Ctl.cf_flags c) CFF_PRESERVE_CONNECTIONS = true
                        | None => True
                        end) l
       /\ (acc = true \/ Exists (fun s => s <> None) l)).
Proof.
  revert acc. induction l as [|[c|] l IH]; intros acc; cbn [Ctl.preserve_connections_loop].
  - split.
    + intros ->. split; [constructor|left; reflexivity].
    + intros [_ [H|H]]; [exact H|inversion H].
  - destruct (has_flag (Ctl.cf_flags c) CFF_PRESERVE_CONNECTIONS) eqn:Hc.
    + rewrite IH. split.
      * intros [Hall _]. split; [constructor; assumption|].
        right. apply Exists_cons_hd. discriminate.
      * intros [Hall _]. inversion Hall; subst. split; [assumption|left; reflexivity].
    + split; [discriminate|]. intros [Hall _]. inversion Hall; subst. congruence.
  - rewrite IH. split.
    + intros [Hall Hex]. split; [constructor; [exact I|assumption]|].
      destruct Hex as [H|H]; [left; exact H|right; apply Exists_cons_tl; exact H].
    + intros [Hall Hex]. inversion Hall; subst. split; [assumption|].
      destruct Hex as [H|H]; [left; exact H|].
      inversion H; subst; [congruence|right; assumption].
Qed.

Lemma filter_slot_lookup r k c :
  Ctl.filter_slot r k = Some c
  <-> exists i, k = S i /\ Ctl.content_filters r !! i = Some (Some c).
Proof.
  destruct k as [|i]; unfold Ctl.filter_slot.
  - split; [discriminate|]. intros (i & H & _). discriminate.
  - split.
    + intros H. exists i. split; [reflexivity|].
      destruct (Ctl.content_filters r !! i) as [[c0|]|]; simpl in H; congruence.
    + intros (j & [= <-] & H). rewrite H. reflexivity.
Qed.

(** X17. [cfil_update_behavior_flags] turns the global "preserve
    connections" behaviour on exactly when at least one filter is
    connected and every connected filter has asked for it
    ([CFF_PRESERVE_CONNECTIONS]); one connected filter without the flag,
    or no connected filter at all, turns it off.  The filters and the
    counts are left alone. *)
Theorem behavior_flag_needs_every_filter r :
  (has_flag (Ctl.cfil_behavior_flags (Ctl.cfil_update_behavior_flags r))
     Ctl.CFIL_BEHAVIOR_FLAG_PRESERVE_CONNECTIONS = true
   <-> ((exists k c, Ctl.filter_slot r k = Some c)
        /\ forall k c, Ctl.filter_slot r k = Some c ->
                       has_flag (Ctl.cf_flags c) CFF_PRESERVE_CONNECTIONS = true))
  /\ Ctl.content_filters (Ctl.cfil_update_behavior_flags r) = Ctl.content_filters r
  /\ Ctl.cfil_active_count (Ctl.cfil_update_behavior_flags r) = Ctl.cfil_active_count r.
Proof.
  split; [|split; reflexivity].
  unfold Ctl.cfil_update_behavior_flags. cbn [Ctl.cfil_behavior_flags Ctl.with_behavior_flags].
  pose proof (preserve_connections_loop_spec (Ctl.content_filters r) false) as Hspec.
  pose proof (filter_slot_lookup r) as Hslot.
  destruct (Ctl.preserve_connections_loop (Ctl.content_filters r) false) eqn:Hloop.
  - rewrite has_flag_set_same by discriminate.
    destruct (proj1 Hspec eq_refl) as [Hall [Hacc|Hex]]; [discriminate|].
    split; [intros _|reflexivity]. split.
    + apply List.Exists_exists in Hex. destruct Hex as ([c|] & Hin & Hne); [|congruence].
      apply list_elem_of_In, list_elem_of_lookup in Hin. destruct Hin as [i Hi].
      exists (S i), c. apply Hslot. exists i. split; [reflexivity|exact Hi].
    + intros k c Hk. apply Hslot in Hk. destruct Hk as (i & -> & Hi).
      rewrite List.Forall_forall in Hall.
      apply (Hall (Some c)). apply list_elem_of_In, list_elem_of_lookup. exists i. exact Hi.
  - rewrite has_flag_clear_same. split; [discriminate|].
    intros [(k & c & Hk) Hall]. exfalso.
    assert (Hf : false = true); [|discriminate].
    apply Hspec. split.
    + apply List.Forall_forall. intros [c0|] Hin; [|exact I].
      apply list_elem_of_In, list_elem_of_lookup in Hin. destruct Hin as [i Hi].
      apply (Hall (S i) c0). apply Hslot. exists i. split; [reflexivity|exact Hi].
    + right. apply Hslot in Hk. destruct Hk as (i & -> & Hi).
      apply List.Exists_exists. exists (Some c). split; [|discriminate].
      apply list_elem_of_In, list_elem_of_lookup. exists i. exact Hi.
Qed.

(** ** The socket id ([cfil_info_alloc], [cfil_socket_from_sock_id]) *)

Lemma cfi_sock_id_decode g h :
  0 <= g -> 0 <= h < 2 ^ 32 ->
  Z.shiftr (Z.lor (u64 (Z.shiftl g 32)) h) 32 = g mod 2 ^ 32
  /\ Z.land (Z.lor (u64 (Z.shiftl g 32)) h) 0xffffffff = h.
Proof.
  intros Hg Hh.
  assert (Hhi : u64 (Z.shiftl g 32) = Z.shiftl (g mod 2 ^ 32) 32).
  { unfold u64. rewrite !Z.shiftl_mul_pow2 by lia.
    change (2 ^ 64) with (2 ^ 32 * 2 ^ 32).
    rewrite Z.mul_mod_distr_r by lia. reflexivity. }
  rewrite Hhi. split.
  - rewrite Z.shiftr_lor, Z.shiftr_shiftl_l by lia.
    change (32 - 32) with 0. rewrite Z.shiftl_0_r.
    rewrite (Z.shiftr_div_pow2 h) by lia. rewrite (Z.div_small h) by lia.
    apply Z.lor_0_r.
  - change 0xffffffff with (Z.ones 32).
    rewrite Z.land_lor_distr_l, !Z.land_ones by lia.
    rewrite Z.shiftl_mul_pow2 by lia. rewrite Z.mod_mul by lia.
    rewrite (Z.mod_small h) by lia. reflexivity.
Qed.

Lemma pcb_lookup_first test pre p post :
  Forall (fun q => test q = false) pre ->
  test p = true ->
  pcb_lookup test (pre ++ p :: post)
  = Some (if inp_safe_lock p then inp_socket p else None).
Proof.
  intros Hpre Hp. induction Hpre as [|q pre Hq _ IH]; cbn [pcb_lookup app].
  - rewrite Hp. reflexivity.
  - rewrite Hq. exact IH.
Qed.

Lemma pcb_lookup_found test l so :
  pcb_lookup test l = Some (Some so) ->
  exists p, In p l /\ test p = true /\ inp_socket p = Some so.
Proof.
  induction l as [|q l IH]; cbn [pcb_lookup]; [discriminate|].
  destruct (test q) eqn:Hq.
  - intros [= H]. exists q. split; [left; reflexivity|]. split; [exact Hq|].
    destruct (inp_safe_lock q); [exact H|discriminate].
  - intros H. destruct (IH H) as (p & Hin & Hp). exists p. split; [right; exact Hin|exact Hp].
Qed.

(** X18. The socket id of a stream socket leads back to the socket.  The
    id [cfil_info_alloc] makes from the generation count and the flow
    hash is resolved by [cfil_socket_from_sock_id] to the first live
    control block of the TCP list that has a filter state, the same flow
    hash and the same low 32 bits of the generation count: the socket
    itself, if it can be locked and no such block precedes it.  And
    whatever id is looked up, a socket that is returned belongs to a live
    control block whose generation count has the id's upper half as its
    low 32 bits. *)
Theorem sock_id_round_trip tcb udb ripcb :
  (forall pre p post so,
     tcb = pre ++ p :: post ->
     0 <= inp_so_gencnt p < 2 ^ 64 ->
     0 <= inp_flowhash p < 2 ^ 32 ->
     inp_dead p = false -> inp_socket p = Some so -> inp_so_cfil p = true ->
     inp_safe_lock p = true ->
     Forall (fun q => inp_dead q = true \/ inp_socket q = None \/ inp_so_cfil q = false
                      \/ inp_flowhash q <> inp_flowhash p
                      \/ inp_so_gencnt q mod 2 ^ 32 <> inp_so_gencnt p mod 2 ^ 32) pre ->
     cfil_socket_from_sock_id tcb udb ripcb
       (Ctl.cfi_sock_id (inp_so_gencnt p) (inp_flowhash p) None) false = Some so)
  /\ (forall cfil_sock_id udp_only so,
        cfil_socket_from_sock_id tcb udb ripcb cfil_sock_id udp_only = Some so ->
        exists p, In p (tcb ++ udb ++ ripcb) /\ inp_socket p = Some so
                  /\ inp_dead p = false
                  /\ inp_so_gencnt p mod 2 ^ 32 = Z.shiftr cfil_sock_id 32).
Proof.
  split.
  - intros pre p post so -> Hg Hh Hdead Hso Hcfil Hlock Hpre.
    destruct (cfi_sock_id_decode (inp_so_gencnt p) (inp_flowhash p)) as [Hd1 Hd2]; [lia|lia|].
    unfold cfil_socket_from_sock_id, Ctl.cfi_sock_id. cbv zeta.
    change 0x0ffffffff with 0xffffffff. rewrite Hd1, Hd2.
    rewrite (pcb_lookup_first _ pre p post).
    + rewrite Hlock. exact Hso.
    + eapply List.Forall_impl; [|exact Hpre]. intros q Hq. cbv beta in Hq |- *.
      destruct (inp_dead q); [reflexivity|].
      destruct (inp_socket q); [|reflexivity].
      destruct (inp_so_cfil q); [|apply andb_false_r].
      cbn [negb is_some andb]. rewrite andb_true_r.
      change 0xffffffff with (Z.ones 32). rewrite Z.land_ones by lia.
      unfold u32. rewrite (Z.mod_small (inp_flowhash p)) by lia.
      destruct Hq as [Hq|[Hq|[Hq|[Hq|Hq]]]]; try discriminate.
      * destruct (Z.eqb_spec (inp_flowhash q) (inp_flowhash p)); [contradiction|reflexivity].
      * destruct (Z.eqb_spec (inp_so_gencnt q mod 2 ^ 32) (inp_so_gencnt p mod 2 ^ 32));
          [contradiction|apply andb_false_r].
    + rewrite Hdead, Hso, Hcfil. cbn [negb is_some andb]. rewrite andb_true_r.
      change 0xffffffff with (Z.ones 32). rewrite Z.land_ones by lia.
      unfold u32. rewrite (Z.mod_small (inp_flowhash p)) by lia.
      rewrite !Z.eqb_refl. reflexivity.
  - intros id udp_only so. unfold cfil_socket_from_sock_id. cbv zeta.
    set (tcp_test := fun inp : inpcb => _ && inp_so_cfil inp).
    set (udp_test := fun inp : inpcb => _ && (_ =? _)).
    assert (Htcp : forall p, tcp_test p = true ->
              inp_dead p = false /\ inp_so_gencnt p mod 2 ^ 32 = Z.shiftr id 32).
    { intros p. unfold tcp_test. rewrite !andb_true_iff, negb_true_iff.
      intros [[[[Hd _] _] Hg] _]. split; [exact Hd|].
      apply Z.eqb_eq in Hg. rewrite <- Hg.
      change 0x0ffffffff with (Z.ones 32). rewrite Z.land_ones by lia. reflexivity. }
    assert (Hudp : forall p, udp_test p = true ->
              inp_dead p = false /\ inp_so_gencnt p mod 2 ^ 32 = Z.shiftr id 32).
    { intros p. unfold udp_test. rewrite !andb_true_iff, negb_true_iff.
      intros [[[Hd _] _] Hg]. split; [exact Hd|].
      apply Z.eqb_eq in Hg. rewrite <- Hg.
      change 0x0ffffffff with (Z.ones 32). rewrite Z.land_ones by lia. reflexivity. }
    assert (Hfind : match pcb_lookup udp_test udb with
                    | Some so0 => so0
                    | None => match pcb_lookup udp_test ripcb with
                              | Some so0 => so0
                              | None => None
                              end
                    end = Some so ->
                    exists p, In p (udb ++ ripcb) /\ inp_socket p = Some so
                              /\ inp_dead p = false
                              /\ inp_so_gencnt p mod 2 ^ 32 = Z.shiftr id 32).
    { destruct (pcb_lookup udp_test udb) as [r1|] eqn:H1.
      - intros ->. destruct (pcb_lookup_found _ _ _ H1) as (p & Hin & Hp & Hs).
        exists p. split; [apply in_or_app; left; exact Hin|].
        split; [exact Hs|apply Hudp; exact Hp].
      - destruct (pcb_lookup udp_test ripcb) as [r2|] eqn:H2; [|discriminate].
        intros ->. destruct (pcb_lookup_found _ _ _ H2) as (p & Hin & Hp & Hs).
        exists p. split; [apply in_or_app; right; exact Hin|].
        split; [exact Hs|apply Hudp; exact Hp]. }
    assert (Hlift : (exists p, In p (udb ++ ripcb) /\ inp_socket p = Some so
                              /\ inp_dead p = false
                              /\ inp_so_gencnt p mod 2 ^ 32 = Z.shiftr id 32) ->
                    exists p, In p (tcb ++ udb ++ ripcb) /\ inp_socket p = Some so
                              /\ inp_dead p = false
                              /\ inp_so_gencnt p mod 2 ^ 32 = Z.shiftr id 32).
    { intros (p & Hin & Hp). exists p. split; [apply in_or_app; right; exact Hin|exact Hp]. }
    destruct udp_only; [intros H; apply Hlift, Hfind, H|].
    destruct (pcb_lookup tcp_test tcb) as [r1|] eqn:H1.
    + intros ->. destruct (pcb_lookup_found _ _ _ H1) as (p & Hin & Hp & Hs).
      exists p. split; [apply in_or_app; left; exact Hin|].
      split; [exact Hs|apply Htcp; exact Hp].
    + intros H; apply Hlift, Hfind, H.
Qed.

Lemma sock_id_round_trip_witness :
  cfil_socket_from_sock_id
    [ {| inp_dead := false; inp_socket := Some 4%nat; inp_flowhash := 9;
         inp_so_gencnt := 2 ^ 32 + 7; inp_so_cfil := true; inp_so_flow_db := false;
         inp_safe_lock := true |};
      {| inp_dead := false; inp_socket := Some 5%nat; inp_flowhash := 8;
         inp_so_gencnt := 7; inp_so_cfil := true; inp_so_flow_db := false;
         inp_safe_lock := true |} ] [] []
    (Ctl.cfi_sock_id 7 8 None) false = Some 5%nat.
Proof.
  refine (proj1 (sock_id_round_trip _ [] [])
            [ {| inp_dead := false; inp_socket := Some 4%nat; inp_flowhash := 9;
                 inp_so_gencnt := 2 ^ 32 + 7; inp_so_cfil := true; inp_so_flow_db := false;
                 inp_safe_lock := true |} ]
            {| inp_dead := false; inp_socket := Some 5%nat; inp_flowhash := 8;
               inp_so_gencnt := 7; inp_so_cfil := true; inp_so_flow_db := false;
               inp_safe_lock := true |} [] 5%nat eq_refl _ _ eq_refl eq_refl eq_refl eq_refl _).
  - cbn [inp_so_gencnt]. lia.
  - cbn [inp_flowhash]. lia.
  - constructor; [|constructor]. right. right. right. left. cbn [inp_flowhash]. lia.
Defined.

(** ** Attaching a flow to the filters ([cfil_info_alloc],
       [cfil_info_attach_unit], [cfil_info_free]) *)

Lemma info_entry_set_eq i k e :
  (1 <= k <= length (cfi_entries i))%nat ->
  Ctl.info_entry (Ctl.set_info_entry k e i) k = e.
Proof.
  intros Hk. destruct k as [|n]; [lia|]. unfold Ctl.info_entry, Ctl.set_info_entry.
  cbn [cfi_entries with_cfi_entries]. rewrite list_lookup_insert_eq by lia. reflexivity.
Qed.

Lemma info_entry_set_ne i k k' e :
  k <> k' -> Ctl.info_entry (Ctl.set_info_entry k e i) k' = Ctl.info_entry i k'.
Proof.
  intros Hne. destruct k as [|n]; [reflexivity|]. destruct k' as [|m]; [reflexivity|].
  unfold Ctl.info_entry, Ctl.set_info_entry. cbn [cfi_entries with_cfi_entries].
  rewrite list_lookup_insert_ne by congruence. reflexivity.
Qed.

Lemma length_set_info_entry i k e :
  length (cfi_entries (Ctl.set_info_entry k e i)) = length (cfi_entries i).
Proof.
  destruct k as [|n]; [reflexivity|]. unfold Ctl.set_info_entry.
  cbn [cfi_entries with_cfi_entries]. apply length_insert.
Qed.

Lemma set_info_entry_rest i k e :
  cfi_ordered_entries (Ctl.set_info_entry k e i) = cfi_ordered_entries i
  /\ cfi_snd (Ctl.set_info_entry k e i) = cfi_snd i
  /\ cfi_rcv (Ctl.set_info_entry k e i) = cfi_rcv i
  /\ cfi_flags (Ctl.set_info_entry k e i) = cfi_flags i.
Proof. destruct k; repeat split; reflexivity. Qed.

Lemma unit_selected_range r fcu k :
  length (Ctl.content_filters r) = MAX_CONTENT_FILTER ->
  Ctl.unit_selected r fcu k = true -> (1 <= k <= MAX_CONTENT_FILTER)%nat.
Proof.
  intros Hlen. unfold Ctl.unit_selected, Ctl.filter_slot.
  destruct k as [|i]; [discriminate|].
  destruct (Ctl.content_filters r !! i) as [x|] eqn:Hi; [|discriminate].
  intros _. apply lookup_lt_Some in Hi. lia.
Qed.

Lemma ordered_insert_in f v k l x :
  In x (Ctl.ordered_insert f v k l) <-> x = k \/ In x l.
Proof.
  induction l as [|j l IH]; cbn [Ctl.ordered_insert].
  - cbn [In]. intuition.
  - destruct (v <? f j).
    + cbn [In]. intuition.
    + cbn [In]. rewrite IH. intuition.
Qed.

Lemma ordered_insert_sorted r f k l :
  (forall j, In j l -> f j = Ctl.slot_control_unit r j) ->
  (forall j, In j l -> (j < k)%nat) ->
  StronglySorted (Ctl.before r) l ->
  StronglySorted (Ctl.before r) (Ctl.ordered_insert f (Ctl.slot_control_unit r k) k l).
Proof.
  intros Hf Hlt Hs. induction Hs as [|j l Hs IH Hall]; cbn [Ctl.ordered_insert].
  - constructor; constructor.
  - rewrite (Hf j) by (left; reflexivity).
    destruct (Z.ltb_spec (Ctl.slot_control_unit r k) (Ctl.slot_control_unit r j)) as [Hkj|Hkj].
    + constructor; [constructor; assumption|].
      constructor; [left; exact Hkj|].
      rewrite List.Forall_forall in Hall |- *. intros x Hx.
      destruct (Hall x Hx) as [H|[H _]]; left; lia.
    + constructor.
      * apply IH; intros x Hx; [apply Hf|apply Hlt]; right; exact Hx.
      * apply List.Forall_forall. intros x Hx. apply ordered_insert_in in Hx.
        destruct Hx as [->|Hx].
        -- assert (j < k)%nat by (apply Hlt; left; reflexivity).
           unfold Ctl.before. destruct (Z.eq_dec (Ctl.slot_control_unit r j) (Ctl.slot_control_unit r k));
             [right; split; assumption|left; lia].
        -- rewrite List.Forall_forall in Hall. apply Hall, Hx.
Qed.

Lemma attach_inv_step r flow fcu n st :
  length (Ctl.content_filters r) = MAX_CONTENT_FILTER ->
  attach_inv r flow fcu n st ->
  attach_inv r flow fcu (S n) (Ctl.attach_unit_step flow fcu st (S n)).
Proof.
  intros Hlen [Hlr Hslot Hheads Hli Hentry Hsorted Hin Hatt Hbufs].
  destruct st as [[attached r'] i']. cbn [fst snd] in *.
  assert (Hle : forall k, (k <=? S n)%nat = (k <=? n)%nat || (k =? S n)%nat).
  { intros k. destruct (Nat.leb_spec k (S n)), (Nat.leb_spec k n), (Nat.eqb_spec k (S n));
      cbn [orb]; try reflexivity; lia. }
  assert (Hex : existsb (Ctl.unit_selected r fcu) (seq 1 (S n))
                = existsb (Ctl.unit_selected r fcu) (seq 1 n) || Ctl.unit_selected r fcu (S n)).
  { rewrite seq_S, existsb_app. cbn [existsb Nat.add]. rewrite orb_false_r. reflexivity. }
  assert (Hcur : Ctl.filter_slot r' (S n) = Ctl.filter_slot r (S n)).
  { rewrite Hslot. replace (S n <=? n)%nat with false; [reflexivity|].
    symmetry. apply Nat.leb_gt. lia. }
  unfold Ctl.attach_unit_step. rewrite Hcur.
  destruct (Ctl.unit_selected r fcu (S n)) eqn:Hsel.
  - (* the unit is attached *)
    pose proof (unit_selected_range r fcu (S n) Hlen Hsel) as Hrange.
    pose proof Hsel as Hsel0.
    unfold Ctl.unit_selected in Hsel.
    destruct (Ctl.filter_slot r (S n)) as [cfc|] eqn:Hcfc; [|discriminate].
    apply negb_true_iff in Hsel. rewrite Hsel.
    assert (Hncu : Ctl.cf_necp_control_unit cfc = Ctl.slot_control_unit r (S n)).
    { unfold Ctl.slot_control_unit. rewrite Hcfc. reflexivity. }
    assert (He0 : Ctl.info_entry i' (S n) = empty_entry).
    { rewrite Hentry. replace (S n <=? n)%nat with false; [reflexivity|].
      symmetry. apply Nat.leb_gt. lia. }
    rewrite He0. cbn [cfe_flags cfe_snd cfe_rcv empty_entry cfe_necp_control_unit].
    cbv zeta.
    set (entry1 := {| cfe_filter := Some (S n); cfe_flags := 0;
                      cfe_necp_control_unit := Ctl.cf_necp_control_unit cfc;
                      cfe_snd := empty_buf; cfe_rcv := empty_buf |}).
    set (info1 := Ctl.set_info_entry (S n) entry1 i').
    destruct (set_info_entry_rest i' (S n) entry1) as (Ho1 & Hs1 & Hr1 & Hf1).
    fold info1 in Ho1, Hs1, Hr1, Hf1.
    set (ordered := Ctl.ordered_insert _ _ _ _).
    set (info2 := Ctl.with_cfi_ordered_entries ordered info1).
    set (entry2 := with_cfe_flags _ entry1).
    destruct (set_info_entry_rest info2 (S n) entry2) as (Ho2 & Hs2 & Hr2 & Hf2).
    assert (Hord : forall j, In j (cfi_ordered_entries i') ->
              cfe_necp_control_unit (Ctl.info_entry info1 j) = Ctl.slot_control_unit r j).
    { intros j Hj. apply Hin in Hj. destruct Hj as [Hjn Hjs].
      unfold info1. rewrite info_entry_set_ne by lia. rewrite Hentry.
      replace (j <=? n)%nat with true by (symmetry; apply Nat.leb_le; lia).
      rewrite Hjs. reflexivity. }
    assert (Hordered : ordered
              = Ctl.ordered_insert (fun j => cfe_necp_control_unit (Ctl.info_entry info1 j))
                  (Ctl.slot_control_unit r (S n)) (S n) (cfi_ordered_entries i')).
    { unfold ordered. rewrite Ho1. cbn [cfe_necp_control_unit entry1]. rewrite Hncu. reflexivity. }
    constructor; cbn [fst snd].
    + rewrite length_set_slot. exact Hlr.
    + intros k. destruct (Nat.eq_dec k (S n)) as [->|Hne].
      * rewrite filter_slot_set_eq by lia.
        replace (S n <=? S n)%nat with true by (symmetry; apply Nat.leb_le; lia).
        unfold Ctl.unit_selected. rewrite Hcfc, Hsel. reflexivity.
      * rewrite filter_slot_set_ne by congruence. rewrite Hslot, Hle.
        replace (k =? S n)%nat with false by (symmetry; apply Nat.eqb_neq; exact Hne).
        rewrite orb_false_r. reflexivity.
    + destruct Hheads as (H1 & H2 & H3 & H4). repeat split; assumption.
    + rewrite length_set_info_entry. unfold info2. cbn [cfi_entries Ctl.with_cfi_ordered_entries].
      unfold info1. rewrite length_set_info_entry. exact Hli.
    + intros k. destruct (Nat.eq_dec k (S n)) as [->|Hne].
      * rewrite info_entry_set_eq.
        -- replace (S n <=? S n)%nat with true by (symmetry; apply Nat.leb_le; lia).
           unfold Ctl.unit_selected. rewrite Hcfc, Hsel. cbn [negb andb].
           unfold entry2, entry1, entry_attached_to, with_cfe_flags, set_flag.
           cbn [cfe_filter cfe_flags cfe_necp_control_unit cfe_snd cfe_rcv].
           rewrite Hncu. reflexivity.
        -- unfold info2. cbn [cfi_entries Ctl.with_cfi_ordered_entries].
           unfold info1. rewrite length_set_info_entry. lia.
      * rewrite info_entry_set_ne by congruence.
        change (Ctl.info_entry info2 k) with (Ctl.info_entry info1 k).
        unfold info1. rewrite info_entry_set_ne by congruence.
        rewrite Hentry, Hle.
        replace (k =? S n)%nat with false by (symmetry; apply Nat.eqb_neq; exact Hne).
        rewrite orb_false_r. reflexivity.
    + rewrite Ho2. unfold info2. cbn [cfi_ordered_entries Ctl.with_cfi_ordered_entries].
      rewrite Hordered. apply ordered_insert_sorted.
      * exact Hord.
      * intros j Hj. apply Hin in Hj. lia.
      * exact Hsorted.
    + intros k. rewrite Ho2. unfold info2.
      cbn [cfi_ordered_entries Ctl.with_cfi_ordered_entries].
      rewrite Hordered, ordered_insert_in, Hin. split.
      * intros [->|[Hk Hs]]; [split; [lia|]|split; [lia|exact Hs]].
        unfold Ctl.unit_selected. rewrite Hcfc, Hsel. reflexivity.
      * intros [Hk Hs]. destruct (Nat.eq_dec k (S n)) as [->|Hne]; [left; reflexivity|].
        right. split; [lia|exact Hs].
    + rewrite Hex, orb_true_r. reflexivity.
    + rewrite Hs2, Hr2, Hf2. unfold info2.
      cbn [cfi_snd cfi_rcv cfi_flags Ctl.with_cfi_ordered_entries].
      rewrite Hs1, Hr1, Hf1. exact Hbufs.
  - (* the unit is skipped *)
    match goal with |- attach_inv _ _ _ _ ?t => replace t with (attached, r', i') end.
    2:{ pose proof Hsel as Hs0. unfold Ctl.unit_selected in Hs0.
        destruct (Ctl.filter_slot r (S n)) as [cfc|]; [|reflexivity].
        apply negb_false_iff in Hs0. rewrite Hs0. reflexivity. }
    constructor; cbn [fst snd].
    + exact Hlr.
    + intros k. rewrite Hslot, Hle.
      destruct (Nat.eqb_spec k (S n)) as [->|Hne]; [|rewrite orb_false_r; reflexivity].
      rewrite Hsel, !andb_false_r. reflexivity.
    + exact Hheads.
    + exact Hli.
    + intros k. rewrite Hentry, Hle.
      destruct (Nat.eqb_spec k (S n)) as [->|Hne]; [|rewrite orb_false_r; reflexivity].
      rewrite Hsel, !andb_false_r. reflexivity.
    + exact Hsorted.
    + intros k. rewrite Hin. split.
      * intros [Hk Hs]. split; [lia|exact Hs].
      * intros [Hk Hs]. split; [|exact Hs].
        destruct (Nat.eq_dec k (S n)) as [->|Hne]; [congruence|lia].
    + rewrite Hex, orb_false_r. exact Hatt.
    + exact Hbufs.
Qed.

Lemma attach_inv_run r flow fcu info n :
  length (Ctl.content_filters r) = MAX_CONTENT_FILTER ->
  info = {| cfi_flags := 0; cfi_byte_inbound_count := 0; cfi_byte_outbound_count := 0;
            cfi_snd := fresh_infobuf; cfi_rcv := fresh_infobuf;
            cfi_entries := replicate MAX_CONTENT_FILTER empty_entry;
            cfi_ordered_entries := [] |} ->
  attach_inv r flow fcu n
    (fold_left (Ctl.attach_unit_step flow fcu) (seq 1 n) (0, r, info)).
Proof.
  intros Hlen ->. induction n as [|n IH].
  - cbn [seq fold_left]. constructor; cbn [fst snd cfi_entries cfi_ordered_entries].
    + exact Hlen.
    + intros k. destruct (Ctl.unit_selected r fcu k) eqn:Hs; [|rewrite andb_false_r; reflexivity].
      apply unit_selected_range in Hs; [|exact Hlen].
      replace (k <=? 0)%nat with false by (symmetry; apply Nat.leb_gt; lia). reflexivity.
    + repeat split; reflexivity.
    + apply length_replicate.
    + intros k. destruct (Ctl.unit_selected r fcu k) eqn:Hs.
      * apply unit_selected_range in Hs; [|exact Hlen].
        replace (k <=? 0)%nat with false by (symmetry; apply Nat.leb_gt; lia).
        cbn [andb]. destruct k as [|i]; [reflexivity|].
        unfold Ctl.info_entry. cbn [cfi_entries].
        rewrite lookup_replicate_2 by (unfold MAX_CONTENT_FILTER in *; lia). reflexivity.
      * rewrite andb_false_r. destruct k as [|i]; [reflexivity|].
        unfold Ctl.info_entry. cbn [cfi_entries].
        destruct (replicate MAX_CONTENT_FILTER empty_entry !! i) as [e|] eqn:He; [|reflexivity].
        apply lookup_replicate in He. destruct He as [-> _]. reflexivity.
    + constructor.
    + intros k. split; [intros []|]. intros [Hk Hs].
      apply unit_selected_range in Hs; [lia|exact Hlen].
    + reflexivity.
    + repeat split; reflexivity.
  - rewrite seq_S, fold_left_app. cbn [fold_left Nat.add].
    apply attach_inv_step; [exact Hlen|exact IH].
Qed.

Lemma attach_after_alloc r0 flow so_gencnt flowhash hash_entry fcu r1 info id st :
  length (Ctl.content_filters r0) = MAX_CONTENT_FILTER ->
  Ctl.cfil_info_alloc r0 flow so_gencnt flowhash hash_entry = (r1, info, id) ->
  Ctl.cfil_info_attach_unit r1 flow fcu info = st ->
  attach_inv r1 flow fcu MAX_CONTENT_FILTER st
  /\ (forall k, Ctl.filter_slot r1 k = Ctl.filter_slot r0 k)
  /\ (forall k, Ctl.unit_selected r1 fcu k = Ctl.unit_selected r0 fcu k)
  /\ (forall k, Ctl.slot_control_unit r1 k = Ctl.slot_control_unit r0 k).
Proof.
  intros Hlen Halloc <-. unfold Ctl.cfil_info_alloc in Halloc.
  injection Halloc as <- <- _.
  split; [|repeat split; intros [|k]; reflexivity].
  apply attach_inv_run; [exact Hlen|reflexivity].
Qed.

Lemma before_ext r r' :
  (forall k, Ctl.slot_control_unit r k = Ctl.slot_control_unit r' k) ->
  forall l, StronglySorted (Ctl.before r) l -> StronglySorted (Ctl.before r') l.
Proof.
  intros Hext l Hs. induction Hs as [|j l Hs IH Hall]; constructor; [exact IH|].
  eapply List.Forall_impl; [|exact Hall]. intros x. unfold Ctl.before.
  rewrite !Hext. exact (fun H => H).
Qed.

(** X19. [cfil_info_attach_unit], on the flow [cfil_info_alloc] has just
    made, attaches the flow to exactly the connected filters whose NECP
    control unit has a bit in common with [filter_control_unit], and
    keeps [cfi_ordered_entries] sorted by control unit, the entries of
    one control unit by unit.  Each of these entries points to its
    filter, carries the control unit of the filter and
    [CFEF_CFIL_ATTACHED], and each of these filters counts one more
    socket and has the flow at the tail of its entries; the other entries
    and filters are as they were.  The value returned is 1 if a filter
    was selected and 0 if none was. *)
Theorem cfil_info_attach_unit_ordered r0 flow so_gencnt flowhash hash_entry fcu
    r1 info id attached r' i' :
  length (Ctl.content_filters r0) = MAX_CONTENT_FILTER ->
  Ctl.cfil_info_alloc r0 flow so_gencnt flowhash hash_entry = (r1, info, id) ->
  Ctl.cfil_info_attach_unit r1 flow fcu info = (attached, r', i') ->
  (forall k, In k (cfi_ordered_entries i') <-> Ctl.unit_selected r0 fcu k = true)
  /\ StronglySorted (Ctl.before r0) (cfi_ordered_entries i')
  /\ (forall k, Ctl.info_entry i' k
                = if Ctl.unit_selected r0 fcu k then entry_attached_to r0 k else empty_entry)
  /\ (forall k, Ctl.filter_slot r' k
                = if Ctl.unit_selected r0 fcu k
                  then option_map (filter_with_flow flow) (Ctl.filter_slot r0 k)
                  else Ctl.filter_slot r0 k)
  /\ attached = (if existsb (Ctl.unit_selected r0 fcu) kcunits then 1 else 0).
Proof.
  intros Hlen Halloc Hattach.
  destruct (attach_after_alloc _ _ _ _ _ _ _ _ _ _ Hlen Halloc Hattach)
    as ([Hlr Hslot _ Hli Hentry Hsorted Hin Hatt _] & Hf & Hsel & Hncu).
  cbn [fst snd] in *.
  assert (Hle : forall k, Ctl.unit_selected r0 fcu k = true -> (k <=? MAX_CONTENT_FILTER)%nat = true).
  { intros k Hk. apply Nat.leb_le. apply (unit_selected_range r0 fcu k Hlen) in Hk. lia. }
  split; [|split; [|split; [|split]]].
  - intros k. rewrite Hin, Hsel. split; [intros [_ H]; exact H|].
    intros H. split; [apply Nat.leb_le, Hle, H|exact H].
  - apply (before_ext r1 r0 Hncu). exact Hsorted.
  - intros k. rewrite Hentry, Hsel.
    destruct (Ctl.unit_selected r0 fcu k) eqn:Hk; [|rewrite andb_false_r; reflexivity].
    rewrite (Hle k Hk). cbn [andb]. unfold entry_attached_to. rewrite Hncu. reflexivity.
  - intros k. rewrite Hslot, Hsel, Hf.
    destruct (Ctl.unit_selected r0 fcu k) eqn:Hk; [|rewrite andb_false_r; reflexivity].
    rewrite (Hle k Hk). reflexivity.
  - rewrite Hatt. unfold kcunits.
    assert (Hex : forall l, existsb (Ctl.unit_selected r1 fcu) l
                            = existsb (Ctl.unit_selected r0 fcu) l).
    { induction l as [|x l IH]; [reflexivity|]. cbn [existsb]. rewrite Hsel, IH. reflexivity. }
    rewrite Hex. reflexivity.
Qed.

Lemma chain_ok_blank o w l :
  (forall k, ebuf w k o = empty_buf) ->
  forall bound, 0 <= bound -> chain_ok o bound l w.
Proof.
  intros Hb. induction l as [|k l IH]; intros bound Hbound; cbn [chain_ok]; [exact I|].
  rewrite (Hb k).
  destruct (has_filter (entry_at w k)).
  - split; [|split].
    + unfold buf_ok, queue_bytes. cbn. lia.
    + cbn. exact Hbound.
    + apply IH. cbn. lia.
  - split; [split; reflexivity|]. apply IH. exact Hbound.
Qed.

(** X20. A flow that [cfil_info_alloc] and [cfil_info_attach_unit] have
    set up is in the state the data path relies on, for both directions:
    no entry is twice on [cfi_ordered_entries], every entry that points
    to a filter is on the list, and the queues of the entries along the
    list are in order (they are all empty). *)
Theorem attached_flow_is_ordered r0 flow so_gencnt flowhash hash_entry fcu
    r1 info id attached r' i' w o :
  length (Ctl.content_filters r0) = MAX_CONTENT_FILTER ->
  Ctl.cfil_info_alloc r0 flow so_gencnt flowhash hash_entry = (r1, info, id) ->
  Ctl.cfil_info_attach_unit r1 flow fcu info = (attached, r', i') ->
  flow_ok o (with_info i' w)
  /\ forall k, has_filter (entry_at (with_info i' w) k) = true
               <-> In k (cfi_ordered_entries i').
Proof.
  intros Hlen Halloc Hattach.
  destruct (attach_after_alloc _ _ _ _ _ _ _ _ _ _ Hlen Halloc Hattach)
    as ([Hlr Hslot _ Hli Hentry Hsorted Hin Hatt _] & Hf & Hsel & Hncu).
  cbn [fst snd] in *.
  assert (Hat : forall k, entry_at (with_info i' w) k = Ctl.info_entry i' k).
  { intros [|k]; reflexivity. }
  assert (Hhas : forall k, has_filter (entry_at (with_info i' w) k) = true
                           <-> In k (cfi_ordered_entries i')).
  { intros k. rewrite Hat, Hentry, Hin.
    destruct ((k <=? MAX_CONTENT_FILTER)%nat) eqn:Hk, (Ctl.unit_selected r1 fcu k) eqn:Hs;
      cbn [andb has_filter cfe_filter entry_attached_to empty_entry].
    - split; [intros _; split; [apply Nat.leb_le, Hk|reflexivity]|reflexivity].
    - split; [discriminate|intros [_ H]; discriminate].
    - apply Nat.leb_gt in Hk. split; [discriminate|intros [H _]; lia].
    - split; [discriminate|intros [_ H]; discriminate]. }
  split; [|exact Hhas].
  unfold flow_ok. cbn [w_info with_info]. split; [|split].
  - clear -Hsorted. induction Hsorted as [|j l Hs IH Hall]; constructor; [|exact IH].
    intros Hj. rewrite List.Forall_forall in Hall. apply list_elem_of_In in Hj.
    destruct (Hall j Hj) as [H|[_ H]]; lia.
  - intros k Hk. apply Hhas, Hk.
  - apply chain_ok_blank; [|lia]. intros k. unfold ebuf. rewrite Hat, Hentry.
    destruct ((k <=? MAX_CONTENT_FILTER)%nat && Ctl.unit_selected r1 fcu k), o; reflexivity.
Qed.

Lemma cfil_info_attach_unit_ordered_witness :
  exists r' i',
    Ctl.cfil_info_attach_unit three_agents 9 5
      (snd (fst (Ctl.cfil_info_alloc three_agents 9 7 8 None))) = (1, r', i')
    /\ cfi_ordered_entries i' = [2%nat; 1%nat]
    /\ StronglySorted (Ctl.before three_agents) (cfi_ordered_entries i').
Proof.
  eexists. eexists. split; [vm_compute; reflexivity|]. split; [reflexivity|].
  refine (proj1 (proj2 (cfil_info_attach_unit_ordered three_agents 9 7 8 None 5
                          _ _ _ _ _ _ eq_refl eq_refl _))).
  vm_compute. reflexivity.
Defined.

Lemma attached_flow_is_ordered_witness :
  exists i',
    snd (Ctl.cfil_info_attach_unit three_agents 9 5
           (snd (fst (Ctl.cfil_info_alloc three_agents 9 7 8 None)))) = i'
    /\ flow_ok true (with_info i' (fresh_world tcp_socket [])).
Proof.
  eexists. split; [vm_compute; reflexivity|].
  refine (proj1 (attached_flow_is_ordered three_agents 9 7 8 None 5
                   _ _ _ _ _ _ (fresh_world tcp_socket []) true eq_refl eq_refl _)).
  vm_compute. reflexivity.
Defined.

Lemma tailq_remove_last x l :
  ~ In x l -> Ctl.tailq_remove x (l ++ [x]) = l.
Proof.
  induction l as [|y l IH]; intros Hn; cbn [Ctl.tailq_remove app].
  - rewrite Nat.eqb_refl. reflexivity.
  - destruct (Nat.eqb_spec y x) as [->|Hne]; [exfalso; apply Hn; left; reflexivity|].
    rewrite IH; [reflexivity|]. intros H. apply Hn. right. exact H.
Qed.

Lemma filter_without_flow flow c :
  ~ In flow (Ctl.cf_sock_entries c) ->
  0 <= Ctl.cf_sock_count c < 2 ^ 32 ->
  Ctl.with_cf_sock_entries
    (u32 (Ctl.cf_sock_count (filter_with_flow flow c) - 1))
    (Ctl.tailq_remove flow (Ctl.cf_sock_entries (filter_with_flow flow c)))
    (filter_with_flow flow c) = c.
Proof.
  intros Hn Hc. destruct c as [a u f ncu cnt es]. cbn in Hn, Hc.
  unfold filter_with_flow, Ctl.with_cf_sock_entries.
  cbn [Ctl.cf_addr Ctl.cf_kcunit Ctl.cf_flags Ctl.cf_necp_control_unit
       Ctl.cf_sock_count Ctl.cf_sock_entries].
  rewrite tailq_remove_last by exact Hn. f_equal.
  unfold u32. rewrite Zminus_mod_idemp_l. replace (cnt + 1 - 1) with cnt by lia.
  apply Z.mod_small. exact Hc.
Qed.

Lemma free_inv_step r r2 flow fcu n st :
  length (Ctl.content_filters r) = MAX_CONTENT_FILTER ->
  (forall k c, Ctl.filter_slot r k = Some c ->
               ~ In flow (Ctl.cf_sock_entries c) /\ 0 <= Ctl.cf_sock_count c < 2 ^ 32) ->
  (forall k, Ctl.filter_slot r2 k
             = if Ctl.unit_selected r fcu k
               then option_map (filter_with_flow flow) (Ctl.filter_slot r k)
               else Ctl.filter_slot r k) ->
  free_inv r r2 fcu n st ->
  free_inv r r2 fcu (S n) (Ctl.free_unit_step flow st (S n)).
Proof.
  intros Hlen Hclean Hr2 [Hlr Hslot Hheads Hli Hentry Hbufs].
  destruct st as [r' i']. cbn [fst snd] in *.
  assert (Hle : forall k, (k <=? S n)%nat = (k <=? n)%nat || (k =? S n)%nat).
  { intros k. destruct (Nat.leb_spec k (S n)), (Nat.leb_spec k n), (Nat.eqb_spec k (S n));
      cbn [orb]; try reflexivity; lia. }
  assert (Hnn : (S n <=? n)%nat = false) by (apply Nat.leb_gt; lia).
  assert (Hcur : Ctl.filter_slot r' (S n) = Ctl.filter_slot r2 (S n)).
  { rewrite Hslot, Hnn. reflexivity. }
  unfold Ctl.free_unit_step. rewrite Hentry, Hnn, Hcur, Hr2.
  destruct (Ctl.unit_selected r fcu (S n)) eqn:Hsel.
  - pose proof (unit_selected_range r fcu (S n) Hlen Hsel) as Hrange.
    pose proof Hsel as Hsel0. unfold Ctl.unit_selected in Hsel0.
    destruct (Ctl.filter_slot r (S n)) as [cfc|] eqn:Hcfc; [|discriminate].
    destruct (Hclean _ _ Hcfc) as [Hnin Hcnt].
    cbn [cfe_filter entry_attached_to option_map cfe_flags cfe_snd cfe_rcv].
    rewrite filter_without_flow by assumption.
    fold entry_detached.
    destruct (set_info_entry_rest i' (S n) entry_detached) as (_ & Hs1 & Hr1 & _).
    constructor; cbn [fst snd].
    + rewrite length_set_slot. exact Hlr.
    + intros k. destruct (Nat.eq_dec k (S n)) as [->|Hne].
      * rewrite filter_slot_set_eq by lia.
        replace (S n <=? S n)%nat with true by (symmetry; apply Nat.leb_le; lia).
        symmetry. exact Hcfc.
      * rewrite filter_slot_set_ne by congruence. rewrite Hslot, Hle.
        replace (k =? S n)%nat with false by (symmetry; apply Nat.eqb_neq; exact Hne).
        rewrite orb_false_r. reflexivity.
    + destruct Hheads as (H1 & H2 & H3 & H4). repeat split; assumption.
    + rewrite length_set_info_entry. exact Hli.
    + intros k. destruct (Nat.eq_dec k (S n)) as [->|Hne].
      * rewrite info_entry_set_eq by lia. rewrite Hsel.
        replace (S n <=? S n)%nat with true by (symmetry; apply Nat.leb_le; lia).
        reflexivity.
      * rewrite info_entry_set_ne by congruence. rewrite Hentry, Hle.
        replace (k =? S n)%nat with false by (symmetry; apply Nat.eqb_neq; exact Hne).
        rewrite orb_false_r. reflexivity.
    + rewrite Hs1, Hr1. exact Hbufs.
  - cbn [cfe_filter empty_entry].
    constructor; cbn [fst snd].
    + exact Hlr.
    + intros k. rewrite Hslot, Hle.
      destruct (Nat.eqb_spec k (S n)) as [->|Hne]; [|rewrite orb_false_r; reflexivity].
      rewrite Hnn, Hr2, Hsel. reflexivity.
    + exact Hheads.
    + exact Hli.
    + intros k. rewrite Hentry, Hle.
      destruct (Nat.eqb_spec k (S n)) as [->|Hne]; [|rewrite orb_false_r; reflexivity].
      rewrite Hsel. reflexivity.
    + exact Hbufs.
Qed.

Lemma free_inv_run r r2 flow fcu i2 n :
  length (Ctl.content_filters r) = MAX_CONTENT_FILTER ->
  (forall k c, Ctl.filter_slot r k = Some c ->
               ~ In flow (Ctl.cf_sock_entries c) /\ 0 <= Ctl.cf_sock_count c < 2 ^ 32) ->
  (forall k, Ctl.filter_slot r2 k
             = if Ctl.unit_selected r fcu k
               then option_map (filter_with_flow flow) (Ctl.filter_slot r k)
               else Ctl.filter_slot r k) ->
  free_inv r r2 fcu 0 (r2, i2) ->
  free_inv r r2 fcu n (fold_left (Ctl.free_unit_step flow) (seq 1 n) (r2, i2)).
Proof.
  intros Hlen Hclean Hr2 H0. induction n as [|n IH]; [exact H0|].
  rewrite seq_S, fold_left_app. cbn [fold_left Nat.add].
  apply free_inv_step; assumption.
Qed.

Lemma with_cfi_entries_id i : with_cfi_entries (cfi_entries i) i = i.
Proof. destruct i. reflexivity. Qed.

Lemma drain_unit_step_blank i k :
  cfe_snd (Ctl.info_entry i k) = empty_buf ->
  cfe_rcv (Ctl.info_entry i k) = empty_buf ->
  Ctl.drain_unit_step i k = i.
Proof.
  intros Hs Hr. unfold Ctl.drain_unit_step.
  assert (He : with_entrybuf false (Ctl.drain_entrybuf (cfe_rcv (Ctl.info_entry i k)))
                 (with_entrybuf true (Ctl.drain_entrybuf (cfe_snd (Ctl.info_entry i k)))
                    (Ctl.info_entry i k)) = Ctl.info_entry i k).
  { rewrite Hs, Hr. destruct (Ctl.info_entry i k) as [f fl ncu s rcv]. cbn in Hs, Hr.
    subst s rcv. reflexivity. }
  rewrite He. destruct k as [|n]; [reflexivity|].
  unfold Ctl.set_info_entry, Ctl.info_entry.
  destruct (cfi_entries i !! n) as [e|] eqn:Hn.
  - cbn [default from_option]. rewrite list_insert_id by exact Hn. apply with_cfi_entries_id.
  - rewrite list_insert_ge by (apply lookup_ge_None; exact Hn). apply with_cfi_entries_id.
Qed.

Lemma drain_loop_blank i l :
  (forall k, cfe_snd (Ctl.info_entry i k) = empty_buf
             /\ cfe_rcv (Ctl.info_entry i k) = empty_buf) ->
  fold_left Ctl.drain_unit_step l i = i.
Proof.
  intros Hb. induction l as [|k l IH]; [reflexivity|].
  cbn [fold_left]. rewrite drain_unit_step_blank by apply Hb. exact IH.
Qed.

Lemma content_filters_ext l1 l2 :
  length l1 = length l2 ->
  (forall i, default None (l1 !! i) = default (None : option Ctl.content_filter) (l2 !! i)) ->
  l1 = l2.
Proof.
  intros Hlen Hext. apply list_eq. intros i. specialize (Hext i).
  destruct (l1 !! i) as [x|] eqn:H1, (l2 !! i) as [y|] eqn:H2; cbn in Hext.
  - rewrite Hext. reflexivity.
  - apply lookup_lt_Some in H1. apply lookup_ge_None in H2. lia.
  - apply lookup_ge_None in H1. apply lookup_lt_Some in H2. lia.
  - reflexivity.
Qed.

(** X21. Freeing a flow undoes its attachment.  When the flow is not yet
    on a list of the registry and the counters are 32-bit values,
    [cfil_info_alloc], [cfil_info_attach_unit] and then [cfil_info_free]
    leave the registry exactly as it was: every filter has its socket
    count and its entries back, and the list and the count of the flows
    are as before.  The freed flow points to no filter any more. *)
Theorem attach_then_free_restores r0 flow so_gencnt flowhash hash_entry fcu
    r1 info id attached r2 i2 r3 i3 :
  length (Ctl.content_filters r0) = MAX_CONTENT_FILTER ->
  ~ In flow (Ctl.cfil_sock_head r0) ->
  0 <= Ctl.cfil_sock_attached_count r0 < 2 ^ 32 ->
  (forall k c, Ctl.filter_slot r0 k = Some c ->
               ~ In flow (Ctl.cf_sock_entries c) /\ 0 <= Ctl.cf_sock_count c < 2 ^ 32) ->
  Ctl.cfil_info_alloc r0 flow so_gencnt flowhash hash_entry = (r1, info, id) ->
  Ctl.cfil_info_attach_unit r1 flow fcu info = (attached, r2, i2) ->
  Ctl.cfil_info_free r2 flow i2 = (r3, i3) ->
  r3 = r0
  /\ forall k, cfe_filter (Ctl.info_entry i3 k) = None
               /\ cfe_necp_control_unit (Ctl.info_entry i3 k) = 0.
Proof.
  intros Hlen Hhead Hcount Hclean Halloc Hattach Hfree.
  destruct (attach_after_alloc _ _ _ _ _ _ _ _ _ _ Hlen Halloc Hattach)
    as ([Hlr Hslot Hheads Hli Hentry _ _ _ Hbufs] & Hf & Hsel & Hncu).
  cbn [fst snd] in *.
  assert (Hle : forall k, Ctl.unit_selected r0 fcu k = true -> (k <=? MAX_CONTENT_FILTER)%nat = true).
  { intros k Hk. apply Nat.leb_le. apply (unit_selected_range r0 fcu k Hlen) in Hk. lia. }
  assert (Hr2 : forall k, Ctl.filter_slot r2 k
             = if Ctl.unit_selected r0 fcu k
               then option_map (filter_with_flow flow) (Ctl.filter_slot r0 k)
               else Ctl.filter_slot r0 k).
  { intros k. rewrite Hslot, Hsel, Hf.
    destruct (Ctl.unit_selected r0 fcu k) eqn:Hk; [|rewrite andb_false_r; reflexivity].
    rewrite (Hle k Hk). reflexivity. }
  assert (H0 : free_inv r0 r2 fcu 0 (r2, i2)).
  { constructor; cbn [fst snd].
    - exact Hlr.
    - intros k. destruct k as [|k]; [|reflexivity].
      cbn [Nat.leb]. rewrite Hr2. destruct (Ctl.unit_selected r0 fcu 0); reflexivity.
    - repeat split; reflexivity.
    - exact Hli.
    - intros k. rewrite Hentry, Hsel.
      destruct (Ctl.unit_selected r0 fcu k) eqn:Hk; [|rewrite andb_false_r; reflexivity].
      rewrite (Hle k Hk). cbn [andb].
      replace (k <=? 0)%nat with false.
      + unfold entry_attached_to. rewrite Hncu. reflexivity.
      + symmetry. apply Nat.leb_gt. apply (unit_selected_range r0 fcu k Hlen) in Hk. lia.
    - destruct Hbufs as (H1 & H2 & _). split; assumption. }
  pose proof (free_inv_run r0 r2 flow fcu i2 MAX_CONTENT_FILTER Hlen Hclean Hr2 H0) as Hrun.
  unfold Ctl.cfil_info_free in Hfree. fold kcunits in Hrun.
  destruct (fold_left (Ctl.free_unit_step flow) kcunits (r2, i2)) as [ra ia] eqn:Hloop.
  destruct Hrun as [Hla Hsa Hha Hlia Hea Hba]. cbn [fst snd] in Hla, Hsa, Hha, Hlia, Hea, Hba.
  assert (Hr3 : r3 = Ctl.with_sock_head (Ctl.tailq_remove flow (Ctl.cfil_sock_head ra))
                       (u32 (Ctl.cfil_sock_attached_count ra - 1)) ra).
  { apply (f_equal fst) in Hfree. symmetry. exact Hfree. }
  assert (Hi3 : i3 = fold_left Ctl.drain_unit_step kcunits
                       (with_infobuf false (drain_inject_q (cfi_rcv ia))
                          (with_infobuf true (drain_inject_q (cfi_snd ia)) ia))).
  { apply (f_equal snd) in Hfree. symmetry. exact Hfree. }
  clear Hfree. subst r3 i3.
  assert (Hdrain : forall k,
            Ctl.info_entry
              (with_infobuf false (drain_inject_q (cfi_rcv ia))
                 (with_infobuf true (drain_inject_q (cfi_snd ia)) ia)) k
            = Ctl.info_entry ia k).
  { intros [|k]; reflexivity. }
  split.
  - unfold Ctl.cfil_info_alloc in Halloc. injection Halloc as Hr1 _ _.
    destruct Hha as (Hh1 & Hh2 & Hh3 & Hh4). destruct Hheads as (Hg1 & Hg2 & Hg3 & Hg4).
    destruct r0 as [fs0 ac0 bf0 sh0 sc0]. destruct ra as [fsa aca bfa sha sca].
    subst r1. cbn in Hh1, Hh2, Hh3, Hh4, Hg1, Hg2, Hg3, Hg4, Hhead, Hcount, Hla, Hlen.
    unfold Ctl.with_sock_head.
    cbn [Ctl.content_filters Ctl.cfil_active_count Ctl.cfil_behavior_flags
         Ctl.cfil_sock_head Ctl.cfil_sock_attached_count].
    rewrite Hh1, Hh2, Hh3, Hh4, Hg1, Hg2, Hg3, Hg4.
    rewrite tailq_remove_last by exact Hhead.
    f_equal.
    + apply content_filters_ext; [congruence|]. intros i.
      specialize (Hsa (S i)). cbn [Ctl.filter_slot Ctl.content_filters] in Hsa.
      destruct (Nat.leb_spec (S i) MAX_CONTENT_FILTER) as [Hi|Hi]; [exact Hsa|].
      rewrite !lookup_ge_None_2 by lia. reflexivity.
    + unfold u32. rewrite Zminus_mod_idemp_l. replace (sc0 + 1 - 1) with sc0 by lia.
      apply Z.mod_small. exact Hcount.
  - intros k. rewrite drain_loop_blank.
    + rewrite Hdrain, Hea.
      destruct (Ctl.unit_selected r0 fcu k) eqn:Hk; [|split; reflexivity].
      rewrite (Hle k Hk). split; reflexivity.
    + intros j. rewrite Hdrain, Hea.
      destruct (Ctl.unit_selected r0 fcu j), (j <=? MAX_CONTENT_FILTER)%nat; split; reflexivity.
Qed.

Lemma attach_then_free_restores_witness :
  fst (Ctl.cfil_info_free
         (snd (fst (Ctl.cfil_info_attach_unit
                      (fst (fst (Ctl.cfil_info_alloc three_agents 9 7 8 None))) 9 5
                      (snd (fst (Ctl.cfil_info_alloc three_agents 9 7 8 None))))))
         9
         (snd (Ctl.cfil_info_attach_unit
                 (fst (fst (Ctl.cfil_info_alloc three_agents 9 7 8 None))) 9 5
                 (snd (fst (Ctl.cfil_info_alloc three_agents 9 7 8 None))))))
  = three_agents.
Proof.
  refine (proj1 (attach_then_free_restores three_agents 9 7 8 None 5
                   _ _ _ _ _ _ _
                   (snd (Ctl.cfil_info_free
                      (snd (fst (Ctl.cfil_info_attach_unit
                         (fst (fst (Ctl.cfil_info_alloc three_agents 9 7 8 None))) 9 5
                         (snd (fst (Ctl.cfil_info_alloc three_agents 9 7 8 None))))))
                      9
                      (snd (Ctl.cfil_info_attach_unit
                         (fst (fst (Ctl.cfil_info_alloc three_agents 9 7 8 None))) 9 5
                         (snd (fst (Ctl.cfil_info_alloc three_agents 9 7 8 None)))))))
                   eq_refl _ _ _ _ _ _)).
  - intros [].
  - cbn. lia.
  - intros k c Hk. apply filter_slot_lookup in Hk. destruct Hk as (i & -> & Hi).
    do 3 (destruct i as [|i]; [injection Hi as <-; split; [intros []|cbn; lia]|]).
    do 5 (destruct i as [|i]; [discriminate|]). discriminate.
  - vm_compute. reflexivity.
  - vm_compute. reflexivity.
  - vm_compute. reflexivity.
Defined.

(** ** The flows that asked for periodic statistics
       ([cfil_info_stats_toggle]) *)

Lemma entry_frequency_set_eq s flow k v a :
  Stats.stats_report_frequency s !! flow = Some a ->
  (1 <= k <= length a)%nat ->
  Stats.entry_frequency (Stats.set_entry_frequency flow k v s) flow k = v.
Proof.
  intros Ha Hk. destruct k as [|j]; [lia|].
  unfold Stats.entry_frequency, Stats.set_entry_frequency.
  cbn [Stats.stats_report_frequency].
  rewrite list_lookup_insert_eq by (apply lookup_lt_Some in Ha; exact Ha).
  rewrite Ha. cbn [from_option id].
  rewrite list_lookup_insert_eq by lia. reflexivity.
Qed.

Lemma entry_frequency_set_ne s flow k v flow' k' :
  flow <> flow' \/ k <> k' ->
  Stats.entry_frequency (Stats.set_entry_frequency flow k v s) flow' k'
  = Stats.entry_frequency s flow' k'.
Proof.
  intros Hne. destruct k as [|j]; [reflexivity|]. destruct k' as [|j']; [reflexivity|].
  unfold Stats.entry_frequency, Stats.set_entry_frequency.
  cbn [Stats.stats_report_frequency].
  destruct (Nat.eq_dec flow flow') as [<-|Hf].
  - destruct (Stats.stats_report_frequency s !! flow) as [a|] eqn:Ha.
    + rewrite list_lookup_insert_eq by (apply lookup_lt_Some in Ha; exact Ha).
      cbn [from_option id].
      rewrite list_lookup_insert_ne by (destruct Hne; congruence). reflexivity.
    + rewrite list_insert_ge by (apply lookup_ge_None; exact Ha). rewrite Ha. reflexivity.
  - rewrite list_lookup_insert_ne by exact Hf. reflexivity.
Qed.

Lemma set_entry_frequency_rest flow k v s :
  Stats.cfil_sock_head_stats (Stats.set_entry_frequency flow k v s) = Stats.cfil_sock_head_stats s
  /\ Stats.cfil_sock_attached_stats_count (Stats.set_entry_frequency flow k v s)
     = Stats.cfil_sock_attached_stats_count s
  /\ Stats.stats_thread_wakeups (Stats.set_entry_frequency flow k v s)
     = Stats.stats_thread_wakeups s.
Proof. destruct k; repeat split; reflexivity. Qed.

Lemma set_entry_frequency_arrays flow k v s :
  (forall f a, Stats.stats_report_frequency s !! f = Some a -> length a = MAX_CONTENT_FILTER) ->
  forall f a, Stats.stats_report_frequency (Stats.set_entry_frequency flow k v s) !! f = Some a ->
              length a = MAX_CONTENT_FILTER.
Proof.
  intros Hs f a. destruct k as [|j]; [apply Hs|].
  unfold Stats.set_entry_frequency. cbn [Stats.stats_report_frequency].
  destruct (Nat.eq_dec flow f) as [<-|Hne].
  - destruct (Stats.stats_report_frequency s !! flow) as [a0|] eqn:Ha.
    + rewrite list_lookup_insert_eq by (apply lookup_lt_Some in Ha; exact Ha).
      intros [= <-]. cbn [from_option id]. rewrite length_insert. apply (Hs flow), Ha.
    + rewrite list_insert_ge by (apply lookup_ge_None; exact Ha). rewrite Ha. discriminate.
  - rewrite list_lookup_insert_ne by exact Hne. apply Hs.
Qed.

Lemma on_stats_list_In s flow :
  Stats.on_stats_list s flow = true <-> In flow (Stats.cfil_sock_head_stats s).
Proof.
  unfold Stats.on_stats_list. rewrite existsb_exists. split.
  - intros (x & Hin & Hx). apply Nat.eqb_eq in Hx. subst x. exact Hin.
  - intros Hin. exists flow. split; [exact Hin|apply Nat.eqb_refl].
Qed.

Lemma wants_stats_spec s flow :
  Stats.wants_stats s flow = true
  <-> exists k, In k kcunits /\ 0 < Stats.entry_frequency s flow k.
Proof.
  unfold Stats.wants_stats. rewrite existsb_exists. split.
  - intros (k & Hin & Hk). exists k. split; [exact Hin|]. apply Z.gtb_lt in Hk. exact Hk.
  - intros (k & Hin & Hk). exists k. split; [exact Hin|]. apply Z.gtb_lt. exact Hk.
Qed.

Lemma tailq_remove_In x y l :
  NoDup l -> (In y (Ctl.tailq_remove x l) <-> y <> x /\ In y l).
Proof.
  induction l as [|z l IH]; intros Hnd; cbn [Ctl.tailq_remove In].
  - intuition.
  - apply NoDup_cons in Hnd. destruct Hnd as [Hz Hnd]. rewrite list_elem_of_In in Hz.
    destruct (Nat.eqb_spec z x) as [->|Hne].
    + split.
      * intros Hy. split; [|right; exact Hy]. intros ->. apply Hz. exact Hy.
      * intros [Hy [->|Hin]]; [contradiction|exact Hin].
    + cbn [In]. rewrite IH by exact Hnd. split.
      * intros [->|[Hy Hin]]; [split; [exact Hne|left; reflexivity]|split; [exact Hy|right; exact Hin]].
      * intros [Hy [->|Hin]]; [left; reflexivity|right; split; assumption].
Qed.

Lemma tailq_remove_NoDup x l : NoDup l -> NoDup (Ctl.tailq_remove x l).
Proof.
  induction l as [|z l IH]; intros Hnd; cbn [Ctl.tailq_remove]; [constructor|].
  apply NoDup_cons in Hnd. destruct Hnd as [Hz Hnd]. rewrite list_elem_of_In in Hz.
  destruct (Nat.eqb_spec z x) as [->|Hne]; [exact Hnd|].
  apply NoDup_cons. split; [|apply IH, Hnd].
  rewrite list_elem_of_In. intros Hin. apply tailq_remove_In in Hin; [|exact Hnd]. apply Hz, Hin.
Qed.

Lemma tailq_remove_length x l :
  In x l -> S (length (Ctl.tailq_remove x l)) = length l.
Proof.
  induction l as [|z l IH]; cbn [Ctl.tailq_remove In length]; [intros []|].
  destruct (Nat.eqb_spec z x) as [->|Hne]; [reflexivity|].
  intros [->|Hin]; [contradiction|]. cbn [length]. rewrite IH by exact Hin. reflexivity.
Qed.

Lemma u32_succ n : u32 (u32 n + 1) = u32 (n + 1).
Proof. unfold u32. rewrite Zplus_mod_idemp_l. reflexivity. Qed.

Lemma u32_pred n : u32 (u32 n - 1) = u32 (n - 1).
Proof. unfold u32. rewrite Zminus_mod_idemp_l. reflexivity. Qed.

Lemma stats_remove_eq s flow :
  Stats.stats_remove s flow
  = if Stats.on_stats_list s flow
    then {| Stats.stats_report_frequency := Stats.stats_report_frequency s;
            Stats.cfil_sock_head_stats := Ctl.tailq_remove flow (Stats.cfil_sock_head_stats s);
            Stats.cfil_sock_attached_stats_count :=
              u32 (Stats.cfil_sock_attached_stats_count s - 1);
            Stats.stats_thread_wakeups := Stats.stats_thread_wakeups s |}
    else s.
Proof.
  unfold Stats.stats_remove, Stats.on_stats_list.
  destruct (Stats.cfil_sock_head_stats s); reflexivity.
Qed.

Lemma stats_remove_ok s flow :
  (forall f a, Stats.stats_report_frequency s !! f = Some a -> length a = MAX_CONTENT_FILTER) ->
  NoDup (Stats.cfil_sock_head_stats s) ->
  Stats.cfil_sock_attached_stats_count s
  = u32 (Z.of_nat (length (Stats.cfil_sock_head_stats s))) ->
  (forall f, f <> flow ->
             (In f (Stats.cfil_sock_head_stats s) <-> Stats.wants_stats s f = true)) ->
  Stats.wants_stats s flow = false ->
  (forall f k, Stats.entry_frequency s f k = 0
               \/ Stats.CFIL_STATS_REPORT_INTERVAL_MIN_MSEC <= Stats.entry_frequency s f k) ->
  Stats.stats_ok (Stats.stats_remove s flow).
Proof.
  intros Harr Hnd Hcnt Hlist Hno Hmin.
  assert (Hwant : forall s', Stats.stats_report_frequency s' = Stats.stats_report_frequency s ->
                             forall f, Stats.wants_stats s' f = Stats.wants_stats s f).
  { intros s' Hs' f. unfold Stats.wants_stats, Stats.entry_frequency. rewrite Hs'. reflexivity. }
  assert (Hkeep : ~ In flow (Stats.cfil_sock_head_stats s) -> Stats.stats_ok s).
  { intros Hnin. constructor; try assumption. intros f.
    destruct (Nat.eq_dec f flow) as [->|Hne]; [|apply Hlist, Hne].
    rewrite Hno. split; [contradiction|discriminate]. }
  rewrite stats_remove_eq. destruct (Stats.on_stats_list s flow) eqn:Hon.
  - apply on_stats_list_In in Hon. constructor; cbn [Stats.stats_report_frequency
      Stats.cfil_sock_head_stats Stats.cfil_sock_attached_stats_count].
    + exact Harr.
    + apply tailq_remove_NoDup. exact Hnd.
    + rewrite Hcnt, u32_pred. f_equal.
      pose proof (tailq_remove_length flow _ Hon) as Hlen. lia.
    + intros f.
      match goal with |- _ <-> Stats.wants_stats ?s' f = true => rewrite (Hwant s' eq_refl f) end.
      rewrite tailq_remove_In by exact Hnd.
      destruct (Nat.eq_dec f flow) as [->|Hne].
      * rewrite Hno. split; [intros [H _]; contradiction|discriminate].
      * rewrite <- (Hlist f Hne). split; [intros [_ H]; exact H|intros H; split; assumption].
    + exact Hmin.
  - apply Hkeep. intros Hin. apply on_stats_list_In in Hin. congruence.
Qed.

Lemma wants_stats_set_ne s flow k v f :
  flow <> f ->
  Stats.wants_stats (Stats.set_entry_frequency flow k v s) f = Stats.wants_stats s f.
Proof.
  intros Hne. unfold Stats.wants_stats. induction kcunits as [|x l IH]; [reflexivity|].
  cbn [existsb]. rewrite IH. rewrite entry_frequency_set_ne by (left; exact Hne). reflexivity.
Qed.

Lemma stats_min_set s flow k v :
  (v = 0 \/ Stats.CFIL_STATS_REPORT_INTERVAL_MIN_MSEC <= v) ->
  (forall f j, Stats.entry_frequency s f j = 0
               \/ Stats.CFIL_STATS_REPORT_INTERVAL_MIN_MSEC <= Stats.entry_frequency s f j) ->
  forall f j,
    Stats.entry_frequency (Stats.set_entry_frequency flow k v s) f j = 0
    \/ Stats.CFIL_STATS_REPORT_INTERVAL_MIN_MSEC
       <= Stats.entry_frequency (Stats.set_entry_frequency flow k v s) f j.
Proof.
  intros Hv Hmin f j.
  destruct (Nat.eq_dec flow f) as [<-|Hf]; [destruct (Nat.eq_dec k j) as [<-|Hk]|].
  - destruct k as [|i]; [left; reflexivity|].
    unfold Stats.entry_frequency, Stats.set_entry_frequency.
    cbn [Stats.stats_report_frequency].
    destruct (Stats.stats_report_frequency s !! flow) as [a|] eqn:Ha.
    + rewrite list_lookup_insert_eq by (apply lookup_lt_Some in Ha; exact Ha).
      cbn [from_option id].
      destruct (a !! i) as [x|] eqn:Hi.
      * rewrite list_lookup_insert_eq by (apply lookup_lt_Some in Hi; exact Hi). exact Hv.
      * rewrite list_insert_ge by (apply lookup_ge_None; exact Hi). rewrite Hi. left. reflexivity.
    + rewrite list_insert_ge by (apply lookup_ge_None; exact Ha). rewrite Ha. left. reflexivity.
  - rewrite entry_frequency_set_ne by (right; exact Hk). apply Hmin.
  - rewrite entry_frequency_set_ne by (left; exact Hf). apply Hmin.
Qed.

Lemma toggle_ok s flow k f :
  Stats.stats_ok s ->
  (flow < length (Stats.stats_report_frequency s))%nat ->
  (1 <= k <= MAX_CONTENT_FILTER)%nat ->
  0 <= f ->
  Stats.stats_ok (Stats.toggle s (flow, k, f))
  /\ Stats.entry_frequency (Stats.toggle s (flow, k, f)) flow k
     = (if f =? 0 then 0 else Z.max f Stats.CFIL_STATS_REPORT_INTERVAL_MIN_MSEC)
  /\ length (Stats.stats_report_frequency (Stats.toggle s (flow, k, f)))
     = length (Stats.stats_report_frequency s).
Proof.
  intros Hok Hflow Hk Hf. pose proof Hok as [Harr Hnd Hcnt Hlist Hmin].
  destruct (Stats.stats_report_frequency s !! flow) as [a|] eqn:Ha;
    [|apply lookup_ge_None in Ha; lia].
  pose proof (Harr _ _ Ha) as Hlen.
  assert (Hkin : In k kcunits).
  { unfold kcunits. apply in_seq. lia. }
  assert (Hlenset : forall v, length (Stats.stats_report_frequency
                                        (Stats.set_entry_frequency flow k v s))
                              = length (Stats.stats_report_frequency s)).
  { intros v. destruct k as [|j]; [reflexivity|].
    unfold Stats.set_entry_frequency. cbn [Stats.stats_report_frequency]. apply length_insert. }
  unfold Stats.toggle, Stats.cfil_info_stats_toggle.
  destruct (Z.eqb_spec f 0) as [->|Hf0]; cbn [negb].
  - (* turn the reports off *)
    destruct (Z.eqb_spec (Stats.entry_frequency s flow k) 0) as [He|He].
    + split; [exact Hok|]. split; [exact He|reflexivity].
    + set (s1 := Stats.set_entry_frequency flow k 0 s).
      destruct (set_entry_frequency_rest flow k 0 s) as (Hh1 & Hc1 & _). fold s1 in Hh1, Hc1.
      assert (Harr1 : forall f a, Stats.stats_report_frequency s1 !! f = Some a ->
                                  length a = MAX_CONTENT_FILTER).
      { apply set_entry_frequency_arrays, Harr. }
      assert (Hmin1 : forall f j, Stats.entry_frequency s1 f j = 0
                        \/ Stats.CFIL_STATS_REPORT_INTERVAL_MIN_MSEC <= Stats.entry_frequency s1 f j).
      { apply stats_min_set; [left; reflexivity|exact Hmin]. }
      assert (Hother : forall f, f <> flow ->
                (In f (Stats.cfil_sock_head_stats s1) <-> Stats.wants_stats s1 f = true)).
      { intros f Hne. rewrite Hh1. unfold s1. rewrite wants_stats_set_ne by congruence.
        apply Hlist. }
      assert (Hwas : In flow (Stats.cfil_sock_head_stats s)).
      { apply Hlist, wants_stats_spec. exists k. split; [exact Hkin|].
        destruct (Hmin flow k) as [H|H]; [contradiction|].
        unfold Stats.CFIL_STATS_REPORT_INTERVAL_MIN_MSEC in H. lia. }
      assert (Hset : Stats.entry_frequency s1 flow k = 0).
      { unfold s1. apply (entry_frequency_set_eq s flow k 0 a Ha). lia. }
      fold (Stats.wants_stats s1 flow).
      destruct (Stats.wants_stats s1 flow) eqn:Hw.
      * split; [|split; [exact Hset|apply Hlenset]].
        constructor.
        -- exact Harr1.
        -- rewrite Hh1. exact Hnd.
        -- rewrite Hc1, Hh1. exact Hcnt.
        -- intros f'. destruct (Nat.eq_dec f' flow) as [->|Hne]; [|apply Hother, Hne].
           rewrite Hw, Hh1. split; [reflexivity|intros _; exact Hwas].
        -- exact Hmin1.
      * split; [apply stats_remove_ok; try assumption|].
        -- rewrite Hh1. exact Hnd.
        -- rewrite Hc1, Hh1. exact Hcnt.
        -- rewrite stats_remove_eq.
           destruct (Stats.on_stats_list s1 flow); split; try exact Hset; apply Hlenset.
  - (* set the frequency *)
    destruct (Z.eqb_spec (Stats.entry_frequency s flow k) f) as [He|He]; cbn [negb].
    + split; [exact Hok|]. split; [|reflexivity].
      rewrite He. destruct (Hmin flow k) as [H|H]; [congruence|]. lia.
    + set (v := if f <? Stats.CFIL_STATS_REPORT_INTERVAL_MIN_MSEC
                then Stats.CFIL_STATS_REPORT_INTERVAL_MIN_MSEC else f).
      assert (Hv : v = Z.max f Stats.CFIL_STATS_REPORT_INTERVAL_MIN_MSEC).
      { unfold v. destruct (Z.ltb_spec f Stats.CFIL_STATS_REPORT_INTERVAL_MIN_MSEC); lia. }
      assert (Hvmin : Stats.CFIL_STATS_REPORT_INTERVAL_MIN_MSEC <= v) by lia.
      set (s1 := Stats.set_entry_frequency flow k v s).
      destruct (set_entry_frequency_rest flow k v s) as (Hh1 & Hc1 & _). fold s1 in Hh1, Hc1.
      assert (Harr1 : forall f a, Stats.stats_report_frequency s1 !! f = Some a ->
                                  length a = MAX_CONTENT_FILTER).
      { apply set_entry_frequency_arrays, Harr. }
      assert (Hmin1 : forall f j, Stats.entry_frequency s1 f j = 0
                        \/ Stats.CFIL_STATS_REPORT_INTERVAL_MIN_MSEC <= Stats.entry_frequency s1 f j).
      { apply stats_min_set; [right; exact Hvmin|exact Hmin]. }
      assert (Hother : forall f, f <> flow ->
                (In f (Stats.cfil_sock_head_stats s) <-> Stats.wants_stats s1 f = true)).
      { intros f' Hne. unfold s1. rewrite wants_stats_set_ne by congruence. apply Hlist. }
      assert (Hset : Stats.entry_frequency s1 flow k = v).
      { unfold s1. apply (entry_frequency_set_eq s flow k v a Ha). lia. }
      assert (Hw : Stats.wants_stats s1 flow = true).
      { apply wants_stats_spec. exists k. split; [exact Hkin|]. rewrite Hset.
        unfold Stats.CFIL_STATS_REPORT_INTERVAL_MIN_MSEC in Hvmin. lia. }
      destruct (Stats.on_stats_list s1 flow) eqn:Hon.
      * apply on_stats_list_In in Hon.
        split; [|split; [rewrite Hset; exact Hv|apply Hlenset]].
        constructor.
        -- exact Harr1.
        -- rewrite Hh1. exact Hnd.
        -- rewrite Hc1, Hh1. exact Hcnt.
        -- intros f'. destruct (Nat.eq_dec f' flow) as [->|Hne].
           ++ rewrite Hw. split; [reflexivity|intros _; exact Hon].
           ++ rewrite Hh1. apply Hother, Hne.
        -- exact Hmin1.
      * assert (Hnin : ~ In flow (Stats.cfil_sock_head_stats s)).
        { intros Hin. rewrite <- Hh1 in Hin. apply on_stats_list_In in Hin. congruence. }
        split; [|split; [exact (eq_trans Hset Hv)|apply Hlenset]].
        constructor; cbn [Stats.stats_report_frequency Stats.cfil_sock_head_stats
                           Stats.cfil_sock_attached_stats_count].
        -- exact Harr1.
        -- rewrite Hh1. apply NoDup_app. split; [exact Hnd|]. split.
           ++ intros x Hx Hx'. apply list_elem_of_In in Hx. apply list_elem_of_In in Hx'.
              destruct Hx' as [<-|[]]. contradiction.
           ++ apply NoDup_singleton.
        -- rewrite Hc1, Hh1, Hcnt, u32_succ. f_equal. rewrite length_app. cbn [length]. lia.
        -- intros f'. rewrite Hh1, in_app_iff. cbn [In].
           destruct (Nat.eq_dec f' flow) as [->|Hne].
           ++ change (Stats.wants_stats _ flow) with (Stats.wants_stats s1 flow).
              rewrite Hw. split; [reflexivity|intros _; right; left; reflexivity].
           ++ change (Stats.wants_stats _ f') with (Stats.wants_stats s1 f').
              rewrite <- (Hother f' Hne). split; [intros [H|[H|[]]]; [exact H|congruence]|].
              intros H; left; exact H.
        -- exact Hmin1.
Qed.

(** X22. [cfil_info_stats_toggle] keeps the list of the flows with
    periodic statistics in order.  Through any sequence of requests of
    the agents, no flow is on [cfil_sock_head_stats] twice,
    [cfil_sock_attached_stats_count] is the length of the list (as a
    32-bit count), a flow is on the list exactly when one of its entries
    has a frequency set, and a frequency that is set is never below
    [CFIL_STATS_REPORT_INTERVAL_MIN_MSEC]. *)
Theorem stats_list_kept_in_order s reqs :
  Stats.stats_ok s ->
  Forall (fun req : nat * nat * Z =>
            (fst (fst req) < length (Stats.stats_report_frequency s))%nat
            /\ (1 <= snd (fst req) <= MAX_CONTENT_FILTER)%nat
            /\ 0 <= snd req) reqs ->
  Stats.stats_ok (fold_left Stats.toggle reqs s).
Proof.
  intros Hok Hreqs. revert s Hok Hreqs.
  induction reqs as [|[[flow k] f] reqs IH]; intros s Hok Hreqs; [exact Hok|].
  cbn [fold_left]. apply Forall_cons in Hreqs. destruct Hreqs as [(Hflow & Hk & Hf) Hreqs].
  cbn [fst snd] in Hflow, Hk, Hf.
  destruct (toggle_ok s flow k f Hok Hflow Hk Hf) as (Hok1 & _ & Hlen1).
  apply IH; [exact Hok1|]. rewrite Hlen1. exact Hreqs.
Qed.

(** X23. One request to [cfil_info_stats_toggle] sets the frequency of
    the entry to the frequency asked for, raised to
    [CFIL_STATS_REPORT_INTERVAL_MIN_MSEC] when it is below, and a request
    with frequency 0 sets it to 0.  After a request with a frequency the
    flow is on the list of the flows with statistics; after a request
    with frequency 0 it is on the list only if another entry of the flow
    still has a frequency. *)
Theorem stats_toggle_sets_frequency s flow k f :
  Stats.stats_ok s ->
  (flow < length (Stats.stats_report_frequency s))%nat ->
  (1 <= k <= MAX_CONTENT_FILTER)%nat ->
  0 <= f ->
  let s' := Stats.toggle s (flow, k, f) in
  Stats.entry_frequency s' flow k
  = (if f =? 0 then 0 else Z.max f Stats.CFIL_STATS_REPORT_INTERVAL_MIN_MSEC)
  /\ (forall j, j <> k -> Stats.entry_frequency s' flow j = Stats.entry_frequency s flow j)
  /\ (In flow (Stats.cfil_sock_head_stats s')
      <-> (f <> 0 \/ exists j, j <> k /\ In j kcunits /\ 0 < Stats.entry_frequency s flow j)).
Proof.
  intros Hok Hflow Hk Hf s'.
  destruct (toggle_ok s flow k f Hok Hflow Hk Hf) as (Hok1 & Hset & _). fold s' in Hok1, Hset.
  assert (Hrest : forall j, j <> k ->
            Stats.entry_frequency s' flow j = Stats.entry_frequency s flow j).
  { intros j Hj. unfold s', Stats.toggle, Stats.cfil_info_stats_toggle.
    assert (Hrm : forall s0, Stats.entry_frequency (Stats.stats_remove s0 flow) flow j
                             = Stats.entry_frequency s0 flow j).
    { intros s0. rewrite stats_remove_eq. destruct (Stats.on_stats_list s0 flow); reflexivity. }
    destruct (negb (f =? 0)).
    - destruct (negb (Stats.entry_frequency s flow k =? f)); [|reflexivity].
      destruct (Stats.on_stats_list _ flow);
        [|change (Stats.entry_frequency ?x flow j)
            with (Stats.entry_frequency
                    (Stats.set_entry_frequency flow k
                       (if f <? Stats.CFIL_STATS_REPORT_INTERVAL_MIN_MSEC
                        then Stats.CFIL_STATS_REPORT_INTERVAL_MIN_MSEC else f) s) flow j) at 1];
        apply entry_frequency_set_ne; right; congruence.
    - destruct (Stats.entry_frequency s flow k =? 0); [reflexivity|].
      destruct (existsb _ kcunits); [|rewrite Hrm];
        apply entry_frequency_set_ne; right; congruence. }
  split; [exact Hset|]. split; [exact Hrest|].
  destruct Hok1 as [_ _ _ Hlist1 _]. rewrite Hlist1, wants_stats_spec. split.
  - intros (j & Hin & Hj). destruct (Nat.eq_dec j k) as [->|Hne].
    + left. intros ->. rewrite Hset in Hj. cbn in Hj. lia.
    + destruct (Z.eq_dec f 0) as [->|Hf0]; [|left; exact Hf0].
      right. exists j. split; [exact Hne|]. split; [exact Hin|].
      rewrite <- (Hrest j Hne). exact Hj.
  - intros [Hf0|(j & Hne & Hin & Hj)].
    + exists k. split; [unfold kcunits; apply in_seq; lia|]. rewrite Hset.
      destruct (Z.eqb_spec f 0); [contradiction|].
      unfold Stats.CFIL_STATS_REPORT_INTERVAL_MIN_MSEC. lia.
    + exists j. split; [exact Hin|]. rewrite (Hrest j Hne). exact Hj.
Qed.

Lemma no_stats_frequency flows flow k : Stats.entry_frequency (Stats.no_stats flows) flow k = 0.
Proof.
  destruct k as [|j]; [reflexivity|]. unfold Stats.entry_frequency, Stats.no_stats.
  cbn [Stats.stats_report_frequency].
  destruct (replicate flows (replicate MAX_CONTENT_FILTER 0) !! flow) as [a|] eqn:Ha.
  - apply lookup_replicate in Ha. destruct Ha as [-> _]. cbn [from_option id].
    destruct (replicate MAX_CONTENT_FILTER 0 !! j) as [x|] eqn:Hx; [|reflexivity].
    apply lookup_replicate in Hx. destruct Hx as [-> _]. reflexivity.
  - reflexivity.
Qed.

Lemma no_stats_ok flows : Stats.stats_ok (Stats.no_stats flows).
Proof.
  constructor.
  - intros flow a Ha. cbn [Stats.stats_report_frequency Stats.no_stats] in Ha.
    apply lookup_replicate in Ha. destruct Ha as [-> _]. apply length_replicate.
  - constructor.
  - reflexivity.
  - intros flow. split; [intros []|]. intros H. apply wants_stats_spec in H.
    destruct H as (k & _ & Hk). rewrite no_stats_frequency in Hk. lia.
  - intros flow k. left. apply no_stats_frequency.
Qed.

Lemma stats_list_kept_in_order_witness :
  Stats.stats_ok
    (fold_left Stats.toggle [(0%nat, 1%nat, 100); (1%nat, 2%nat, 700); (0%nat, 1%nat, 0)]
       (Stats.no_stats 2)).
Proof.
  apply (stats_list_kept_in_order (Stats.no_stats 2)
           [(0%nat, 1%nat, 100); (1%nat, 2%nat, 700); (0%nat, 1%nat, 0)]).
  - apply no_stats_ok.
  - repeat constructor; cbn; lia.
Defined.

Lemma stats_toggle_sets_frequency_witness :
  Stats.entry_frequency (Stats.toggle (Stats.no_stats 2) (0%nat, 1%nat, 100)) 0 1 = 500
  /\ In 0%nat (Stats.cfil_sock_head_stats (Stats.toggle (Stats.no_stats 2) (0%nat, 1%nat, 100))).
Proof.
  destruct (stats_toggle_sets_frequency (Stats.no_stats 2) 0 1 100) as (H1 & _ & H2).
  - apply no_stats_ok.
  - cbn. lia.
  - unfold MAX_CONTENT_FILTER. lia.
  - lia.
  - split; [exact H1|]. apply H2. left. discriminate.
Defined.
